(** * Rivestack Terraform provider: the job-completion and reconciliation layer

    A shallow embedding of the Go client ([internal/client]) and of the
    resource lifecycles built on it ([internal/resources/...]), followed by
    the properties of the control layer: conflict retry, job polling,
    node scaling, fallback chains, idempotent deletes, firewall replacement,
    local-only deletes and composite identifiers.

    Conventions of the embedding.
    - Go [int], [int64] and [time.Duration] are [Z]; durations and instants
      are counted in nanoseconds, as [time.Duration] does.
    - A Go [(T, error)] result is [result T]; a bare [error] is
      [option error] with [None] for [nil].
    - [fmt.Errorf] and [fmt.Sprintf] keep their format string and their
      arguments: wrapping with [%w] is visible as an [AErr] argument.
      Paths, identifiers and node names are built as real strings.
    - Everything outside the repository that the code talks to is the
      [World] (the monotonic clock, the exchanges and log lines so far),
      the [Context] (when it is cancelled) and the [HTTPClient] of the
      [Client], an arbitrary function from the history and the request to
      an outcome and a latency.  Every request and its outcome is appended
      to the world's trace, so that "which calls were made, in which
      order, with which answers" is a statement about a list.
    - A [for] loop runs on fuel.  The loops of the client take their fuel
      from their timeout and their sleep interval; that this fuel always
      suffices is proved ([ConfigureWithRetry_total] and its like). *)

From Stdlib Require Import ZArith List String Ascii Bool Lia DecimalString
  DecimalPos DecimalZ.
Import ListNotations.

Local Open Scope string_scope.
Local Open Scope Z_scope.

(* ================================================================= *)
(** ** Go values *)

Module Go.

(** [fmt.Errorf] and the other error values the code builds or inspects. *)
Inductive error : Type :=
| APIError (StatusCode : Z) (Message : string)
    (* *client.APIError; ErrorFlag and Code are never read by the code *)
| NumError (Func Num Reason : string)
    (* *strconv.NumError *)
| ContextDone
    (* ctx.Err() once ctx.Done() is closed *)
| External (what : string)
    (* an error value produced by net/http, io or encoding/json *)
| Errorf (format : string) (args : list fmtarg)
with fmtarg : Type :=
| AInt (n : Z)
| AStr (s : string)
| AStrs (l : list string)
| ADuration (d : Z)
| AErr (e : error)
| AValue (s : string).
(* [AValue s] is the element of text [s] of a set, as the framework hands
   it to fmt, which prints it through its String method. *)

Inductive result (A : Type) : Type :=
| Ok (a : A)
| Err (e : error).
Arguments Ok {A} a.
Arguments Err {A} e.

(** time.Duration constants. *)
Definition Second : Z := 1000000000.
Definition Minute : Z := 60 * Second.

(** strconv.Itoa, and [%d] of fmt. *)
Definition Itoa (n : Z) : string := NilZero.string_of_int (Z.to_int n).

Definition digit_of (c : ascii) : option Z :=
  let n := Z.of_nat (nat_of_ascii c) in
  if (48 <=? n) && (n <=? 57) then Some (n - 48) else None.

Fixpoint digits_value (s : string) (acc : Z) : option Z :=
  match s with
  | EmptyString => Some acc
  | String c rest =>
      match digit_of c with
      | Some d => digits_value rest (10 * acc + d)
      | None => None
      end
  end.

Definition MaxInt : Z := 9223372036854775807.
Definition MinInt : Z := -9223372036854775808.

Definition MaxUint : Z := 18446744073709551615.

(** Whether ParseUint, reading the digits of [s] from the left with [n]
    read so far, runs out of its 64 bits before it meets a character that
    is no digit: it then reports the range, not the syntax. *)
Fixpoint overflows (s : string) (n : Z) : bool :=
  match s with
  | EmptyString => false
  | String c rest =>
      match digit_of c with
      | None => false
      | Some d =>
          if (MaxUint / 10 + 1 <=? n) || (MaxUint <? 10 * n + d) then true
          else overflows rest (10 * n + d)
      end
  end.

(** strconv.Atoi: an optional sign, then one or more decimal digits, the
    value inside the 64-bit range.  The characters are read from the
    left, so that a text whose digits overflow before a character that is
    no digit is out of range, and any other text with such a character is
    bad syntax. *)
Definition Atoi (s : string) : result Z :=
  let syntax := Err (NumError "Atoi" s "invalid syntax") in
  let range := Err (NumError "Atoi" s "value out of range") in
  let ranged (v : Z) :=
    if (MinInt <=? v) && (v <=? MaxInt) then Ok v else range in
  let unsigned (digits : string) (negative : bool) :=
    match digits_value digits 0 with
    | Some v => ranged (if negative then - v else v)
    | None => if overflows digits 0 then range else syntax
    end in
  match s with
  | EmptyString => syntax
  | String c rest =>
      if Ascii.eqb c "-"%char then
        match rest with
        | EmptyString => syntax
        | _ => unsigned rest true
        end
      else if Ascii.eqb c "+"%char then
        match rest with
        | EmptyString => syntax
        | _ => unsigned rest false
        end
      else unsigned s false
  end.

(** The text before the first [sep] and the text after it, when [sep]
    occurs in [s]. *)
Fixpoint cut (sep : ascii) (s : string) : option (string * string) :=
  match s with
  | EmptyString => None
  | String c rest =>
      if Ascii.eqb c sep then Some (EmptyString, rest)
      else match cut sep rest with
           | Some (a, b) => Some (String c a, b)
           | None => None
           end
  end.

(** strings.SplitN(s, sep, n) for a one-character separator and n >= 0:
    at most [n] pieces, the last one being the unsplit remainder. *)
Fixpoint SplitN (s : string) (sep : ascii) (n : nat) : list string :=
  match n with
  | O => []
  | S O => [s]
  | S n' =>
      match cut sep s with
      | Some (a, b) => a :: SplitN b sep n'
      | None => [s]
      end
  end.

(** strings.TrimRight(s, cutset) for a cutset of one ASCII character:
    [s] without its trailing run of that character. *)
Fixpoint TrimRight (s : string) (cutset : ascii) : string :=
  match s with
  | EmptyString => EmptyString
  | String ch rest =>
      match TrimRight rest cutset with
      | EmptyString =>
          if Ascii.eqb ch cutset then EmptyString else String ch EmptyString
      | kept => String ch kept
      end
  end.

(** strings.Split(s, sep) for a one-character separator: every piece
    between separators, so one more piece than there are separators; the
    empty string gives the one empty piece. *)
Fixpoint Split (s : string) (sep : ascii) : list string :=
  match s with
  | EmptyString => [EmptyString]
  | String ch rest =>
      if Ascii.eqb ch sep then EmptyString :: Split rest sep
      else match Split rest sep with
           | piece :: pieces => String ch piece :: pieces
           | [] => [String ch EmptyString]
           end
  end.

Definition byte (ch : ascii) : Z := Z.of_nat (nat_of_ascii ch).

(** unicode.IsSpace, on the UTF-8 encoding of a rune of one, two or three
    bytes: U+0009..U+000D and U+0020; U+0085 and U+00A0; U+1680,
    U+2000..U+200A, U+2028, U+2029, U+202F, U+205F and U+3000. *)
Definition space1 (b0 : Z) : bool :=
  ((9 <=? b0) && (b0 <=? 13)) || (b0 =? 32).

Definition space2 (b0 b1 : Z) : bool :=
  (b0 =? 194) && ((b1 =? 133) || (b1 =? 160)).

Definition space3 (b0 b1 b2 : Z) : bool :=
  ((b0 =? 225) && (b1 =? 154) && (b2 =? 128))
  || ((b0 =? 226) && (b1 =? 128)
      && (((128 <=? b2) && (b2 <=? 138))
          || (b2 =? 168) || (b2 =? 169) || (b2 =? 175)))
  || ((b0 =? 226) && (b1 =? 129) && (b2 =? 159))
  || ((b0 =? 227) && (b1 =? 128) && (b2 =? 128)).

(** The width in bytes of the white-space rune that [s] begins with, 0
    when it begins with none. *)
Definition leadingSpace (s : list ascii) : nat :=
  match s with
  | a0 :: a1 :: a2 :: _ =>
      if space1 (byte a0) then 1
      else if space2 (byte a0) (byte a1) then 2
      else if space3 (byte a0) (byte a1) (byte a2) then 3
      else 0
  | [a0; a1] =>
      if space1 (byte a0) then 1
      else if space2 (byte a0) (byte a1) then 2
      else 0
  | [a0] => if space1 (byte a0) then 1 else 0
  | [] => 0
  end%nat.

(** The same for the rune that the text ends with, on its bytes in
    reverse order, as utf8.DecodeLastRuneInString finds it. *)
Definition trailingSpace (r : list ascii) : nat :=
  match r with
  | a0 :: a1 :: a2 :: _ =>
      if space1 (byte a0) then 1
      else if space2 (byte a1) (byte a0) then 2
      else if space3 (byte a2) (byte a1) (byte a0) then 3
      else 0
  | [a0; a1] =>
      if space1 (byte a0) then 1
      else if space2 (byte a1) (byte a0) then 2
      else 0
  | [a0] => if space1 (byte a0) then 1 else 0
  | [] => 0
  end%nat.

(** Drop white-space runes from the front for as long as there is one;
    [fuel] bounds the number of runes dropped. *)
Fixpoint dropSpaces (width : list ascii -> nat) (fuel : nat)
    (s : list ascii) : list ascii :=
  match fuel with
  | O => s
  | S fuel' =>
      match width s with
      | O => s
      | n => dropSpaces width fuel' (skipn n s)
      end
  end.

(** strings.TrimSpace: [s] without its leading and its trailing run of
    white-space runes. *)
Definition TrimSpace (s : string) : string :=
  let bytes := list_ascii_of_string s in
  let front := dropSpaces leadingSpace (List.length bytes) bytes in
  let back := dropSpaces trailingSpace (List.length front) (rev front) in
  string_of_list_ascii (rev back).

End Go.
Export Go.

(* ================================================================= *)
(** ** [package client]: wire types *)

Module client_types.

(** time.Time values are kept as their RFC 3339 text; the code only ever
    formats them. *)
Definition Time : Type := string.
Definition FormatRFC3339 (t : Time) : string := t.

(** The zero time.Time, which a field absent from the body keeps. *)
Definition Time0 : Time := "0001-01-01T00:00:00Z".

Record ClusterUser := { cu_Username : string; cu_Password : string }.
Record ClusterDatabase := { cd_DBName : string; cd_Owner : string }.
Record ClusterExtension := { ce_Extension : string; ce_Database : string }.
Record ClusterGrant := {
  cg_ID : Z; cg_Username : string; cg_Database : string; cg_Access : string;
  cg_CreatedAt : Time }.

Record BackupConfig := {
  bc_ID : Z; bc_ClusterID : Z; bc_Enabled : bool; bc_Schedule : string;
  bc_RetentionFull : Z; bc_UpdatedAt : Time }.

Record Cluster := {
  ID : Z; TenantID : string; Name : string; Region : string;
  DBType : string; ServerType : string; NodeCount : Z;
  PostgreSQLVersion : Z; DBName : string; DBUser : string;
  DBPassword : string; Host : string; ConnectionString : string;
  Status : string; HealthStatus : string; SourceIPs : string;
  ErrorMessage : string; CreatedAt : Time; UpdatedAt : Time;
  Users : list ClusterUser; Databases : list ClusterDatabase;
  Extensions : list ClusterExtension; Grants : list ClusterGrant;
  Backup : option BackupConfig }.

Record ConfigUserRequest := { ur_Username : string }.
Record ConfigDatabaseRequest := { dr_Name : string; dr_Owner : string }.
Record ConfigExtensionRequest := { er_Extension : string; er_Database : string }.
Record ConfigGrantRequest := {
  gr_Username : string; gr_Database : string; gr_Access : string }.

Record ConfigureRequest := {
  rq_Users : list ConfigUserRequest;
  rq_DeleteUsers : list string;
  rq_Databases : list ConfigDatabaseRequest;
  rq_DeleteDatabases : list string;
  rq_Extensions : list ConfigExtensionRequest;
  rq_Grants : list ConfigGrantRequest;
  rq_SourceIPs : list string;
  rq_DeleteIPs : list string;
  rq_ReplaceIPs : bool }.

(** The zero value [ConfigureRequest{}]; call sites override fields. *)
Definition ConfigureRequest0 : ConfigureRequest :=
  {| rq_Users := []; rq_DeleteUsers := []; rq_Databases := [];
     rq_DeleteDatabases := []; rq_Extensions := []; rq_Grants := [];
     rq_SourceIPs := []; rq_DeleteIPs := []; rq_ReplaceIPs := false |}.

Record ConfigUserResponse := { up_Username : string; up_Password : string }.
Record ConfigDBResponse := { dp_Name : string; dp_Owner : string }.
Record ConfigExtResponse := { ep_Extension : string; ep_Database : string }.

Record ConfigureResponse := {
  rs_Message : string; JobID : Z; rs_StreamURL : string;
  rs_Users : list ConfigUserResponse;
  rs_DeletedUsers : list string;
  rs_Databases : list ConfigDBResponse;
  rs_DeletedDatabases : list string;
  rs_Extensions : list ConfigExtResponse;
  rs_Grants : list ConfigGrantRequest;
  rs_SourceIPs : list string;
  rs_DeletedIPs : list string }.

Record AddNodeResponse := {
  an_Message : string; an_JobID : Z; an_StreamURL : string;
  an_NewNodeCount : Z; an_NewNodeName : string }.

Record RemoveNodeRequest := {
  NodeName : string; DeleteServer : bool; RemovePostgresData : bool }.

Record RemoveNodeResponse := {
  rn_Message : string; rn_JobID : Z; rn_StreamURL : string;
  rn_NewNodeCount : Z; rn_RemovedNode : string }.

Record UpdateBackupConfigRequest := {
  ub_Enabled : option bool; ub_Schedule : string;
  ub_RetentionFull : option Z }.

(** Only the fields of [Job] that the code reads, and its status. *)
Record Job := {
  job_ID : Z; JobType : string; job_Status : string;
  job_ErrorMessage : string; Progress : Z }.

Record JobsResponse := { Jobs : list Job; Count : Z }.

(** Zero values, what [var x T] holds before [doRequest] fills it. *)
Definition Cluster0 : Cluster :=
  {| ID := 0; TenantID := ""; Name := ""; Region := ""; DBType := "";
     ServerType := ""; NodeCount := 0; PostgreSQLVersion := 0; DBName := "";
     DBUser := ""; DBPassword := ""; Host := ""; ConnectionString := "";
     Status := ""; HealthStatus := ""; SourceIPs := ""; ErrorMessage := "";
     CreatedAt := Time0; UpdatedAt := Time0; Users := []; Databases := [];
     Extensions := []; Grants := []; Backup := None |}.

Definition ConfigureResponse0 : ConfigureResponse :=
  {| rs_Message := ""; JobID := 0; rs_StreamURL := ""; rs_Users := [];
     rs_DeletedUsers := []; rs_Databases := []; rs_DeletedDatabases := [];
     rs_Extensions := []; rs_Grants := []; rs_SourceIPs := [];
     rs_DeletedIPs := [] |}.

Definition JobsResponse0 : JobsResponse := {| Jobs := []; Count := 0 |}.

Definition AddNodeResponse0 : AddNodeResponse :=
  {| an_Message := ""; an_JobID := 0; an_StreamURL := "";
     an_NewNodeCount := 0; an_NewNodeName := "" |}.

Definition RemoveNodeResponse0 : RemoveNodeResponse :=
  {| rn_Message := ""; rn_JobID := 0; rn_StreamURL := "";
     rn_NewNodeCount := 0; rn_RemovedNode := "" |}.

Definition BackupConfig0 : BackupConfig :=
  {| bc_ID := 0; bc_ClusterID := 0; bc_Enabled := false; bc_Schedule := "";
     bc_RetentionFull := 0; bc_UpdatedAt := Time0 |}.

(** A request body, before JSON encoding. *)
Inductive Body : Type :=
| BConfigure (r : ConfigureRequest)
| BRemoveNode (r : RemoveNodeRequest)
| BUpdateBackup (r : UpdateBackupConfigRequest).

(** A decoded response body.  Decoding a body into a struct of another
    shape leaves that struct at its zero value, as encoding/json does for
    an object none of whose keys match. *)
Inductive Payload : Type :=
| PEmpty
| PCluster (c : Cluster)
| PConfigure (r : ConfigureResponse)
| PJobs (r : JobsResponse)
| PAddNode (r : AddNodeResponse)
| PRemoveNode (r : RemoveNodeResponse)
| PBackup (r : BackupConfig).

Definition asCluster (p : Payload) : Cluster :=
  match p with PCluster c => c | _ => Cluster0 end.
Definition asConfigure (p : Payload) : ConfigureResponse :=
  match p with PConfigure r => r | _ => ConfigureResponse0 end.
Definition asJobs (p : Payload) : JobsResponse :=
  match p with PJobs r => r | _ => JobsResponse0 end.
Definition asAddNode (p : Payload) : AddNodeResponse :=
  match p with PAddNode r => r | _ => AddNodeResponse0 end.
Definition asRemoveNode (p : Payload) : RemoveNodeResponse :=
  match p with PRemoveNode r => r | _ => RemoveNodeResponse0 end.
Definition asBackup (p : Payload) : BackupConfig :=
  match p with PBackup r => r | _ => BackupConfig0 end.

End client_types.
Export client_types.

(* ================================================================= *)
(** ** The world outside the provider *)

Module env.

Record Request := {
  Method : string;
  URL : string;
  ReqBody : option Body }.

(** Where [doRequest] can fail before it has an HTTP status in hand. *)
Inductive Stage : Type := Marshaling | Creating | Executing | Reading.

Inductive Outcome : Type :=
| Failed (stage : Stage) (cause : error)
| Responded (StatusCode : Z) (Message : string) (body : Payload)
    (* [Message]: the message field of an error body, or the raw body when
       the error body is not JSON; [body]: the decoded success body *)
| Undecodable (StatusCode : Z) (Message : string) (cause : error).
    (* a non-empty body that is not JSON for the requested result *)

Record Exchange := { sent : Request; got : Outcome }.

Inductive Level : Type := Info | Warn.

Record LogEntry := {
  level : Level;
  message : string;
  fields : list (string * fmtarg) }.

(** The observable state: the monotonic clock, every HTTP exchange so far
    (oldest first) and every tflog line so far (oldest first). *)
Record World := {
  now : Z;
  trace : list Exchange;
  logs : list LogEntry }.

(** context.Context: the instant at which [ctx.Done()] is closed, if any. *)
Record Context := { done_at : option Z }.

(** What the HTTP round trip answers, and how long it takes. *)
Record Reply := { outcome : Outcome; elapsed : N }.

(** client.Client.  [HTTPClient] stands for [c.HTTPClient.Do] followed by
    reading and decoding the body: an arbitrary function of the context,
    of everything that happened so far and of the request. *)
Record Client := {
  BaseURL : string;
  APIKey : string;
  UserAgent : string;
  HTTPClient : Context -> World -> Request -> Reply }.

(** Computations over the world.  [None] only ever means that a loop of
    the model ran out of fuel; no Go result is encoded by it. *)
Definition M (A : Type) : Type := World -> option (A * World).

Definition ret {A} (a : A) : M A := fun w => Some (a, w).

Definition bind {A B} (m : M A) (k : A -> M B) : M B :=
  fun w => match m w with
           | Some (a, w') => k a w'
           | None => None
           end.

(** time.Now() *)
Definition Now : M Z := fun w => Some (now w, w).

(** tflog.Info / tflog.Warn *)
Definition tflog (l : Level) (msg : string) (fs : list (string * fmtarg))
  : M unit :=
  fun w => Some (tt, {| now := now w; trace := trace w;
                        logs := (logs w ++ [ {| level := l; message := msg;
                                               fields := fs |} ])%list |}).

(** One HTTP round trip: ask the oracle, let its time pass, log the
    exchange. *)
Definition roundTrip (c : Client) (ctx : Context) (rq : Request)
  : M Outcome :=
  fun w =>
    let rp := HTTPClient c ctx w rq in
    Some (outcome rp,
          {| now := now w + Z.of_N (elapsed rp);
             trace := (trace w ++ [ {| sent := rq; got := outcome rp |} ])%list;
             logs := logs w |}).

(** [select { case <-ctx.Done(): return ctx.Err(); case <-time.After(d): }]
    The result is [Some err] when the context fires no later than the
    timer, and the clock stops at whichever fires.  When both fire at the
    same instant Go's select may take either case; here the context is
    taken. *)
Definition selectDoneOrAfter (ctx : Context) (d : Z) : M (option error) :=
  fun w =>
    let fire := now w + d in
    match done_at ctx with
    | Some t =>
        if t <=? fire
        then Some (Some ContextDone,
                   {| now := Z.max (now w) t; trace := trace w;
                      logs := logs w |})
        else Some (None, {| now := fire; trace := trace w; logs := logs w |})
    | None => Some (None, {| now := fire; trace := trace w; logs := logs w |})
    end.

(** What one pass through a loop body decides. *)
Inductive Step (A : Type) : Type :=
| Return (a : A)
| Continue.
Arguments Return {A} a.
Arguments Continue {A}.

(** A Go [for] loop: run [body] until it returns, at most [fuel] times. *)
Fixpoint for_ {A} (fuel : nat) (body : M (Step A)) : M A :=
  match fuel with
  | O => fun _ => None
  | S fuel' =>
      fun w => match body w with
               | Some (Return a, w') => Some (a, w')
               | Some (Continue, w') => for_ fuel' body w'
               | None => None
               end
  end.

(** Passes a loop that sleeps [interval] per pass can make inside a
    budget of [budget], with room for the first and the closing pass. *)
Definition passes (budget interval : Z) : nat :=
  Z.to_nat (budget / interval) + 2.

End env.
Export env.

Declare Scope go_scope.
Delimit Scope go_scope with go.
Notation "x <- m ;; k" := (bind m (fun x => k))
  (at level 100, m at next level, right associativity) : go_scope.
Notation "m ;;; k" := (bind m (fun _ => k))
  (at level 100, right associativity) : go_scope.
Local Open Scope go_scope.

(* ================================================================= *)
(** ** [package client]: requests, retry and polling *)

Module client.

(** net/http.StatusText for the statuses [doRequest] turns into errors. *)
Definition StatusText (code : Z) : string :=
  match code with
  | 400 => "Bad Request" | 401 => "Unauthorized" | 402 => "Payment Required"
  | 403 => "Forbidden" | 404 => "Not Found" | 405 => "Method Not Allowed"
  | 406 => "Not Acceptable" | 407 => "Proxy Authentication Required"
  | 408 => "Request Timeout" | 409 => "Conflict" | 410 => "Gone"
  | 411 => "Length Required" | 412 => "Precondition Failed"
  | 413 => "Request Entity Too Large" | 414 => "Request URI Too Long"
  | 415 => "Unsupported Media Type"
  | 416 => "Requested Range Not Satisfiable" | 417 => "Expectation Failed"
  | 418 => "I'm a teapot" | 421 => "Misdirected Request"
  | 422 => "Unprocessable Entity" | 423 => "Locked"
  | 424 => "Failed Dependency" | 425 => "Too Early"
  | 426 => "Upgrade Required" | 428 => "Precondition Required"
  | 429 => "Too Many Requests"
  | 431 => "Request Header Fields Too Large"
  | 451 => "Unavailable For Legal Reasons"
  | 500 => "Internal Server Error" | 501 => "Not Implemented"
  | 502 => "Bad Gateway" | 503 => "Service Unavailable"
  | 504 => "Gateway Timeout" | 505 => "HTTP Version Not Supported"
  | 506 => "Variant Also Negotiates" | 507 => "Insufficient Storage"
  | 508 => "Loop Detected" | 510 => "Not Extended"
  | 511 => "Network Authentication Required"
  | _ => ""
  end.

(** IsNotFound, IsConflict, IsGone: a type assertion on [*APIError], so an
    error wrapped by [fmt.Errorf] is none of them. *)
Definition IsNotFound (err : error) : bool :=
  match err with APIError code _ => code =? 404 | _ => false end.

Definition IsConflict (err : error) : bool :=
  match err with APIError code _ => code =? 409 | _ => false end.

Definition IsGone (err : error) : bool :=
  match err with APIError code _ => code =? 410 | _ => false end.

Definition stage_format (s : Stage) : string :=
  match s with
  | Marshaling => "marshaling request body: %w"
  | Creating => "creating request: %w"
  | Executing => "executing request: %w"
  | Reading => "reading response body: %w"
  end.

Definition apiError (code : Z) (msg : string) : error :=
  APIError code (if String.eqb msg "" then StatusText code else msg).

(** The second half of doRequest: from the status and the body to the
    error or the decoded result.  [wantResult] is [result != nil]. *)
Definition received (wantResult : bool) (o : Outcome) : result Payload :=
  match o with
  | Failed stage cause => Err (Errorf (stage_format stage) [AErr cause])
  | Responded code msg p =>
      if 400 <=? code then Err (apiError code msg)
      else Ok (if wantResult then p else PEmpty)
  | Undecodable code msg cause =>
      if 400 <=? code then Err (apiError code msg)
      else if wantResult
           then Err (Errorf "unmarshaling response: %w" [AErr cause])
           else Ok PEmpty
  end.

(** doRequest.  The decoded body is handed back for the caller to store
    in its result variable. *)
Definition doRequest (c : Client) (ctx : Context) (method path : string)
    (body : option Body) (wantResult : bool) : M (result Payload) :=
  let url := BaseURL c ++ path in
  o <- roundTrip c ctx {| Method := method; URL := url; ReqBody := body |} ;;
  ret (received wantResult o).

Definition configurePath (clusterID : Z) : string :=
  "/api/ha/" ++ Itoa clusterID ++ "/configure".
Definition jobsPath (clusterID : Z) : string :=
  "/api/ha/" ++ Itoa clusterID ++ "/jobs?active=true".
Definition clusterPath (id : Z) : string := "/api/ha/" ++ Itoa id.
Definition addNodePath (clusterID : Z) : string :=
  "/api/ha/" ++ Itoa clusterID ++ "/add-node".
Definition removeNodePath (clusterID : Z) : string :=
  "/api/ha/" ++ Itoa clusterID ++ "/remove-node".
Definition backupPath (clusterID : Z) : string :=
  "/api/ha/" ++ Itoa clusterID ++ "/backup-config".

Definition ConfigureCluster (c : Client) (ctx : Context) (clusterID : Z)
    (req : ConfigureRequest) : M (result ConfigureResponse) :=
  r <- doRequest c ctx "POST" (configurePath clusterID)
         (Some (BConfigure req)) true ;;
  ret match r with
      | Err err => Err err
      | Ok p => Ok (asConfigure p)
      end.

Definition GetCluster (c : Client) (ctx : Context) (id : Z)
  : M (result Cluster) :=
  r <- doRequest c ctx "GET" (clusterPath id) None true ;;
  ret match r with
      | Err err => Err err
      | Ok p => Ok (asCluster p)
      end.

Definition DeleteCluster (c : Client) (ctx : Context) (id : Z)
  : M (option error) :=
  r <- doRequest c ctx "DELETE" (clusterPath id) None false ;;
  ret match r with
      | Err err => Some err
      | Ok _ => None
      end.

Definition AddNode (c : Client) (ctx : Context) (clusterID : Z)
  : M (result AddNodeResponse) :=
  r <- doRequest c ctx "POST" (addNodePath clusterID) None true ;;
  ret match r with
      | Err err => Err err
      | Ok p => Ok (asAddNode p)
      end.

Definition RemoveNode (c : Client) (ctx : Context) (clusterID : Z)
    (nodeName : string) : M (result RemoveNodeResponse) :=
  let req := {| NodeName := nodeName; DeleteServer := true;
                RemovePostgresData := true |} in
  r <- doRequest c ctx "POST" (removeNodePath clusterID)
         (Some (BRemoveNode req)) true ;;
  ret match r with
      | Err err => Err err
      | Ok p => Ok (asRemoveNode p)
      end.

Definition UpdateBackupConfig (c : Client) (ctx : Context) (clusterID : Z)
    (req : UpdateBackupConfigRequest) : M (result BackupConfig) :=
  r <- doRequest c ctx "PUT" (backupPath clusterID)
         (Some (BUpdateBackup req)) true ;;
  ret match r with
      | Err err => Err err
      | Ok p => Ok (asBackup p)
      end.

(** ConfigureWithRetry: one pass of its [for] loop. *)
Definition ConfigureWithRetry_pass (c : Client) (ctx : Context)
    (clusterID : Z) (req : ConfigureRequest) (deadline retryInterval : Z)
  : M (Step (result ConfigureResponse)) :=
  r <- ConfigureCluster c ctx clusterID req ;;
  match r with
  | Ok resp => ret (Return (Ok resp))
  | Err err =>
      if negb (IsConflict err) then ret (Return (Err err))
      else
        t <- Now ;;
        if deadline <? t (* time.Now().After(deadline) *)
        then ret (Return (Err (Errorf
               "timeout waiting for cluster to be available for configuration: %w"
               [AErr err])))
        else
          d <- selectDoneOrAfter ctx retryInterval ;;
          match d with
          | Some ctxErr => ret (Return (Err ctxErr))
          | None => ret Continue
          end
  end.

Definition ConfigureWithRetry (c : Client) (ctx : Context) (clusterID : Z)
    (req : ConfigureRequest) (maxWait : Z) : M (result ConfigureResponse) :=
  t0 <- Now ;;
  let deadline := t0 + maxWait in
  let retryInterval := 10 * Second in
  for_ (passes maxWait retryInterval)
       (ConfigureWithRetry_pass c ctx clusterID req deadline retryInterval).

Definition isFailed (job : Job) : bool := String.eqb (job_Status job) "failed".

Definition jobFailed (job : Job) : error :=
  Errorf "cluster job %d (%s) failed: %s"
         [AInt (job_ID job); AStr (JobType job); AStr (job_ErrorMessage job)].

(** WaitForJobComplete: one evaluation of the loop condition and body. *)
Definition WaitForJobComplete_pass (c : Client) (ctx : Context)
    (clusterID : Z) (deadline pollInterval timeout : Z)
  : M (Step (option error)) :=
  t <- Now ;;
  if t <? deadline (* time.Now().Before(deadline) *)
  then
    r <- doRequest c ctx "GET" (jobsPath clusterID) None true ;;
    match r with
    | Err err => ret (Return (Some (Errorf "polling job status: %w" [AErr err])))
    | Ok p =>
        let resp := asJobs p in
        match Jobs resp with
        | [] => ret (Return None)
        | _ =>
            match find isFailed (Jobs resp) with
            | Some job => ret (Return (Some (jobFailed job)))
            | None =>
                d <- selectDoneOrAfter ctx pollInterval ;;
                match d with
                | Some ctxErr => ret (Return (Some ctxErr))
                | None => ret Continue
                end
            end
        end
    end
  else ret (Return (Some (Errorf
         "timeout waiting for cluster jobs to complete after %s"
         [ADuration timeout]))).

Definition WaitForJobComplete (c : Client) (ctx : Context) (clusterID : Z)
    (timeout : Z) : M (option error) :=
  t0 <- Now ;;
  let deadline := t0 + timeout in
  let pollInterval := 10 * Second in
  for_ (passes timeout pollInterval)
       (WaitForJobComplete_pass c ctx clusterID deadline pollInterval timeout).

(** WaitForClusterActive: one evaluation of the loop condition and body. *)
Definition WaitForClusterActive_pass (c : Client) (ctx : Context) (id : Z)
    (deadline pollInterval timeout : Z) : M (Step (result Cluster)) :=
  t <- Now ;;
  if t <? deadline
  then
    r <- GetCluster c ctx id ;;
    match r with
    | Err err =>
        ret (Return (Err (Errorf "polling cluster status: %w" [AErr err])))
    | Ok cluster =>
        if String.eqb (Status cluster) "active"
        then ret (Return (Ok cluster))
        else if String.eqb (Status cluster) "failed"
        then ret (Return (Err (Errorf "cluster provisioning failed: %s"
                                      [AStr (ErrorMessage cluster)])))
        else if String.eqb (Status cluster) "provisioning"
        then
          d <- selectDoneOrAfter ctx pollInterval ;;
          match d with
          | Some ctxErr => ret (Return (Err ctxErr))
          | None => ret Continue
          end
        else ret (Return (Err (Errorf "unexpected cluster status: %s"
                                      [AStr (Status cluster)])))
    end
  else ret (Return (Err (Errorf
         "timeout waiting for cluster to become active after %s"
         [ADuration timeout]))).

Definition WaitForClusterActive (c : Client) (ctx : Context) (id : Z)
    (timeout : Z) : M (result Cluster) :=
  t0 <- Now ;;
  let deadline := t0 + timeout in
  let pollInterval := 15 * Second in
  for_ (passes timeout pollInterval)
       (WaitForClusterActive_pass c ctx id deadline pollInterval timeout).

(** WaitForClusterDeleted: one evaluation of the loop condition and body. *)
Definition WaitForClusterDeleted_pass (c : Client) (ctx : Context) (id : Z)
    (deadline pollInterval timeout : Z) : M (Step (option error)) :=
  t <- Now ;;
  if t <? deadline
  then
    r <- GetCluster c ctx id ;;
    match r with
    | Err err =>
        if IsNotFound err || IsGone err then ret (Return None)
        else ret (Return (Some (Errorf "polling cluster deletion status: %w"
                                       [AErr err])))
    | Ok cluster =>
        if String.eqb (Status cluster) "deleted"
        then ret (Return None)
        else
          d <- selectDoneOrAfter ctx pollInterval ;;
          match d with
          | Some ctxErr => ret (Return (Some ctxErr))
          | None => ret Continue
          end
    end
  else ret (Return (Some (Errorf
         "timeout waiting for cluster to be deleted after %s"
         [ADuration timeout]))).

Definition WaitForClusterDeleted (c : Client) (ctx : Context) (id : Z)
    (timeout : Z) : M (option error) :=
  t0 <- Now ;;
  let deadline := t0 + timeout in
  let pollInterval := 10 * Second in
  for_ (passes timeout pollInterval)
       (WaitForClusterDeleted_pass c ctx id deadline pollInterval timeout).

(** NewClient.  [transport] stands for the [http.Client] it allocates,
    with its timeout of 120 s, and for the network behind it. *)
Definition NewClient (baseURL apiKey version : string)
    (transport : Context -> World -> Request -> Reply) : Client :=
  {| BaseURL := TrimRight baseURL "/";
     APIKey := apiKey;
     HTTPClient := transport;
     UserAgent := "terraform-provider-rivestack/" ++ version |}.

Definition GetBackupConfig (c : Client) (ctx : Context) (clusterID : Z)
  : M (result BackupConfig) :=
  r <- doRequest c ctx "GET" (backupPath clusterID) None true ;;
  ret match r with
      | Err err => Err err
      | Ok p => Ok (asBackup p)
      end.

End client.
Export client.

(* ================================================================= *)
(** ** The plugin framework, as far as the resources use it *)

Module tf.

(** types.String, types.Int64, types.Bool: null, unknown or a value. *)
Inductive tfString : Type :=
| StringNull | StringUnknown | StringValue (s : string).
Inductive tfInt64 : Type :=
| Int64Null | Int64Unknown | Int64Value (n : Z).
Inductive tfBool : Type :=
| BoolNull | BoolUnknown | BoolValue (b : bool).
(** types.Set and types.List with string elements. *)
Inductive tfStrings : Type :=
| StringsNull | StringsUnknown | StringsValue (elems : list tfString).

Definition IsNull (v : tfString) : bool :=
  match v with StringNull => true | _ => false end.
Definition IsUnknown (v : tfString) : bool :=
  match v with StringUnknown => true | _ => false end.
Definition ValueString (v : tfString) : string :=
  match v with StringValue s => s | _ => "" end.
Definition ValueInt64 (v : tfInt64) : Z :=
  match v with Int64Value n => n | _ => 0 end.

(** fmt.Sprintf, kept as its format and arguments, or a literal. *)
Inductive text : Type :=
| Text (s : string)
| Sprintf (format : string) (args : list fmtarg).

Inductive Severity : Type := SevError | SevWarning.

Record Diagnostic := {
  severity : Severity;
  summary : string;
  detail : text }.

Definition Diagnostics : Type := list Diagnostic.

Definition AddError (ds : Diagnostics) (sum : string) (det : text)
  : Diagnostics :=
  (ds ++ [ {| severity := SevError; summary := sum; detail := det |} ])%list.

Definition isError (d : Diagnostic) : bool :=
  match severity d with SevError => true | SevWarning => false end.

Definition HasError (ds : Diagnostics) : bool := existsb isError ds.

(** [req.Plan.Get(ctx, &plan)] and [req.State.Get(ctx, &state)]: the
    decoded model and the diagnostics of decoding it. *)
Record Decoded (S : Type) := { value : S; decoding : Diagnostics }.
Arguments value {S} _.
Arguments decoding {S} _.

(** What an operation did to [resp.State]: nothing, [State.Set] or
    [State.RemoveResource].  [State.Set] of a model that fits its schema
    reports no diagnostics. *)
Inductive StateChange (S : Type) : Type :=
| Untouched
| SetState (s : S)
| RemoveResource.
Arguments Untouched {S}.
Arguments SetState {S} s.
Arguments RemoveResource {S}.

Record Response (S : Type) := {
  diagnostics : Diagnostics;
  state : StateChange S }.
Arguments diagnostics {S} _.
Arguments state {S} _.

Definition respond {S} (ds : Diagnostics) (st : StateChange S) : Response S :=
  {| diagnostics := ds; state := st |}.

(** [set.ElementsAs(ctx, &[]string, false)]: a null set gives a nil slice;
    an unknown set, or a null or unknown element, is a conversion error,
    whose detail, a text of the framework, is not kept. *)
Fixpoint elementStrings (l : list tfString) : option (list string) :=
  match l with
  | [] => Some []
  | StringValue s :: rest =>
      match elementStrings rest with
      | Some ss => Some (s :: ss)
      | None => None
      end
  | _ :: _ => None
  end.

Definition ElementsAs (v : tfStrings) : Diagnostics * list string :=
  let failed := ([ {| severity := SevError;
                      summary := "Value Conversion Error";
                      detail := Text "" |} ], []) in
  match v with
  | StringsNull => ([], [])
  | StringsUnknown => failed
  | StringsValue elems =>
      match elementStrings elems with
      | Some ss => ([], ss)
      | None => failed
      end
  end.

Definition ValueBool (v : tfBool) : bool :=
  match v with BoolValue b => b | _ => false end.

Definition IsNullInt64 (v : tfInt64) : bool :=
  match v with Int64Null => true | _ => false end.
Definition IsUnknownInt64 (v : tfInt64) : bool :=
  match v with Int64Unknown => true | _ => false end.

(** The validation of a set of strings by the framework.  Two nested
    loops compare every element with each later one and report the later
    one of an equal pair ... *)
Fixpoint equalPairs (elems : list string) : list string :=
  match elems with
  | [] => []
  | x :: rest => (filter (String.eqb x) rest ++ equalPairs rest)%list
  end.

(** ... and since adding a diagnostic that is already there adds
    nothing, each repeated value is reported once. *)
Fixpoint firsts (seen l : list string) : list string :=
  match l with
  | [] => []
  | x :: rest =>
      if existsb (String.eqb x) seen then firsts seen rest
      else x :: firsts (x :: seen) rest
  end.

Definition duplicates (elems : list string) : Diagnostics :=
  map (fun y =>
         {| severity := SevError; summary := "Duplicate Set Element";
            detail := Sprintf
                        "This attribute contains duplicate values of: %s"
                        [AValue y] |})
      (firsts [] (equalPairs elems)).

(** [types.SetValueFrom(ctx, types.StringType, elems)] for a [[]string]:
    a nil slice gives the null set, any other slice the set of its
    elements, and strings always convert; but the set that was built is
    validated, and with a repeated element the result is the unknown set
    and the diagnostics of the validation.  [[]] stands for the nil slice,
    the only empty slice the code ever passes. *)
Definition SetValueFrom (elems : list string) : tfStrings * Diagnostics :=
  match elems with
  | [] => (StringsNull, [])
  | _ =>
      if HasError (duplicates elems) then (StringsUnknown, duplicates elems)
      else (StringsValue (map StringValue elems), [])
  end.

End tf.
Export tf.

(* ================================================================= *)
(** ** [package cluster_user] *)

Module cluster_user.

Record Model := {
  ID : tfString;
  ClusterID : tfString;
  Username : tfString;
  Password : tfString }.

Definition parseUserID (id : string) : result (Z * string) :=
  match SplitN id "/" 2 with
  | [p0; p1] =>
      match Atoi p0 with
      | Err err => Err (Errorf "invalid cluster ID: %w" [AErr err])
      | Ok clusterID => Ok (clusterID, p1)
      end
  | _ => Err (Errorf "expected format: cluster_id/username" [])
  end.

Definition hasUsername (username : string) (u : ConfigUserResponse) : bool :=
  String.eqb (up_Username u) username.

Definition Create (c : Client) (ctx : Context) (plan : Decoded Model)
  : M (Response Model) :=
  let ds := decoding plan in
  let plan := value plan in
  if HasError ds then ret (respond ds Untouched) else
  match Atoi (ValueString (ClusterID plan)) with
  | Err err =>
      ret (respond (AddError ds "Invalid cluster ID"
             (Sprintf "Could not parse cluster ID %q: %s"
                [AStr (ValueString (ClusterID plan)); AErr err])) Untouched)
  | Ok clusterID =>
      let username := ValueString (Username plan) in
      tflog Info "Creating cluster user"
        [("cluster_id", AInt clusterID); ("username", AStr username)] ;;;
      r <- ConfigureWithRetry c ctx clusterID
             {| rq_Users := [ {| ur_Username := username |} ];
                rq_DeleteUsers := []; rq_Databases := [];
                rq_DeleteDatabases := []; rq_Extensions := [];
                rq_Grants := []; rq_SourceIPs := []; rq_DeleteIPs := [];
                rq_ReplaceIPs := false |} (2 * Minute) ;;
      match r with
      | Err err =>
          ret (respond (AddError ds "Error creating cluster user"
                 (Sprintf "Could not create user %q on cluster %d: %s"
                    [AStr username; AInt clusterID; AErr err])) Untouched)
      | Ok configResp =>
          (* Wait for the configure job to complete. *)
          waited <- (if 0 <? JobID configResp
                     then WaitForJobComplete c ctx clusterID (5 * Minute)
                     else ret None) ;;
          match waited with
          | Some err =>
              ret (respond (AddError ds "Error waiting for user creation"
                     (Sprintf "Configure job failed for cluster %d: %s"
                        [AInt clusterID; AErr err])) Untouched)
          | None =>
              let id := StringValue (Itoa clusterID ++ "/" ++ username) in
              (* Extract password from response. *)
              let password :=
                match find (hasUsername username) (rs_Users configResp) with
                | Some u => StringValue (up_Password u)
                | None => Password plan
                end in
              ret (respond ds
                     (SetState {| ID := id; ClusterID := ClusterID plan;
                                  Username := Username plan;
                                  Password := password |}))
          end
      end
  end.

Definition isUser (username : string) (u : ClusterUser) : bool :=
  String.eqb (cu_Username u) username.

Definition Read (c : Client) (ctx : Context) (st : Decoded Model)
  : M (Response Model) :=
  let ds := decoding st in
  let st := value st in
  if HasError ds then ret (respond ds Untouched) else
  match parseUserID (ValueString (ID st)) with
  | Err err =>
      ret (respond (AddError ds "Invalid resource ID"
             (Sprintf "Could not parse resource ID %q: %s"
                [AStr (ValueString (ID st)); AErr err])) Untouched)
  | Ok (clusterID, username) =>
      r <- GetCluster c ctx clusterID ;;
      match r with
      | Err err =>
          if IsNotFound err || IsGone err
          then ret (respond ds RemoveResource)
          else ret (respond (AddError ds "Error reading cluster"
                      (Sprintf "Could not read cluster %d: %s"
                         [AInt clusterID; AErr err])) Untouched)
      | Ok cluster =>
          let found := existsb (isUser username) (Users cluster) in
          if negb found
          then
            tflog Warn "Cluster user not found, removing from state"
              [("cluster_id", AInt clusterID); ("username", AStr username)] ;;;
            ret (respond ds RemoveResource)
          else
            (* Username and cluster_id don't change; password is only
               returned at creation. *)
            ret (respond ds (SetState st))
      end
  end.

Definition Update : M (Response Model) :=
  (* All attributes are ForceNew, so Update is never called. *)
  ret (respond (AddError [] "Update not supported"
         (Text "Cluster user attributes cannot be updated in-place."))
         Untouched).

Definition Delete (c : Client) (ctx : Context) (st : Decoded Model)
  : M (Response Model) :=
  let ds := decoding st in
  let st := value st in
  if HasError ds then ret (respond ds Untouched) else
  match parseUserID (ValueString (ID st)) with
  | Err err =>
      ret (respond (AddError ds "Invalid resource ID"
             (Sprintf "Could not parse resource ID %q: %s"
                [AStr (ValueString (ID st)); AErr err])) Untouched)
  | Ok (clusterID, username) =>
      tflog Info "Deleting cluster user"
        [("cluster_id", AInt clusterID); ("username", AStr username)] ;;;
      r <- ConfigureWithRetry c ctx clusterID
             {| rq_Users := []; rq_DeleteUsers := [username];
                rq_Databases := []; rq_DeleteDatabases := [];
                rq_Extensions := []; rq_Grants := []; rq_SourceIPs := [];
                rq_DeleteIPs := []; rq_ReplaceIPs := false |} (2 * Minute) ;;
      match r with
      | Err err =>
          if IsNotFound err || IsGone err
          then ret (respond ds Untouched)
          else ret (respond (AddError ds "Error deleting cluster user"
                      (Sprintf "Could not delete user %q from cluster %d: %s"
                         [AStr username; AInt clusterID; AErr err]))
                      Untouched)
      | Ok configResp =>
          waited <- (if 0 <? JobID configResp
                     then WaitForJobComplete c ctx clusterID (5 * Minute)
                     else ret None) ;;
          match waited with
          | Some err =>
              ret (respond (AddError ds "Error waiting for user deletion"
                     (Sprintf "Configure job failed for cluster %d: %s"
                        [AInt clusterID; AErr err])) Untouched)
          | None => ret (respond ds Untouched)
          end
      end
  end.

(** ImportState: the attributes it sets, as the imported state. *)
Definition ImportState (id : string) : Response Model :=
  (* Import ID format: cluster_id/username *)
  match SplitN id "/" 2 with
  | [p0; p1] =>
      respond [] (SetState {| ID := StringValue id;
                              ClusterID := StringValue p0;
                              Username := StringValue p1;
                              (* Password cannot be imported. *)
                              Password := StringValue "" |})
  | _ =>
      respond (AddError [] "Invalid import ID"
                 (Text "Import ID must be in the format: cluster_id/username"))
              Untouched
  end.

(** pgIdentifierRegex, as [MatchString] of
    [^[a-zA-Z_][a-zA-Z0-9_]*$]: without the [m] flag [$] is the end of
    the text.  The classes hold ASCII only, so a byte of a longer UTF-8
    sequence matches neither. *)
Definition identifierStart (ch : ascii) : bool :=
  let n := Z.of_nat (nat_of_ascii ch) in
  ((97 <=? n) && (n <=? 122)) || ((65 <=? n) && (n <=? 90)) || (n =? 95).

Definition identifierPart (ch : ascii) : bool :=
  let n := Z.of_nat (nat_of_ascii ch) in
  ((97 <=? n) && (n <=? 122)) || ((65 <=? n) && (n <=? 90)) ||
  ((48 <=? n) && (n <=? 57)) || (n =? 95).

Definition pgIdentifierRegex (s : string) : bool :=
  match s with
  | EmptyString => false
  | String ch rest =>
      identifierStart ch && forallb identifierPart (list_ascii_of_string rest)
  end.

End cluster_user.

(* ================================================================= *)
(** ** [package cluster_database] *)

Module cluster_database.

Record Model := {
  ID : tfString;
  ClusterID : tfString;
  Name : tfString;
  Owner : tfString }.

Definition parseDatabaseID (id : string) : result (Z * string) :=
  match SplitN id "/" 2 with
  | [p0; p1] =>
      match Atoi p0 with
      | Err err => Err (Errorf "invalid cluster ID: %w" [AErr err])
      | Ok clusterID => Ok (clusterID, p1)
      end
  | _ => Err (Errorf "expected format: cluster_id/database_name" [])
  end.

Definition hasName (dbName : string) (db : ConfigDBResponse) : bool :=
  String.eqb (dp_Name db) dbName.

Definition isDatabase (dbName : string) (db : ClusterDatabase) : bool :=
  String.eqb (cd_DBName db) dbName.

Definition Create (c : Client) (ctx : Context) (plan : Decoded Model)
  : M (Response Model) :=
  let ds := decoding plan in
  let plan := value plan in
  if HasError ds then ret (respond ds Untouched) else
  match Atoi (ValueString (ClusterID plan)) with
  | Err err =>
      ret (respond (AddError ds "Invalid cluster ID"
             (Sprintf "Could not parse cluster ID %q: %s"
                [AStr (ValueString (ClusterID plan)); AErr err])) Untouched)
  | Ok clusterID =>
      let dbName := ValueString (Name plan) in
      let dbReq :=
        {| dr_Name := dbName;
           dr_Owner := if negb (IsNull (Owner plan))
                          && negb (IsUnknown (Owner plan))
                       then ValueString (Owner plan) else "" |} in
      tflog Info "Creating cluster database"
        [("cluster_id", AInt clusterID); ("name", AStr dbName)] ;;;
      r <- ConfigureWithRetry c ctx clusterID
             {| rq_Users := []; rq_DeleteUsers := [];
                rq_Databases := [dbReq]; rq_DeleteDatabases := [];
                rq_Extensions := []; rq_Grants := []; rq_SourceIPs := [];
                rq_DeleteIPs := []; rq_ReplaceIPs := false |} (2 * Minute) ;;
      match r with
      | Err err =>
          ret (respond (AddError ds "Error creating cluster database"
                 (Sprintf "Could not create database %q on cluster %d: %s"
                    [AStr dbName; AInt clusterID; AErr err])) Untouched)
      | Ok configResp =>
          waited <- (if 0 <? JobID configResp
                     then WaitForJobComplete c ctx clusterID (5 * Minute)
                     else ret None) ;;
          match waited with
          | Some err =>
              ret (respond (AddError ds "Error waiting for database creation"
                     (Sprintf "Configure job failed for cluster %d: %s"
                        [AInt clusterID; AErr err])) Untouched)
          | None =>
              let id := StringValue (Itoa clusterID ++ "/" ++ dbName) in
              (* Extract owner from configure response first. *)
              let owner1 :=
                match find (hasName dbName) (rs_Databases configResp) with
                | Some db => StringValue (dp_Owner db)
                | None => Owner plan
                end in
              (* If owner is still unknown, read back from the cluster. *)
              owner2 <- (if IsNull owner1 || IsUnknown owner1
                         then
                           g <- GetCluster c ctx clusterID ;;
                           match g with
                           | Ok cluster =>
                               match find (isDatabase dbName)
                                          (Databases cluster) with
                               | Some db => ret (StringValue (cd_Owner db))
                               | None => ret owner1
                               end
                           | Err _ => ret owner1
                           end
                         else ret owner1) ;;
              (* Final fallback: set owner to empty string rather than
                 leaving it unknown. *)
              let owner3 :=
                if IsNull owner2 || IsUnknown owner2
                then StringValue "" else owner2 in
              ret (respond ds
                     (SetState {| ID := id; ClusterID := ClusterID plan;
                                  Name := Name plan; Owner := owner3 |}))
          end
      end
  end.

Definition Read (c : Client) (ctx : Context) (st : Decoded Model)
  : M (Response Model) :=
  let ds := decoding st in
  let st := value st in
  if HasError ds then ret (respond ds Untouched) else
  match parseDatabaseID (ValueString (ID st)) with
  | Err err =>
      ret (respond (AddError ds "Invalid resource ID"
             (Sprintf "Could not parse resource ID %q: %s"
                [AStr (ValueString (ID st)); AErr err])) Untouched)
  | Ok (clusterID, dbName) =>
      r <- GetCluster c ctx clusterID ;;
      match r with
      | Err err =>
          if IsNotFound err || IsGone err
          then ret (respond ds RemoveResource)
          else ret (respond (AddError ds "Error reading cluster"
                      (Sprintf "Could not read cluster %d: %s"
                         [AInt clusterID; AErr err])) Untouched)
      | Ok cluster =>
          match find (isDatabase dbName) (Databases cluster) with
          | Some db =>
              ret (respond ds
                     (SetState {| ID := ID st; ClusterID := ClusterID st;
                                  Name := Name st;
                                  Owner := StringValue (cd_Owner db) |}))
          | None =>
              tflog Warn "Cluster database not found, removing from state"
                [("cluster_id", AInt clusterID); ("name", AStr dbName)] ;;;
              ret (respond ds RemoveResource)
          end
      end
  end.

Definition Update (c : Client) (ctx : Context) (plan : Decoded Model)
  : M (Response Model) :=
  let ds := decoding plan in
  let plan := value plan in
  if HasError ds then ret (respond ds Untouched) else
  match Atoi (ValueString (ClusterID plan)) with
  | Err err =>
      ret (respond (AddError ds "Invalid cluster ID"
             (Sprintf "Could not parse cluster ID %q: %s"
                [AStr (ValueString (ClusterID plan)); AErr err])) Untouched)
  | Ok clusterID =>
      (* Owner can be updated via the configure endpoint. *)
      let dbReq := {| dr_Name := ValueString (Name plan);
                      dr_Owner := ValueString (Owner plan) |} in
      r <- ConfigureWithRetry c ctx clusterID
             {| rq_Users := []; rq_DeleteUsers := [];
                rq_Databases := [dbReq]; rq_DeleteDatabases := [];
                rq_Extensions := []; rq_Grants := []; rq_SourceIPs := [];
                rq_DeleteIPs := []; rq_ReplaceIPs := false |} (2 * Minute) ;;
      match r with
      | Err err =>
          ret (respond (AddError ds "Error updating cluster database"
                 (Sprintf "Could not update database %q on cluster %d: %s"
                    [AStr (ValueString (Name plan)); AInt clusterID;
                     AErr err])) Untouched)
      | Ok configResp =>
          waited <- (if 0 <? JobID configResp
                     then WaitForJobComplete c ctx clusterID (5 * Minute)
                     else ret None) ;;
          match waited with
          | Some err =>
              ret (respond (AddError ds "Error waiting for database update"
                     (Sprintf "Configure job failed for cluster %d: %s"
                        [AInt clusterID; AErr err])) Untouched)
          | None => ret (respond ds (SetState plan))
          end
      end
  end.

Definition Delete (c : Client) (ctx : Context) (st : Decoded Model)
  : M (Response Model) :=
  let ds := decoding st in
  let st := value st in
  if HasError ds then ret (respond ds Untouched) else
  match parseDatabaseID (ValueString (ID st)) with
  | Err err =>
      ret (respond (AddError ds "Invalid resource ID"
             (Sprintf "Could not parse resource ID %q: %s"
                [AStr (ValueString (ID st)); AErr err])) Untouched)
  | Ok (clusterID, dbName) =>
      tflog Info "Deleting cluster database"
        [("cluster_id", AInt clusterID); ("name", AStr dbName)] ;;;
      r <- ConfigureWithRetry c ctx clusterID
             {| rq_Users := []; rq_DeleteUsers := []; rq_Databases := [];
                rq_DeleteDatabases := [dbName]; rq_Extensions := [];
                rq_Grants := []; rq_SourceIPs := []; rq_DeleteIPs := [];
                rq_ReplaceIPs := false |} (2 * Minute) ;;
      match r with
      | Err err =>
          if IsNotFound err || IsGone err
          then ret (respond ds Untouched)
          else ret (respond (AddError ds "Error deleting cluster database"
                      (Sprintf
                         "Could not delete database %q from cluster %d: %s"
                         [AStr dbName; AInt clusterID; AErr err])) Untouched)
      | Ok configResp =>
          waited <- (if 0 <? JobID configResp
                     then WaitForJobComplete c ctx clusterID (5 * Minute)
                     else ret None) ;;
          match waited with
          | Some err =>
              ret (respond (AddError ds "Error waiting for database deletion"
                     (Sprintf "Configure job failed for cluster %d: %s"
                        [AInt clusterID; AErr err])) Untouched)
          | None => ret (respond ds Untouched)
          end
      end
  end.

Definition ImportState (id : string) : Response Model :=
  match SplitN id "/" 2 with
  | [p0; p1] =>
      respond [] (SetState {| ID := StringValue id;
                              ClusterID := StringValue p0;
                              Name := StringValue p1;
                              Owner := StringNull |})
  | _ =>
      respond (AddError [] "Invalid import ID"
                 (Text "Import ID must be in the format: cluster_id/database_name"))
              Untouched
  end.

End cluster_database.

(* ================================================================= *)
(** ** [package cluster_extension] *)

Module cluster_extension.

Record Model := {
  ID : tfString;
  ClusterID : tfString;
  Extension : tfString;
  Database : tfString }.

Definition parseExtensionID (id : string) : result (Z * string * string) :=
  match SplitN id "/" 3 with
  | [p0; p1; p2] =>
      match Atoi p0 with
      | Err err => Err (Errorf "invalid cluster ID: %w" [AErr err])
      | Ok clusterID => Ok (clusterID, p1, p2)
      end
  | _ => Err (Errorf "expected format: cluster_id/extension/database" [])
  end.

Definition hasExtension (name : string) (ext : ConfigExtResponse) : bool :=
  String.eqb (ep_Extension ext) name.

Definition isExtension (name : string) (ext : ClusterExtension) : bool :=
  String.eqb (ce_Extension ext) name.

Definition Create (c : Client) (ctx : Context) (plan : Decoded Model)
  : M (Response Model) :=
  let ds := decoding plan in
  let plan := value plan in
  if HasError ds then ret (respond ds Untouched) else
  match Atoi (ValueString (ClusterID plan)) with
  | Err err =>
      ret (respond (AddError ds "Invalid cluster ID"
             (Sprintf "Could not parse cluster ID %q: %s"
                [AStr (ValueString (ClusterID plan)); AErr err])) Untouched)
  | Ok clusterID =>
      let extension := ValueString (Extension plan) in
      let planned := negb (IsNull (Database plan))
                     && negb (IsUnknown (Database plan)) in
      let extReq :=
        {| er_Extension := extension;
           er_Database := if planned then ValueString (Database plan)
                          else "" |} in
      tflog Info "Creating cluster extension"
        [("cluster_id", AInt clusterID); ("extension", AStr extension)] ;;;
      r <- ConfigureWithRetry c ctx clusterID
             {| rq_Users := []; rq_DeleteUsers := []; rq_Databases := [];
                rq_DeleteDatabases := []; rq_Extensions := [extReq];
                rq_Grants := []; rq_SourceIPs := []; rq_DeleteIPs := [];
                rq_ReplaceIPs := false |} (2 * Minute) ;;
      match r with
      | Err err =>
          ret (respond (AddError ds "Error creating cluster extension"
                 (Sprintf "Could not install extension %q on cluster %d: %s"
                    [AStr extension; AInt clusterID; AErr err])) Untouched)
      | Ok configResp =>
          waited <- (if 0 <? JobID configResp
                     then WaitForJobComplete c ctx clusterID (5 * Minute)
                     else ret None) ;;
          match waited with
          | Some err =>
              ret (respond
                     (AddError ds "Error waiting for extension installation"
                        (Sprintf "Configure job failed for cluster %d: %s"
                           [AInt clusterID; AErr err])) Untouched)
          | None =>
              (* Try to get database from configure response first. *)
              let database1 :=
                match find (hasExtension extension)
                           (rs_Extensions configResp) with
                | Some ext => ep_Database ext
                | None => ""
                end in
              (* Fall back to reading from the cluster. *)
              database2 <- (if String.eqb database1 ""
                            then
                              g <- GetCluster c ctx clusterID ;;
                              match g with
                              | Ok cluster =>
                                  match find (isExtension extension)
                                             (Extensions cluster) with
                                  | Some ext => ret (ce_Database ext)
                                  | None => ret database1
                                  end
                              | Err _ => ret database1
                              end
                            else ret database1) ;;
              (* Final fallback: use the plan value or cluster default db. *)
              database3 <- (if String.eqb database2 ""
                            then
                              if planned
                              then ret (ValueString (Database plan))
                              else
                                (* Read cluster to get default db_name. *)
                                g <- GetCluster c ctx clusterID ;;
                                match g with
                                | Ok cluster => ret (DBName cluster)
                                | Err _ => ret database2
                                end
                            else ret database2) ;;
              ret (respond ds
                     (SetState
                        {| ID := StringValue (Itoa clusterID ++ "/" ++
                                              extension ++ "/" ++ database3);
                           ClusterID := ClusterID plan;
                           Extension := Extension plan;
                           Database := StringValue database3 |}))
          end
      end
  end.

Definition isInstalled (extName dbName : string) (ext : ClusterExtension)
  : bool :=
  String.eqb (ce_Extension ext) extName && String.eqb (ce_Database ext) dbName.

Definition Read (c : Client) (ctx : Context) (st : Decoded Model)
  : M (Response Model) :=
  let ds := decoding st in
  let st := value st in
  if HasError ds then ret (respond ds Untouched) else
  match parseExtensionID (ValueString (ID st)) with
  | Err err =>
      ret (respond (AddError ds "Invalid resource ID"
             (Sprintf "Could not parse resource ID %q: %s"
                [AStr (ValueString (ID st)); AErr err])) Untouched)
  | Ok (clusterID, extName, dbName) =>
      r <- GetCluster c ctx clusterID ;;
      match r with
      | Err err =>
          if IsNotFound err || IsGone err
          then ret (respond ds RemoveResource)
          else ret (respond (AddError ds "Error reading cluster"
                      (Sprintf "Could not read cluster %d: %s"
                         [AInt clusterID; AErr err])) Untouched)
      | Ok cluster =>
          if negb (existsb (isInstalled extName dbName) (Extensions cluster))
          then
            tflog Warn "Cluster extension not found, removing from state"
              [("cluster_id", AInt clusterID); ("extension", AStr extName);
               ("database", AStr dbName)] ;;;
            ret (respond ds RemoveResource)
          else ret (respond ds (SetState st))
      end
  end.

(** Delete reads nothing from its request and calls nothing on the
    client: its only effect is the warning. *)
Definition Delete (c : Client) (ctx : Context) (st : Decoded Model)
  : M (Response Model) :=
  (* Extensions cannot be removed from a running cluster via the API.
     Removing from Terraform state only. *)
  tflog Warn "Extension removal is not supported by the Rivestack API. The extension remains installed on the cluster but is removed from Terraform state." [] ;;;
  ret (respond [] Untouched).

Definition Update : M (Response Model) :=
  ret (respond (AddError [] "Update not supported"
         (Text "Cluster extension attributes cannot be updated in-place."))
         Untouched).

Definition ImportState (id : string) : Response Model :=
  match SplitN id "/" 3 with
  | [p0; p1; p2] =>
      respond [] (SetState {| ID := StringValue id;
                              ClusterID := StringValue p0;
                              Extension := StringValue p1;
                              Database := StringValue p2 |})
  | _ =>
      respond (AddError [] "Invalid import ID"
                 (Text "Import ID must be in the format: cluster_id/extension/database"))
              Untouched
  end.

End cluster_extension.

(* ================================================================= *)
(** ** [package cluster_grant] *)

Module cluster_grant.

Record Model := {
  ID : tfString;
  ClusterID : tfString;
  Username : tfString;
  Database : tfString;
  Access : tfString }.

Definition parseGrantID (id : string) : result (Z * string * string) :=
  match SplitN id "/" 3 with
  | [p0; p1; p2] =>
      match Atoi p0 with
      | Err err => Err (Errorf "invalid cluster ID: %w" [AErr err])
      | Ok clusterID => Ok (clusterID, p1, p2)
      end
  | _ => Err (Errorf "expected format: cluster_id/username/database" [])
  end.

Definition Create (c : Client) (ctx : Context) (plan : Decoded Model)
  : M (Response Model) :=
  let ds := decoding plan in
  let plan := value plan in
  if HasError ds then ret (respond ds Untouched) else
  match Atoi (ValueString (ClusterID plan)) with
  | Err err =>
      ret (respond (AddError ds "Invalid cluster ID"
             (Sprintf "Could not parse cluster ID %q: %s"
                [AStr (ValueString (ClusterID plan)); AErr err])) Untouched)
  | Ok clusterID =>
      let grantReq := {| gr_Username := ValueString (Username plan);
                         gr_Database := ValueString (Database plan);
                         gr_Access := ValueString (Access plan) |} in
      tflog Info "Creating cluster grant"
        [("cluster_id", AInt clusterID);
         ("username", AStr (ValueString (Username plan)));
         ("database", AStr (ValueString (Database plan)));
         ("access", AStr (ValueString (Access plan)))] ;;;
      r <- ConfigureWithRetry c ctx clusterID
             {| rq_Users := []; rq_DeleteUsers := []; rq_Databases := [];
                rq_DeleteDatabases := []; rq_Extensions := [];
                rq_Grants := [grantReq]; rq_SourceIPs := [];
                rq_DeleteIPs := []; rq_ReplaceIPs := false |} (2 * Minute) ;;
      match r with
      | Err err =>
          ret (respond (AddError ds "Error creating cluster grant"
                 (Sprintf "Could not create grant on cluster %d: %s"
                    [AInt clusterID; AErr err])) Untouched)
      | Ok configResp =>
          waited <- (if 0 <? JobID configResp
                     then WaitForJobComplete c ctx clusterID (5 * Minute)
                     else ret None) ;;
          match waited with
          | Some err =>
              ret (respond (AddError ds "Error waiting for grant creation"
                     (Sprintf "Configure job failed for cluster %d: %s"
                        [AInt clusterID; AErr err])) Untouched)
          | None =>
              ret (respond ds
                     (SetState
                        {| ID := StringValue
                                   (Itoa clusterID ++ "/" ++
                                    ValueString (Username plan) ++ "/" ++
                                    ValueString (Database plan));
                           ClusterID := ClusterID plan;
                           Username := Username plan;
                           Database := Database plan;
                           Access := Access plan |}))
          end
      end
  end.

Definition isGrant (username database : string) (g : ClusterGrant) : bool :=
  String.eqb (cg_Username g) username && String.eqb (cg_Database g) database.

Definition Read (c : Client) (ctx : Context) (st : Decoded Model)
  : M (Response Model) :=
  let ds := decoding st in
  let st := value st in
  if HasError ds then ret (respond ds Untouched) else
  match parseGrantID (ValueString (ID st)) with
  | Err err =>
      ret (respond (AddError ds "Invalid resource ID"
             (Sprintf "Could not parse resource ID %q: %s"
                [AStr (ValueString (ID st)); AErr err])) Untouched)
  | Ok (clusterID, username, database) =>
      r <- GetCluster c ctx clusterID ;;
      match r with
      | Err err =>
          if IsNotFound err || IsGone err
          then ret (respond ds RemoveResource)
          else ret (respond (AddError ds "Error reading cluster"
                      (Sprintf "Could not read cluster %d: %s"
                         [AInt clusterID; AErr err])) Untouched)
      | Ok cluster =>
          match find (isGrant username database) (Grants cluster) with
          | Some g =>
              ret (respond ds
                     (SetState {| ID := ID st; ClusterID := ClusterID st;
                                  Username := Username st;
                                  Database := Database st;
                                  Access := StringValue (cg_Access g) |}))
          | None =>
              tflog Warn "Cluster grant not found, removing from state"
                [("cluster_id", AInt clusterID); ("username", AStr username);
                 ("database", AStr database)] ;;;
              ret (respond ds RemoveResource)
          end
      end
  end.

Definition Update (c : Client) (ctx : Context) (plan : Decoded Model)
  : M (Response Model) :=
  let ds := decoding plan in
  let plan := value plan in
  if HasError ds then ret (respond ds Untouched) else
  match Atoi (ValueString (ClusterID plan)) with
  | Err err =>
      ret (respond (AddError ds "Invalid cluster ID"
             (Sprintf "Could not parse cluster ID %q: %s"
                [AStr (ValueString (ClusterID plan)); AErr err])) Untouched)
  | Ok clusterID =>
      (* Re-apply grant with updated access level. *)
      let grantReq := {| gr_Username := ValueString (Username plan);
                         gr_Database := ValueString (Database plan);
                         gr_Access := ValueString (Access plan) |} in
      r <- ConfigureWithRetry c ctx clusterID
             {| rq_Users := []; rq_DeleteUsers := []; rq_Databases := [];
                rq_DeleteDatabases := []; rq_Extensions := [];
                rq_Grants := [grantReq]; rq_SourceIPs := [];
                rq_DeleteIPs := []; rq_ReplaceIPs := false |} (2 * Minute) ;;
      match r with
      | Err err =>
          ret (respond (AddError ds "Error updating cluster grant"
                 (Sprintf "Could not update grant on cluster %d: %s"
                    [AInt clusterID; AErr err])) Untouched)
      | Ok configResp =>
          waited <- (if 0 <? JobID configResp
                     then WaitForJobComplete c ctx clusterID (5 * Minute)
                     else ret None) ;;
          match waited with
          | Some err =>
              ret (respond (AddError ds "Error waiting for grant update"
                     (Sprintf "Configure job failed for cluster %d: %s"
                        [AInt clusterID; AErr err])) Untouched)
          | None => ret (respond ds (SetState plan))
          end
      end
  end.

(** Delete reads nothing from its request and calls nothing on the
    client: its only effect is the warning. *)
Definition Delete (c : Client) (ctx : Context) (st : Decoded Model)
  : M (Response Model) :=
  (* Grant revocation is not currently supported by the Rivestack API.
     Removing from Terraform state only. *)
  tflog Warn "Grant revocation is not supported by the Rivestack API. The grant remains on the cluster but is removed from Terraform state." [] ;;;
  ret (respond [] Untouched).

Definition ImportState (id : string) : Response Model :=
  match SplitN id "/" 3 with
  | [p0; p1; p2] =>
      respond [] (SetState {| ID := StringValue id;
                              ClusterID := StringValue p0;
                              Username := StringValue p1;
                              Database := StringValue p2;
                              Access := StringNull |})
  | _ =>
      respond (AddError [] "Invalid import ID"
                 (Text "Import ID must be in the format: cluster_id/username/database"))
              Untouched
  end.

End cluster_grant.

(* ================================================================= *)
(** ** [package cluster_firewall] *)

Module cluster_firewall.

Record Model := {
  ID : tfString;
  ClusterID : tfString;
  SourceIPs : tfStrings }.

Definition Create (c : Client) (ctx : Context) (plan : Decoded Model)
  : M (Response Model) :=
  let ds := decoding plan in
  let plan := value plan in
  if HasError ds then ret (respond ds Untouched) else
  match Atoi (ValueString (ClusterID plan)) with
  | Err err =>
      ret (respond (AddError ds "Invalid cluster ID"
             (Sprintf "Could not parse cluster ID %q: %s"
                [AStr (ValueString (ClusterID plan)); AErr err])) Untouched)
  | Ok clusterID =>
      let (converted, sourceIPs) := ElementsAs (SourceIPs plan) in
      let ds := (ds ++ converted)%list in
      if HasError ds then ret (respond ds Untouched) else
      tflog Info "Setting cluster firewall rules"
        [("cluster_id", AInt clusterID); ("source_ips", AStrs sourceIPs)] ;;;
      r <- ConfigureWithRetry c ctx clusterID
             {| rq_Users := []; rq_DeleteUsers := []; rq_Databases := [];
                rq_DeleteDatabases := []; rq_Extensions := [];
                rq_Grants := []; rq_SourceIPs := sourceIPs;
                rq_DeleteIPs := []; rq_ReplaceIPs := true |} (2 * Minute) ;;
      match r with
      | Err err =>
          ret (respond (AddError ds "Error setting cluster firewall"
                 (Sprintf "Could not set firewall rules on cluster %d: %s"
                    [AInt clusterID; AErr err])) Untouched)
      | Ok _ =>
          ret (respond ds
                 (SetState {| ID := StringValue (ValueString (ClusterID plan));
                              ClusterID := ClusterID plan;
                              SourceIPs := SourceIPs plan |}))
      end
  end.

Definition Update (c : Client) (ctx : Context) (plan : Decoded Model)
  : M (Response Model) :=
  let ds := decoding plan in
  let plan := value plan in
  if HasError ds then ret (respond ds Untouched) else
  match Atoi (ValueString (ClusterID plan)) with
  | Err err =>
      ret (respond (AddError ds "Invalid cluster ID"
             (Sprintf "Could not parse cluster ID %q: %s"
                [AStr (ValueString (ClusterID plan)); AErr err])) Untouched)
  | Ok clusterID =>
      let (converted, sourceIPs) := ElementsAs (SourceIPs plan) in
      let ds := (ds ++ converted)%list in
      if HasError ds then ret (respond ds Untouched) else
      tflog Info "Updating cluster firewall rules"
        [("cluster_id", AInt clusterID); ("source_ips", AStrs sourceIPs)] ;;;
      r <- ConfigureWithRetry c ctx clusterID
             {| rq_Users := []; rq_DeleteUsers := []; rq_Databases := [];
                rq_DeleteDatabases := []; rq_Extensions := [];
                rq_Grants := []; rq_SourceIPs := sourceIPs;
                rq_DeleteIPs := []; rq_ReplaceIPs := true |} (2 * Minute) ;;
      match r with
      | Err err =>
          ret (respond (AddError ds "Error updating cluster firewall"
                 (Sprintf "Could not update firewall rules on cluster %d: %s"
                    [AInt clusterID; AErr err])) Untouched)
      | Ok _ => ret (respond ds (SetState plan))
      end
  end.

Definition Delete (c : Client) (ctx : Context) (st : Decoded Model)
  : M (Response Model) :=
  let ds := decoding st in
  let st := value st in
  if HasError ds then ret (respond ds Untouched) else
  match Atoi (ValueString (ClusterID st)) with
  | Err err =>
      ret (respond (AddError ds "Invalid cluster ID"
             (Sprintf "Could not parse cluster ID %q: %s"
                [AStr (ValueString (ClusterID st)); AErr err])) Untouched)
  | Ok clusterID =>
      tflog Info "Resetting cluster firewall to allow all"
        [("cluster_id", AInt clusterID)] ;;;
      (* Reset to allow all traffic. *)
      r <- ConfigureWithRetry c ctx clusterID
             {| rq_Users := []; rq_DeleteUsers := []; rq_Databases := [];
                rq_DeleteDatabases := []; rq_Extensions := [];
                rq_Grants := []; rq_SourceIPs := ["0.0.0.0/0"];
                rq_DeleteIPs := []; rq_ReplaceIPs := true |} (2 * Minute) ;;
      match r with
      | Err err =>
          if IsNotFound err || IsGone err
          then ret (respond ds Untouched)
          else ret (respond (AddError ds "Error resetting cluster firewall"
                      (Sprintf "Could not reset firewall on cluster %d: %s"
                         [AInt clusterID; AErr err])) Untouched)
      | Ok _ => ret (respond ds Untouched)
      end
  end.

(** The loop of Read over the comma-separated allowlist of the cluster:
    every piece trimmed, the empty ones left out. *)
Definition allowlist (sourceIPs : string) : list string :=
  if negb (String.eqb sourceIPs "")
  then fold_left
         (fun ips ip =>
            let trimmed := TrimSpace ip in
            if negb (String.eqb trimmed "") then (ips ++ [trimmed])%list
            else ips)
         (Split sourceIPs ",") []
  else [].

Definition Read (c : Client) (ctx : Context) (st : Decoded Model)
  : M (Response Model) :=
  let ds := decoding st in
  let st := value st in
  if HasError ds then ret (respond ds Untouched) else
  match Atoi (ValueString (ClusterID st)) with
  | Err err =>
      ret (respond (AddError ds "Invalid cluster ID"
             (Sprintf "Could not parse cluster ID %q: %s"
                [AStr (ValueString (ClusterID st)); AErr err])) Untouched)
  | Ok clusterID =>
      r <- GetCluster c ctx clusterID ;;
      match r with
      | Err err =>
          if IsNotFound err || IsGone err
          then ret (respond ds RemoveResource)
          else ret (respond (AddError ds "Error reading cluster"
                      (Sprintf "Could not read cluster %d: %s"
                         [AInt clusterID; AErr err])) Untouched)
      | Ok cluster =>
          (* Parse source_ips from comma-separated string. *)
          let ips := allowlist (client_types.SourceIPs cluster) in
          let (ipSet, diags) := SetValueFrom ips in
          let ds := (ds ++ diags)%list in
          if HasError ds then ret (respond ds Untouched) else
          ret (respond ds
                 (SetState {| ID := ID st; ClusterID := ClusterID st;
                              SourceIPs := ipSet |}))
      end
  end.

(** ImportState: the identifier goes into [id] and [cluster_id] as it
    is; nothing else is set. *)
Definition ImportState (id : string) : Response Model :=
  respond [] (SetState {| ID := StringValue id;
                          ClusterID := StringValue id;
                          SourceIPs := StringsNull |}).

End cluster_firewall.

(* ================================================================= *)
(** ** [package cluster_backup_config] *)

Module cluster_backup_config.

Record Model := {
  ID : tfString;
  ClusterID : tfString;
  Enabled : tfBool;
  Schedule : tfString;
  RetentionFull : tfInt64;
  UpdatedAt : tfString }.

Definition Delete (c : Client) (ctx : Context) (st : Decoded Model)
  : M (Response Model) :=
  let ds := decoding st in
  let st := value st in
  if HasError ds then ret (respond ds Untouched) else
  match Atoi (ValueString (ClusterID st)) with
  | Err err =>
      ret (respond (AddError ds "Invalid cluster ID"
             (Sprintf "Could not parse cluster ID %q: %s"
                [AStr (ValueString (ClusterID st)); AErr err])) Untouched)
  | Ok clusterID =>
      tflog Info "Disabling cluster backups"
        [("cluster_id", AInt clusterID)] ;;;
      (* Reset to disabled. *)
      r <- UpdateBackupConfig c ctx clusterID
             {| ub_Enabled := Some false; ub_Schedule := "";
                ub_RetentionFull := None |} ;;
      match r with
      | Err err =>
          if IsNotFound err || IsGone err
          then ret (respond ds Untouched)
          else ret (respond (AddError ds "Error disabling backups"
                      (Sprintf "Could not disable backups on cluster %d: %s"
                         [AInt clusterID; AErr err])) Untouched)
      | Ok _ => ret (respond ds Untouched)
      end
  end.

Definition buildUpdateRequest (plan : Model) : UpdateBackupConfigRequest :=
  let enabled := ValueBool (Enabled plan) in
  let schedule :=
    if negb (IsNull (Schedule plan)) && negb (IsUnknown (Schedule plan))
    then ValueString (Schedule plan) else "" in
  let retentionFull :=
    if negb (IsNullInt64 (RetentionFull plan))
       && negb (IsUnknownInt64 (RetentionFull plan))
    then Some (ValueInt64 (RetentionFull plan)) else None in
  {| ub_Enabled := Some enabled; ub_Schedule := schedule;
     ub_RetentionFull := retentionFull |}.

Definition mapBackupConfigToState (config : BackupConfig) (state : Model)
  : Model :=
  {| ID := ID state;
     ClusterID := ClusterID state;
     Enabled := BoolValue (bc_Enabled config);
     Schedule := StringValue (bc_Schedule config);
     RetentionFull := Int64Value (bc_RetentionFull config);
     UpdatedAt := StringValue (FormatRFC3339 (bc_UpdatedAt config)) |}.

Definition Create (c : Client) (ctx : Context) (plan : Decoded Model)
  : M (Response Model) :=
  let ds := decoding plan in
  let plan := value plan in
  if HasError ds then ret (respond ds Untouched) else
  match Atoi (ValueString (ClusterID plan)) with
  | Err err =>
      ret (respond (AddError ds "Invalid cluster ID"
             (Sprintf "Could not parse cluster ID %q: %s"
                [AStr (ValueString (ClusterID plan)); AErr err])) Untouched)
  | Ok clusterID =>
      let updateReq := buildUpdateRequest plan in
      tflog Info "Setting cluster backup config"
        [("cluster_id", AInt clusterID)] ;;;
      r <- UpdateBackupConfig c ctx clusterID updateReq ;;
      match r with
      | Err err =>
          ret (respond (AddError ds "Error setting backup config"
                 (Sprintf "Could not set backup config on cluster %d: %s"
                    [AInt clusterID; AErr err])) Untouched)
      | Ok config =>
          let plan' := mapBackupConfigToState config plan in
          ret (respond ds
                 (SetState {| ID := StringValue (ValueString (ClusterID plan'));
                              ClusterID := ClusterID plan';
                              Enabled := Enabled plan';
                              Schedule := Schedule plan';
                              RetentionFull := RetentionFull plan';
                              UpdatedAt := UpdatedAt plan' |}))
      end
  end.

Definition Read (c : Client) (ctx : Context) (st : Decoded Model)
  : M (Response Model) :=
  let ds := decoding st in
  let st := value st in
  if HasError ds then ret (respond ds Untouched) else
  match Atoi (ValueString (ClusterID st)) with
  | Err err =>
      ret (respond (AddError ds "Invalid cluster ID"
             (Sprintf "Could not parse cluster ID %q: %s"
                [AStr (ValueString (ClusterID st)); AErr err])) Untouched)
  | Ok clusterID =>
      r <- GetBackupConfig c ctx clusterID ;;
      match r with
      | Err err =>
          if IsNotFound err || IsGone err
          then ret (respond ds RemoveResource)
          else ret (respond (AddError ds "Error reading backup config"
                      (Sprintf "Could not read backup config for cluster %d: %s"
                         [AInt clusterID; AErr err])) Untouched)
      | Ok config =>
          ret (respond ds (SetState (mapBackupConfigToState config st)))
      end
  end.

Definition Update (c : Client) (ctx : Context) (plan : Decoded Model)
  : M (Response Model) :=
  let ds := decoding plan in
  let plan := value plan in
  if HasError ds then ret (respond ds Untouched) else
  match Atoi (ValueString (ClusterID plan)) with
  | Err err =>
      ret (respond (AddError ds "Invalid cluster ID"
             (Sprintf "Could not parse cluster ID %q: %s"
                [AStr (ValueString (ClusterID plan)); AErr err])) Untouched)
  | Ok clusterID =>
      let updateReq := buildUpdateRequest plan in
      tflog Info "Updating cluster backup config"
        [("cluster_id", AInt clusterID)] ;;;
      r <- UpdateBackupConfig c ctx clusterID updateReq ;;
      match r with
      | Err err =>
          ret (respond (AddError ds "Error updating backup config"
                 (Sprintf "Could not update backup config on cluster %d: %s"
                    [AInt clusterID; AErr err])) Untouched)
      | Ok config =>
          ret (respond ds (SetState (mapBackupConfigToState config plan)))
      end
  end.

(** ImportState: the identifier goes into [id] and [cluster_id] as it
    is; nothing else is set. *)
Definition ImportState (id : string) : Response Model :=
  respond [] (SetState {| ID := StringValue id;
                          ClusterID := StringValue id;
                          Enabled := BoolNull;
                          Schedule := StringNull;
                          RetentionFull := Int64Null;
                          UpdatedAt := StringNull |}).

End cluster_backup_config.

(* ================================================================= *)
(** ** [package cluster] *)

Module cluster.

Record Model := {
  ID : tfString;
  Name : tfString;
  Region : tfString;
  ServerType : tfString;
  NodeCount : tfInt64;
  DBName : tfString;
  DBType : tfString;
  PostgreSQLVersion : tfInt64;
  Extensions : tfStrings;
  SubscriptionID : tfInt64;
  TenantID : tfString;
  Status : tfString;
  Host : tfString;
  ConnectionString : tfString;
  DBUser : tfString;
  DBPassword : tfString;
  CreatedAt : tfString;
  UpdatedAt : tfString }.

(** mapClusterToState overwrites every field but [Extensions] and
    [SubscriptionID]. *)
Definition mapClusterToState (c : Cluster) (st : Model) : Model :=
  {| ID := StringValue (Itoa (client_types.ID c));
     Name := StringValue (client_types.Name c);
     Region := StringValue (client_types.Region c);
     ServerType := StringValue (client_types.ServerType c);
     NodeCount := Int64Value (client_types.NodeCount c);
     DBName := StringValue (client_types.DBName c);
     DBType := StringValue (client_types.DBType c);
     PostgreSQLVersion := Int64Value (client_types.PostgreSQLVersion c);
     Extensions := Extensions st;
     SubscriptionID := SubscriptionID st;
     TenantID := StringValue (client_types.TenantID c);
     Status := StringValue (client_types.Status c);
     Host := StringValue (client_types.Host c);
     ConnectionString := StringValue (client_types.ConnectionString c);
     DBUser := StringValue (client_types.DBUser c);
     DBPassword := StringValue (client_types.DBPassword c);
     CreatedAt := StringValue (FormatRFC3339 (client_types.CreatedAt c));
     UpdatedAt := StringValue (FormatRFC3339 (client_types.UpdatedAt c)) |}.

(** The values [i] takes in [for i := from; i < to; i++]. *)
Definition counting_up (from to : Z) : list Z :=
  map (fun k => from + Z.of_nat k) (seq 0 (Z.to_nat (to - from))).

(** The values [i] takes in [for i := from; i > to; i--]. *)
Definition counting_down (from to : Z) : list Z :=
  map (fun k => from - Z.of_nat k) (seq 0 (Z.to_nat (from - to))).

(** A loop over [xs] whose body may return from the enclosing function:
    [Some d] is that early return, [None] is falling out of the loop. *)
Fixpoint each {A R} (xs : list A) (body : A -> M (option R)) : M (option R) :=
  match xs with
  | [] => ret None
  | x :: rest =>
      r <- body x ;;
      match r with
      | Some d => ret (Some d)
      | None => each rest body
      end
  end.

Definition addOneNode (c : Client) (ctx : Context) (id : Z)
    (ds : Diagnostics) (i : Z) : M (option Diagnostics) :=
  r <- AddNode c ctx id ;;
  match r with
  | Err err =>
      ret (Some (AddError ds "Error adding node"
                   (Sprintf "Could not add node to cluster %d: %s"
                      [AInt id; AErr err])))
  | Ok _ =>
      waited <- WaitForJobComplete c ctx id (10 * Minute) ;;
      match waited with
      | Some err =>
          ret (Some (AddError ds "Error waiting for add-node job"
                       (Sprintf "Add-node job failed for cluster %d: %s"
                          [AInt id; AErr err])))
      | None => ret None
      end
  end.

Definition nodeName (tenantID : string) (i : Z) : string :=
  tenantID ++ "-db-" ++ Itoa i.

Definition removeOneNode (c : Client) (ctx : Context) (id : Z)
    (tenantID : string) (ds : Diagnostics) (i : Z) : M (option Diagnostics) :=
  let nodeName := nodeName tenantID i in
  r <- RemoveNode c ctx id nodeName ;;
  match r with
  | Err err =>
      ret (Some (AddError ds "Error removing node"
                   (Sprintf "Could not remove node %s from cluster %d: %s"
                      [AStr nodeName; AInt id; AErr err])))
  | Ok _ =>
      waited <- WaitForJobComplete c ctx id (10 * Minute) ;;
      match waited with
      | Some err =>
          ret (Some (AddError ds "Error waiting for remove-node job"
                       (Sprintf "Remove-node job failed for cluster %d: %s"
                          [AInt id; AErr err])))
      | None => ret None
      end
  end.

(** The scaling block of Update; [Some ds] is an early return with the
    diagnostics [ds]. *)
Definition scale (c : Client) (ctx : Context) (id oldCount newCount : Z)
    (ds : Diagnostics) : M (option Diagnostics) :=
  if negb (newCount =? oldCount)
  then
    tflog Info "Scaling cluster nodes"
      [("cluster_id", AInt id); ("from", AInt oldCount);
       ("to", AInt newCount)] ;;;
    if oldCount <? newCount
    then each (counting_up oldCount newCount) (addOneNode c ctx id ds)
    else
      (* Get cluster details to find node names for removal. *)
      g <- GetCluster c ctx id ;;
      match g with
      | Err err =>
          ret (Some (AddError ds "Error reading cluster"
                       (Sprintf
                          "Could not read cluster %d for node removal: %s"
                          [AInt id; AErr err])))
      | Ok cluster =>
          (* Remove nodes from highest number down. *)
          each (counting_down oldCount newCount)
               (removeOneNode c ctx id (client_types.TenantID cluster) ds)
      end
  else ret None.

Definition Update (c : Client) (ctx : Context) (plan st : Decoded Model)
  : M (Response Model) :=
  let ds := (decoding plan ++ decoding st)%list in
  let plan := value plan in
  let st := value st in
  if HasError ds then ret (respond ds Untouched) else
  match Atoi (ValueString (ID st)) with
  | Err err =>
      ret (respond (AddError ds "Invalid cluster ID"
             (Sprintf "Could not parse cluster ID %q: %s"
                [AStr (ValueString (ID st)); AErr err])) Untouched)
  | Ok id =>
      (* Only node_count can change in-place. *)
      let oldCount := ValueInt64 (NodeCount st) in
      let newCount := ValueInt64 (NodeCount plan) in
      scaled <- scale c ctx id oldCount newCount ds ;;
      match scaled with
      | Some ds' => ret (respond ds' Untouched)
      | None =>
          (* Refresh state from API. *)
          g <- GetCluster c ctx id ;;
          match g with
          | Err err =>
              ret (respond (AddError ds "Error reading cluster after update"
                     (Sprintf "Could not read cluster %d: %s"
                        [AInt id; AErr err])) Untouched)
          | Ok cluster =>
              ret (respond ds (SetState (mapClusterToState cluster plan)))
          end
      end
  end.

Definition Delete (c : Client) (ctx : Context) (st : Decoded Model)
  : M (Response Model) :=
  let ds := decoding st in
  let st := value st in
  if HasError ds then ret (respond ds Untouched) else
  match Atoi (ValueString (ID st)) with
  | Err err =>
      ret (respond (AddError ds "Invalid cluster ID"
             (Sprintf "Could not parse cluster ID %q: %s"
                [AStr (ValueString (ID st)); AErr err])) Untouched)
  | Ok id =>
      tflog Info "Deleting cluster" [("id", AInt id)] ;;;
      d <- DeleteCluster c ctx id ;;
      match d with
      | Some err =>
          if IsNotFound err || IsGone err
          then ret (respond ds Untouched)
          else ret (respond (AddError ds "Error deleting cluster"
                      (Sprintf "Could not delete cluster %d: %s"
                         [AInt id; AErr err])) Untouched)
      | None =>
          waited <- WaitForClusterDeleted c ctx id (10 * Minute) ;;
          match waited with
          | Some err =>
              ret (respond (AddError ds "Error waiting for cluster deletion"
                     (Sprintf "Cluster %d did not finish deleting: %s"
                        [AInt id; AErr err])) Untouched)
          | None => ret (respond ds Untouched)
          end
      end
  end.

(** [state.Extensions = extensions] *)
Definition withExtensions (st : Model) (extensions : tfStrings) : Model :=
  {| ID := ID st; Name := Name st; Region := Region st;
     ServerType := ServerType st; NodeCount := NodeCount st;
     DBName := DBName st; DBType := DBType st;
     PostgreSQLVersion := PostgreSQLVersion st;
     Extensions := extensions;
     SubscriptionID := SubscriptionID st; TenantID := TenantID st;
     Status := Status st; Host := Host st;
     ConnectionString := ConnectionString st; DBUser := DBUser st;
     DBPassword := DBPassword st; CreatedAt := CreatedAt st;
     UpdatedAt := UpdatedAt st |}.

Definition Read (c : Client) (ctx : Context) (st : Decoded Model)
  : M (Response Model) :=
  let ds := decoding st in
  let st := value st in
  if HasError ds then ret (respond ds Untouched) else
  match Atoi (ValueString (ID st)) with
  | Err err =>
      ret (respond (AddError ds "Invalid cluster ID"
             (Sprintf "Could not parse cluster ID %q: %s"
                [AStr (ValueString (ID st)); AErr err])) Untouched)
  | Ok id =>
      r <- GetCluster c ctx id ;;
      match r with
      | Err err =>
          if IsNotFound err || IsGone err
          then
            tflog Warn "Cluster not found, removing from state"
              [("id", AInt id)] ;;;
            ret (respond ds RemoveResource)
          else ret (respond (AddError ds "Error reading cluster"
                      (Sprintf "Could not read cluster %d: %s"
                         [AInt id; AErr err])) Untouched)
      | Ok cluster =>
          (* Preserve extensions from state since they are only used at
             creation. *)
          let extensions := Extensions st in
          let st := mapClusterToState cluster st in
          ret (respond ds (SetState (withExtensions st extensions)))
      end
  end.

(** ImportState hands the identifier to resource.ImportStatePassthroughID,
    which sets [id] to it unless it is empty ([if req.ID != ""]); nothing
    else is set. *)
Definition ImportState (id : string) : Response Model :=
  if String.eqb id "" then respond [] Untouched else
  respond [] (SetState {| ID := StringValue id; Name := StringNull;
                          Region := StringNull; ServerType := StringNull;
                          NodeCount := Int64Null; DBName := StringNull;
                          DBType := StringNull;
                          PostgreSQLVersion := Int64Null;
                          Extensions := StringsNull;
                          SubscriptionID := Int64Null;
                          TenantID := StringNull; Status := StringNull;
                          Host := StringNull;
                          ConnectionString := StringNull;
                          DBUser := StringNull; DBPassword := StringNull;
                          CreatedAt := StringNull;
                          UpdatedAt := StringNull |}).

(** The data source of the same package. *)
Module data_source.

Record Model := {
  ID : tfString;
  Name : tfString;
  TenantID : tfString;
  Region : tfString;
  DBType : tfString;
  ServerType : tfString;
  NodeCount : tfInt64;
  PostgreSQLVersion : tfInt64;
  DBName : tfString;
  DBUser : tfString;
  DBPassword : tfString;
  Host : tfString;
  ConnectionString : tfString;
  Status : tfString;
  HealthStatus : tfString;
  CreatedAt : tfString;
  UpdatedAt : tfString }.

Definition Read (c : Client) (ctx : Context) (config : Decoded Model)
  : M (Response Model) :=
  let ds := decoding config in
  let state := value config in
  if HasError ds then ret (respond ds Untouched) else
  match Atoi (ValueString (ID state)) with
  | Err err =>
      ret (respond (AddError ds "Invalid cluster ID"
             (Sprintf "Could not parse cluster ID %q: %s"
                [AStr (ValueString (ID state)); AErr err])) Untouched)
  | Ok id =>
      r <- GetCluster c ctx id ;;
      match r with
      | Err err =>
          ret (respond (AddError ds "Error reading cluster"
                 (Sprintf "Could not read cluster %d: %s"
                    [AInt id; AErr err])) Untouched)
      | Ok cluster =>
          ret (respond ds
                 (SetState
                    {| ID := StringValue (Itoa (client_types.ID cluster));
                       Name := StringValue (client_types.Name cluster);
                       TenantID := StringValue (client_types.TenantID cluster);
                       Region := StringValue (client_types.Region cluster);
                       DBType := StringValue (client_types.DBType cluster);
                       ServerType :=
                         StringValue (client_types.ServerType cluster);
                       NodeCount :=
                         Int64Value (client_types.NodeCount cluster);
                       PostgreSQLVersion :=
                         Int64Value (client_types.PostgreSQLVersion cluster);
                       DBName := StringValue (client_types.DBName cluster);
                       DBUser := StringValue (client_types.DBUser cluster);
                       DBPassword :=
                         StringValue (client_types.DBPassword cluster);
                       Host := StringValue (client_types.Host cluster);
                       ConnectionString :=
                         StringValue (client_types.ConnectionString cluster);
                       Status := StringValue (client_types.Status cluster);
                       HealthStatus :=
                         StringValue (client_types.HealthStatus cluster);
                       CreatedAt :=
                         StringValue
                           (FormatRFC3339 (client_types.CreatedAt cluster));
                       UpdatedAt :=
                         StringValue
                           (FormatRFC3339 (client_types.UpdatedAt cluster))
                    |}))
      end
  end.

End data_source.

End cluster.

(* ================================================================= *)
(** ** [package provider] *)

Module provider.

Record Model := {
  APIKey : tfString;
  BaseURL : tfString }.

(** Configure.  [version] is the provider's version, [Getenv] the
    environment ([os.Getenv], the empty string for an unset variable);
    the result is the diagnostics and the client handed to the resources
    and data sources, if one was made. *)
Definition Configure (version : string) (Getenv : string -> string)
    (transport : Context -> World -> Request -> Reply)
    (config : Decoded Model) : Diagnostics * option Client :=
  let ds := decoding config in
  let config := value config in
  if HasError ds then (ds, None) else
  (* Resolve API key: config > env var. *)
  let apiKey := ValueString (APIKey config) in
  let apiKey :=
    if String.eqb apiKey "" then Getenv "RIVESTACK_API_KEY" else apiKey in
  if String.eqb apiKey "" then
    (AddError ds "Missing API Key"
       (Text "The Rivestack API key must be set in the provider configuration or via the RIVESTACK_API_KEY environment variable."),
     None)
  else
  (* Resolve base URL: config > env var > default. *)
  let baseURL := ValueString (BaseURL config) in
  let baseURL :=
    if String.eqb baseURL "" then Getenv "RIVESTACK_BASE_URL" else baseURL in
  let baseURL :=
    if String.eqb baseURL "" then "https://api.rivestack.io" else baseURL in
  (ds, Some (NewClient baseURL apiKey version transport)).

End provider.

(* ================================================================= *)
(** * Vocabulary of the statements *)

(** The request [doRequest] sends for a method, a path and a body. *)
Definition request (c : Client) (method path : string) (body : option Body)
  : Request :=
  {| Method := method; URL := BaseURL c ++ path; ReqBody := body |}.

(** The outcome the remote side gives to [rq] in world [w], and the world
    once the exchange is over. *)
Definition answer (c : Client) (ctx : Context) (w : World) (rq : Request)
  : Outcome :=
  outcome (HTTPClient c ctx w rq).

Definition after (c : Client) (ctx : Context) (w : World) (rq : Request)
  : World :=
  {| now := now w + Z.of_N (elapsed (HTTPClient c ctx w rq));
     trace := (trace w ++ [ {| sent := rq; got := answer c ctx w rq |} ])%list;
     logs := logs w |}.

(** The context does not fire during a wait of [d] that starts in [w]. *)
Definition quiet (ctx : Context) (d : Z) (w : World) : Prop :=
  match done_at ctx with
  | Some t => now w + d < t
  | None => True
  end.

(** The world after an undisturbed wait of [d]. *)
Definition slept (d : Z) (w : World) : World :=
  {| now := now w + d; trace := trace w; logs := logs w |}.

(** The world in which a wait that began in [w] ends when the context
    fires at [t], before the wait is over: the clock stops at [t], or
    stays where it is when the context had fired before. *)
Definition interrupted (t : Z) (w : World) : World :=
  {| now := Z.max (now w) t; trace := trace w; logs := logs w |}.

(** How many more passes a loop with this deadline can make from
    instant [t], sleeping [interval] per pass. *)
Definition budget (deadline interval t : Z) : nat :=
  if t <=? deadline then Z.to_nat ((deadline - t) / interval) + 1 else 0.

(** The request every attempt of ConfigureWithRetry sends. *)
Definition configureRequest (c : Client) (clusterID : Z)
    (req : ConfigureRequest) : Request :=
  request c "POST" (configurePath clusterID) (Some (BConfigure req)).

(** The error ConfigureWithRetry gives up with. *)
Definition retryTimeout (last : error) : error :=
  Errorf "timeout waiting for cluster to be available for configuration: %w"
         [AErr last].

(** [conflicted c ctx id req deadline k w wk]: starting in [w], the first
    [k] attempts were all answered with a conflict, each time with the
    deadline not yet passed and the context quiet during the 10 s backoff;
    [wk] is the world in which attempt [k+1] starts. *)
Inductive conflicted (c : Client) (ctx : Context) (clusterID : Z)
    (req : ConfigureRequest) (deadline : Z) : nat -> World -> World -> Prop :=
| conflicted_O (w : World) : conflicted c ctx clusterID req deadline 0 w w
| conflicted_S (k : nat) (w wk w1 : World) (e : error) :
    conflicted c ctx clusterID req deadline k w wk ->
    ConfigureCluster c ctx clusterID req wk = Some (Err e, w1) ->
    IsConflict e = true ->
    now w1 <= deadline ->
    quiet ctx (10 * Second) w1 ->
    conflicted c ctx clusterID req deadline (S k) w (slept (10 * Second) w1).

(** Concrete remote sides and inputs, for running the model. *)
Module sample.

Definition start : World := {| now := 0; trace := []; logs := [] |}.

(** A context that is never cancelled. *)
Definition background : Context := {| done_at := None |}.

Definition served (handler : World -> Request -> Outcome) : Client :=
  {| BaseURL := "https://api.example";
     APIKey := "rsk_test";
     UserAgent := "terraform-provider-rivestack/test";
     HTTPClient := fun _ w rq =>
       {| outcome := handler w rq; elapsed := 250000000 |} |}.

Definition createdUser : ConfigureResponse :=
  {| rs_Message := "configuration initiated"; JobID := 0; rs_StreamURL := "";
     rs_Users := [ {| up_Username := "app"; up_Password := "s3cret" |} ];
     rs_DeletedUsers := []; rs_Databases := []; rs_DeletedDatabases := [];
     rs_Extensions := []; rs_Grants := []; rs_SourceIPs := [];
     rs_DeletedIPs := [] |}.

Definition addUser : ConfigureRequest :=
  {| rq_Users := [ {| ur_Username := "app" |} ]; rq_DeleteUsers := [];
     rq_Databases := []; rq_DeleteDatabases := []; rq_Extensions := [];
     rq_Grants := []; rq_SourceIPs := []; rq_DeleteIPs := [];
     rq_ReplaceIPs := false |}.

(** Busy for the first two requests, then accepting. *)
Definition busyTwice : Client :=
  served (fun w _ =>
            if (List.length (trace w) <? 2)%nat
            then Responded 409 "cluster has an active job" PEmpty
            else Responded 201 "" (PConfigure createdUser)).

(** Busy forever. *)
Definition alwaysBusy : Client :=
  served (fun _ _ => Responded 409 "cluster has an active job" PEmpty).

End sample.

(** The request WaitForJobComplete polls with. *)
Definition jobsRequest (c : Client) (clusterID : Z) : Request :=
  request c "GET" (jobsPath clusterID) None.

Definition jobsTimeout (timeout : Z) : error :=
  Errorf "timeout waiting for cluster jobs to complete after %s"
         [ADuration timeout].

(** What WaitForJobComplete makes of the outcome of one poll: [Some r]
    when the poll ends the wait with [r], [None] when jobs are still
    active and none of them has failed. *)
Definition poll_verdict (o : Outcome) : option (option error) :=
  match received true o with
  | Err err => Some (Some (Errorf "polling job status: %w" [AErr err]))
  | Ok p =>
      match Jobs (asJobs p) with
      | [] => Some None
      | _ => match find isFailed (Jobs (asJobs p)) with
             | Some job => Some (Some (jobFailed job))
             | None => None
             end
      end
  end.

Definition stillActive (x : Exchange) : Prop := poll_verdict (got x) = None.

(** [pending c ctx id deadline k w wk]: starting in [w], the first [k]
    polls each began before the deadline, listed at least one active job
    and no failed one, and the context stayed quiet during the 10 s that
    followed; [wk] is the world in which the loop condition is evaluated
    for the [k+1]-th time. *)
Inductive pending (c : Client) (ctx : Context) (clusterID : Z)
    (deadline : Z) : nat -> World -> World -> Prop :=
| pending_O (w : World) : pending c ctx clusterID deadline 0 w w
| pending_S (k : nat) (w wk w1 : World) (p : Payload) :
    pending c ctx clusterID deadline k w wk ->
    now wk < deadline ->
    doRequest c ctx "GET" (jobsPath clusterID) None true wk
      = Some (Ok p, w1) ->
    Jobs (asJobs p) <> [] ->
    find isFailed (Jobs (asJobs p)) = None ->
    quiet ctx (10 * Second) w1 ->
    pending c ctx clusterID deadline (S k) w (slept (10 * Second) w1).

(** [awaited c ctx id timeout w r w']: a wait for the jobs of cluster
    [id] that begins in [w] with [timeout] ends in [w'] with [r].  After
    some number of pending polls, either the next poll, begun before the
    deadline, decides ([None] on an empty list, the error on a failed job
    or a refused poll); or that poll leaves jobs active and the context
    fires no later than the 10 s sleep behind it ends; or the deadline has
    passed when the next poll is due. *)
Inductive awaited (c : Client) (ctx : Context) (clusterID timeout : Z)
    (w : World) : option error -> World -> Prop :=
| awaited_decided (k : nat) (wk : World) (r : option error) :
    pending c ctx clusterID (now w + timeout) k w wk ->
    now wk < now w + timeout ->
    poll_verdict (answer c ctx wk (jobsRequest c clusterID)) = Some r ->
    awaited c ctx clusterID timeout w r
            (after c ctx wk (jobsRequest c clusterID))
| awaited_cancelled (k : nat) (wk : World) (t : Z) :
    pending c ctx clusterID (now w + timeout) k w wk ->
    now wk < now w + timeout ->
    poll_verdict (answer c ctx wk (jobsRequest c clusterID)) = None ->
    done_at ctx = Some t ->
    t <= now (after c ctx wk (jobsRequest c clusterID)) + 10 * Second ->
    awaited c ctx clusterID timeout w (Some ContextDone)
            (interrupted t (after c ctx wk (jobsRequest c clusterID)))
| awaited_expired (k : nat) (wk : World) :
    pending c ctx clusterID (now w + timeout) k w wk ->
    now w + timeout <= now wk ->
    awaited c ctx clusterID timeout w (Some (jobsTimeout timeout)) wk.

Module sample_jobs.
Import sample.

Definition resize : Job :=
  {| job_ID := 7; JobType := "configure"; job_Status := "running";
     job_ErrorMessage := ""; Progress := 40 |}.

(** The job is listed as running by the first poll and is gone from the
    list of active jobs by the second, whatever became of it. *)
Definition jobVanishes : Client :=
  served (fun w _ =>
            if (List.length (trace w) <? 1)%nat
            then Responded 200 "" (PJobs {| Jobs := [resize]; Count := 1 |})
            else Responded 200 "" (PJobs {| Jobs := []; Count := 0 |})).

End sample_jobs.

(** The request the cluster pollers fetch the cluster with. *)
Definition clusterRequest (c : Client) (id : Z) : Request :=
  request c "GET" (clusterPath id) None.

(** The statuses WaitForClusterActive has a case for. *)
Definition recognised (status : string) : bool :=
  String.eqb status "active" || String.eqb status "failed"
  || String.eqb status "provisioning".

Definition unexpectedStatus (status : string) : error :=
  Errorf "unexpected cluster status: %s" [AStr status].

Definition activeTimeout (timeout : Z) : error :=
  Errorf "timeout waiting for cluster to become active after %s"
         [ADuration timeout].

Definition deletedTimeout (timeout : Z) : error :=
  Errorf "timeout waiting for cluster to be deleted after %s"
         [ADuration timeout].

(** What WaitForClusterActive makes of one fetch: [Some r] ends the wait
    with [r], [None] is "still provisioning". *)
Definition active_verdict (o : Outcome) : option (result Cluster) :=
  match received true o with
  | Err err => Some (Err (Errorf "polling cluster status: %w" [AErr err]))
  | Ok p =>
      let cluster := asCluster p in
      if String.eqb (Status cluster) "active" then Some (Ok cluster)
      else if String.eqb (Status cluster) "failed"
      then Some (Err (Errorf "cluster provisioning failed: %s"
                             [AStr (ErrorMessage cluster)]))
      else if String.eqb (Status cluster) "provisioning" then None
      else Some (Err (unexpectedStatus (Status cluster)))
  end.

(** What WaitForClusterDeleted makes of one fetch. *)
Definition deleted_verdict (o : Outcome) : option (option error) :=
  match received true o with
  | Err err =>
      if IsNotFound err || IsGone err then Some None
      else Some (Some (Errorf "polling cluster deletion status: %w"
                              [AErr err]))
  | Ok p =>
      if String.eqb (Status (asCluster p)) "deleted" then Some None else None
  end.

(** [provisioning c ctx id deadline k w wk]: the first [k] fetches of
    WaitForClusterActive each began before the deadline and found the
    cluster in status "provisioning", the context staying quiet for the
    15 s that followed. *)
Inductive provisioning (c : Client) (ctx : Context) (id : Z) (deadline : Z)
  : nat -> World -> World -> Prop :=
| provisioning_O (w : World) : provisioning c ctx id deadline 0 w w
| provisioning_S (k : nat) (w wk w1 : World) (cluster : Cluster) :
    provisioning c ctx id deadline k w wk ->
    now wk < deadline ->
    GetCluster c ctx id wk = Some (Ok cluster, w1) ->
    Status cluster = "provisioning" ->
    quiet ctx (15 * Second) w1 ->
    provisioning c ctx id deadline (S k) w (slept (15 * Second) w1).

(** [lingering c ctx id deadline k w wk]: the first [k] fetches of
    WaitForClusterDeleted each began before the deadline and found the
    cluster with some status other than "deleted", the context staying
    quiet for the 10 s that followed. *)
Inductive lingering (c : Client) (ctx : Context) (id : Z) (deadline : Z)
  : nat -> World -> World -> Prop :=
| lingering_O (w : World) : lingering c ctx id deadline 0 w w
| lingering_S (k : nat) (w wk w1 : World) (cluster : Cluster) :
    lingering c ctx id deadline k w wk ->
    now wk < deadline ->
    GetCluster c ctx id wk = Some (Ok cluster, w1) ->
    Status cluster <> "deleted" ->
    quiet ctx (10 * Second) w1 ->
    lingering c ctx id deadline (S k) w (slept (10 * Second) w1).

Module sample_cluster.
Import sample.

Definition inStatus (status : string) : Cluster :=
  {| ID := 7; TenantID := "rs-abc123"; Name := "test-cluster";
     Region := "eu-central"; DBType := ""; ServerType := "starter";
     NodeCount := 3; PostgreSQLVersion := 17; DBName := "appdb";
     DBUser := "admin"; DBPassword := ""; Host := ""; ConnectionString := "";
     Status := status; HealthStatus := ""; SourceIPs := "";
     ErrorMessage := ""; CreatedAt := Time0; UpdatedAt := Time0; Users := [];
     Databases := []; Extensions := []; Grants := []; Backup := None |}.

(** A status this client has no case for, then the cluster is gone. *)
Definition archivingThenGone : Client :=
  served (fun w _ =>
            if (List.length (trace w) <? 1)%nat
            then Responded 200 "" (PCluster (inStatus "archiving"))
            else Responded 404 "cluster not found" PEmpty).

(** Provisioning at the first fetch, an unknown status at the second. *)
Definition provisioningThenArchiving : Client :=
  served (fun w _ =>
            if (List.length (trace w) <? 1)%nat
            then Responded 200 "" (PCluster (inStatus "provisioning"))
            else Responded 200 "" (PCluster (inStatus "archiving"))).

End sample_cluster.

(** An attempt that was answered with a conflict. *)
Definition busy (x : Exchange) : Prop :=
  exists e, received true (got x) = Err e /\ IsConflict e = true.

(** How ConfigureWithRetry can end on the outcome [o] of its last
    attempt. *)
Definition retry_ends (o : Outcome) (r : result ConfigureResponse) : Prop :=
  match received true o with
  | Ok p => r = Ok (asConfigure p)
  | Err e =>
      if IsConflict e
      then r = Err (retryTimeout e) \/ r = Err ContextDone
      else r = Err e
  end.

(** The world after one tflog line. *)
Definition logged (l : Level) (msg : string) (fs : list (string * fmtarg))
    (w : World) : World :=
  {| now := now w; trace := trace w;
     logs := (logs w ++ [ {| level := l; message := msg; fields := fs |} ])%list |}.

(** The configure request that sets the allowlist to exactly [ips]. *)
Definition replaceIPs (ips : list string) : ConfigureRequest :=
  {| rq_Users := []; rq_DeleteUsers := []; rq_Databases := [];
     rq_DeleteDatabases := []; rq_Extensions := []; rq_Grants := [];
     rq_SourceIPs := ips; rq_DeleteIPs := []; rq_ReplaceIPs := true |}.

(** The number of "/" in an identifier: one less than its number of
    "/"-separated parts. *)
Fixpoint separators (s : string) : nat :=
  match s with
  | EmptyString => 0
  | String ch rest =>
      ((if Ascii.eqb ch "/"%char then 1 else 0) + separators rest)%nat
  end.

(** The text before the first "/", the whole text when there is none. *)
Definition prefix (s : string) : string :=
  match cut "/" s with
  | Some (a, _) => a
  | None => s
  end.

(** An identifier with fewer than [fields] parts, or whose first part is
    not a cluster ID. *)
Definition malformed (fields : nat) (id : string) : Prop :=
  (separators id < fields - 1)%nat \/ exists e, Atoi (prefix id) = Err e.

Definition invalidResourceID (ds : Diagnostics) (id : string) (err : error)
  : Diagnostics :=
  AddError ds "Invalid resource ID"
    (Sprintf "Could not parse resource ID %q: %s" [AStr id; AErr err]).

Module sample_user.
Import sample.

Definition stored (id : string) : Decoded cluster_user.Model :=
  {| value := {| cluster_user.ID := StringValue id;
                 cluster_user.ClusterID := StringValue "7";
                 cluster_user.Username := StringValue "app";
                 cluster_user.Password := StringValue "s3cret" |};
     decoding := [] |}.

(** A cluster with the one user "app". *)
Definition withApp : Client :=
  served (fun _ _ =>
            Responded 200 ""
              (PCluster
                 {| ID := 7; TenantID := "rs-abc123"; Name := "test-cluster";
                    Region := "eu-central"; DBType := "";
                    ServerType := "starter"; NodeCount := 1;
                    PostgreSQLVersion := 17; DBName := "appdb";
                    DBUser := "admin"; DBPassword := ""; Host := "";
                    ConnectionString := ""; Status := "active";
                    HealthStatus := ""; SourceIPs := ""; ErrorMessage := "";
                    CreatedAt := Time0; UpdatedAt := Time0;
                    Users := [ {| cu_Username := "app"; cu_Password := "" |} ];
                    Databases := []; Extensions := []; Grants := [];
                    Backup := None |})).

End sample_user.

Module sample_firewall.
Import sample.

(** The remote side accepts every request. *)
Definition accepting : Client :=
  served (fun _ _ => Responded 200 "" (PConfigure ConfigureResponse0)).

Definition allow (ips : list string) : Decoded cluster_firewall.Model :=
  {| value := {| cluster_firewall.ID := StringValue "7";
                 cluster_firewall.ClusterID := StringValue "7";
                 cluster_firewall.SourceIPs :=
                   StringsValue (map StringValue ips) |};
     decoding := [] |}.

End sample_firewall.

(** The diagnostics a delete ends with when its remote call failed with
    [e]: unchanged when [e] is not-found or gone, one more error
    otherwise. *)
Definition deleted_or_failed (ds : Diagnostics) (e : error) (sum : string)
    (det : text) : Diagnostics :=
  if IsNotFound e || IsGone e then ds else AddError ds sum det.

Definition deleteUsers (username : string) : ConfigureRequest :=
  {| rq_Users := []; rq_DeleteUsers := [username]; rq_Databases := [];
     rq_DeleteDatabases := []; rq_Extensions := []; rq_Grants := [];
     rq_SourceIPs := []; rq_DeleteIPs := []; rq_ReplaceIPs := false |}.

Definition deleteDatabases (dbName : string) : ConfigureRequest :=
  {| rq_Users := []; rq_DeleteUsers := []; rq_Databases := [];
     rq_DeleteDatabases := [dbName]; rq_Extensions := []; rq_Grants := [];
     rq_SourceIPs := []; rq_DeleteIPs := []; rq_ReplaceIPs := false |}.

Definition disableBackups : UpdateBackupConfigRequest :=
  {| ub_Enabled := Some false; ub_Schedule := ""; ub_RetentionFull := None |}.

Module sample_delete.
Import sample.

(** The cluster is gone: every request is answered 410. *)
Definition gone : Client :=
  served (fun _ _ => Responded 410 "cluster already deleted" PEmpty).

End sample_delete.

(** The diagnostic a failed configure job ends an operation with. *)
Definition jobFailureDiagnostic (sum : string) (id : Z) (err : error)
  : Diagnostic :=
  {| severity := SevError; summary := sum;
     detail := Sprintf "Configure job failed for cluster %d: %s"
                       [AInt id; AErr err] |}.

(** The operations that go through the configure endpoint. *)
Inductive ConfigureOp : Type :=
| UserCreate (plan : Decoded cluster_user.Model)
| UserDelete (st : Decoded cluster_user.Model)
| DatabaseCreate (plan : Decoded cluster_database.Model)
| DatabaseUpdate (plan : Decoded cluster_database.Model)
| DatabaseDelete (st : Decoded cluster_database.Model)
| ExtensionCreate (plan : Decoded cluster_extension.Model)
| GrantCreate (plan : Decoded cluster_grant.Model)
| GrantUpdate (plan : Decoded cluster_grant.Model)
| FirewallCreate (plan : Decoded cluster_firewall.Model)
| FirewallUpdate (plan : Decoded cluster_firewall.Model)
| FirewallDelete (st : Decoded cluster_firewall.Model).

Definition reported {S} (m : M (Response S)) : M Diagnostics :=
  bind m (fun r => ret (diagnostics r)).

(** Run the operation; keep its diagnostics. *)
Definition perform (c : Client) (ctx : Context) (op : ConfigureOp)
  : M Diagnostics :=
  match op with
  | UserCreate plan => reported (cluster_user.Create c ctx plan)
  | UserDelete st => reported (cluster_user.Delete c ctx st)
  | DatabaseCreate plan => reported (cluster_database.Create c ctx plan)
  | DatabaseUpdate plan => reported (cluster_database.Update c ctx plan)
  | DatabaseDelete st => reported (cluster_database.Delete c ctx st)
  | ExtensionCreate plan => reported (cluster_extension.Create c ctx plan)
  | GrantCreate plan => reported (cluster_grant.Create c ctx plan)
  | GrantUpdate plan => reported (cluster_grant.Update c ctx plan)
  | FirewallCreate plan => reported (cluster_firewall.Create c ctx plan)
  | FirewallUpdate plan => reported (cluster_firewall.Update c ctx plan)
  | FirewallDelete st => reported (cluster_firewall.Delete c ctx st)
  end.

(** The diagnostics of decoding the operation's plan or state. *)
Definition decoding_of (op : ConfigureOp) : Diagnostics :=
  match op with
  | UserCreate d | UserDelete d => decoding d
  | DatabaseCreate d | DatabaseUpdate d | DatabaseDelete d => decoding d
  | ExtensionCreate d => decoding d
  | GrantCreate d | GrantUpdate d => decoding d
  | FirewallCreate d | FirewallDelete d => decoding d
  | FirewallUpdate d => decoding d
  end.

(** For the two firewall writes, the diagnostics of converting the set. *)
Definition converting_of (op : ConfigureOp) : Diagnostics :=
  match op with
  | FirewallCreate d | FirewallUpdate d =>
      fst (ElementsAs (cluster_firewall.SourceIPs (value d)))
  | _ => []
  end.

(** The cluster the operation addresses, as it reads it from its input. *)
Definition target (op : ConfigureOp) : result Z :=
  match op with
  | UserCreate d => Atoi (ValueString (cluster_user.ClusterID (value d)))
  | UserDelete d =>
      match cluster_user.parseUserID
              (ValueString (cluster_user.ID (value d))) with
      | Ok (id, _) => Ok id
      | Err e => Err e
      end
  | DatabaseCreate d | DatabaseUpdate d =>
      Atoi (ValueString (cluster_database.ClusterID (value d)))
  | DatabaseDelete d =>
      match cluster_database.parseDatabaseID
              (ValueString (cluster_database.ID (value d))) with
      | Ok (id, _) => Ok id
      | Err e => Err e
      end
  | ExtensionCreate d =>
      Atoi (ValueString (cluster_extension.ClusterID (value d)))
  | GrantCreate d | GrantUpdate d =>
      Atoi (ValueString (cluster_grant.ClusterID (value d)))
  | FirewallCreate d | FirewallUpdate d | FirewallDelete d =>
      Atoi (ValueString (cluster_firewall.ClusterID (value d)))
  end.




(** Between [w] and [w'] nothing was sent but fetches of the cluster. *)
Definition only_fetches (c : Client) (id : Z) (w w' : World) : Prop :=
  exists fetches,
    trace w' = (trace w ++ fetches)%list /\
    Forall (fun x => sent x = clusterRequest c id) fetches.

(** [settled c ctx id waits resp w1 ds w']: how an operation on cluster
    [id] ends, with the diagnostics [ds] in the world [w'], once its
    configure call was accepted with [resp] in [w1].  An operation that
    waits, given a job identifier above zero, waits for the jobs of the
    cluster, for up to five minutes: a wait that ends with an error ends
    the operation there, with that error in a "Configure job failed"
    diagnostic; a wait that ends well lets it go on without an error,
    with fetches of the cluster at most.  Without a job identifier, and
    for an operation that does not wait, there is no wait at all. *)
Definition settled (c : Client) (ctx : Context) (id : Z) (waits : bool)
    (resp : ConfigureResponse) (w1 : World) (ds : Diagnostics) (w' : World)
  : Prop :=
  if waits && (0 <? JobID resp)
  then (exists err sum,
          awaited c ctx id (5 * Minute) w1 (Some err) w' /\
          In (jobFailureDiagnostic sum id err) ds /\ HasError ds = true) \/
       (exists w2,
          awaited c ctx id (5 * Minute) w1 None w2 /\
          HasError ds = false /\ only_fetches c id w2 w')
  else HasError ds = false /\ only_fetches c id w1 w'.

(** [configured c ctx id waits w0 ds w']: the operation made its
    configure call, through ConfigureWithRetry with a budget of two
    minutes, in [w0]; a call that failed ended the operation where the
    call ended, an accepted one was settled as above. *)
Definition configured (c : Client) (ctx : Context) (id : Z) (waits : bool)
    (w0 : World) (ds : Diagnostics) (w' : World) : Prop :=
  exists req r w1,
    ConfigureWithRetry c ctx id req (2 * Minute) w0 = Some (r, w1) /\
    match r with
    | Ok resp => settled c ctx id waits resp w1 ds w'
    | Err _ => w' = w1
    end.


Module sample_jobs_failed.
Import sample.

Definition started : ConfigureResponse :=
  {| rs_Message := "configuration initiated"; JobID := 100;
     rs_StreamURL := "";
     rs_Users := [ {| up_Username := "app"; up_Password := "s3cret" |} ];
     rs_DeletedUsers := []; rs_Databases := []; rs_DeletedDatabases := [];
     rs_Extensions := []; rs_Grants := []; rs_SourceIPs := [];
     rs_DeletedIPs := [] |}.

Definition diskFull : Job :=
  {| job_ID := 100; JobType := "configure"; job_Status := "failed";
     job_ErrorMessage := "disk full"; Progress := 60 |}.

(** The configure call is accepted with job 100; the job list then shows
    job 100 failed. *)
Definition jobFails : Client :=
  served (fun _ rq =>
            if String.eqb (Method rq) "POST"
            then Responded 201 "" (PConfigure started)
            else Responded 200 "" (PJobs {| Jobs := [diskFull]; Count := 1 |})).

Definition newUser : Decoded cluster_user.Model :=
  {| value := {| cluster_user.ID := StringUnknown;
                 cluster_user.ClusterID := StringValue "7";
                 cluster_user.Username := StringValue "app";
                 cluster_user.Password := StringUnknown |};
     decoding := [] |}.

End sample_jobs_failed.

(** The wait that follows an accepted configure call. *)
Definition awaitJob (c : Client) (ctx : Context) (id : Z)
    (resp : ConfigureResponse) : M (option error) :=
  if 0 <? JobID resp then WaitForJobComplete c ctx id (5 * Minute)
  else ret None.

Definition createUser (username : string) : ConfigureRequest :=
  {| rq_Users := [ {| ur_Username := username |} ]; rq_DeleteUsers := [];
     rq_Databases := []; rq_DeleteDatabases := []; rq_Extensions := [];
     rq_Grants := []; rq_SourceIPs := []; rq_DeleteIPs := [];
     rq_ReplaceIPs := false |}.

Definition createDatabase (name owner : string) : ConfigureRequest :=
  {| rq_Users := []; rq_DeleteUsers := [];
     rq_Databases := [ {| dr_Name := name; dr_Owner := owner |} ];
     rq_DeleteDatabases := []; rq_Extensions := []; rq_Grants := [];
     rq_SourceIPs := []; rq_DeleteIPs := []; rq_ReplaceIPs := false |}.

Definition createExtension (extension database : string) : ConfigureRequest :=
  {| rq_Users := []; rq_DeleteUsers := []; rq_Databases := [];
     rq_DeleteDatabases := [];
     rq_Extensions := [ {| er_Extension := extension;
                           er_Database := database |} ];
     rq_Grants := []; rq_SourceIPs := []; rq_DeleteIPs := [];
     rq_ReplaceIPs := false |}.

(** The value of a planned string attribute, when the plan fixes it. *)
Definition planned (v : tfString) : option string :=
  match v with StringValue s => Some s | _ => None end.

Definition orEmpty (v : option string) : string :=
  match v with Some s => s | None => "" end.

(** What a re-read of the cluster says about a database's owner and about
    an extension's database. *)
Definition ownerIn (g : result Cluster) (dbName : string) : option string :=
  match g with
  | Ok cluster =>
      match find (cluster_database.isDatabase dbName) (Databases cluster) with
      | Some db => Some (cd_Owner db)
      | None => None
      end
  | Err _ => None
  end.

Definition databaseIn (g : result Cluster) (extension : string) : string :=
  match g with
  | Ok cluster =>
      match find (cluster_extension.isExtension extension)
                 (Extensions cluster) with
      | Some ext => ce_Database ext
      | None => ""
      end
  | Err _ => ""
  end.

Definition defaultDatabaseIn (g : result Cluster) : string :=
  match g with Ok cluster => DBName cluster | Err _ => "" end.

(** The states the three creates persist. *)
Definition createdUser (plan : cluster_user.Model) (id : Z)
    (password : tfString) : cluster_user.Model :=
  {| cluster_user.ID :=
       StringValue (Itoa id ++ "/" ++ ValueString (cluster_user.Username plan));
     cluster_user.ClusterID := cluster_user.ClusterID plan;
     cluster_user.Username := cluster_user.Username plan;
     cluster_user.Password := password |}.

Definition createdDatabase (plan : cluster_database.Model) (id : Z)
    (owner : string) : cluster_database.Model :=
  {| cluster_database.ID :=
       StringValue (Itoa id ++ "/" ++ ValueString (cluster_database.Name plan));
     cluster_database.ClusterID := cluster_database.ClusterID plan;
     cluster_database.Name := cluster_database.Name plan;
     cluster_database.Owner := StringValue owner |}.

Definition createdExtension (plan : cluster_extension.Model) (id : Z)
    (database : string) : cluster_extension.Model :=
  {| cluster_extension.ID :=
       StringValue (Itoa id ++ "/" ++
                    ValueString (cluster_extension.Extension plan) ++ "/" ++
                    database);
     cluster_extension.ClusterID := cluster_extension.ClusterID plan;
     cluster_extension.Extension := cluster_extension.Extension plan;
     cluster_extension.Database := StringValue database |}.

Module sample_fallback.
Import sample.

Definition accepted : ConfigureResponse :=
  {| rs_Message := "configuration applied"; JobID := 0; rs_StreamURL := "";
     rs_Users := []; rs_DeletedUsers := []; rs_Databases := [];
     rs_DeletedDatabases := []; rs_Extensions := []; rs_Grants := [];
     rs_SourceIPs := []; rs_DeletedIPs := [] |}.

Definition known : Cluster :=
  {| ID := 7; TenantID := "rs-abc123"; Name := "test-cluster";
     Region := "eu-central"; DBType := ""; ServerType := "starter";
     NodeCount := 1; PostgreSQLVersion := 17; DBName := "appdb";
     DBUser := "admin"; DBPassword := ""; Host := ""; ConnectionString := "";
     Status := "active"; HealthStatus := ""; SourceIPs := "";
     ErrorMessage := ""; CreatedAt := Time0; UpdatedAt := Time0;
     Users := [ {| cu_Username := "app"; cu_Password := "s3cret" |} ];
     Databases := [ {| cd_DBName := "orders"; cd_Owner := "admin" |} ];
     Extensions := [ {| ce_Extension := "vector"; ce_Database := "appdb" |} ];
     Grants := []; Backup := None |}.

(** The configure call is applied at once and its response lists nothing;
    the cluster, when read, knows the user, the database and the
    extension. *)
Definition silent : Client :=
  served (fun _ rq =>
            if String.eqb (Method rq) "POST"
            then Responded 201 "" (PConfigure accepted)
            else Responded 200 "" (PCluster known)).

Definition newExtension : Decoded cluster_extension.Model :=
  {| value := {| cluster_extension.ID := StringUnknown;
                 cluster_extension.ClusterID := StringValue "7";
                 cluster_extension.Extension := StringValue "vector";
                 cluster_extension.Database := StringUnknown |};
     decoding := [] |}.

End sample_fallback.

(** The two node requests. *)
Definition addNodeRequest (c : Client) (id : Z) : Request :=
  request c "POST" (addNodePath id) None.

Definition removeNodeRequest (c : Client) (id : Z) (name : string) : Request :=
  request c "POST" (removeNodePath id)
    (Some (BRemoveNode {| NodeName := name; DeleteServer := true;
                          RemovePostgresData := true |})).

(** [stepped c ctx id rqs w w' done]: from [w] to [w'] the node requests
    [rqs] are carried out in order, one at a time.  A request is sent and,
    when it is accepted, followed by a wait of up to ten minutes for the
    jobs of the cluster; the next request is sent in the world in which
    that wait found the job list empty.  With [done = true] all of [rqs]
    were carried out that way; with [done = false] a request was refused,
    or the wait behind it ended with an error, and nothing came after. *)
Inductive stepped (c : Client) (ctx : Context) (id : Z)
  : list Request -> World -> World -> bool -> Prop :=
| stepped_all (w : World) : stepped c ctx id [] w w true
| stepped_refused (rq : Request) (rest : list Request) (w : World)
    (e : error) :
    received true (answer c ctx w rq) = Err e ->
    stepped c ctx id (rq :: rest) w (after c ctx w rq) false
| stepped_stalled (rq : Request) (rest : list Request) (w w1 : World)
    (p : Payload) (err : error) :
    received true (answer c ctx w rq) = Ok p ->
    awaited c ctx id (10 * Minute) (after c ctx w rq) (Some err) w1 ->
    stepped c ctx id (rq :: rest) w w1 false
| stepped_next (rq : Request) (rest : list Request) (w w1 w2 : World)
    (p : Payload) (done : bool) :
    received true (answer c ctx w rq) = Ok p ->
    awaited c ctx id (10 * Minute) (after c ctx w rq) None w1 ->
    stepped c ctx id rest w1 w2 done ->
    stepped c ctx id (rq :: rest) w w2 done.

(** The POST requests among some exchanges, in order. *)
Definition posted (tr : list Exchange) : list Request :=
  map sent (filter (fun x => String.eqb (Method (sent x)) "POST") tr).

(** What one node request and its wait do, from [w] to [w'], by the
    result [r] of the loop body: [None] to go on, [Some ds] to return
    with the diagnostics [ds]. *)
Definition one_step (c : Client) (ctx : Context) (id : Z) (rq : Request)
    (w : World) (r : option Diagnostics) (w' : World) : Prop :=
  match r with
  | None =>
      exists p,
        received true (answer c ctx w rq) = Ok p /\
        awaited c ctx id (10 * Minute) (after c ctx w rq) None w'
  | Some ds' =>
      HasError ds' = true /\
      ((exists e, received true (answer c ctx w rq) = Err e /\
                  w' = after c ctx w rq) \/
       (exists p err,
          received true (answer c ctx w rq) = Ok p /\
          awaited c ctx id (10 * Minute) (after c ctx w rq) (Some err) w'))
  end.

(** The node requests [rqs] were carried out one at a time from [w] to
    [w1], and they are the only POST requests sent in between: all of
    them when [done], those up to the one that failed otherwise. *)
Definition scaled (c : Client) (ctx : Context) (id : Z) (rqs : list Request)
    (w w1 : World) (done : bool) : Prop :=
  stepped c ctx id rqs w w1 done /\
  exists steps pending,
    trace w1 = (trace w ++ steps)%list /\
    rqs = (posted steps ++ pending)%list /\
    (done = true -> pending = []) /\ (done = false -> posted steps <> []).

(** How Update ends, with [resp] in [w'], after the scaling block ended
    in [w1]: with nothing more sent and an error when the block returned
    early; with one fetch of the cluster otherwise, whose answer is stored
    and whose refusal is an error. *)
Definition refreshed (c : Client) (ctx : Context) (id : Z) (done : bool)
    (w1 : World) (resp : Response cluster.Model) (w' : World) : Prop :=
  if done
  then w' = after c ctx w1 (clusterRequest c id) /\
       match received true (answer c ctx w1 (clusterRequest c id)) with
       | Ok _ => HasError (diagnostics resp) = false /\
                 exists st, state resp = SetState st
       | Err _ => HasError (diagnostics resp) = true /\
                  state resp = Untouched
       end
  else w' = w1 /\ HasError (diagnostics resp) = true /\
       state resp = Untouched.

Module sample_scale.
Import sample.

Definition sized (n : Z) : cluster.Model :=
  {| cluster.ID := StringValue "7"; cluster.Name := StringValue "test-cluster";
     cluster.Region := StringValue "eu-central";
     cluster.ServerType := StringValue "starter";
     cluster.NodeCount := Int64Value n;
     cluster.DBName := StringValue "appdb"; cluster.DBType := StringValue "";
     cluster.PostgreSQLVersion := Int64Value 17;
     cluster.Extensions := StringsNull; cluster.SubscriptionID := Int64Null;
     cluster.TenantID := StringValue "rs-abc123";
     cluster.Status := StringValue "active"; cluster.Host := StringValue "";
     cluster.ConnectionString := StringValue "";
     cluster.DBUser := StringValue "admin";
     cluster.DBPassword := StringValue "";
     cluster.CreatedAt := StringValue ""; cluster.UpdatedAt := StringValue "" |}.

Definition decoded (m : cluster.Model) : Decoded cluster.Model :=
  {| value := m; decoding := [] |}.

(** Node requests are accepted, the job list is always empty, and the
    cluster reads as tenant "rs-abc123". *)
Definition compliant : Client :=
  served (fun _ rq =>
            if String.eqb (Method rq) "POST"
            then Responded 200 "" PEmpty
            else if String.eqb (URL rq) "https://api.example/api/ha/7"
            then Responded 200 "" (PCluster (sample_cluster.inStatus "active"))
            else Responded 200 "" (PJobs {| Jobs := []; Count := 0 |})).

(** As [compliant], but the first removal is refused. *)
Definition refusing : Client :=
  served (fun _ rq =>
            if String.eqb (Method rq) "POST"
            then Responded 500 "node is the primary" PEmpty
            else if String.eqb (URL rq) "https://api.example/api/ha/7"
            then Responded 200 "" (PCluster (sample_cluster.inStatus "active"))
            else Responded 200 "" (PJobs {| Jobs := []; Count := 0 |})).

End sample_scale.

(** What an exchange asked for: method, URL and, for a node removal, the
    node it names. *)
Definition told (x : Exchange) : string * string * option string :=
  (Method (sent x), URL (sent x),
   match ReqBody (sent x) with
   | Some (BRemoveNode r) => Some (NodeName r)
   | _ => None
   end).

(* ================================================================= *)
(** * Vocabulary of the further properties *)

(** The identifiers the creates store. *)
Definition twoPartID (clusterID : Z) (name : string) : string :=
  Itoa clusterID ++ "/" ++ name.

Definition threePartID (clusterID : Z) (first second : string) : string :=
  Itoa clusterID ++ "/" ++ first ++ "/" ++ second.

(** The error WaitForJobComplete makes of a refused poll. *)
Definition pollFailed (err : error) : error :=
  Errorf "polling job status: %w" [AErr err].

Module sample_vanished.
Import sample.

(** The configure call is accepted with job 100; by the time the job
    list is asked for, the cluster is gone. *)
Definition goneWhilePolling : Client :=
  served (fun _ rq =>
            if String.eqb (Method rq) "POST"
            then Responded 201 "" (PConfigure sample_jobs_failed.started)
            else Responded 404 "cluster not found" PEmpty).

End sample_vanished.

(** Between [w] and [w'] nothing was sent, or one GET without a body. *)
Definition fetch_only (w w' : World) : Prop :=
  trace w' = trace w \/
  exists x, trace w' = (trace w ++ [x])%list /\
            Method (sent x) = "GET" /\ ReqBody (sent x) = None.

(** [stable read]: Read is idempotent.  Let a first Read keep the
    resource, with the state [st1], on a fetch answered with [p] (whose
    cluster identifier fits a Go [int], as every decoded one does).  A
    second Read, given [st1], by whatever client and in whatever world,
    stores [st1] again if its fetch is answered with [p] as well. *)
Definition stable {S : Type}
    (read : Client -> Context -> Decoded S -> M (Response S)) : Prop :=
  forall c1 ctx1 w1 w1' c2 ctx2 w2 st ds resp st1 x p,
    read c1 ctx1 {| value := st; decoding := ds |} w1 = Some (resp, w1') ->
    state resp = SetState st1 ->
    trace w1' = (trace w1 ++ [x])%list ->
    received true (got x) = Ok p ->
    MinInt <= client_types.ID (asCluster p) <= MaxInt ->
    (forall rq, received true (answer c2 ctx2 w2 rq) = Ok p) ->
    exists w2',
      read c2 ctx2 {| value := st1; decoding := ds |} w2
        = Some (respond ds (SetState st1), w2').

Module sample_steady.
Import sample.

(** Every request is answered with the same cluster. *)
Definition steady : Client :=
  served (fun _ _ => Responded 200 "" (PCluster sample_fallback.known)).

(** What Read makes of that cluster, from a state with [n] nodes. *)
Definition refreshedFrom (n : Z) : cluster.Model :=
  cluster.withExtensions
    (cluster.mapClusterToState sample_fallback.known (sample_scale.sized n))
    StringsNull.

End sample_steady.

(** Every operation that examines its input before it acts: the eleven
    that go through the configure endpoint, and the rest. *)
Inductive Operation : Type :=
| Configuring (op : ConfigureOp)
| ClusterRead (st : Decoded cluster.Model)
| ClusterUpdate (plan st : Decoded cluster.Model)
| ClusterDelete (st : Decoded cluster.Model)
| ClusterLookup (config : Decoded cluster.data_source.Model)
| UserRead (st : Decoded cluster_user.Model)
| DatabaseRead (st : Decoded cluster_database.Model)
| ExtensionRead (st : Decoded cluster_extension.Model)
| GrantRead (st : Decoded cluster_grant.Model)
| FirewallRead (st : Decoded cluster_firewall.Model)
| BackupCreate (plan : Decoded cluster_backup_config.Model)
| BackupRead (st : Decoded cluster_backup_config.Model)
| BackupUpdate (plan : Decoded cluster_backup_config.Model)
| BackupDelete (st : Decoded cluster_backup_config.Model).

(** Run the operation; keep its diagnostics. *)
Definition run (c : Client) (ctx : Context) (op : Operation)
  : M Diagnostics :=
  match op with
  | Configuring op => perform c ctx op
  | ClusterRead st => reported (cluster.Read c ctx st)
  | ClusterUpdate plan st => reported (cluster.Update c ctx plan st)
  | ClusterDelete st => reported (cluster.Delete c ctx st)
  | ClusterLookup config => reported (cluster.data_source.Read c ctx config)
  | UserRead st => reported (cluster_user.Read c ctx st)
  | DatabaseRead st => reported (cluster_database.Read c ctx st)
  | ExtensionRead st => reported (cluster_extension.Read c ctx st)
  | GrantRead st => reported (cluster_grant.Read c ctx st)
  | FirewallRead st => reported (cluster_firewall.Read c ctx st)
  | BackupCreate plan => reported (cluster_backup_config.Create c ctx plan)
  | BackupRead st => reported (cluster_backup_config.Read c ctx st)
  | BackupUpdate plan => reported (cluster_backup_config.Update c ctx plan)
  | BackupDelete st => reported (cluster_backup_config.Delete c ctx st)
  end.

(** The diagnostics of decoding, and of converting, the input. *)
Definition checked (op : Operation) : Diagnostics :=
  match op with
  | Configuring op => (decoding_of op ++ converting_of op)%list
  | ClusterUpdate plan st => (decoding plan ++ decoding st)%list
  | ClusterRead d | ClusterDelete d => decoding d
  | ClusterLookup d => decoding d
  | UserRead d => decoding d
  | DatabaseRead d => decoding d
  | ExtensionRead d => decoding d
  | GrantRead d => decoding d
  | FirewallRead d => decoding d
  | BackupCreate d | BackupRead d | BackupUpdate d | BackupDelete d =>
      decoding d
  end.

Definition clusterOf {A : Type} (parsed : result (Z * A)) : result Z :=
  match parsed with
  | Ok (id, _) => Ok id
  | Err e => Err e
  end.

(** The cluster the operation addresses, as it reads it from its input. *)
Definition addressed (op : Operation) : result Z :=
  match op with
  | Configuring op => target op
  | ClusterRead d | ClusterDelete d =>
      Atoi (ValueString (cluster.ID (value d)))
  | ClusterUpdate _ d => Atoi (ValueString (cluster.ID (value d)))
  | ClusterLookup d =>
      Atoi (ValueString (cluster.data_source.ID (value d)))
  | UserRead d =>
      clusterOf (cluster_user.parseUserID
                   (ValueString (cluster_user.ID (value d))))
  | DatabaseRead d =>
      clusterOf (cluster_database.parseDatabaseID
                   (ValueString (cluster_database.ID (value d))))
  | ExtensionRead d =>
      match cluster_extension.parseExtensionID
              (ValueString (cluster_extension.ID (value d))) with
      | Ok (id, _, _) => Ok id
      | Err e => Err e
      end
  | GrantRead d =>
      match cluster_grant.parseGrantID
              (ValueString (cluster_grant.ID (value d))) with
      | Ok (id, _, _) => Ok id
      | Err e => Err e
      end
  | FirewallRead d =>
      Atoi (ValueString (cluster_firewall.ClusterID (value d)))
  | BackupCreate d | BackupRead d | BackupUpdate d | BackupDelete d =>
      Atoi (ValueString (cluster_backup_config.ClusterID (value d)))
  end.

(** A run of [k] times the character [ch]. *)
Fixpoint run_of (ch : ascii) (k : nat) : string :=
  match k with
  | O => EmptyString
  | S k' => String ch (run_of ch k')
  end.

(** The first of the candidates that is not the empty string, the empty
    string when there is none. *)
Fixpoint firstNonEmpty (candidates : list string) : string :=
  match candidates with
  | [] => ""
  | s :: rest => if String.eqb s "" then firstNonEmpty rest else s
  end.

Module sample_provider.

(** An environment with an API key and nothing else. *)
Definition keyOnly (name : string) : string :=
  if String.eqb name "RIVESTACK_API_KEY" then "rsk_from_env" else "".

Definition network (_ : Context) (_ : World) (_ : Request) : Reply :=
  {| outcome := Responded 200 "" PEmpty; elapsed := 0 |}.

(** A provider block that sets the base URL only. *)
Definition urlOnly : Decoded provider.Model :=
  {| value := {| provider.APIKey := StringNull;
                 provider.BaseURL := StringValue "https://staging.example/" |};
     decoding := [] |}.

End sample_provider.

(** The bytes of a string, and an address fit for the allowlist: not
    empty, without white space around it, without a comma in it. *)
Definition plainAddress (ip : string) : Prop :=
  ip <> "" /\ TrimSpace ip = ip /\ ~ In ","%char (list_ascii_of_string ip).

(** A node request that a change from [old] to [new] nodes calls for: an
    add-node request when growing; when shrinking, the removal of a node
    numbered above [new] and no higher than [old]. *)
Definition calledFor (c : Client) (id old new : Z) (rq : Request) : Prop :=
  if old <? new then rq = addNodeRequest c id
  else exists tenant i,
         new < i <= old /\
         rq = removeNodeRequest c id (cluster.nodeName tenant i).

(** The state of a backup configuration with the given identifiers and
    the values of [config]. *)
Definition backupState (id clusterID : tfString) (config : BackupConfig)
  : cluster_backup_config.Model :=
  {| cluster_backup_config.ID := id;
     cluster_backup_config.ClusterID := clusterID;
     cluster_backup_config.Enabled := BoolValue (bc_Enabled config);
     cluster_backup_config.Schedule := StringValue (bc_Schedule config);
     cluster_backup_config.RetentionFull :=
       Int64Value (bc_RetentionFull config);
     cluster_backup_config.UpdatedAt :=
       StringValue (FormatRFC3339 (bc_UpdatedAt config)) |}.

(** The value of a planned integer attribute, when the plan fixes it. *)
Definition plannedInt64 (v : tfInt64) : option Z :=
  match v with Int64Value n => Some n | _ => None end.

(** What a write of the backup configuration leaves behind, by the
    answer to its one request: the answer's values under the given
    identifier, or an error and the state as it was. *)
Definition backupWritten (ds : Diagnostics) (id clusterID : tfString)
    (x : Exchange) (resp : Response cluster_backup_config.Model) : Prop :=
  match received true (got x) with
  | Ok p =>
      resp = respond ds (SetState (backupState id clusterID (asBackup p)))
  | Err _ => HasError (diagnostics resp) = true /\ state resp = Untouched
  end.

Module sample_backup.
Import sample.

Definition nightly : BackupConfig :=
  {| bc_ID := 1; bc_ClusterID := 7; bc_Enabled := true;
     bc_Schedule := "0 3 * * *"; bc_RetentionFull := 14;
     bc_UpdatedAt := "2025-01-01T03:00:00Z" |}.

(** The API answers every request with the nightly configuration. *)
Definition configured : Client :=
  served (fun _ _ => Responded 200 "" (PBackup nightly)).

(** A plan that enables backups and leaves the rest to the API. *)
Definition enable : Decoded cluster_backup_config.Model :=
  {| value := {| cluster_backup_config.ID := StringUnknown;
                 cluster_backup_config.ClusterID := StringValue "7";
                 cluster_backup_config.Enabled := BoolValue true;
                 cluster_backup_config.Schedule := StringUnknown;
                 cluster_backup_config.RetentionFull := Int64Unknown;
                 cluster_backup_config.UpdatedAt := StringUnknown |};
     decoding := [] |}.

End sample_backup.

(** The diagnostics an operation ends with on a cluster identifier that
    does not parse. *)
Definition invalidClusterID (ds : Diagnostics) (id : string) (err : error)
  : Diagnostics :=
  AddError ds "Invalid cluster ID"
    (Sprintf "Could not parse cluster ID %q: %s" [AStr id; AErr err]).

(** The diagnostics a Read ends with on a stored identifier whose
    cluster part does not parse. *)
Definition invalidClusterPart (id : string) (err : error) : Diagnostics :=
  invalidResourceID [] id (Errorf "invalid cluster ID: %w" [AErr err]).

(** What a Read does with the text [part] that names the cluster: it
    ends with the diagnostics [refused e] where it stands when
    strconv.Atoi rejects the text with [e], and sends its one request,
    [fetch n], when the text is the number [n]. *)
Definition readExamines {S : Type} (read : M (Response S))
    (fetch : Z -> Request) (part : string)
    (refused : error -> Diagnostics) (w : World) : Prop :=
  match Atoi part with
  | Err e => read w = Some (respond (refused e) Untouched, w)
  | Ok n =>
      exists resp w' x,
        read w = Some (resp, w') /\ trace w' = (trace w ++ [x])%list /\
        sent x = fetch n
  end.

(** What the first Read after an import does with an identifier that is
    the cluster's alone. *)
Definition checkedByRead {S : Type} (read : M (Response S))
    (fetch : Z -> Request) (id : string) (w : World) : Prop :=
  readExamines read fetch id (invalidClusterID [] id) w.

(** An import that was turned away: it reports an error and leaves the
    state alone. *)
Definition turnedAway {S : Type} (r : Response S) : Prop :=
  HasError (diagnostics r) = true /\ state r = Untouched.

(** The sixteen attributes the cluster resource and the cluster data
    source have in common hold the same values. *)
Definition sameView (r : cluster.Model) (d : cluster.data_source.Model)
  : Prop :=
  cluster.ID r = cluster.data_source.ID d /\
  cluster.Name r = cluster.data_source.Name d /\
  cluster.TenantID r = cluster.data_source.TenantID d /\
  cluster.Region r = cluster.data_source.Region d /\
  cluster.DBType r = cluster.data_source.DBType d /\
  cluster.ServerType r = cluster.data_source.ServerType d /\
  cluster.NodeCount r = cluster.data_source.NodeCount d /\
  cluster.PostgreSQLVersion r = cluster.data_source.PostgreSQLVersion d /\
  cluster.DBName r = cluster.data_source.DBName d /\
  cluster.DBUser r = cluster.data_source.DBUser d /\
  cluster.DBPassword r = cluster.data_source.DBPassword d /\
  cluster.Host r = cluster.data_source.Host d /\
  cluster.ConnectionString r = cluster.data_source.ConnectionString d /\
  cluster.Status r = cluster.data_source.Status d /\
  cluster.CreatedAt r = cluster.data_source.CreatedAt d /\
  cluster.UpdatedAt r = cluster.data_source.UpdatedAt d.

Module sample_lookup.

(** A data-source configuration that names cluster 7. *)
Definition seven : Decoded cluster.data_source.Model :=
  {| value :=
       {| cluster.data_source.ID := StringValue "7";
          cluster.data_source.Name := StringNull;
          cluster.data_source.TenantID := StringNull;
          cluster.data_source.Region := StringNull;
          cluster.data_source.DBType := StringNull;
          cluster.data_source.ServerType := StringNull;
          cluster.data_source.NodeCount := Int64Null;
          cluster.data_source.PostgreSQLVersion := Int64Null;
          cluster.data_source.DBName := StringNull;
          cluster.data_source.DBUser := StringNull;
          cluster.data_source.DBPassword := StringNull;
          cluster.data_source.Host := StringNull;
          cluster.data_source.ConnectionString := StringNull;
          cluster.data_source.Status := StringNull;
          cluster.data_source.HealthStatus := StringNull;
          cluster.data_source.CreatedAt := StringNull;
          cluster.data_source.UpdatedAt := StringNull |};
     decoding := [] |}.

End sample_lookup.

(** The six places of one cluster that the client addresses. *)
Inductive Endpoint : Type :=
| ClusterItself
| ItsConfiguration
| ItsActiveJobs
| ItsNewNode
| ItsRemovedNode
| ItsBackupConfig.

Definition pathOf (e : Endpoint) (clusterID : Z) : string :=
  match e with
  | ClusterItself => clusterPath clusterID
  | ItsConfiguration => configurePath clusterID
  | ItsActiveJobs => jobsPath clusterID
  | ItsNewNode => addNodePath clusterID
  | ItsRemovedNode => removeNodePath clusterID
  | ItsBackupConfig => backupPath clusterID
  end.

Module sample_grant.
Import sample.

(** A grant of read access on "appdb" to the user "app" of cluster 7. *)
Definition readOnly : Decoded cluster_grant.Model :=
  {| value := {| cluster_grant.ID := StringUnknown;
                 cluster_grant.ClusterID := StringValue "7";
                 cluster_grant.Username := StringValue "app";
                 cluster_grant.Database := StringValue "appdb";
                 cluster_grant.Access := StringValue "read" |};
     decoding := [] |}.

End sample_grant.

Module sample_allowlist.
Import sample.

(** Cluster 7 with the given allowlist text. *)
Definition guarded (sourceIPs : string) : Cluster :=
  {| ID := 7; TenantID := "rs-abc123"; Name := "test-cluster";
     Region := "eu-central"; DBType := ""; ServerType := "starter";
     NodeCount := 3; PostgreSQLVersion := 17; DBName := "appdb";
     DBUser := "admin"; DBPassword := ""; Host := ""; ConnectionString := "";
     Status := "active"; HealthStatus := ""; SourceIPs := sourceIPs;
     ErrorMessage := ""; CreatedAt := Time0; UpdatedAt := Time0; Users := [];
     Databases := []; Extensions := []; Grants := []; Backup := None |}.

Definition serving (sourceIPs : string) : Client :=
  served (fun _ _ => Responded 200 "" (PCluster (guarded sourceIPs))).

(** The state of the firewall of cluster 7, as an import leaves it. *)
Definition imported : Decoded cluster_firewall.Model :=
  {| value := {| cluster_firewall.ID := StringValue "7";
                 cluster_firewall.ClusterID := StringValue "7";
                 cluster_firewall.SourceIPs := StringsNull |};
     decoding := [] |}.

End sample_allowlist.

(** What Read of the firewall ends with once it has derived the addresses
    [ips]: with pairwise distinct ones, it stores them as a set that
    converts back to [ips] without a diagnostic (the null set for none),
    and adds no diagnostic; with a repeated one it stores nothing and
    reports "Duplicate Set Element". *)
Definition allowlistStored (st : Decoded cluster_firewall.Model)
    (ips : list string) (resp : Response cluster_firewall.Model) : Prop :=
  (NoDup ips ->
   diagnostics resp = decoding st /\
   exists set,
     state resp =
       SetState {| cluster_firewall.ID := cluster_firewall.ID (value st);
                   cluster_firewall.ClusterID :=
                     cluster_firewall.ClusterID (value st);
                   cluster_firewall.SourceIPs := set |} /\
     ElementsAs set = ([], ips) /\
     (ips = [] -> set = StringsNull)) /\
  (~ NoDup ips ->
   state resp = Untouched /\ HasError (diagnostics resp) = true /\
   exists d, In d (diagnostics resp) /\
             summary d = "Duplicate Set Element").
(* ================================================================= *)
(** * Properties *)

(** ** Running computations *)

Ltac answered := repeat eexists; reflexivity.

Section Running.

Context {A B : Type}.

Lemma bind_Some (m : M A) (k : A -> M B) (w : World) (r : B * World) :
  bind m k w = Some r <->
  exists a w1, m w = Some (a, w1) /\ k a w1 = Some r.
Proof.
  unfold bind. split.
  - destruct (m w) as [[a w1]|] eqn:E; [|discriminate].
    intros H. exists a, w1. split; [reflexivity|exact H].
  - intros (a & w1 & E & H). rewrite E. exact H.
Qed.

Lemma bind_run (m : M A) (k : A -> M B) (w w1 : World) (a : A) :
  m w = Some (a, w1) -> bind m k w = k a w1.
Proof. intros E. unfold bind. rewrite E. reflexivity. Qed.

Lemma bind_bind {C : Type} (m : M A) (f : A -> M B) (g : B -> M C)
    (w : World) :
  bind (bind m f) g w = bind m (fun a => bind (f a) g) w.
Proof. unfold bind. destruct (m w) as [[a w1]|]; reflexivity. Qed.

Lemma bind_total (m : M A) (k : A -> M B) (w : World) :
  (exists r, m w = Some r) ->
  (forall a w1, m w = Some (a, w1) -> exists r, k a w1 = Some r) ->
  exists r, bind m k w = Some r.
Proof.
  intros [[a w1] E] Hk. unfold bind. rewrite E. apply (Hk a w1 E).
Qed.

End Running.

(** ** Loops *)

Section Loops.

Context {A : Type}.
Variable body : M (Step A).

Lemma for_S (fuel : nat) (w : World) :
  for_ (S fuel) body w =
  match body w with
  | Some (Return a, w') => Some (a, w')
  | Some (Continue, w') => for_ fuel body w'
  | None => None
  end.
Proof. reflexivity. Qed.

(** More fuel never changes a result. *)
Lemma for_more (fuel fuel' : nat) (w : World) (r : A * World) :
  for_ fuel body w = Some r -> (fuel <= fuel')%nat ->
  for_ fuel' body w = Some r.
Proof.
  revert fuel' w. induction fuel as [|fuel IH]; intros fuel' w H Hle.
  - discriminate.
  - destruct fuel' as [|fuel']; [lia|].
    rewrite for_S in *.
    destruct (body w) as [[[a|] w']|]; try assumption.
    apply IH; [assumption|lia].
Qed.

Lemma for_agree (fuel fuel' : nat) (w : World) (r r' : A * World) :
  for_ fuel body w = Some r -> for_ fuel' body w = Some r' -> r = r'.
Proof.
  intros H H'.
  apply for_more with (fuel' := Nat.max fuel fuel') in H; [|lia].
  apply for_more with (fuel' := Nat.max fuel fuel') in H'; [|lia].
  congruence.
Qed.

(** A loop whose passes all answer, and whose every [Continue] lowers a
    measure, answers once the fuel exceeds the measure. *)
Lemma for_total (mu : World -> nat) :
  (forall w, exists s w', body w = Some (s, w')) ->
  (forall w w', body w = Some (Continue, w') -> (mu w' < mu w)%nat) ->
  forall fuel w, (mu w < fuel)%nat -> exists r, for_ fuel body w = Some r.
Proof.
  intros Hbody Hdec. induction fuel as [|fuel IH]; intros w Hlt; [lia|].
  rewrite for_S. destruct (Hbody w) as (s & w' & E). rewrite E.
  destruct s as [a|].
  - eexists; reflexivity.
  - apply IH. specialize (Hdec w w' E). lia.
Qed.

(** Reasoning by invariant: [I] holds on entry and across every
    [Continue]; every [Return] from a state in [I] establishes [Q]. *)
Lemma for_invariant (I : World -> Prop) (Q : A -> World -> Prop) :
  (forall w w', I w -> body w = Some (Continue, w') -> I w') ->
  (forall w a w', I w -> body w = Some (Return a, w') -> Q a w') ->
  forall fuel w a w', I w -> for_ fuel body w = Some (a, w') -> Q a w'.
Proof.
  intros Hcont Hret. induction fuel as [|fuel IH]; intros w a w' HI H.
  - discriminate.
  - rewrite for_S in H.
    destruct (body w) as [[[a0|] w0]|] eqn:E; try discriminate.
    + inversion H; subst. eapply Hret; eauto.
    + eapply IH; [|exact H]. eapply Hcont; eauto.
Qed.

End Loops.

(** ** The clock and the [select] *)

Lemma select_quiet (ctx : Context) (d : Z) (w : World) :
  quiet ctx d w -> selectDoneOrAfter ctx d w = Some (None, slept d w).
Proof.
  unfold quiet, selectDoneOrAfter, slept.
  destruct (done_at ctx) as [t|]; [|reflexivity].
  intros H. destruct (Z.leb_spec t (now w + d)); [lia|reflexivity].
Qed.

Lemma select_cases (ctx : Context) (d : Z) (w : World) :
  (quiet ctx d w /\ selectDoneOrAfter ctx d w = Some (None, slept d w)) \/
  (exists w', selectDoneOrAfter ctx d w = Some (Some ContextDone, w') /\
              trace w' = trace w /\ logs w' = logs w /\ now w <= now w').
Proof.
  unfold quiet, selectDoneOrAfter, slept.
  destruct (done_at ctx) as [t|]; [|left; split; [exact I|reflexivity]].
  destruct (Z.leb_spec t (now w + d)).
  - right. eexists. split; [reflexivity|]. cbn. repeat split; lia.
  - left. split; [lia|reflexivity].
Qed.

Lemma budget_decreases (deadline interval t t' : Z) :
  0 < interval -> t <= deadline -> t + interval <= t' ->
  (budget deadline interval t' < budget deadline interval t)%nat.
Proof.
  intros Hi Ht Ht'. unfold budget.
  destruct (Z.leb_spec t deadline); [|lia].
  destruct (Z.leb_spec t' deadline); [|lia].
  assert (H1 : (deadline - t') / interval <= (deadline - t - interval) / interval)
    by (apply Z.div_le_mono; lia).
  assert (H2 : (deadline - t - interval) / interval
               = (deadline - t) / interval - 1).
  { replace (deadline - t - interval)
      with ((deadline - t) + (-1) * interval) by lia.
    rewrite Z.div_add by lia. lia. }
  assert (H3 : 0 <= (deadline - t') / interval)
    by (apply Z.div_pos; lia).
  lia.
Qed.

Lemma budget_start (timeout interval t : Z) :
  0 < interval ->
  (budget (t + timeout) interval t < passes timeout interval)%nat.
Proof.
  intros Hi. unfold budget, passes.
  destruct (Z.leb_spec t (t + timeout)); [|lia].
  replace (t + timeout - t) with timeout by lia. lia.
Qed.

(** ** The client's single requests *)

Section Requests.

Variable c : Client.
Variable ctx : Context.

Lemma doRequest_run (method path : string) (body : option Body)
    (want : bool) (w : World) :
  doRequest c ctx method path body want w =
  Some (received want (answer c ctx w (request c method path body)),
        after c ctx w (request c method path body)).
Proof. reflexivity. Qed.

Lemma ConfigureCluster_total (id : Z) (req : ConfigureRequest) (w : World) :
  exists r,
    ConfigureCluster c ctx id req w =
    Some (r, after c ctx w (request c "POST" (configurePath id)
                                    (Some (BConfigure req)))).
Proof.
  unfold ConfigureCluster. rewrite (bind_run _ _ _ _ _ (doRequest_run _ _ _ _ _)).
  eexists. reflexivity.
Qed.

Lemma GetCluster_run (id : Z) (w : World) :
  GetCluster c ctx id w =
  Some (match received true (answer c ctx w (request c "GET" (clusterPath id) None)) with
        | Err err => Err err
        | Ok p => Ok (asCluster p)
        end,
        after c ctx w (request c "GET" (clusterPath id) None)).
Proof. reflexivity. Qed.

Lemma after_now (w : World) (rq : Request) : now w <= now (after c ctx w rq).
Proof. cbn. lia. Qed.

End Requests.

(** ** ConfigureWithRetry *)

Section Retry.

Variable c : Client.
Variable ctx : Context.
Variable clusterID : Z.
Variable req : ConfigureRequest.

Lemma ConfigureWithRetry_loop (maxWait : Z) (w : World) :
  ConfigureWithRetry c ctx clusterID req maxWait w =
  for_ (passes maxWait (10 * Second))
       (ConfigureWithRetry_pass c ctx clusterID req (now w + maxWait)
                                (10 * Second)) w.
Proof. reflexivity. Qed.

(** What one pass does, by the answer to its attempt. *)
Lemma retry_pass_ok (deadline : Z) (w w1 : World) (resp : ConfigureResponse) :
  ConfigureCluster c ctx clusterID req w = Some (Ok resp, w1) ->
  ConfigureWithRetry_pass c ctx clusterID req deadline (10 * Second) w
  = Some (Return (Ok resp), w1).
Proof.
  intros H. unfold ConfigureWithRetry_pass.
  rewrite (bind_run _ _ _ _ _ H). reflexivity.
Qed.

Lemma retry_pass_other (deadline : Z) (w w1 : World) (e : error) :
  ConfigureCluster c ctx clusterID req w = Some (Err e, w1) ->
  IsConflict e = false ->
  ConfigureWithRetry_pass c ctx clusterID req deadline (10 * Second) w
  = Some (Return (Err e), w1).
Proof.
  intros H Hc. unfold ConfigureWithRetry_pass.
  rewrite (bind_run _ _ _ _ _ H), Hc. reflexivity.
Qed.

Lemma retry_pass_late (deadline : Z) (w w1 : World) (e : error) :
  ConfigureCluster c ctx clusterID req w = Some (Err e, w1) ->
  IsConflict e = true ->
  deadline < now w1 ->
  ConfigureWithRetry_pass c ctx clusterID req deadline (10 * Second) w
  = Some (Return (Err (retryTimeout e)), w1).
Proof.
  intros H Hc Hlate. unfold ConfigureWithRetry_pass.
  rewrite (bind_run _ _ _ _ _ H), Hc. cbn [negb].
  unfold bind at 1, Now.
  destruct (Z.ltb_spec deadline (now w1)); [reflexivity|lia].
Qed.

Lemma retry_pass_again (deadline : Z) (w w1 : World) (e : error) :
  ConfigureCluster c ctx clusterID req w = Some (Err e, w1) ->
  IsConflict e = true ->
  now w1 <= deadline ->
  quiet ctx (10 * Second) w1 ->
  ConfigureWithRetry_pass c ctx clusterID req deadline (10 * Second) w
  = Some (Continue, slept (10 * Second) w1).
Proof.
  intros H Hc Hearly Hq. unfold ConfigureWithRetry_pass.
  rewrite (bind_run _ _ _ _ _ H), Hc. cbn [negb].
  unfold bind at 1, Now.
  destruct (Z.ltb_spec deadline (now w1)); [lia|].
  rewrite (bind_run _ _ _ _ _ (select_quiet _ _ _ Hq)). reflexivity.
Qed.

Lemma retry_pass_total (deadline : Z) (w : World) :
  exists s w',
    ConfigureWithRetry_pass c ctx clusterID req deadline (10 * Second) w
    = Some (s, w').
Proof.
  destruct (ConfigureCluster_total c ctx clusterID req w) as [r H].
  remember (after c ctx w _) as w1 eqn:Hw1 in H.
  destruct r as [resp|e].
  - rewrite (retry_pass_ok _ _ _ _ H). answered.
  - destruct (IsConflict e) eqn:Hc.
    + unfold ConfigureWithRetry_pass.
      rewrite (bind_run _ _ _ _ _ H), Hc. cbn [negb].
      unfold bind at 1, Now.
      destruct (deadline <? now w1); [answered|].
      destruct (select_cases ctx (10 * Second) w1)
        as [[_ E]|(w' & E & _)];
        rewrite (bind_run _ _ _ _ _ E); answered.
    + rewrite (retry_pass_other _ _ _ _ H Hc). answered.
Qed.

Lemma retry_pass_continue (deadline : Z) (w w' : World) :
  ConfigureWithRetry_pass c ctx clusterID req deadline (10 * Second) w
  = Some (Continue, w') ->
  now w <= deadline /\ now w + 10 * Second <= now w'.
Proof.
  destruct (ConfigureCluster_total c ctx clusterID req w) as [r H].
  pose proof (after_now c ctx w (configureRequest c clusterID req)) as Hmono.
  unfold configureRequest in Hmono.
  remember (after c ctx w _) as w1 eqn:Hw1 in H, Hmono.
  unfold ConfigureWithRetry_pass. rewrite (bind_run _ _ _ _ _ H).
  destruct r as [resp|e]; [discriminate|].
  destruct (IsConflict e); [|discriminate]. cbn [negb].
  unfold bind at 1, Now.
  destruct (Z.ltb_spec deadline (now w1)); [discriminate|].
  destruct (select_cases ctx (10 * Second) w1)
    as [[_ E]|(w2 & E & _)];
    rewrite (bind_run _ _ _ _ _ E); intros Heq; inversion Heq; subst w'.
  cbn [now slept] in *. unfold Second in *. split; lia.
Qed.

(** ConfigureWithRetry always comes back. *)
Lemma ConfigureWithRetry_total (maxWait : Z) (w : World) :
  exists r, ConfigureWithRetry c ctx clusterID req maxWait w = Some r.
Proof.
  rewrite ConfigureWithRetry_loop.
  apply for_total
    with (mu := fun w' => budget (now w + maxWait) (10 * Second) (now w')).
  - intros w0. apply retry_pass_total.
  - intros w0 w' H. apply retry_pass_continue in H. destruct H.
    apply budget_decreases; [reflexivity|assumption|assumption].
  - apply budget_start. reflexivity.
Qed.

(** [k] absorbed conflicts are [k] passes of the loop. *)
Lemma conflicted_passes (deadline : Z) (k : nat) (w wk : World) :
  conflicted c ctx clusterID req deadline k w wk ->
  forall fuel,
    for_ (k + fuel)
         (ConfigureWithRetry_pass c ctx clusterID req deadline (10 * Second)) w
    = for_ fuel
        (ConfigureWithRetry_pass c ctx clusterID req deadline (10 * Second)) wk.
Proof.
  induction 1 as [w|k w wk w1 e Hrun IH Hcall Hc Hearly Hq]; intros fuel.
  - reflexivity.
  - replace (S k + fuel)%nat with (k + S fuel)%nat by lia.
    rewrite IH, for_S.
    rewrite (retry_pass_again _ _ _ _ Hcall Hc Hearly Hq). reflexivity.
Qed.

Lemma conflicted_trace (deadline : Z) (k : nat) (w wk : World) :
  conflicted c ctx clusterID req deadline k w wk ->
  exists attempts,
    trace wk = (trace w ++ attempts)%list /\ List.length attempts = k /\
    Forall (fun x => sent x = configureRequest c clusterID req) attempts.
Proof.
  induction 1 as [w|k w wk w1 e Hrun IH Hcall Hc Hearly Hq].
  - exists []. rewrite app_nil_r. repeat split. constructor.
  - destruct IH as (attempts & Htr & Hlen & Hall).
    destruct (ConfigureCluster_total c ctx clusterID req wk) as [r Hr].
    rewrite Hr in Hcall. inversion Hcall; subst r w1.
    eexists (attempts ++ [_])%list. cbn [trace slept after].
    rewrite Htr, <- app_assoc. split; [reflexivity|].
    split; [rewrite List.length_app; cbn; lia|].
    apply Forall_app. split; [assumption|]. constructor; [reflexivity|constructor].
Qed.

(** After [k] absorbed conflicts, a pass that returns ends the call. *)
Lemma retry_finish (maxWait : Z) (k : nat) (w wk w' : World)
    (out : result ConfigureResponse) :
  conflicted c ctx clusterID req (now w + maxWait) k w wk ->
  ConfigureWithRetry_pass c ctx clusterID req (now w + maxWait)
                          (10 * Second) wk = Some (Return out, w') ->
  ConfigureWithRetry c ctx clusterID req maxWait w = Some (out, w').
Proof.
  intros Hrun Hpass.
  destruct (ConfigureWithRetry_total maxWait w) as [r' Hr'].
  rewrite Hr'. f_equal.
  rewrite ConfigureWithRetry_loop in Hr'.
  eapply for_agree; [exact Hr'|].
  rewrite (conflicted_passes _ _ _ _ Hrun 1), for_S, Hpass.
  reflexivity.
Qed.

(** The attempt after [k] absorbed conflicts decides, unless it is one
    more conflict. *)
Lemma retry_settles (maxWait : Z) (k : nat) (w wk w' : World)
    (r : result ConfigureResponse) :
  conflicted c ctx clusterID req (now w + maxWait) k w wk ->
  ConfigureCluster c ctx clusterID req wk = Some (r, w') ->
  match r with Ok _ => True | Err e => IsConflict e = false end ->
  ConfigureWithRetry c ctx clusterID req maxWait w = Some (r, w').
Proof.
  intros Hrun Hcall Hr. eapply retry_finish; [exact Hrun|].
  destruct r as [resp|e].
  - eapply retry_pass_ok; eassumption.
  - eapply retry_pass_other; eassumption.
Qed.

(** Every request of ConfigureWithRetry is the same configure request;
    there is at least one; all but the last were answered with a conflict,
    and the result is read off the last. *)
Lemma ConfigureWithRetry_trace (maxWait : Z) (w w' : World)
    (r : result ConfigureResponse) :
  ConfigureWithRetry c ctx clusterID req maxWait w = Some (r, w') ->
  exists attempts last,
    trace w' = (trace w ++ attempts ++ [last])%list /\ logs w' = logs w /\
    Forall (fun x => sent x = configureRequest c clusterID req)
           (attempts ++ [last])%list /\
    Forall busy attempts /\
    retry_ends (got last) r.
Proof.
  rewrite ConfigureWithRetry_loop. intros Hloop.
  refine (for_invariant _
    (fun w1 => exists attempts,
       trace w1 = (trace w ++ attempts)%list /\ logs w1 = logs w /\
       Forall (fun x => sent x = configureRequest c clusterID req) attempts /\
       Forall busy attempts)
    (fun r w' => exists attempts last,
       trace w' = (trace w ++ attempts ++ [last])%list /\ logs w' = logs w /\
       Forall (fun x => sent x = configureRequest c clusterID req)
              (attempts ++ [last])%list /\
       Forall busy attempts /\
       retry_ends (got last) r)
    _ _ _ w r w' _ Hloop).
  - intros w1 w2 (attempts & Htr & Hlg & Hsent & Hbusy) H.
    unfold ConfigureWithRetry_pass, ConfigureCluster in H.
    rewrite (bind_run _ _ _ _ _
               (bind_run _ _ _ _ _ (doRequest_run c ctx _ _ _ _ w1))) in H.
    fold (configureRequest c clusterID req) in H.
    unfold ret at 1 in H.
    destruct (received true (answer c ctx w1 (configureRequest c clusterID req)))
      as [p|e] eqn:Hrecv; [discriminate|].
    destruct (IsConflict e) eqn:Hc; [|discriminate]. cbn [negb] in H.
    unfold bind at 1, Now in H.
    destruct (now w + maxWait <? now _); [discriminate|].
    destruct (select_cases ctx (10 * Second)
                (after c ctx w1 (configureRequest c clusterID req)))
      as [[_ E]|(w3 & E & _)];
      rewrite (bind_run _ _ _ _ _ E) in H; [|discriminate].
    injection H as <-.
    eexists (attempts ++ [_])%list. cbn [trace logs slept after].
    rewrite Htr, <- app_assoc. repeat split; try assumption.
    + apply Forall_app. split; [assumption|].
      constructor; [reflexivity|constructor].
    + apply Forall_app. split; [assumption|].
      constructor; [|constructor]. exists e. cbn [got]. split; assumption.
  - intros w1 a w2 (attempts & Htr & Hlg & Hsent & Hbusy) H.
    unfold ConfigureWithRetry_pass, ConfigureCluster in H.
    rewrite (bind_run _ _ _ _ _
               (bind_run _ _ _ _ _ (doRequest_run c ctx _ _ _ _ w1))) in H.
    fold (configureRequest c clusterID req) in H.
    unfold ret at 1 in H.
    assert (Hshape : forall w3,
      trace w3 = trace (after c ctx w1 (configureRequest c clusterID req)) ->
      logs w3 = logs (after c ctx w1 (configureRequest c clusterID req)) ->
      exists last,
        trace w3 = (trace w ++ attempts ++ [last])%list /\ logs w3 = logs w /\
        Forall (fun x => sent x = configureRequest c clusterID req)
               (attempts ++ [last])%list /\
        got last = answer c ctx w1 (configureRequest c clusterID req)).
    { intros w3 Ht Hl. eexists. rewrite Ht, Hl. cbn [trace logs after].
      rewrite Htr, <- app_assoc. repeat split; try assumption.
      apply Forall_app. split; [assumption|].
      constructor; [reflexivity|constructor]. }
    unfold retry_ends.
    destruct (received true (answer c ctx w1 (configureRequest c clusterID req)))
      as [p|e] eqn:Hrecv.
    + injection H as <- <-.
      destruct (Hshape _ eq_refl eq_refl) as (last & H1 & H2 & H3 & H4).
      exists attempts, last. rewrite H4, Hrecv. repeat split; assumption.
    + destruct (IsConflict e) eqn:Hc; cbn [negb] in H.
      * unfold bind at 1, Now in H.
        destruct (now w + maxWait <? now _).
        -- injection H as <- <-.
           destruct (Hshape _ eq_refl eq_refl) as (last & H1 & H2 & H3 & H4).
           exists attempts, last. rewrite H4, Hrecv, Hc.
           repeat split; try assumption. left. reflexivity.
        -- destruct (select_cases ctx (10 * Second)
                       (after c ctx w1 (configureRequest c clusterID req)))
             as [[_ E]|(w3 & E & Ht & Hl & _)];
             rewrite (bind_run _ _ _ _ _ E) in H; [discriminate|].
           injection H as <- <-.
           destruct (Hshape _ Ht Hl) as (last & H1 & H2 & H3 & H4).
           exists attempts, last. rewrite H4, Hrecv, Hc.
           repeat split; try assumption. right. reflexivity.
      * injection H as <- <-.
        destruct (Hshape _ eq_refl eq_refl) as (last & H1 & H2 & H3 & H4).
        exists attempts, last. rewrite H4, Hrecv, Hc.
        repeat split; assumption.
  - exists []. rewrite app_nil_r. repeat split; constructor.
Qed.

End Retry.

(** C1. Conflict absorption.  Suppose the first [k] attempts of
    ConfigureWithRetry are answered with a conflict while the deadline has
    not passed (and the context stays quiet during each backoff), and
    attempt [k+1] gives [r].  If [r] is a response, that response is the
    result.  If [r] is again a conflict and the deadline has passed, the
    result is the timeout error wrapping that last conflict, which is not
    itself a conflict error.  If [r] is any other error, it is the result.
    In all three cases the operation stops in the world in which attempt
    [k+1] ended: exactly [k+1] requests were sent, all of them the same
    configure request. *)
Theorem ConfigureWithRetry_conflict_absorption
    (c : Client) (ctx : Context) (clusterID : Z) (req : ConfigureRequest)
    (maxWait : Z) (k : nat) (w wk w' : World)
    (r : result ConfigureResponse) :
  conflicted c ctx clusterID req (now w + maxWait) k w wk ->
  ConfigureCluster c ctx clusterID req wk = Some (r, w') ->
  (forall resp, r = Ok resp ->
     ConfigureWithRetry c ctx clusterID req maxWait w = Some (Ok resp, w')) /\
  (forall e, r = Err e -> IsConflict e = true -> now w + maxWait < now w' ->
     ConfigureWithRetry c ctx clusterID req maxWait w
       = Some (Err (retryTimeout e), w') /\
     IsConflict (retryTimeout e) = false) /\
  (forall e, r = Err e -> IsConflict e = false ->
     ConfigureWithRetry c ctx clusterID req maxWait w = Some (Err e, w')) /\
  (exists attempts,
     trace w' = (trace w ++ attempts)%list /\
     List.length attempts = S k /\
     Forall (fun x => sent x = configureRequest c clusterID req) attempts).
Proof.
  intros Hrun Hlast.
  pose proof (fun out => retry_finish c ctx clusterID req maxWait k w wk w'
                           out Hrun) as Hfinish.
  repeat split.
  - intros resp ->. apply Hfinish. eapply retry_pass_ok; eassumption.
  - apply Hfinish. subst r. eapply retry_pass_late; eassumption.
  - intros e -> Hc. apply Hfinish. eapply retry_pass_other; eassumption.
  - destruct (conflicted_trace _ _ _ _ _ _ _ _ Hrun)
      as (attempts & Htr & Hlen & Hall).
    destruct (ConfigureCluster_total c ctx clusterID req wk) as [r0 Hr0].
    rewrite Hr0 in Hlast. inversion Hlast; subst r0 w'.
    eexists (attempts ++ [_])%list. cbn [trace after].
    rewrite Htr, <- app_assoc. split; [reflexivity|].
    split; [rewrite List.length_app; cbn; lia|].
    apply Forall_app. split; [assumption|].
    constructor; [reflexivity|constructor].
Qed.

(** Two conflicts, then the response of the third attempt. *)
Lemma ConfigureWithRetry_conflict_absorption_witness :
  exists w',
    ConfigureWithRetry sample.busyTwice sample.background 7 sample.addUser
                       (2 * Minute) sample.start
    = Some (Ok sample.createdUser, w') /\
    List.length (trace w') = 3%nat.
Proof.
  eexists.
  eassert (Hrun : conflicted sample.busyTwice sample.background 7
                   sample.addUser (now sample.start + 2 * Minute) 2
                   sample.start _).
  { eapply conflicted_S;
      [eapply conflicted_S; [apply conflicted_O| | | | ]| | | | ];
      try reflexivity; try exact I; vm_compute; discriminate. }
  pose proof (ConfigureWithRetry_conflict_absorption
                sample.busyTwice sample.background 7 sample.addUser
                (2 * Minute) 2 sample.start _ _ _ Hrun eq_refl)
    as (Hok & _).
  split; [apply (Hok _ eq_refl)|reflexivity].
Defined.

(** ** WaitForJobComplete *)

Section JobWait.

Variable c : Client.
Variable ctx : Context.
Variable clusterID : Z.

Lemma WaitForJobComplete_loop (timeout : Z) (w : World) :
  WaitForJobComplete c ctx clusterID timeout w =
  for_ (passes timeout (10 * Second))
       (WaitForJobComplete_pass c ctx clusterID (now w + timeout)
                                (10 * Second) timeout) w.
Proof. reflexivity. Qed.

(** One pass, in terms of the verdict on its poll. *)
Lemma wait_pass_run (deadline timeout : Z) (w : World) :
  WaitForJobComplete_pass c ctx clusterID deadline (10 * Second) timeout w =
  if now w <? deadline
  then
    let w1 := after c ctx w (jobsRequest c clusterID) in
    match poll_verdict (answer c ctx w (jobsRequest c clusterID)) with
    | Some r => Some (Return r, w1)
    | None =>
        match selectDoneOrAfter ctx (10 * Second) w1 with
        | Some (Some e, w2) => Some (Return (Some e), w2)
        | Some (None, w2) => Some (Continue, w2)
        | None => None
        end
    end
  else Some (Return (Some (jobsTimeout timeout)), w).
Proof.
  unfold WaitForJobComplete_pass, bind at 1, Now.
  destruct (now w <? deadline); [|reflexivity].
  rewrite (bind_run _ _ _ _ _ (doRequest_run c ctx _ _ _ _ w)).
  unfold poll_verdict, jobsRequest. cbv zeta.
  destruct (received true _) as [p|err]; [|reflexivity].
  destruct (Jobs (asJobs p)) as [|j js] eqn:Hjobs; [reflexivity|].
  destruct (find isFailed (j :: js)); [reflexivity|].
  unfold bind.
  destruct (selectDoneOrAfter ctx (10 * Second) _) as [[[e|] w2]|];
    reflexivity.
Qed.

Lemma wait_pass_total (deadline timeout : Z) (w : World) :
  exists s w',
    WaitForJobComplete_pass c ctx clusterID deadline (10 * Second) timeout w
    = Some (s, w').
Proof.
  rewrite wait_pass_run. destruct (now w <? deadline); [|answered].
  cbv zeta. destruct (poll_verdict _); [answered|].
  destruct (select_cases ctx (10 * Second)
              (after c ctx w (jobsRequest c clusterID)))
    as [[_ E]|(w2 & E & _)]; rewrite E; answered.
Qed.

Lemma wait_pass_continue (deadline timeout : Z) (w w' : World) :
  WaitForJobComplete_pass c ctx clusterID deadline (10 * Second) timeout w
  = Some (Continue, w') ->
  now w < deadline /\
  stillActive {| sent := jobsRequest c clusterID;
                 got := answer c ctx w (jobsRequest c clusterID) |} /\
  quiet ctx (10 * Second) (after c ctx w (jobsRequest c clusterID)) /\
  w' = slept (10 * Second) (after c ctx w (jobsRequest c clusterID)).
Proof.
  rewrite wait_pass_run.
  destruct (Z.ltb_spec (now w) deadline); [|discriminate].
  cbv zeta. unfold stillActive. cbn [got].
  destruct (poll_verdict _); [discriminate|].
  destruct (select_cases ctx (10 * Second)
              (after c ctx w (jobsRequest c clusterID)))
    as [[Hq E]|(w2 & E & _)]; rewrite E; intros Heq; inversion Heq.
  repeat split; assumption.
Qed.

(** WaitForJobComplete always comes back. *)
Lemma WaitForJobComplete_total (timeout : Z) (w : World) :
  exists r w', WaitForJobComplete c ctx clusterID timeout w = Some (r, w').
Proof.
  rewrite WaitForJobComplete_loop.
  destruct (for_total
              (WaitForJobComplete_pass c ctx clusterID (now w + timeout)
                                       (10 * Second) timeout)
              (fun w' => budget (now w + timeout) (10 * Second) (now w')))
    with (fuel := passes timeout (10 * Second)) (w := w) as [[r w'] H].
  - intros w0. apply wait_pass_total.
  - intros w0 w' H. apply wait_pass_continue in H.
    destruct H as (Hlt & _ & _ & ->).
    apply budget_decreases; [reflexivity|lia|].
    cbn [now slept after]. lia.
  - apply budget_start. reflexivity.
  - exists r, w'. exact H.
Qed.

(** The requests of a wait are polls of the job list; all but the last
    saw active jobs and no failure; the wait ends on the verdict of the
    last poll, or else on the deadline or the context. *)
Lemma WaitForJobComplete_trace (timeout : Z) (w w' : World)
    (r : option error) :
  WaitForJobComplete c ctx clusterID timeout w = Some (r, w') ->
  exists polls,
    trace w' = (trace w ++ polls)%list /\ logs w' = logs w /\
    Forall (fun x => sent x = jobsRequest c clusterID) polls /\
    ((Forall stillActive polls /\
      (r = Some ContextDone \/ r = Some (jobsTimeout timeout))) \/
     (exists init last,
        polls = (init ++ [last])%list /\ Forall stillActive init /\
        poll_verdict (got last) = Some r)).
Proof.
  rewrite WaitForJobComplete_loop. intros Hloop.
  revert Hloop. revert r w'.
  refine (fun r w' Hloop =>
    for_invariant _
      (fun w1 => exists polls,
         trace w1 = (trace w ++ polls)%list /\ logs w1 = logs w /\
         Forall (fun x => sent x = jobsRequest c clusterID) polls /\
         Forall stillActive polls)
      (fun r w' => exists polls,
         trace w' = (trace w ++ polls)%list /\ logs w' = logs w /\
         Forall (fun x => sent x = jobsRequest c clusterID) polls /\
         ((Forall stillActive polls /\
           (r = Some ContextDone \/ r = Some (jobsTimeout timeout))) \/
          (exists init last,
             polls = (init ++ [last])%list /\ Forall stillActive init /\
             poll_verdict (got last) = Some r)))
      _ _ _ w r w' _ Hloop).
  - intros w1 w2 (polls & Htr & Hlg & Hsent & Hact) H.
    apply wait_pass_continue in H. destruct H as (_ & Hstill & _ & ->).
    eexists (polls ++ [_])%list. cbn [trace logs slept after].
    rewrite Htr, <- app_assoc. repeat split; try assumption.
    + apply Forall_app. split; [assumption|].
      constructor; [reflexivity|constructor].
    + apply Forall_app. split; [assumption|].
      constructor; [exact Hstill|constructor].
  - intros w1 a w2 (polls & Htr & Hlg & Hsent & Hact) H.
    rewrite wait_pass_run in H.
    destruct (now w1 <? now w + timeout).
    + cbv zeta in H.
      destruct (poll_verdict _) as [v|] eqn:Hv.
      * inversion H; subst a w2.
        eexists (polls ++ [_])%list. cbn [trace logs after].
        rewrite Htr, <- app_assoc. repeat split; try assumption.
        -- apply Forall_app. split; [assumption|].
           constructor; [reflexivity|constructor].
        -- right. eexists polls, _. repeat split; [assumption|exact Hv].
      * destruct (select_cases ctx (10 * Second)
                    (after c ctx w1 (jobsRequest c clusterID)))
          as [[_ E]|(w3 & E & Ht & Hl & _)]; rewrite E in H;
          inversion H; subst a w2.
        eexists (polls ++ [_])%list.
        rewrite Ht, Hl. cbn [trace logs after].
        rewrite Htr, <- app_assoc. repeat split; try assumption.
        -- apply Forall_app. split; [assumption|].
           constructor; [reflexivity|constructor].
        -- left. split; [|left; reflexivity].
           apply Forall_app. split; [assumption|].
           constructor; [exact Hv|constructor].
    + inversion H; subst a w2. exists polls. repeat split; try assumption.
      left. split; [assumption|right; reflexivity].
  - exists []. rewrite app_nil_r. repeat split; constructor.
Qed.

(** [k] pending polls are [k] passes of the loop. *)
Lemma pending_passes (deadline timeout : Z) (k : nat) (w wk : World) :
  pending c ctx clusterID deadline k w wk ->
  forall fuel,
    for_ (k + fuel)
         (WaitForJobComplete_pass c ctx clusterID deadline (10 * Second)
                                  timeout) w
    = for_ fuel
        (WaitForJobComplete_pass c ctx clusterID deadline (10 * Second)
                                 timeout) wk.
Proof.
  induction 1 as [w|k w wk w1 p Hrun IH Hlt Hcall Hne Hnf Hq]; intros fuel.
  - reflexivity.
  - replace (S k + fuel)%nat with (k + S fuel)%nat by lia.
    rewrite doRequest_run in Hcall. injection Hcall as Hrecv Hw1. subst w1.
    rewrite IH, for_S, wait_pass_run.
    destruct (Z.ltb_spec (now wk) deadline); [|lia].
    cbv zeta. unfold poll_verdict, jobsRequest. rewrite Hrecv, Hnf.
    destruct (Jobs (asJobs p)); [contradiction|].
    rewrite (select_quiet _ _ _ Hq). reflexivity.
Qed.

(** WaitForJobComplete comes back the way [awaited] says. *)
Lemma WaitForJobComplete_awaited (timeout : Z) (w : World) :
  exists r w',
    WaitForJobComplete c ctx clusterID timeout w = Some (r, w') /\
    awaited c ctx clusterID timeout w r w'.
Proof.
  destruct (WaitForJobComplete_total timeout w) as (r & w' & Hrun).
  exists r, w'. split; [exact Hrun|].
  rewrite WaitForJobComplete_loop in Hrun.
  refine (for_invariant _
            (fun w1 => exists k,
               pending c ctx clusterID (now w + timeout) k w w1)
            (fun r w' => awaited c ctx clusterID timeout w r w')
            _ _ _ w r w' _ Hrun).
  - intros w1 w2 [k Hk] H.
    apply wait_pass_continue in H. destruct H as (Hlt & Hstill & Hq & ->).
    unfold stillActive, poll_verdict in Hstill. cbn [got] in Hstill.
    destruct (received true (answer c ctx w1 (jobsRequest c clusterID)))
      as [p|err] eqn:Hp; [|discriminate Hstill].
    exists (S k). eapply (pending_S _ _ _ _ _ _ _ _ p Hk Hlt).
    + rewrite doRequest_run. fold (jobsRequest c clusterID).
      rewrite Hp. reflexivity.
    + intro Hnone. rewrite Hnone in Hstill. discriminate Hstill.
    + destruct (Jobs (asJobs p)); [discriminate Hstill|].
      destruct (find isFailed _); [discriminate Hstill|reflexivity].
    + exact Hq.
  - intros w1 a w2 [k Hk] H. rewrite wait_pass_run in H.
    destruct (Z.ltb_spec (now w1) (now w + timeout)) as [Hlt|Hge].
    + cbv zeta in H.
      destruct (poll_verdict (answer c ctx w1 (jobsRequest c clusterID)))
        as [v|] eqn:Hv.
      * injection H as <- <-. exact (awaited_decided _ _ _ _ _ _ _ _ Hk Hlt Hv).
      * unfold selectDoneOrAfter in H.
        destruct (done_at ctx) as [t|] eqn:Ht; [|discriminate H].
        destruct (Z.leb_spec t
                    (now (after c ctx w1 (jobsRequest c clusterID))
                     + 10 * Second)) as [Hle|Hgt]; [|discriminate H].
        injection H as <- <-.
        exact (awaited_cancelled _ _ _ _ _ _ _ _ Hk Hlt Hv Ht Hle).
    + injection H as <- <-. exact (awaited_expired _ _ _ _ _ _ _ Hk Hge).
  - exists 0%nat. constructor.
Qed.

Lemma wait_finish (timeout : Z) (k : nat) (w wk w' : World)
    (r : option error) :
  pending c ctx clusterID (now w + timeout) k w wk ->
  WaitForJobComplete_pass c ctx clusterID (now w + timeout) (10 * Second) timeout wk
    = Some (Return r, w') ->
  WaitForJobComplete c ctx clusterID timeout w = Some (r, w').
Proof.
  intros Hrun Hpass.
  destruct (WaitForJobComplete_total timeout w) as (r0 & w0 & Hr0).
  rewrite Hr0. f_equal.
  rewrite WaitForJobComplete_loop in Hr0.
  eapply for_agree; [exact Hr0|].
  rewrite (pending_passes _ timeout _ _ _ Hrun 1), for_S, Hpass.
  reflexivity.
Qed.

(** A wait that [awaited] describes is the wait WaitForJobComplete
    makes, so that [awaited] leaves no choice. *)
Lemma awaited_run (timeout : Z) (w w' : World) (r : option error) :
  awaited c ctx clusterID timeout w r w' ->
  WaitForJobComplete c ctx clusterID timeout w = Some (r, w').
Proof.
  intros [k wk r0 Hk Hlt Hv|k wk t Hk Hlt Hv Ht Hle|k wk Hk Hge];
    apply (wait_finish _ _ _ _ _ _ Hk); rewrite wait_pass_run.
  - destruct (Z.ltb_spec (now wk) (now w + timeout)); [|lia].
    cbv zeta. rewrite Hv. reflexivity.
  - destruct (Z.ltb_spec (now wk) (now w + timeout)); [|lia].
    cbv zeta. rewrite Hv. unfold selectDoneOrAfter. rewrite Ht.
    destruct (Z.leb_spec t
                (now (after c ctx wk (jobsRequest c clusterID))
                 + 10 * Second)); [reflexivity|lia].
  - destruct (Z.ltb_spec (now wk) (now w + timeout)); [lia|reflexivity].
Qed.

Lemma awaited_unique (timeout : Z) (w w1 w2 : World) (r1 r2 : option error) :
  awaited c ctx clusterID timeout w r1 w1 ->
  awaited c ctx clusterID timeout w r2 w2 ->
  r1 = r2 /\ w1 = w2.
Proof.
  intros H1 H2. apply awaited_run in H1. apply awaited_run in H2.
  rewrite H1 in H2. injection H2 as -> ->. split; reflexivity.
Qed.

End JobWait.

(** C10. In WaitForJobComplete the empty-list check comes first.  After
    any number of polls that saw active jobs, a poll that starts before
    the deadline and is answered with an empty list ends the wait with
    success at once; a poll answered with a list holding a failed job ends
    it with that job's error, and such a list is not empty.  Conversely,
    whenever the wait ends with a job-failure error, its last poll was
    answered with a non-empty list whose first failed job is the one
    reported.  So a job that was seen active and is missing from the next
    answer, for whatever reason, yields success. *)
Theorem WaitForJobComplete_empty_list_first
    (c : Client) (ctx : Context) (clusterID timeout : Z) (k : nat)
    (w wk w' : World) (p : Payload) :
  pending c ctx clusterID (now w + timeout) k w wk ->
  now wk < now w + timeout ->
  doRequest c ctx "GET" (jobsPath clusterID) None true wk = Some (Ok p, w') ->
  (Jobs (asJobs p) = [] ->
     WaitForJobComplete c ctx clusterID timeout w = Some (None, w')) /\
  (forall job, find isFailed (Jobs (asJobs p)) = Some job ->
     Jobs (asJobs p) <> [] /\
     WaitForJobComplete c ctx clusterID timeout w
       = Some (Some (jobFailed job), w')) /\
  (forall job w2,
     WaitForJobComplete c ctx clusterID timeout w
       = Some (Some (jobFailed job), w2) ->
     exists init last seen reported,
       trace w2 = (trace w ++ init ++ [last])%list /\
       received true (got last) = Ok seen /\
       Jobs (asJobs seen) <> [] /\
       find isFailed (Jobs (asJobs seen)) = Some reported /\
       jobFailed reported = jobFailed job).
Proof.
  intros Hrun Hlt Hcall.
  assert (Hfinish : forall out,
    WaitForJobComplete_pass c ctx clusterID (now w + timeout)
                            (10 * Second) timeout wk = Some (Return out, w') ->
    WaitForJobComplete c ctx clusterID timeout w = Some (out, w')).
  { intros out Hpass.
    destruct (WaitForJobComplete_total c ctx clusterID timeout w)
      as (r0 & w0 & Hr0).
    rewrite Hr0. f_equal.
    rewrite WaitForJobComplete_loop in Hr0.
    eapply for_agree; [exact Hr0|].
    rewrite (pending_passes _ _ _ _ _ _ _ _ Hrun 1), for_S, Hpass.
    reflexivity. }
  rewrite doRequest_run in Hcall. injection Hcall as Hrecv Hw'.
  assert (Hpass : forall v,
    poll_verdict (answer c ctx wk (jobsRequest c clusterID)) = Some v ->
    WaitForJobComplete_pass c ctx clusterID (now w + timeout)
                            (10 * Second) timeout wk = Some (Return v, w')).
  { intros v Hv. rewrite wait_pass_run.
    destruct (Z.ltb_spec (now wk) (now w + timeout)); [|lia].
    cbv zeta. rewrite Hv. unfold jobsRequest. rewrite Hw'. reflexivity. }
  split; [|split].
  - intros Hempty. apply Hfinish, Hpass.
    unfold poll_verdict, jobsRequest. rewrite Hrecv, Hempty. reflexivity.
  - intros job Hfind.
    assert (Hne : Jobs (asJobs p) <> [])
      by (intros Heq; rewrite Heq in Hfind; discriminate).
    split; [exact Hne|]. apply Hfinish, Hpass.
    unfold poll_verdict, jobsRequest. rewrite Hrecv, Hfind.
    destruct (Jobs (asJobs p)); [contradiction|reflexivity].
  - intros job w2 Hres.
    destruct (WaitForJobComplete_trace _ _ _ _ _ _ _ Hres)
      as (polls & Htr & _ & _ & [[_ [Hr|Hr]]|(init & last & -> & _ & Hv)]);
      try discriminate.
    unfold poll_verdict in Hv.
    destruct (received true (got last)) as [seen|err] eqn:Hseen;
      [|discriminate].
    destruct (Jobs (asJobs seen)) as [|j js] eqn:Hjobs; [discriminate|].
    destruct (find isFailed (j :: js)) as [reported|] eqn:Hfind;
      [|discriminate].
    exists init, last, seen, reported. rewrite Hjobs.
    repeat split; try assumption; congruence.
Qed.

(** A job listed as running, then an empty list: success after two polls. *)
Lemma WaitForJobComplete_empty_list_first_witness :
  exists w',
    WaitForJobComplete sample_jobs.jobVanishes sample.background 7
                       (5 * Minute) sample.start = Some (None, w') /\
    List.length (trace w') = 2%nat.
Proof.
  eexists.
  eassert (Hrun : pending sample_jobs.jobVanishes sample.background 7
                    (now sample.start + 5 * Minute) 1 sample.start _).
  { eapply pending_S; [apply pending_O| | | | | ];
      try reflexivity; try exact I; vm_compute; discriminate. }
  pose proof (WaitForJobComplete_empty_list_first
                sample_jobs.jobVanishes sample.background 7 (5 * Minute) 1
                sample.start _ _ _ Hrun eq_refl eq_refl)
    as (Hempty & _).
  split; [apply (Hempty eq_refl)|reflexivity].
Defined.

(** ** WaitForClusterActive and WaitForClusterDeleted *)

Section ClusterWait.

Variable c : Client.
Variable ctx : Context.
Variable id : Z.

Lemma WaitForClusterActive_loop (timeout : Z) (w : World) :
  WaitForClusterActive c ctx id timeout w =
  for_ (passes timeout (15 * Second))
       (WaitForClusterActive_pass c ctx id (now w + timeout)
                                  (15 * Second) timeout) w.
Proof. reflexivity. Qed.

Lemma WaitForClusterDeleted_loop (timeout : Z) (w : World) :
  WaitForClusterDeleted c ctx id timeout w =
  for_ (passes timeout (10 * Second))
       (WaitForClusterDeleted_pass c ctx id (now w + timeout)
                                   (10 * Second) timeout) w.
Proof. reflexivity. Qed.

Lemma active_pass_run (deadline timeout : Z) (w : World) :
  WaitForClusterActive_pass c ctx id deadline (15 * Second) timeout w =
  if now w <? deadline
  then
    let w1 := after c ctx w (clusterRequest c id) in
    match active_verdict (answer c ctx w (clusterRequest c id)) with
    | Some r => Some (Return r, w1)
    | None =>
        match selectDoneOrAfter ctx (15 * Second) w1 with
        | Some (Some e, w2) => Some (Return (Err e), w2)
        | Some (None, w2) => Some (Continue, w2)
        | None => None
        end
    end
  else Some (Return (Err (activeTimeout timeout)), w).
Proof.
  unfold WaitForClusterActive_pass, bind at 1, Now.
  destruct (now w <? deadline); [|reflexivity].
  rewrite (bind_run _ _ _ _ _ (GetCluster_run c ctx id w)).
  unfold active_verdict, clusterRequest. cbv zeta.
  destruct (received true _) as [p|err]; [|reflexivity].
  destruct (String.eqb (Status (asCluster p)) "active"); [reflexivity|].
  destruct (String.eqb (Status (asCluster p)) "failed"); [reflexivity|].
  destruct (String.eqb (Status (asCluster p)) "provisioning"); [|reflexivity].
  unfold bind.
  destruct (selectDoneOrAfter ctx (15 * Second) _) as [[[e|] w2]|];
    reflexivity.
Qed.

Lemma deleted_pass_run (deadline timeout : Z) (w : World) :
  WaitForClusterDeleted_pass c ctx id deadline (10 * Second) timeout w =
  if now w <? deadline
  then
    let w1 := after c ctx w (clusterRequest c id) in
    match deleted_verdict (answer c ctx w (clusterRequest c id)) with
    | Some r => Some (Return r, w1)
    | None =>
        match selectDoneOrAfter ctx (10 * Second) w1 with
        | Some (Some e, w2) => Some (Return (Some e), w2)
        | Some (None, w2) => Some (Continue, w2)
        | None => None
        end
    end
  else Some (Return (Some (deletedTimeout timeout)), w).
Proof.
  unfold WaitForClusterDeleted_pass, bind at 1, Now.
  destruct (now w <? deadline); [|reflexivity].
  rewrite (bind_run _ _ _ _ _ (GetCluster_run c ctx id w)).
  unfold deleted_verdict, clusterRequest. cbv zeta.
  destruct (received true _) as [p|err].
  - destruct (String.eqb (Status (asCluster p)) "deleted"); [reflexivity|].
    unfold bind.
    destruct (selectDoneOrAfter ctx (10 * Second) _) as [[[e|] w2]|];
      reflexivity.
  - destruct (IsNotFound err || IsGone err); reflexivity.
Qed.

Lemma active_pass_total (deadline timeout : Z) (w : World) :
  exists s w',
    WaitForClusterActive_pass c ctx id deadline (15 * Second) timeout w
    = Some (s, w').
Proof.
  rewrite active_pass_run. destruct (now w <? deadline); [|answered].
  cbv zeta. destruct (active_verdict _); [answered|].
  destruct (select_cases ctx (15 * Second)
              (after c ctx w (clusterRequest c id)))
    as [[_ E]|(w2 & E & _)]; rewrite E; answered.
Qed.

Lemma deleted_pass_total (deadline timeout : Z) (w : World) :
  exists s w',
    WaitForClusterDeleted_pass c ctx id deadline (10 * Second) timeout w
    = Some (s, w').
Proof.
  rewrite deleted_pass_run. destruct (now w <? deadline); [|answered].
  cbv zeta. destruct (deleted_verdict _); [answered|].
  destruct (select_cases ctx (10 * Second)
              (after c ctx w (clusterRequest c id)))
    as [[_ E]|(w2 & E & _)]; rewrite E; answered.
Qed.

Lemma active_pass_continue (deadline timeout : Z) (w w' : World) :
  WaitForClusterActive_pass c ctx id deadline (15 * Second) timeout w
  = Some (Continue, w') ->
  now w < deadline /\
  w' = slept (15 * Second) (after c ctx w (clusterRequest c id)).
Proof.
  rewrite active_pass_run.
  destruct (Z.ltb_spec (now w) deadline); [|discriminate].
  cbv zeta. destruct (active_verdict _); [discriminate|].
  destruct (select_cases ctx (15 * Second)
              (after c ctx w (clusterRequest c id)))
    as [[Hq E]|(w2 & E & _)]; rewrite E; intros Heq; inversion Heq.
  split; [assumption|reflexivity].
Qed.

Lemma deleted_pass_continue (deadline timeout : Z) (w w' : World) :
  WaitForClusterDeleted_pass c ctx id deadline (10 * Second) timeout w
  = Some (Continue, w') ->
  now w < deadline /\
  w' = slept (10 * Second) (after c ctx w (clusterRequest c id)).
Proof.
  rewrite deleted_pass_run.
  destruct (Z.ltb_spec (now w) deadline); [|discriminate].
  cbv zeta. destruct (deleted_verdict _); [discriminate|].
  destruct (select_cases ctx (10 * Second)
              (after c ctx w (clusterRequest c id)))
    as [[Hq E]|(w2 & E & _)]; rewrite E; intros Heq; inversion Heq.
  split; [assumption|reflexivity].
Qed.

Lemma WaitForClusterActive_total (timeout : Z) (w : World) :
  exists r w', WaitForClusterActive c ctx id timeout w = Some (r, w').
Proof.
  rewrite WaitForClusterActive_loop.
  destruct (for_total
              (WaitForClusterActive_pass c ctx id (now w + timeout)
                                         (15 * Second) timeout)
              (fun w' => budget (now w + timeout) (15 * Second) (now w')))
    with (fuel := passes timeout (15 * Second)) (w := w) as [[r w'] H].
  - intros w0. apply active_pass_total.
  - intros w0 w' H. apply active_pass_continue in H. destruct H as (Hlt & ->).
    apply budget_decreases; [reflexivity|lia|].
    cbn [now slept after]. lia.
  - apply budget_start. reflexivity.
  - exists r, w'. exact H.
Qed.

Lemma WaitForClusterDeleted_total (timeout : Z) (w : World) :
  exists r w', WaitForClusterDeleted c ctx id timeout w = Some (r, w').
Proof.
  rewrite WaitForClusterDeleted_loop.
  destruct (for_total
              (WaitForClusterDeleted_pass c ctx id (now w + timeout)
                                          (10 * Second) timeout)
              (fun w' => budget (now w + timeout) (10 * Second) (now w')))
    with (fuel := passes timeout (10 * Second)) (w := w) as [[r w'] H].
  - intros w0. apply deleted_pass_total.
  - intros w0 w' H. apply deleted_pass_continue in H. destruct H as (Hlt & ->).
    apply budget_decreases; [reflexivity|lia|].
    cbn [now slept after]. lia.
  - apply budget_start. reflexivity.
  - exists r, w'. exact H.
Qed.

Lemma provisioning_passes (deadline timeout : Z) (k : nat) (w wk : World) :
  provisioning c ctx id deadline k w wk ->
  forall fuel,
    for_ (k + fuel)
         (WaitForClusterActive_pass c ctx id deadline (15 * Second) timeout) w
    = for_ fuel
        (WaitForClusterActive_pass c ctx id deadline (15 * Second) timeout) wk.
Proof.
  induction 1 as [w|k w wk w1 cl Hrun IH Hlt Hcall Hst Hq]; intros fuel.
  - reflexivity.
  - replace (S k + fuel)%nat with (k + S fuel)%nat by lia.
    rewrite GetCluster_run in Hcall. injection Hcall as Hrecv Hw1. subst w1.
    rewrite IH, for_S, active_pass_run.
    destruct (Z.ltb_spec (now wk) deadline); [|lia].
    cbv zeta. unfold active_verdict, clusterRequest.
    destruct (received true _) as [p|err]; [|discriminate].
    injection Hrecv as Hcl. rewrite Hcl, Hst. cbn [String.eqb].
    change (String.eqb "provisioning" "active") with false.
    change (String.eqb "provisioning" "failed") with false.
    change (String.eqb "provisioning" "provisioning") with true.
    cbv iota.
    rewrite (select_quiet _ _ _ Hq). reflexivity.
Qed.

Lemma lingering_passes (deadline timeout : Z) (k : nat) (w wk : World) :
  lingering c ctx id deadline k w wk ->
  forall fuel,
    for_ (k + fuel)
         (WaitForClusterDeleted_pass c ctx id deadline (10 * Second) timeout) w
    = for_ fuel
        (WaitForClusterDeleted_pass c ctx id deadline (10 * Second) timeout) wk.
Proof.
  induction 1 as [w|k w wk w1 cl Hrun IH Hlt Hcall Hst Hq]; intros fuel.
  - reflexivity.
  - replace (S k + fuel)%nat with (k + S fuel)%nat by lia.
    rewrite GetCluster_run in Hcall. injection Hcall as Hrecv Hw1. subst w1.
    rewrite IH, for_S, deleted_pass_run.
    destruct (Z.ltb_spec (now wk) deadline); [|lia].
    cbv zeta. unfold deleted_verdict, clusterRequest.
    destruct (received true _) as [p|err]; [|discriminate].
    injection Hrecv as Hcl. rewrite Hcl.
    destruct (String.eqb_spec (Status cl) "deleted"); [contradiction|].
    rewrite (select_quiet _ _ _ Hq). reflexivity.
Qed.

(** After [k] fetches that found the cluster lingering, a fetch that
    starts before the deadline and has a verdict ends the wait with it. *)
Lemma deleted_after_lingering (timeout : Z) (k : nat) (w wk : World)
    (r : option error) :
  lingering c ctx id (now w + timeout) k w wk ->
  now wk < now w + timeout ->
  deleted_verdict (answer c ctx wk (clusterRequest c id)) = Some r ->
  WaitForClusterDeleted c ctx id timeout w
    = Some (r, after c ctx wk (clusterRequest c id)).
Proof.
  intros Hrun Hlt Hv.
  destruct (WaitForClusterDeleted_total timeout w) as (r0 & w0 & Hr0).
  rewrite Hr0. f_equal.
  rewrite WaitForClusterDeleted_loop in Hr0.
  eapply for_agree; [exact Hr0|].
  rewrite (lingering_passes _ _ _ _ _ Hrun 1), for_S, deleted_pass_run.
  destruct (Z.ltb_spec (now wk) (now w + timeout)); [|lia].
  cbv zeta. rewrite Hv. reflexivity.
Qed.

End ClusterWait.

(** C5, as stated, fails for WaitForClusterDeleted: the first fetch finds
    the cluster in status "archiving", which no poller knows; the wait
    does not fail, it sleeps, fetches again and, the cluster then being
    gone, reports success. *)
Lemma WaitForClusterDeleted_polls_unknown_status_again :
  exists first w1 w',
    GetCluster sample_cluster.archivingThenGone sample.background 7
               sample.start = Some (Ok first, w1) /\
    Status first = "archiving" /\
    recognised (Status first) = false /\
    WaitForClusterDeleted sample_cluster.archivingThenGone sample.background
                          7 (10 * Minute) sample.start = Some (None, w') /\
    List.length (trace w') = 2%nat.
Proof. do 3 eexists. repeat split; vm_compute; reflexivity. Qed.

(** C5, amended.  A fetch that starts before the deadline finds the
    cluster with some status.  WaitForClusterActive, after any number of
    fetches that found "provisioning", fails at once with the
    unexpected-status error when that status is none of "active", "failed"
    and "provisioning".  WaitForClusterDeleted has no such case: after any
    number of fetches that found a status other than "deleted", it ends
    with success on "deleted", and on any other status whatever it waits
    10 s and runs the loop again; the only errors it ever returns are the
    context's, the timeout and a failed fetch that is neither not-found
    nor gone. *)
Theorem cluster_pollers_on_unknown_status
    (c : Client) (ctx : Context) (id timeout : Z) (k : nat)
    (w wk w' : World) (cluster : Cluster) :
  now wk < now w + timeout ->
  GetCluster c ctx id wk = Some (Ok cluster, w') ->
  (provisioning c ctx id (now w + timeout) k w wk ->
   recognised (Status cluster) = false ->
   WaitForClusterActive c ctx id timeout w
     = Some (Err (unexpectedStatus (Status cluster)), w')) /\
  (lingering c ctx id (now w + timeout) k w wk ->
   Status cluster = "deleted" ->
   WaitForClusterDeleted c ctx id timeout w = Some (None, w')) /\
  (lingering c ctx id (now w + timeout) k w wk ->
   Status cluster <> "deleted" ->
   quiet ctx (10 * Second) w' ->
   WaitForClusterDeleted_pass c ctx id (now w + timeout) (10 * Second)
                              timeout wk
     = Some (Continue, slept (10 * Second) w') /\
   lingering c ctx id (now w + timeout) (S k) w (slept (10 * Second) w')) /\
  (forall e w2,
     WaitForClusterDeleted c ctx id timeout w = Some (Some e, w2) ->
     e = ContextDone \/ e = deletedTimeout timeout \/
     exists err, IsNotFound err || IsGone err = false /\
                 e = Errorf "polling cluster deletion status: %w" [AErr err]).
Proof.
  intros Hlt Hcall.
  pose proof Hcall as Hget.
  rewrite GetCluster_run in Hcall. injection Hcall as Hrecv Hw'.
  destruct (received true (answer c ctx wk (clusterRequest c id)))
    as [p|err] eqn:Hp; unfold clusterRequest in Hp; rewrite Hp in Hrecv;
    [|discriminate].
  injection Hrecv as Hcl.
  repeat split.
  - (* WaitForClusterActive *)
    intros Hrun Hunk.
    destruct (WaitForClusterActive_total c ctx id timeout w)
      as (r0 & w0 & Hr0).
    rewrite Hr0. f_equal.
    rewrite WaitForClusterActive_loop in Hr0.
    eapply for_agree; [exact Hr0|].
    rewrite (provisioning_passes _ _ _ _ _ _ _ _ Hrun 1), for_S,
      active_pass_run.
    destruct (Z.ltb_spec (now wk) (now w + timeout)); [|lia].
    cbv zeta. unfold active_verdict, clusterRequest. rewrite Hp, Hcl, Hw'.
    unfold recognised in Hunk.
    apply orb_false_iff in Hunk. destruct Hunk as [Hunk Hprov].
    apply orb_false_iff in Hunk. destruct Hunk as [Hact Hfail].
    rewrite Hact, Hfail, Hprov. reflexivity.
  - (* WaitForClusterDeleted, deleted *)
    intros Hrun Hdel.
    destruct (WaitForClusterDeleted_total c ctx id timeout w)
      as (r0 & w0 & Hr0).
    rewrite Hr0. f_equal.
    rewrite WaitForClusterDeleted_loop in Hr0.
    eapply for_agree; [exact Hr0|].
    rewrite (lingering_passes _ _ _ _ _ _ _ _ Hrun 1), for_S,
      deleted_pass_run.
    destruct (Z.ltb_spec (now wk) (now w + timeout)); [|lia].
    cbv zeta. unfold deleted_verdict, clusterRequest. rewrite Hp, Hcl, Hw', Hdel.
    reflexivity.
  - (* WaitForClusterDeleted, any other status *)
    rewrite deleted_pass_run.
    destruct (Z.ltb_spec (now wk) (now w + timeout)); [|lia].
    cbv zeta. unfold deleted_verdict, clusterRequest. rewrite Hp, Hcl, Hw'.
    destruct (String.eqb_spec (Status cluster) "deleted"); [contradiction|].
    rewrite (select_quiet _ _ _ H1). reflexivity.
  - eapply lingering_S; eassumption.
  - (* the errors of WaitForClusterDeleted *)
    intros e w2 Hres. rewrite WaitForClusterDeleted_loop in Hres.
    refine (for_invariant _ (fun _ => True)
              (fun r _ => forall e, r = Some e ->
                 e = ContextDone \/ e = deletedTimeout timeout \/
                 exists err, IsNotFound err || IsGone err = false /\
                   e = Errorf "polling cluster deletion status: %w" [AErr err])
              _ _ _ w (Some e) w2 I Hres e eq_refl).
    + trivial.
    + intros w3 a w4 _ Hpass e0 ->. rewrite deleted_pass_run in Hpass.
      destruct (now w3 <? now w + timeout).
      * cbv zeta in Hpass. unfold deleted_verdict in Hpass.
        destruct (received true (answer c ctx w3 (clusterRequest c id)))
          as [p0|err0].
        -- destruct (String.eqb (Status (asCluster p0)) "deleted");
             [discriminate|].
           destruct (select_cases ctx (10 * Second)
                       (after c ctx w3 (clusterRequest c id)))
             as [[_ E]|(w5 & E & _)]; rewrite E in Hpass;
             [discriminate|].
           injection Hpass as <- _. left. reflexivity.
        -- destruct (IsNotFound err0 || IsGone err0) eqn:Hgone;
             [discriminate|].
           injection Hpass as <- _. right. right. exists err0.
           split; [assumption|reflexivity].
      * injection Hpass as <- _. right. left. reflexivity.
Qed.

(** "provisioning", then "archiving": WaitForClusterActive fails on the
    second fetch. *)
Lemma cluster_pollers_on_unknown_status_witness :
  exists w',
    WaitForClusterActive sample_cluster.provisioningThenArchiving
                         sample.background 7 (25 * Minute) sample.start
    = Some (Err (unexpectedStatus "archiving"), w') /\
    List.length (trace w') = 2%nat.
Proof.
  eexists.
  eassert (Hrun : provisioning sample_cluster.provisioningThenArchiving
                    sample.background 7 (now sample.start + 25 * Minute) 1
                    sample.start _).
  { eapply provisioning_S; [apply provisioning_O| | | | ];
      try reflexivity; try exact I. }
  match type of Hrun with
  | provisioning _ _ _ _ _ _ ?wk =>
      pose proof (cluster_pollers_on_unknown_status
                    sample_cluster.provisioningThenArchiving
                    sample.background 7 (25 * Minute) 1 sample.start wk _ _
                    eq_refl eq_refl)
        as (Hactive & _)
  end.
  split; [apply (Hactive Hrun eq_refl)|reflexivity].
Defined.

(** ** Resources *)

Lemma tflog_run (l : Level) (msg : string) (fs : list (string * fmtarg))
    (w : World) :
  tflog l msg fs w = Some (tt, logged l msg fs w).
Proof. reflexivity. Qed.

Lemma HasError_app (ds ds' : Diagnostics) :
  HasError (ds ++ ds')%list = HasError ds || HasError ds'.
Proof. apply existsb_app. Qed.

Lemma HasError_AddError (ds : Diagnostics) (sum : string) (det : text) :
  HasError (AddError ds sum det) = true.
Proof.
  unfold AddError. rewrite HasError_app. cbn. apply orb_true_r.
Qed.

(** C8. Deleting an extension or a grant sends nothing: whatever the
    remote side would answer, the trace of exchanges is unchanged, the
    response carries no diagnostic and leaves the state alone, and the
    only effect is one warning line. *)
Theorem extension_and_grant_delete_are_local
    (c : Client) (ctx : Context)
    (ext : Decoded cluster_extension.Model)
    (grant : Decoded cluster_grant.Model) (w : World) :
  (exists entry w',
     cluster_extension.Delete c ctx ext w = Some (respond [] Untouched, w') /\
     trace w' = trace w /\ now w' = now w /\
     logs w' = (logs w ++ [entry])%list /\ level entry = Warn) /\
  (exists entry w',
     cluster_grant.Delete c ctx grant w = Some (respond [] Untouched, w') /\
     trace w' = trace w /\ now w' = now w /\
     logs w' = (logs w ++ [entry])%list /\ level entry = Warn).
Proof.
  split; do 2 eexists; repeat split; reflexivity.
Qed.

Section Firewall.

Import cluster_firewall.

Variable c : Client.
Variable ctx : Context.

(** What the three operations have in common once their inputs are
    decoded: log one line, submit [replaceIPs ips]. *)
Lemma replace_sends (id : Z) (ips : list string) (l : Level) (msg : string)
    (fs : list (string * fmtarg)) (w : World)
    (k : result ConfigureResponse -> M (Response Model)) :
  (forall r w1, exists resp, k r w1 = Some (resp, w1)) ->
  exists resp w' attempts,
    bind (tflog l msg fs)
         (fun _ => bind (ConfigureWithRetry c ctx id (replaceIPs ips)
                                            (2 * Minute)) k) w
      = Some (resp, w') /\
    trace w' = (trace w ++ attempts)%list /\ attempts <> [] /\
    Forall (fun x => sent x = configureRequest c id (replaceIPs ips)) attempts.
Proof.
  intros Hk.
  rewrite (bind_run _ _ _ _ _ (tflog_run l msg fs w)).
  destruct (ConfigureWithRetry_total c ctx id (replaceIPs ips) (2 * Minute)
              (logged l msg fs w)) as [[r w1] Hr].
  rewrite (bind_run _ _ _ _ _ Hr).
  destruct (Hk r w1) as [resp Hresp].
  destruct (ConfigureWithRetry_trace _ _ _ _ _ _ _ _ Hr)
    as (attempts & last & Htr & _ & Hsent & _).
  exists resp, w1, (attempts ++ [last])%list.
  repeat split; try assumption.
  destruct attempts; discriminate.
Qed.

End Firewall.

(** C7. Create and Update of the firewall submit the whole planned set
    with ReplaceIPs set and no DeleteIPs, in every attempt they make, and
    they make at least one; Delete submits the one-element set
    ["0.0.0.0/0"], likewise with ReplaceIPs set.  Nothing else is sent, and
    none of the three reads the allowlist before writing it. *)
Theorem firewall_replaces_the_whole_set
    (c : Client) (ctx : Context) (plan : Decoded cluster_firewall.Model)
    (id : Z) (w : World) :
  HasError (decoding plan) = false ->
  Atoi (ValueString (cluster_firewall.ClusterID (value plan))) = Ok id ->
  (HasError (fst (ElementsAs (cluster_firewall.SourceIPs (value plan))))
     = false ->
   let desired :=
     replaceIPs (snd (ElementsAs (cluster_firewall.SourceIPs (value plan)))) in
   (exists resp w' attempts,
      cluster_firewall.Create c ctx plan w = Some (resp, w') /\
      trace w' = (trace w ++ attempts)%list /\ attempts <> [] /\
      Forall (fun x => sent x = configureRequest c id desired) attempts) /\
   (exists resp w' attempts,
      cluster_firewall.Update c ctx plan w = Some (resp, w') /\
      trace w' = (trace w ++ attempts)%list /\ attempts <> [] /\
      Forall (fun x => sent x = configureRequest c id desired) attempts)) /\
  (exists resp w' attempts,
     cluster_firewall.Delete c ctx plan w = Some (resp, w') /\
     trace w' = (trace w ++ attempts)%list /\ attempts <> [] /\
     Forall (fun x => sent x = configureRequest c id (replaceIPs ["0.0.0.0/0"]))
            attempts).
Proof.
  intros Hdec Hid. split.
  - intros Hconv desired. subst desired.
    unfold cluster_firewall.Create, cluster_firewall.Update.
    rewrite Hdec, Hid.
    destruct (ElementsAs (cluster_firewall.SourceIPs (value plan)))
      as [converted ips].
    cbn [fst snd] in *. rewrite HasError_app, Hdec, Hconv. cbn [orb].
    split; apply replace_sends; intros [resp|e] w1; eexists; reflexivity.
  - unfold cluster_firewall.Delete. rewrite Hdec, Hid.
    apply replace_sends. intros [resp|e] w1; [eexists; reflexivity|].
    destruct (IsNotFound e || IsGone e); eexists; reflexivity.
Qed.

(** ** Composite identifiers *)

Lemma cut_None (s : string) : separators s = 0%nat -> cut "/" s = None.
Proof.
  induction s as [|ch rest IH]; [reflexivity|].
  cbn [separators cut]. destruct (Ascii.eqb ch "/"); [discriminate|].
  intros H. rewrite (IH H). reflexivity.
Qed.

Lemma cut_Some (s a b : string) :
  cut "/" s = Some (a, b) ->
  s = a ++ "/" ++ b /\ separators s = S (separators b).
Proof.
  revert a. induction s as [|ch rest IH]; intros a; [discriminate|].
  cbn [separators cut]. destruct (Ascii.eqb_spec ch "/").
  - intros H. injection H as <- <-. subst ch. split; reflexivity.
  - destruct (cut "/" rest) as [[a0 b0]|]; [|discriminate].
    intros H. injection H as <- <-.
    destruct (IH a0 eq_refl) as [-> Hsep]. split; [reflexivity|].
    cbn [plus]. exact Hsep.
Qed.

Lemma SplitN_2 (s : string) :
  SplitN s "/" 2 =
  match cut "/" s with Some (a, b) => [a; b] | None => [s] end.
Proof. cbn. destruct (cut "/" s) as [[a b]|]; reflexivity. Qed.

Lemma SplitN_3 (s : string) :
  SplitN s "/" 3 =
  match cut "/" s with
  | Some (a, b) =>
      match cut "/" b with Some (b1, b2) => [a; b1; b2] | None => [a; b] end
  | None => [s]
  end.
Proof.
  cbn. destruct (cut "/" s) as [[a b]|]; [|reflexivity].
  destruct (cut "/" b) as [[b1 b2]|]; reflexivity.
Qed.

(** The two-field and the three-field parsers reject what [malformed]
    describes, with one of their two errors. *)
Lemma two_fields_rejected (id : string) :
  malformed 2 id ->
  match SplitN id "/" 2 with
  | [p0; _] => exists e, Atoi p0 = Err e
  | _ => True
  end.
Proof.
  intros [Hfew|[e He]]; rewrite SplitN_2.
  - rewrite cut_None by lia. exact I.
  - unfold prefix in He. destruct (cut "/" id) as [[a b]|]; [|exact I].
    exists e. exact He.
Qed.

Lemma three_fields_rejected (id : string) :
  malformed 3 id ->
  match SplitN id "/" 3 with
  | [p0; _; _] => exists e, Atoi p0 = Err e
  | _ => True
  end.
Proof.
  intros [Hfew|[e He]]; rewrite SplitN_3.
  - destruct (cut "/" id) as [[a b]|] eqn:Hcut; [|exact I].
    apply cut_Some in Hcut. destruct Hcut as [_ Hsep].
    rewrite cut_None by (cbn in Hfew; lia). exact I.
  - unfold prefix in He. destruct (cut "/" id) as [[a b]|]; [|exact I].
    destruct (cut "/" b) as [[b1 b2]|]; [|exact I].
    exists e. exact He.
Qed.

(** C9, as stated, fails for identifiers with too many parts: "7/app/extra"
    has three "/"-separated parts where [clusterID/name] has two, yet
    parseUserID accepts it, with the user name "app/extra", and Read goes
    on to fetch cluster 7. *)
Lemma surplus_parts_are_accepted :
  separators "7/app/extra" = 2%nat /\
  cluster_user.parseUserID "7/app/extra" = Ok (7, "app/extra") /\
  exists resp w',
    cluster_user.Read sample_user.withApp sample.background
                      (sample_user.stored "7/app/extra") sample.start
      = Some (resp, w') /\
    HasError (diagnostics resp) = false /\
    map (fun x => (Method (sent x), URL (sent x))) (trace w')
      = [("GET", "https://api.example/api/ha/7")].
Proof.
  split; [reflexivity|]. split; [reflexivity|].
  do 2 eexists. repeat split; vm_compute; reflexivity.
Qed.

(** C9, amended.  A stored identifier with fewer "/"-separated parts than
    its format has fields, or whose first part strconv.Atoi rejects, makes
    Read of a user, database, extension or grant fail with the
    "Invalid resource ID" diagnostic carrying the parser's error, in the
    very world it started in: no request is sent and nothing is logged.
    An imported identifier is stored as it is, so the same holds for it.
    Surplus separators are not an error: what the parsers accept, they
    accept whole, the text after the last expected separator becoming the
    last field, so that the fields joined by "/" give back the
    identifier. *)
Theorem malformed_identifiers_are_rejected
    (c : Client) (ctx : Context) (id : string) (ds : Diagnostics)
    (w : World) :
  HasError ds = false ->
  (malformed 2 id ->
   (forall st, cluster_user.ID st = StringValue id ->
      exists err,
        cluster_user.parseUserID id = Err err /\
        cluster_user.Read c ctx {| value := st; decoding := ds |} w
          = Some (respond (invalidResourceID ds id err) Untouched, w)) /\
   (forall st, cluster_database.ID st = StringValue id ->
      exists err,
        cluster_database.parseDatabaseID id = Err err /\
        cluster_database.Read c ctx {| value := st; decoding := ds |} w
          = Some (respond (invalidResourceID ds id err) Untouched, w))) /\
  (malformed 3 id ->
   (forall st, cluster_extension.ID st = StringValue id ->
      exists err,
        cluster_extension.parseExtensionID id = Err err /\
        cluster_extension.Read c ctx {| value := st; decoding := ds |} w
          = Some (respond (invalidResourceID ds id err) Untouched, w)) /\
   (forall st, cluster_grant.ID st = StringValue id ->
      exists err,
        cluster_grant.parseGrantID id = Err err /\
        cluster_grant.Read c ctx {| value := st; decoding := ds |} w
          = Some (respond (invalidResourceID ds id err) Untouched, w))) /\
  (forall st,
     state (cluster_user.ImportState id) = SetState st ->
     cluster_user.ID st = StringValue id) /\
  (forall st,
     state (cluster_database.ImportState id) = SetState st ->
     cluster_database.ID st = StringValue id) /\
  (forall n name,
     cluster_user.parseUserID id = Ok (n, name) \/
     cluster_database.parseDatabaseID id = Ok (n, name) ->
     Atoi (prefix id) = Ok n /\ id = prefix id ++ "/" ++ name) /\
  (forall n a b,
     cluster_extension.parseExtensionID id = Ok (n, a, b) \/
     cluster_grant.parseGrantID id = Ok (n, a, b) ->
     Atoi (prefix id) = Ok n /\ id = prefix id ++ "/" ++ a ++ "/" ++ b).
Proof.
  intros Hds.
  split; [intros H; split; intros st Hid|].
  { apply two_fields_rejected in H.
    unfold cluster_user.Read, cluster_user.parseUserID.
    cbn [value decoding]. rewrite Hds, Hid. cbn [ValueString].
    destruct (SplitN id "/" 2) as [|p0 [|p1 [|p2 ps]]];
      try (eexists; split; reflexivity).
    destruct H as [e He]. rewrite He. eexists; split; reflexivity. }
  { apply two_fields_rejected in H.
    unfold cluster_database.Read, cluster_database.parseDatabaseID.
    cbn [value decoding]. rewrite Hds, Hid. cbn [ValueString].
    destruct (SplitN id "/" 2) as [|p0 [|p1 [|p2 ps]]];
      try (eexists; split; reflexivity).
    destruct H as [e He]. rewrite He. eexists; split; reflexivity. }
  split; [intros H; split; intros st Hid|].
  { apply three_fields_rejected in H.
    unfold cluster_extension.Read, cluster_extension.parseExtensionID.
    cbn [value decoding]. rewrite Hds, Hid. cbn [ValueString].
    destruct (SplitN id "/" 3) as [|p0 [|p1 [|p2 [|p3 ps]]]];
      try (eexists; split; reflexivity).
    destruct H as [e He]. rewrite He. eexists; split; reflexivity. }
  { apply three_fields_rejected in H.
    unfold cluster_grant.Read, cluster_grant.parseGrantID.
    cbn [value decoding]. rewrite Hds, Hid. cbn [ValueString].
    destruct (SplitN id "/" 3) as [|p0 [|p1 [|p2 [|p3 ps]]]];
      try (eexists; split; reflexivity).
    destruct H as [e He]. rewrite He. eexists; split; reflexivity. }
  split; [intros st H|].
  { unfold cluster_user.ImportState in H.
    destruct (SplitN id "/" 2) as [|p0 [|p1 [|p2 ps]]]; try discriminate.
    injection H as <-. reflexivity. }
  split; [intros st H|].
  { unfold cluster_database.ImportState in H.
    destruct (SplitN id "/" 2) as [|p0 [|p1 [|p2 ps]]]; try discriminate.
    injection H as <-. reflexivity. }
  split.
  - intros n name H.
    unfold cluster_user.parseUserID, cluster_database.parseDatabaseID in H.
    rewrite SplitN_2 in H. unfold prefix.
    destruct (cut "/" id) as [[p0 p1]|] eqn:Hcut;
      [|destruct H; discriminate].
    apply cut_Some in Hcut. destruct Hcut as [-> _].
    destruct (Atoi p0); destruct H as [H|H]; split; congruence.
  - intros n a b H.
    unfold cluster_extension.parseExtensionID, cluster_grant.parseGrantID
      in H.
    rewrite SplitN_3 in H. unfold prefix.
    destruct (cut "/" id) as [[p0 p1]|] eqn:Hcut;
      [|destruct H; discriminate].
    destruct (cut "/" p1) as [[p2 p3]|] eqn:Hcut';
      [|destruct H; discriminate].
    apply cut_Some in Hcut. destruct Hcut as [-> _].
    apply cut_Some in Hcut'. destruct Hcut' as [-> _].
    destruct (Atoi p0); destruct H as [H|H]; split; congruence.
Qed.

(** "abc" where [clusterID/name] is expected. *)
Lemma malformed_identifiers_are_rejected_witness :
  exists err,
    cluster_user.parseUserID "abc" = Err err /\
    cluster_user.Read sample_user.withApp sample.background
                      (sample_user.stored "abc") sample.start
      = Some (respond (invalidResourceID [] "abc" err) Untouched,
              sample.start).
Proof.
  destruct (malformed_identifiers_are_rejected
              sample_user.withApp sample.background "abc" [] sample.start
              eq_refl) as (Htwo & _).
  destruct (Htwo (or_introl (le_n 1))) as (Huser & _).
  exact (Huser (value (sample_user.stored "abc")) eq_refl).
Defined.

(** The allowlist was ["10.0.0.0/8"]; the update to ["192.168.0.0/16"]
    sends the second set alone, with the replace flag. *)
Lemma firewall_replaces_the_whole_set_witness :
  exists resp w' attempts,
    cluster_firewall.Update sample_firewall.accepting sample.background
        (sample_firewall.allow ["192.168.0.0/16"]) sample.start
      = Some (resp, w') /\
    trace w' = (trace sample.start ++ attempts)%list /\ attempts <> [] /\
    Forall (fun x => sent x = configureRequest sample_firewall.accepting 7
                                 (replaceIPs ["192.168.0.0/16"])) attempts.
Proof.
  exact (proj2 (proj1 (firewall_replaces_the_whole_set
                         sample_firewall.accepting sample.background
                         (sample_firewall.allow ["192.168.0.0/16"]) 7
                         sample.start eq_refl eq_refl) eq_refl)).
Defined.

Lemma deleted_or_failed_HasError (ds : Diagnostics) (e : error)
    (sum : string) (det : text) :
  HasError ds = false ->
  HasError (deleted_or_failed ds e sum det) = negb (IsNotFound e || IsGone e).
Proof.
  intros Hds. unfold deleted_or_failed.
  destruct (IsNotFound e || IsGone e); [exact Hds|apply HasError_AddError].
Qed.

(** C6. The five deletes with a remote counterpart.  Let the delete call
    fail with [e]: for the cluster and the backup configuration that is
    the answer to their one request; for a user, a database and the
    firewall it is the answer to a configure attempt, after any number of
    absorbed conflicts, [e] not being a conflict itself.  Then the delete
    stops right there, and its diagnostics are the decoding diagnostics
    (which hold no error) when [e] is not-found or gone, and those plus an
    error carrying [e] otherwise.  The same absence ends the wait that
    follows an accepted cluster deletion: a fetch refused as not-found or
    gone completes the delete without error. *)
Theorem delete_treats_absence_as_success
    (c : Client) (ctx : Context) (w : World) (e : error) :
  (forall st id,
     HasError (decoding st) = false ->
     Atoi (ValueString (cluster.ID (value st))) = Ok id ->
     let w1 := logged Info "Deleting cluster" [("id", AInt id)] w in
     let rq := request c "DELETE" (clusterPath id) None in
     let ds := deleted_or_failed (decoding st) e "Error deleting cluster"
                 (Sprintf "Could not delete cluster %d: %s"
                    [AInt id; AErr e]) in
     received false (answer c ctx w1 rq) = Err e ->
     cluster.Delete c ctx st w = Some (respond ds Untouched, after c ctx w1 rq)
     /\ HasError ds = negb (IsNotFound e || IsGone e)) /\
  (forall st id p k wk,
     HasError (decoding st) = false ->
     Atoi (ValueString (cluster.ID (value st))) = Ok id ->
     let w1 := logged Info "Deleting cluster" [("id", AInt id)] w in
     let rq := request c "DELETE" (clusterPath id) None in
     let w2 := after c ctx w1 rq in
     received false (answer c ctx w1 rq) = Ok p ->
     lingering c ctx id (now w2 + 10 * Minute) k w2 wk ->
     now wk < now w2 + 10 * Minute ->
     received true (answer c ctx wk (clusterRequest c id)) = Err e ->
     IsNotFound e || IsGone e = true ->
     cluster.Delete c ctx st w
       = Some (respond (decoding st) Untouched,
               after c ctx wk (clusterRequest c id))) /\
  (forall st id,
     HasError (decoding st) = false ->
     Atoi (ValueString (cluster_backup_config.ClusterID (value st))) = Ok id ->
     let w1 := logged Info "Disabling cluster backups"
                 [("cluster_id", AInt id)] w in
     let rq := request c "PUT" (backupPath id)
                 (Some (BUpdateBackup disableBackups)) in
     let ds := deleted_or_failed (decoding st) e "Error disabling backups"
                 (Sprintf "Could not disable backups on cluster %d: %s"
                    [AInt id; AErr e]) in
     received true (answer c ctx w1 rq) = Err e ->
     cluster_backup_config.Delete c ctx st w
       = Some (respond ds Untouched, after c ctx w1 rq)
     /\ HasError ds = negb (IsNotFound e || IsGone e)) /\
  (forall st id username k wk w',
     HasError (decoding st) = false ->
     cluster_user.parseUserID (ValueString (cluster_user.ID (value st)))
       = Ok (id, username) ->
     let w1 := logged Info "Deleting cluster user"
                 [("cluster_id", AInt id); ("username", AStr username)] w in
     let ds := deleted_or_failed (decoding st) e "Error deleting cluster user"
                 (Sprintf "Could not delete user %q from cluster %d: %s"
                    [AStr username; AInt id; AErr e]) in
     conflicted c ctx id (deleteUsers username) (now w1 + 2 * Minute) k w1 wk ->
     ConfigureCluster c ctx id (deleteUsers username) wk = Some (Err e, w') ->
     IsConflict e = false ->
     cluster_user.Delete c ctx st w = Some (respond ds Untouched, w')
     /\ HasError ds = negb (IsNotFound e || IsGone e)) /\
  (forall st id dbName k wk w',
     HasError (decoding st) = false ->
     cluster_database.parseDatabaseID
       (ValueString (cluster_database.ID (value st))) = Ok (id, dbName) ->
     let w1 := logged Info "Deleting cluster database"
                 [("cluster_id", AInt id); ("name", AStr dbName)] w in
     let ds := deleted_or_failed (decoding st) e
                 "Error deleting cluster database"
                 (Sprintf "Could not delete database %q from cluster %d: %s"
                    [AStr dbName; AInt id; AErr e]) in
     conflicted c ctx id (deleteDatabases dbName) (now w1 + 2 * Minute) k
                w1 wk ->
     ConfigureCluster c ctx id (deleteDatabases dbName) wk
       = Some (Err e, w') ->
     IsConflict e = false ->
     cluster_database.Delete c ctx st w = Some (respond ds Untouched, w')
     /\ HasError ds = negb (IsNotFound e || IsGone e)) /\
  (forall st id k wk w',
     HasError (decoding st) = false ->
     Atoi (ValueString (cluster_firewall.ClusterID (value st))) = Ok id ->
     let w1 := logged Info "Resetting cluster firewall to allow all"
                 [("cluster_id", AInt id)] w in
     let ds := deleted_or_failed (decoding st) e
                 "Error resetting cluster firewall"
                 (Sprintf "Could not reset firewall on cluster %d: %s"
                    [AInt id; AErr e]) in
     conflicted c ctx id (replaceIPs ["0.0.0.0/0"]) (now w1 + 2 * Minute) k
                w1 wk ->
     ConfigureCluster c ctx id (replaceIPs ["0.0.0.0/0"]) wk
       = Some (Err e, w') ->
     IsConflict e = false ->
     cluster_firewall.Delete c ctx st w = Some (respond ds Untouched, w')
     /\ HasError ds = negb (IsNotFound e || IsGone e)).
Proof.
  split; [|split; [|split; [|split; [|split]]]].
  - intros st id Hds Hid w1 rq ds Hrecv.
    split; [|apply deleted_or_failed_HasError; exact Hds].
    unfold cluster.Delete. rewrite Hds, Hid.
    rewrite (bind_run _ _ _ _ _ (tflog_run _ _ _ w)).
    unfold DeleteCluster.
    rewrite (bind_run _ _ _ _ _
               (bind_run _ _ _ _ _ (doRequest_run c ctx _ _ _ _ _))).
    fold w1. fold rq. rewrite Hrecv. unfold ret at 1.
    subst ds. unfold deleted_or_failed.
    destruct (IsNotFound e || IsGone e); reflexivity.
  - intros st id p k wk Hds Hid w1 rq w2 Hrecv Hrun Hlt Hpoll Habsent.
    unfold cluster.Delete. rewrite Hds, Hid.
    rewrite (bind_run _ _ _ _ _ (tflog_run _ _ _ w)).
    unfold DeleteCluster.
    rewrite (bind_run _ _ _ _ _
               (bind_run _ _ _ _ _ (doRequest_run c ctx _ _ _ _ _))).
    fold w1. fold rq. rewrite Hrecv. unfold ret at 1. fold w2.
    assert (Hv : deleted_verdict (answer c ctx wk (clusterRequest c id))
                 = Some None).
    { unfold deleted_verdict. rewrite Hpoll, Habsent. reflexivity. }
    rewrite (bind_run _ _ _ _ _
               (deleted_after_lingering c ctx id (10 * Minute) k w2 wk None
                  Hrun Hlt Hv)).
    reflexivity.
  - intros st id Hds Hid w1 rq ds Hrecv.
    split; [|apply deleted_or_failed_HasError; exact Hds].
    unfold cluster_backup_config.Delete. rewrite Hds, Hid.
    rewrite (bind_run _ _ _ _ _ (tflog_run _ _ _ w)).
    unfold UpdateBackupConfig.
    rewrite (bind_run _ _ _ _ _
               (bind_run _ _ _ _ _ (doRequest_run c ctx _ _ _ _ _))).
    fold disableBackups. fold w1. fold rq. rewrite Hrecv. unfold ret at 1.
    subst ds. unfold deleted_or_failed.
    destruct (IsNotFound e || IsGone e); reflexivity.
  - intros st id username k wk w' Hds Hid w1 ds Hrun Hcall Hc.
    split; [|apply deleted_or_failed_HasError; exact Hds].
    unfold cluster_user.Delete. rewrite Hds, Hid.
    rewrite (bind_run _ _ _ _ _ (tflog_run _ _ _ w)).
    fold (deleteUsers username). fold w1.
    rewrite (bind_run _ _ _ _ _
               (retry_settles _ _ _ _ _ _ _ _ _ _ Hrun Hcall Hc)).
    subst ds. unfold deleted_or_failed.
    destruct (IsNotFound e || IsGone e); reflexivity.
  - intros st id dbName k wk w' Hds Hid w1 ds Hrun Hcall Hc.
    split; [|apply deleted_or_failed_HasError; exact Hds].
    unfold cluster_database.Delete. rewrite Hds, Hid.
    rewrite (bind_run _ _ _ _ _ (tflog_run _ _ _ w)).
    fold (deleteDatabases dbName). fold w1.
    rewrite (bind_run _ _ _ _ _
               (retry_settles _ _ _ _ _ _ _ _ _ _ Hrun Hcall Hc)).
    subst ds. unfold deleted_or_failed.
    destruct (IsNotFound e || IsGone e); reflexivity.
  - intros st id k wk w' Hds Hid w1 ds Hrun Hcall Hc.
    split; [|apply deleted_or_failed_HasError; exact Hds].
    unfold cluster_firewall.Delete. rewrite Hds, Hid.
    rewrite (bind_run _ _ _ _ _ (tflog_run _ _ _ w)).
    fold (replaceIPs ["0.0.0.0/0"]). fold w1.
    rewrite (bind_run _ _ _ _ _
               (retry_settles _ _ _ _ _ _ _ _ _ _ Hrun Hcall Hc)).
    subst ds. unfold deleted_or_failed.
    destruct (IsNotFound e || IsGone e); reflexivity.
Qed.

(** The cluster answers 410 Gone: deleting the user "app" succeeds. *)
Lemma delete_treats_absence_as_success_witness :
  exists w',
    cluster_user.Delete sample_delete.gone sample.background
                        (sample_user.stored "7/app") sample.start
      = Some (respond [] Untouched, w') /\
    List.length (trace w') = 1%nat.
Proof.
  eexists.
  pose proof (delete_treats_absence_as_success
                sample_delete.gone sample.background sample.start
                (APIError 410 "cluster already deleted"))
    as (_ & _ & _ & Huser & _).
  split.
  - refine (proj1 (Huser (sample_user.stored "7/app") 7 "app" 0%nat _ _
                         eq_refl eq_refl (conflicted_O _ _ _ _ _ _)
                         eq_refl eq_refl)).
  - reflexivity.
Defined.

(** ** Operations that configure, then await the job *)

Lemma append_cancel (a b b' : string) : a ++ b = a ++ b' -> b = b'.
Proof.
  induction a as [|ch a IH]; cbn; intros H; [exact H|].
  injection H as H. exact (IH H).
Qed.






Section Configured.

Context {S : Type}.
Variable c : Client.
Variable ctx : Context.
Variable id : Z.
Variable req : ConfigureRequest.
Variable ds : Diagnostics.
Variable sum : string.
Variable E : error -> M (Response S).
Variable K : ConfigureResponse -> M (Response S).

Hypothesis Hds : HasError ds = false.
Hypothesis HE : forall err w, exists r, E err w = Some (r, w).
Hypothesis HK : forall resp w,
  exists r w' fetches,
    K resp w = Some (r, w') /\ trace w' = (trace w ++ fetches)%list /\
    Forall (fun x => sent x = clusterRequest c id) fetches /\
    diagnostics r = ds.




End Configured.











(** ** Values generated on the remote side *)

(** C4, as stated, fails for the user password: the configure response
    does not list the user, the cluster, if it were read, would; Create
    reads nothing, and persists the password as unknown as the plan had
    it, not as a value and not as an empty placeholder. *)
Lemma user_password_has_no_fallback :
  exists st w',
    cluster_user.Create sample_fallback.silent sample.background
                        sample_jobs_failed.newUser sample.start
      = Some (respond [] (SetState st), w') /\
    cluster_user.Password st = StringUnknown /\
    map (fun x => Method (sent x)) (trace w') = ["POST"].
Proof. do 2 eexists. repeat split; vm_compute; reflexivity. Qed.

(** C4, amended.  A create whose configure call was accepted with [resp]
    and whose job, if any, completed, resolves its remotely generated
    value as follows.
    - User password: the password of the response's entry for the user,
      when there is one; otherwise the password of the plan, left as it
      is, an unknown one included; in no case is the cluster read again
      or a default put in its place.
    - Database owner: the owner of the response's entry for the database;
      else the plan's owner when the plan fixes one, without reading the
      cluster; else the owner of the re-read cluster's entry; else the
      empty string.
    - Extension database: the non-empty database of the response's entry;
      else the non-empty database of the re-read cluster's entry; else the
      plan's database when the plan fixes one; else the default database
      of the cluster, read once more; the empty string if that read
      fails. *)
Theorem generated_values_fall_back
    (c : Client) (ctx : Context) (id : Z) (resp : ConfigureResponse)
    (w w2 w3 : World) :
  awaitJob c ctx id resp w2 = Some (None, w3) ->
  (forall plan,
     HasError (decoding plan) = false ->
     Atoi (ValueString (cluster_user.ClusterID (value plan))) = Ok id ->
     let username := ValueString (cluster_user.Username (value plan)) in
     ConfigureWithRetry c ctx id (createUser username) (2 * Minute)
       (logged Info "Creating cluster user"
               [("cluster_id", AInt id); ("username", AStr username)] w)
       = Some (Ok resp, w2) ->
     cluster_user.Create c ctx plan w
       = Some (respond (decoding plan)
                 (SetState
                    (createdUser (value plan) id
                       match find (cluster_user.hasUsername username)
                                  (rs_Users resp) with
                       | Some u => StringValue (up_Password u)
                       | None => cluster_user.Password (value plan)
                       end)), w3)) /\
  (forall plan g w4,
     HasError (decoding plan) = false ->
     Atoi (ValueString (cluster_database.ClusterID (value plan))) = Ok id ->
     let dbName := ValueString (cluster_database.Name (value plan)) in
     let owner := cluster_database.Owner (value plan) in
     ConfigureWithRetry c ctx id
       (createDatabase dbName (orEmpty (planned owner))) (2 * Minute)
       (logged Info "Creating cluster database"
               [("cluster_id", AInt id); ("name", AStr dbName)] w)
       = Some (Ok resp, w2) ->
     GetCluster c ctx id w3 = Some (g, w4) ->
     cluster_database.Create c ctx plan w =
     match find (cluster_database.hasName dbName) (rs_Databases resp) with
     | Some db =>
         Some (respond (decoding plan)
                 (SetState (createdDatabase (value plan) id (dp_Owner db))),
               w3)
     | None =>
         match planned owner with
         | Some s =>
             Some (respond (decoding plan)
                     (SetState (createdDatabase (value plan) id s)), w3)
         | None =>
             Some (respond (decoding plan)
                     (SetState (createdDatabase (value plan) id
                                  (orEmpty (ownerIn g dbName)))), w4)
         end
     end) /\
  (forall plan g w4 g' w5,
     HasError (decoding plan) = false ->
     Atoi (ValueString (cluster_extension.ClusterID (value plan))) = Ok id ->
     let extension := ValueString (cluster_extension.Extension (value plan)) in
     let database := cluster_extension.Database (value plan) in
     ConfigureWithRetry c ctx id
       (createExtension extension (orEmpty (planned database))) (2 * Minute)
       (logged Info "Creating cluster extension"
               [("cluster_id", AInt id); ("extension", AStr extension)] w)
       = Some (Ok resp, w2) ->
     GetCluster c ctx id w3 = Some (g, w4) ->
     GetCluster c ctx id w4 = Some (g', w5) ->
     let fromResponse :=
       match find (cluster_extension.hasExtension extension)
                  (rs_Extensions resp) with
       | Some ext => ep_Database ext
       | None => ""
       end in
     cluster_extension.Create c ctx plan w =
     if negb (String.eqb fromResponse "")
     then Some (respond (decoding plan)
                  (SetState (createdExtension (value plan) id fromResponse)),
                w3)
     else if negb (String.eqb (databaseIn g extension) "")
     then Some (respond (decoding plan)
                  (SetState (createdExtension (value plan) id
                               (databaseIn g extension))), w4)
     else match planned database with
          | Some s =>
              Some (respond (decoding plan)
                      (SetState (createdExtension (value plan) id s)), w4)
          | None =>
              Some (respond (decoding plan)
                      (SetState (createdExtension (value plan) id
                                   (defaultDatabaseIn g'))), w5)
          end).
Proof.
  intros Hawait. unfold awaitJob in Hawait.
  split; [|split].
  - intros plan Hdec Hid username Hcfg.
    unfold cluster_user.Create. rewrite Hdec, Hid.
    rewrite (bind_run _ _ _ _ _ (tflog_run _ _ _ w)).
    fold username. fold (createUser username).
    rewrite (bind_run _ _ _ _ _ Hcfg), (bind_run _ _ _ _ _ Hawait).
    reflexivity.
  - intros plan g w4 Hdec Hid dbName owner Hcfg Hget.
    unfold cluster_database.Create. rewrite Hdec, Hid.
    rewrite (bind_run _ _ _ _ _ (tflog_run _ _ _ w)).
    fold dbName. fold owner.
    replace (if negb (IsNull owner) && negb (IsUnknown owner)
             then ValueString owner else "")
      with (orEmpty (planned owner)) by (destruct owner; reflexivity).
    fold (createDatabase dbName (orEmpty (planned owner))).
    rewrite (bind_run _ _ _ _ _ Hcfg), (bind_run _ _ _ _ _ Hawait).
    destruct (find (cluster_database.hasName dbName) (rs_Databases resp))
      as [db|]; [reflexivity|].
    destruct owner as [| |s]; cbn [IsNull IsUnknown orb planned];
      try reflexivity;
      unfold bind at 1; unfold bind at 1; rewrite Hget;
      destruct g as [cluster|err]; cbn [ownerIn];
      try reflexivity;
      destruct (find (cluster_database.isDatabase dbName) (Databases cluster));
      reflexivity.
  - intros plan g w4 g' w5 Hdec Hid extension database Hcfg Hget Hget'
           fromResponse.
    unfold cluster_extension.Create. rewrite Hdec, Hid.
    rewrite (bind_run _ _ _ _ _ (tflog_run _ _ _ w)).
    fold extension. fold database.
    replace (if negb (IsNull database) && negb (IsUnknown database)
             then ValueString database else "")
      with (orEmpty (planned database)) by (destruct database; reflexivity).
    fold (createExtension extension (orEmpty (planned database))).
    rewrite (bind_run _ _ _ _ _ Hcfg), (bind_run _ _ _ _ _ Hawait).
    fold fromResponse.
    destruct (String.eqb fromResponse "") eqn:Hfr; cbn [negb];
      [|unfold bind at 1; unfold ret at 1; cbv beta; rewrite Hfr;
        reflexivity].
    apply String.eqb_eq in Hfr.
    unfold bind at 1; unfold bind at 1. rewrite Hget.
    assert (Hfetched :
      match g with
      | Ok cluster =>
          match find (cluster_extension.isExtension extension)
                     (Extensions cluster) with
          | Some ext => ret (ce_Database ext)
          | None => ret fromResponse
          end
      | Err _ => ret fromResponse
      end w4 = Some (databaseIn g extension, w4)).
    { rewrite Hfr. destruct g as [cluster|err]; cbn [databaseIn];
        [|reflexivity].
      destruct (find _ (Extensions cluster)); reflexivity. }
    rewrite Hfetched.
    destruct (String.eqb (databaseIn g extension) "") eqn:Hfc; cbn [negb];
      [|reflexivity].
    apply String.eqb_eq in Hfc.
    destruct database as [| |s]; cbn [IsNull IsUnknown negb andb planned];
      try reflexivity;
      unfold bind at 1; unfold bind at 1; rewrite Hget';
      rewrite Hfc; destruct g'; reflexivity.
Qed.

(** The response lists no extension and no user.  The plan fixes no
    database: the database of "vector" is read back from the cluster.
    The plan knows no password: the password stays unknown, and nothing
    but the configure request is sent. *)
Lemma generated_values_fall_back_witness :
  (exists w',
     cluster_extension.Create sample_fallback.silent sample.background
                              sample_fallback.newExtension sample.start
     = Some (respond []
               (SetState (createdExtension
                            (value sample_fallback.newExtension) 7 "appdb")),
             w')) /\
  (exists w',
     cluster_user.Create sample_fallback.silent sample.background
                         sample_jobs_failed.newUser sample.start
     = Some (respond []
               (SetState (createdUser (value sample_jobs_failed.newUser) 7
                                      StringUnknown)), w') /\
     map (fun x => Method (sent x)) (trace w') = ["POST"]).
Proof.
  split.
  - eexists.
    epose proof (generated_values_fall_back
                   sample_fallback.silent sample.background 7
                   sample_fallback.accepted sample.start _ _ eq_refl)
      as (_ & _ & Hext).
    rewrite (Hext sample_fallback.newExtension _ _ _ _
                  eq_refl eq_refl eq_refl eq_refl eq_refl).
    reflexivity.
  - eexists.
    epose proof (generated_values_fall_back
                   sample_fallback.silent sample.background 7
                   sample_fallback.accepted sample.start _ _ eq_refl)
      as (Huser & _ & _).
    rewrite (Huser sample_jobs_failed.newUser eq_refl eq_refl eq_refl).
    split; reflexivity.
Defined.

(** ** Scaling *)

Section Scaling.

Variable c : Client.
Variable ctx : Context.
Variable id : Z.

Lemma AddNode_run (w : World) :
  AddNode c ctx id w =
  Some (match received true (answer c ctx w (addNodeRequest c id)) with
        | Err err => Err err
        | Ok p => Ok (asAddNode p)
        end, after c ctx w (addNodeRequest c id)).
Proof. reflexivity. Qed.

Lemma RemoveNode_run (name : string) (w : World) :
  RemoveNode c ctx id name w =
  Some (match received true
                (answer c ctx w (removeNodeRequest c id name)) with
        | Err err => Err err
        | Ok p => Ok (asRemoveNode p)
        end, after c ctx w (removeNodeRequest c id name)).
Proof. reflexivity. Qed.

Lemma addOneNode_step (ds : Diagnostics) (i : Z) (w : World) :
  exists r w',
    cluster.addOneNode c ctx id ds i w = Some (r, w') /\
    one_step c ctx id (addNodeRequest c id) w r w'.
Proof.
  unfold cluster.addOneNode.
  rewrite (bind_run _ _ _ _ _ (AddNode_run w)).
  destruct (received true (answer c ctx w (addNodeRequest c id)))
    as [p|err] eqn:Hrecv.
  - destruct (WaitForJobComplete_awaited c ctx id (10 * Minute)
                (after c ctx w (addNodeRequest c id)))
      as (waited & w' & Hwait & Hawaited).
    rewrite (bind_run _ _ _ _ _ Hwait).
    destruct waited as [err|].
    + eexists _, w'. split; [reflexivity|].
      split; [apply HasError_AddError|]. right.
      exists p, err. split; [exact Hrecv|exact Hawaited].
    + eexists _, w'. split; [reflexivity|].
      exists p. split; [exact Hrecv|exact Hawaited].
  - eexists _, _. split; [reflexivity|].
    split; [apply HasError_AddError|]. left.
    exists err. split; [exact Hrecv|reflexivity].
Qed.

Lemma removeOneNode_step (tenantID : string) (ds : Diagnostics) (i : Z)
    (w : World) :
  exists r w',
    cluster.removeOneNode c ctx id tenantID ds i w = Some (r, w') /\
    one_step c ctx id
             (removeNodeRequest c id (cluster.nodeName tenantID i)) w r w'.
Proof.
  unfold cluster.removeOneNode. cbv zeta.
  rewrite (bind_run _ _ _ _ _ (RemoveNode_run _ w)).
  set (rq := removeNodeRequest c id (cluster.nodeName tenantID i)).
  destruct (received true (answer c ctx w rq)) as [p|err] eqn:Hrecv.
  - destruct (WaitForJobComplete_awaited c ctx id (10 * Minute)
                (after c ctx w rq))
      as (waited & w' & Hwait & Hawaited).
    rewrite (bind_run _ _ _ _ _ Hwait).
    destruct waited as [err|].
    + eexists _, w'. split; [reflexivity|].
      split; [apply HasError_AddError|]. right.
      exists p, err. split; [exact Hrecv|exact Hawaited].
    + eexists _, w'. split; [reflexivity|].
      exists p. split; [exact Hrecv|exact Hawaited].
  - eexists _, _. split; [reflexivity|].
    split; [apply HasError_AddError|]. left.
    exists err. split; [exact Hrecv|reflexivity].
Qed.

(** A loop of such steps carries out its requests one at a time. *)
Lemma each_stepped {A : Type} (body : A -> M (option Diagnostics))
    (rq_of : A -> Request) :
  (forall a w, exists r w',
     body a w = Some (r, w') /\ one_step c ctx id (rq_of a) w r w') ->
  forall xs w, exists r w',
    cluster.each xs body w = Some (r, w') /\
    stepped c ctx id (map rq_of xs) w w'
            (match r with None => true | Some _ => false end) /\
    (forall ds', r = Some ds' -> HasError ds' = true).
Proof.
  intros Hbody. induction xs as [|a xs IH]; intros w.
  - exists None, w. split; [reflexivity|].
    split; [constructor|discriminate].
  - destruct (Hbody a w) as (r & w1 & Hrun & Hstep).
    cbn [cluster.each map]. rewrite (bind_run _ _ _ _ _ Hrun).
    destruct r as [ds'|].
    + exists (Some ds'), w1. split; [reflexivity|].
      destruct Hstep as [Herr [(e & He & ->)|(p & err & Hp & Hwait)]].
      * split; [exact (stepped_refused _ _ _ _ _ _ _ He)|].
        intros ? [= <-]. exact Herr.
      * split; [exact (stepped_stalled _ _ _ _ _ _ _ _ _ Hp Hwait)|].
        intros ? [= <-]. exact Herr.
    + destruct Hstep as (p & Hp & Hwait).
      destruct (IH w1) as (r & w2 & Hrest & Hstepped & Herr).
      exists r, w2. split; [exact Hrest|].
      split; [exact (stepped_next _ _ _ _ _ _ _ _ _ _ Hp Hwait Hstepped)
             |exact Herr].
Qed.

(** The requests of pending polls, and of a wait, are polls. *)
Lemma pending_polls (deadline : Z) (k : nat) (w wk : World) :
  pending c ctx id deadline k w wk ->
  exists polls,
    trace wk = (trace w ++ polls)%list /\
    Forall (fun x => sent x = jobsRequest c id) polls.
Proof.
  induction 1 as [w|k w wk w1 p Hrun IH Hlt Hcall Hne Hnf Hq].
  - exists []. split; [symmetry; apply app_nil_r|constructor].
  - destruct IH as (polls & Htr & Hsent).
    rewrite doRequest_run in Hcall. injection Hcall as _ <-.
    eexists (polls ++ [_])%list. cbn [trace slept after].
    rewrite Htr, <- app_assoc. split; [reflexivity|].
    apply Forall_app. split; [exact Hsent|].
    constructor; [reflexivity|constructor].
Qed.

Lemma awaited_polls (timeout : Z) (w w' : World) (r : option error) :
  awaited c ctx id timeout w r w' ->
  exists polls,
    trace w' = (trace w ++ polls)%list /\
    Forall (fun x => sent x = jobsRequest c id) polls.
Proof.
  intros [k wk r0 Hk _ _|k wk t Hk _ _ _ _|k wk Hk _];
    destruct (pending_polls _ _ _ _ Hk) as (polls & Htr & Hsent).
  - eexists (polls ++ [_])%list. cbn [trace after].
    rewrite Htr, <- app_assoc. split; [reflexivity|].
    apply Forall_app. split; [exact Hsent|].
    constructor; [reflexivity|constructor].
  - eexists (polls ++ [_])%list. cbn [trace interrupted after].
    rewrite Htr, <- app_assoc. split; [reflexivity|].
    apply Forall_app. split; [exact Hsent|].
    constructor; [reflexivity|constructor].
  - exists polls. split; [exact Htr|exact Hsent].
Qed.

End Scaling.

Lemma posted_app (a b : list Exchange) :
  posted (a ++ b) = (posted a ++ posted b)%list.
Proof. unfold posted. rewrite filter_app, map_app. reflexivity. Qed.

Lemma posted_polls (c : Client) (id : Z) (polls : list Exchange) :
  Forall (fun x => sent x = jobsRequest c id) polls -> posted polls = [].
Proof.
  induction 1 as [|x polls Hx _ IH]; [reflexivity|].
  unfold posted in *. cbn [filter]. rewrite Hx. exact IH.
Qed.

Lemma posted_post (x : Exchange) :
  Method (sent x) = "POST" -> posted [x] = [sent x].
Proof. intro H. unfold posted. cbn [filter]. rewrite H. reflexivity. Qed.

(** Requests carried out one at a time are the POST requests of the
    exchanges made. *)
Lemma stepped_posted (c : Client) (ctx : Context) (id : Z)
    (rqs : list Request) (w w' : World) (done : bool) :
  Forall (fun rq => Method rq = "POST") rqs ->
  stepped c ctx id rqs w w' done ->
  exists steps pending,
    trace w' = (trace w ++ steps)%list /\
    rqs = (posted steps ++ pending)%list /\
    (done = true -> pending = []) /\ (done = false -> posted steps <> []).
Proof.
  intros Hpost Hstep.
  induction Hstep as [w|rq rest w e He|rq rest w w1 p err Hp Hwait
                      |rq rest w w1 w2 p done Hp Hwait Hstep IH].
  - exists [], []. split; [symmetry; apply app_nil_r|].
    split; [reflexivity|]. split; [reflexivity|discriminate].
  - inversion Hpost as [|? ? Hrq Hrest]; subst.
    exists [{| sent := rq; got := answer c ctx w rq |}], rest.
    split; [reflexivity|].
    rewrite (posted_post {| sent := rq; got := answer c ctx w rq |} Hrq).
    split; [reflexivity|]. split; discriminate.
  - inversion Hpost as [|? ? Hrq Hrest]; subst.
    destruct (awaited_polls c ctx id _ _ _ _ Hwait) as (polls & Htr & Hsent).
    exists ([{| sent := rq; got := answer c ctx w rq |}] ++ polls)%list, rest.
    split; [rewrite Htr; cbn [trace after]; rewrite <- app_assoc;
            reflexivity|].
    rewrite posted_app, (posted_polls _ _ _ Hsent), app_nil_r.
    rewrite (posted_post {| sent := rq; got := answer c ctx w rq |} Hrq).
    split; [reflexivity|]. split; discriminate.
  - inversion Hpost as [|? ? Hrq Hrest]; subst.
    destruct (awaited_polls c ctx id _ _ _ _ Hwait) as (polls & Htr & Hsent).
    destruct (IH Hrest) as (steps & pending & Htr2 & Heq & Hdone & Hsome).
    exists ([{| sent := rq; got := answer c ctx w rq |}]
            ++ polls ++ steps)%list, pending.
    split; [rewrite Htr2, Htr; cbn [trace after]; rewrite <- !app_assoc;
            reflexivity|].
    rewrite !posted_app, (posted_polls _ _ _ Hsent).
    rewrite (posted_post {| sent := rq; got := answer c ctx w rq |} Hrq). cbn [app sent].
    split; [rewrite <- Heq; reflexivity|].
    split; [exact Hdone|discriminate].
Qed.

(** The requests, the world they start in and the remote side determine
    how far the stepping gets and where it ends. *)
Lemma stepped_unique (c : Client) (ctx : Context) (id : Z)
    (rqs : list Request) (w w1 w2 : World) (d1 d2 : bool) :
  stepped c ctx id rqs w w1 d1 -> stepped c ctx id rqs w w2 d2 ->
  w1 = w2 /\ d1 = d2.
Proof.
  intros H1. revert w2 d2.
  induction H1 as [w|rq rest w e He|rq rest w w1 p err Hp Hwait
                   |rq rest w w1 w3 p done Hp Hwait Hstep IH];
    intros w2 d2 H2; inversion H2; subst;
    try (split; reflexivity); try congruence.
  - match goal with
    | Hw : awaited _ _ _ _ _ (Some _) _ |- _ =>
        destruct (awaited_unique c ctx id _ _ _ _ _ _ Hwait Hw)
          as [_ ->]
    end. split; reflexivity.
  - match goal with
    | Hw : awaited _ _ _ _ _ None _ |- _ =>
        destruct (awaited_unique c ctx id _ _ _ _ _ _ Hwait Hw)
          as [Hr _]; discriminate Hr
    end.
  - match goal with
    | Hw : awaited _ _ _ _ _ (Some _) _ |- _ =>
        destruct (awaited_unique c ctx id _ _ _ _ _ _ Hwait Hw)
          as [Hr _]; discriminate Hr
    end.
  - match goal with
    | Hw : awaited _ _ _ _ _ None _ |- _ =>
        destruct (awaited_unique c ctx id _ _ _ _ _ _ Hwait Hw)
          as [_ <-]
    end. apply IH. assumption.
Qed.

Section Update.

Variable c : Client.
Variable ctx : Context.
Variable id : Z.

(** The end of Update, after the scaling block returned [r]. *)
Lemma refresh_tail (r : option Diagnostics) (ds : Diagnostics)
    (plan : cluster.Model) (w1 : World) :
  HasError ds = false ->
  (forall ds', r = Some ds' -> HasError ds' = true) ->
  exists resp w',
    match r with
    | Some ds' => ret (respond ds' Untouched)
    | None =>
        bind (GetCluster c ctx id)
          (fun g =>
             match g with
             | Err err =>
                 ret (respond
                        (AddError ds "Error reading cluster after update"
                           (Sprintf "Could not read cluster %d: %s"
                              [AInt id; AErr err])) Untouched)
             | Ok cluster =>
                 ret (respond ds
                        (SetState (cluster.mapClusterToState cluster plan)))
             end)
    end w1 = Some (resp, w') /\
    refreshed c ctx id (match r with None => true | Some _ => false end)
              w1 resp w'.
Proof.
  intros Hds Herr. destruct r as [ds'|].
  - eexists _, w1. split; [reflexivity|].
    repeat split. apply Herr. reflexivity.
  - rewrite (bind_run _ _ _ _ _ (GetCluster_run c ctx id w1)).
    unfold refreshed, clusterRequest.
    destruct (received true
                (answer c ctx w1 (request c "GET" (clusterPath id) None)))
      as [p|err] eqn:Hrecv.
    + eexists _, _. split; [reflexivity|]. split; [reflexivity|].
      split; [exact Hds|]. eexists. reflexivity.
    + eexists _, _. split; [reflexivity|]. split; [reflexivity|].
      split; [apply HasError_AddError|reflexivity].
Qed.

Variables plan st : Decoded cluster.Model.

Hypothesis Hdec : HasError (decoding plan ++ decoding st)%list = false.
Hypothesis Hid : Atoi (ValueString (cluster.ID (value st))) = Ok id.

Let oldCount := ValueInt64 (cluster.NodeCount (value st)).
Let newCount := ValueInt64 (cluster.NodeCount (value plan)).

(** Scaling out: one add-node request per missing node, one at a time. *)
Lemma Update_grows (w : World) :
  oldCount < newCount ->
  exists resp w' w1 done,
    cluster.Update c ctx plan st w = Some (resp, w') /\
    scaled c ctx id
           (map (fun _ => addNodeRequest c id)
                (cluster.counting_up oldCount newCount))
           (logged Info "Scaling cluster nodes"
              [("cluster_id", AInt id); ("from", AInt oldCount);
               ("to", AInt newCount)] w)
           w1 done /\
    refreshed c ctx id done w1 resp w'.
Proof.
  intros Hlt. unfold cluster.Update. rewrite Hdec, Hid.
  fold oldCount. fold newCount. unfold cluster.scale.
  destruct (Z.eqb_spec newCount oldCount) as [|_]; [lia|].
  destruct (Z.ltb_spec oldCount newCount) as [_|]; [|lia].
  cbn [negb].
  destruct (each_stepped c ctx id
              (cluster.addOneNode c ctx id (decoding plan ++ decoding st)%list)
              (fun _ => addNodeRequest c id)
              (addOneNode_step c ctx id _)
              (cluster.counting_up oldCount newCount)
              (logged Info "Scaling cluster nodes"
                 [("cluster_id", AInt id); ("from", AInt oldCount);
                  ("to", AInt newCount)] w))
    as (r & w1 & Hrun & Hstepped & Herr).
  rewrite (bind_run _ _ _ _ _
             (eq_trans (bind_run _ _ _ _ _ (tflog_run _ _ _ w)) Hrun)).
  destruct (refresh_tail r _ (value plan) w1 Hdec Herr)
    as (resp & w' & Hend & Hrefreshed).
  exists resp, w', w1, (match r with None => true | Some _ => false end).
  split; [exact Hend|]. split; [|exact Hrefreshed].
  split; [exact Hstepped|].
  apply (stepped_posted c ctx id _ _ _ _); [|exact Hstepped].
  apply Forall_forall. intros rq Hin. apply in_map_iff in Hin.
  destruct Hin as (i & <- & _). reflexivity.
Qed.

(** Scaling in: the cluster is read for its tenant identifier, then one
    remove-node request per surplus node, highest number first. *)
Lemma Update_shrinks (w : World) :
  newCount < oldCount ->
  let w0 := logged Info "Scaling cluster nodes"
              [("cluster_id", AInt id); ("from", AInt oldCount);
               ("to", AInt newCount)] w in
  exists resp w',
    cluster.Update c ctx plan st w = Some (resp, w') /\
    match received true (answer c ctx w0 (clusterRequest c id)) with
    | Err _ =>
        w' = after c ctx w0 (clusterRequest c id) /\
        HasError (diagnostics resp) = true /\ state resp = Untouched
    | Ok p =>
        exists w1 done,
          scaled c ctx id
            (map (fun i => removeNodeRequest c id
                             (cluster.nodeName (TenantID (asCluster p)) i))
                 (cluster.counting_down oldCount newCount))
            (after c ctx w0 (clusterRequest c id)) w1 done /\
          refreshed c ctx id done w1 resp w'
    end.
Proof.
  intros Hlt w0. unfold cluster.Update. rewrite Hdec, Hid.
  fold oldCount. fold newCount. unfold cluster.scale.
  destruct (Z.eqb_spec newCount oldCount) as [|_]; [lia|].
  destruct (Z.ltb_spec oldCount newCount) as [|_]; [lia|].
  cbn [negb].
  rewrite bind_bind, (bind_run _ _ _ _ _ (tflog_run _ _ _ w)).
  fold w0.
  rewrite bind_bind, (bind_run _ _ _ _ _ (GetCluster_run c ctx id w0)).
  fold (clusterRequest c id).
  destruct (received true (answer c ctx w0 (clusterRequest c id)))
    as [p|err] eqn:Hrecv.
  - destruct (each_stepped c ctx id
                (cluster.removeOneNode c ctx id (TenantID (asCluster p))
                   (decoding plan ++ decoding st)%list)
                (fun i => removeNodeRequest c id
                            (cluster.nodeName (TenantID (asCluster p)) i))
                (removeOneNode_step c ctx id _ _)
                (cluster.counting_down oldCount newCount)
                (after c ctx w0 (clusterRequest c id)))
      as (r & w1 & Hrun & Hstepped & Herr).
    rewrite (bind_run _ _ _ _ _ Hrun).
    destruct (refresh_tail r _ (value plan) w1 Hdec Herr)
      as (resp & w' & Hend & Hrefreshed).
    exists resp, w'. split; [exact Hend|].
    exists w1, (match r with None => true | Some _ => false end).
    split; [|exact Hrefreshed].
    split; [exact Hstepped|].
    apply (stepped_posted c ctx id _ _ _ _); [|exact Hstepped].
    apply Forall_forall. intros rq Hin. apply in_map_iff in Hin.
    destruct Hin as (i & <- & _). reflexivity.
  - eexists _, _. split; [reflexivity|].
    split; [reflexivity|]. split; [apply HasError_AddError|reflexivity].
Qed.

End Update.

(** C2. An update that changes only the node count, with input that
    decoded without error and a cluster identifier that parses.
    From 1 to 3: after its log line the update carries out two add-node
    requests one at a time.  The first is sent and, when accepted,
    followed by a wait of up to ten minutes for the jobs of the cluster,
    which begins with a poll; the second is sent only in the world in
    which that wait found the job list empty, and is followed by a wait
    of its own.  These are the only POST requests, exactly two when the
    block went through; then the cluster is fetched once.
    From 3 to 1: the cluster is fetched first, and with its tenant
    identifier [t] the same holds for the two remove-node requests naming
    [t-db-3], then [t-db-2].  In both directions a refused request, or a
    wait that ends with an error, ends the exchanges there and then:
    nothing more is sent, the response carries an error and the state is
    left alone. *)
Theorem node_scaling_is_sequential
    (c : Client) (ctx : Context) (plan st : Decoded cluster.Model) (id : Z)
    (w : World) :
  HasError (decoding plan ++ decoding st)%list = false ->
  Atoi (ValueString (cluster.ID (value st))) = Ok id ->
  (ValueInt64 (cluster.NodeCount (value st)) = 1 ->
   ValueInt64 (cluster.NodeCount (value plan)) = 3 ->
   exists resp w' w1 done,
     cluster.Update c ctx plan st w = Some (resp, w') /\
     scaled c ctx id [addNodeRequest c id; addNodeRequest c id]
            (logged Info "Scaling cluster nodes"
               [("cluster_id", AInt id); ("from", AInt 1); ("to", AInt 3)] w)
            w1 done /\
     refreshed c ctx id done w1 resp w') /\
  (ValueInt64 (cluster.NodeCount (value st)) = 3 ->
   ValueInt64 (cluster.NodeCount (value plan)) = 1 ->
   let w0 := logged Info "Scaling cluster nodes"
               [("cluster_id", AInt id); ("from", AInt 3); ("to", AInt 1)] w in
   exists resp w',
     cluster.Update c ctx plan st w = Some (resp, w') /\
     match received true (answer c ctx w0 (clusterRequest c id)) with
     | Err _ =>
         w' = after c ctx w0 (clusterRequest c id) /\
         HasError (diagnostics resp) = true /\ state resp = Untouched
     | Ok p =>
         exists w1 done,
           scaled c ctx id
             [removeNodeRequest c id (TenantID (asCluster p) ++ "-db-3");
              removeNodeRequest c id (TenantID (asCluster p) ++ "-db-2")]
             (after c ctx w0 (clusterRequest c id)) w1 done /\
           refreshed c ctx id done w1 resp w'
     end).
Proof.
  intros Hdec Hid. split; intros Hold Hnew.
  - pose proof (Update_grows c ctx id plan st Hdec Hid w) as H.
    cbv zeta in H. rewrite Hold, Hnew in H. exact (H eq_refl).
  - pose proof (Update_shrinks c ctx id plan st Hdec Hid w) as H.
    cbv zeta in H. rewrite Hold, Hnew in H. exact (H eq_refl).
Qed.

(** From one node to three against a remote side that accepts every
    request and reports no active job: both requests are carried out, each
    with one poll behind it, and the cluster is fetched at the end. *)
Lemma node_scaling_is_sequential_witness :
  exists resp w' w1,
    cluster.Update sample_scale.compliant sample.background
        (sample_scale.decoded (sample_scale.sized 3))
        (sample_scale.decoded (sample_scale.sized 1)) sample.start
      = Some (resp, w') /\
    scaled sample_scale.compliant sample.background 7
           [addNodeRequest sample_scale.compliant 7;
            addNodeRequest sample_scale.compliant 7]
           (logged Info "Scaling cluster nodes"
              [("cluster_id", AInt 7); ("from", AInt 1); ("to", AInt 3)]
              sample.start)
           w1 true /\
    refreshed sample_scale.compliant sample.background 7 true w1 resp w' /\
    HasError (diagnostics resp) = false /\
    map told (trace w') =
      [("POST", "https://api.example/api/ha/7/add-node", None);
       ("GET", "https://api.example/api/ha/7/jobs?active=true", None);
       ("POST", "https://api.example/api/ha/7/add-node", None);
       ("GET", "https://api.example/api/ha/7/jobs?active=true", None);
       ("GET", "https://api.example/api/ha/7", None)].
Proof.
  destruct (proj1 (node_scaling_is_sequential
                     sample_scale.compliant sample.background
                     (sample_scale.decoded (sample_scale.sized 3))
                     (sample_scale.decoded (sample_scale.sized 1)) 7
                     sample.start eq_refl eq_refl) eq_refl eq_refl)
    as (resp & w' & w1 & done & Hrun & Hscaled & Hrefreshed).
  assert (Hok : HasError (diagnostics resp) = false /\
                map told (trace w') =
                  [("POST", "https://api.example/api/ha/7/add-node", None);
                   ("GET", "https://api.example/api/ha/7/jobs?active=true",
                    None);
                   ("POST", "https://api.example/api/ha/7/add-node", None);
                   ("GET", "https://api.example/api/ha/7/jobs?active=true",
                    None);
                   ("GET", "https://api.example/api/ha/7", None)]).
  { pose proof Hrun as Hconcrete. vm_compute in Hconcrete.
    injection Hconcrete as <- <-. split; reflexivity. }
  destruct Hok as [Hnone Htold].
  destruct done.
  - exists resp, w', w1. split; [exact Hrun|]. split; [exact Hscaled|].
    split; [exact Hrefreshed|]. split; [exact Hnone|exact Htold].
  - destruct Hrefreshed as (_ & Herr & _). congruence.
Defined.

(** ** The model at work *)

Example Itoa_samples : Itoa 42 = "42" /\ Itoa 0 = "0" /\ Itoa (-5) = "-5".
Proof. repeat split; reflexivity. Qed.

Example Atoi_samples :
  Atoi "42" = Ok 42 /\ Atoi "-7" = Ok (-7) /\ Atoi "+007" = Ok 7 /\
  Atoi "abc" = Err (NumError "Atoi" "abc" "invalid syntax") /\
  Atoi "" = Err (NumError "Atoi" "" "invalid syntax") /\
  Atoi "1_000" = Err (NumError "Atoi" "1_000" "invalid syntax") /\
  Atoi "9223372036854775808" =
    Err (NumError "Atoi" "9223372036854775808" "value out of range").
Proof. repeat split; reflexivity. Qed.

(** The characters are read from the left: digits that overflow before
    a character that is no digit are out of range, a character that is no
    digit before any overflow is bad syntax. *)
Example Atoi_reads_from_the_left :
  Atoi "99999999999999999999x" =
    Err (NumError "Atoi" "99999999999999999999x" "value out of range") /\
  Atoi "9223372036854775808x" =
    Err (NumError "Atoi" "9223372036854775808x" "invalid syntax") /\
  Atoi "-9223372036854775808" = Ok (-9223372036854775808) /\
  Atoi "-9223372036854775809" =
    Err (NumError "Atoi" "-9223372036854775809" "value out of range").
Proof. repeat split; reflexivity. Qed.

Example SplitN_samples :
  SplitN "12/bob" "/" 2 = ["12"; "bob"] /\
  SplitN "abc" "/" 2 = ["abc"] /\
  SplitN "1/a/b" "/" 2 = ["1"; "a/b"] /\
  SplitN "1/a/b/c" "/" 3 = ["1"; "a"; "b/c"] /\
  SplitN "/x" "/" 2 = [""; "x"].
Proof. repeat split; reflexivity. Qed.

(** Against a cluster that stays busy, ConfigureWithRetry gives up after
    thirteen attempts, 10 s apart, with the timeout error wrapping the
    conflict. *)
Example ConfigureWithRetry_gives_up :
  exists w',
    ConfigureWithRetry sample.alwaysBusy sample.background 7 sample.addUser
                       (2 * Minute) sample.start
    = Some (Err (retryTimeout (APIError 409 "cluster has an active job")), w')
    /\ List.length (trace w') = 13%nat /\ now w' = 123250000000.
Proof. eexists. repeat split; vm_compute; reflexivity. Qed.

(** A context cancelled after 25 s stops the retries during the third
    backoff. *)
Example ConfigureWithRetry_cancelled :
  exists w',
    ConfigureWithRetry sample.alwaysBusy {| done_at := Some (25 * Second) |}
                       7 sample.addUser (2 * Minute) sample.start
    = Some (Err ContextDone, w')
    /\ List.length (trace w') = 3%nat /\ now w' = 25 * Second.
Proof. eexists. repeat split; vm_compute; reflexivity. Qed.

(** From three nodes to one: fetch, remove db-3, poll, remove db-2, poll,
    fetch. *)
Example Update_three_to_one :
  exists resp w',
    cluster.Update sample_scale.compliant sample.background
        (sample_scale.decoded (sample_scale.sized 1))
        (sample_scale.decoded (sample_scale.sized 3)) sample.start
      = Some (resp, w') /\
    HasError (diagnostics resp) = false /\
    map told (trace w') =
      [("GET", "https://api.example/api/ha/7", None);
       ("POST", "https://api.example/api/ha/7/remove-node",
        Some "rs-abc123-db-3");
       ("GET", "https://api.example/api/ha/7/jobs?active=true", None);
       ("POST", "https://api.example/api/ha/7/remove-node",
        Some "rs-abc123-db-2");
       ("GET", "https://api.example/api/ha/7/jobs?active=true", None);
       ("GET", "https://api.example/api/ha/7", None)].
Proof. do 2 eexists. repeat split; vm_compute; reflexivity. Qed.

(** A refused removal ends the update at once. *)
Example Update_three_to_one_refused :
  exists resp w',
    cluster.Update sample_scale.refusing sample.background
        (sample_scale.decoded (sample_scale.sized 1))
        (sample_scale.decoded (sample_scale.sized 3)) sample.start
      = Some (resp, w') /\
    HasError (diagnostics resp) = true /\
    map told (trace w') =
      [("GET", "https://api.example/api/ha/7", None);
       ("POST", "https://api.example/api/ha/7/remove-node",
        Some "rs-abc123-db-3")].
Proof. do 2 eexists. repeat split; vm_compute; reflexivity. Qed.

(** From one node to three: add, poll, add, poll, fetch. *)
Example Update_one_to_three :
  exists resp w',
    cluster.Update sample_scale.compliant sample.background
        (sample_scale.decoded (sample_scale.sized 3))
        (sample_scale.decoded (sample_scale.sized 1)) sample.start
      = Some (resp, w') /\
    HasError (diagnostics resp) = false /\
    map told (trace w') =
      [("POST", "https://api.example/api/ha/7/add-node", None);
       ("GET", "https://api.example/api/ha/7/jobs?active=true", None);
       ("POST", "https://api.example/api/ha/7/add-node", None);
       ("GET", "https://api.example/api/ha/7/jobs?active=true", None);
       ("GET", "https://api.example/api/ha/7", None)].
Proof. do 2 eexists. repeat split; vm_compute; reflexivity. Qed.

(** The user is created, job 100 fails: the create fails with the job's
    identifier, type and message. *)
Example user_create_job_failed :
  exists w',
    cluster_user.Create sample_jobs_failed.jobFails sample.background
                        sample_jobs_failed.newUser sample.start
    = Some (respond
              [jobFailureDiagnostic "Error waiting for user creation" 7
                 (Errorf "cluster job %d (%s) failed: %s"
                    [AInt 100; AStr "configure"; AStr "disk full"])]
              Untouched, w').
Proof. eexists. vm_compute. reflexivity. Qed.

(** The firewall delete resets the allowlist to the wildcard. *)
Example firewall_delete_request :
  exists resp w',
    cluster_firewall.Delete sample_firewall.accepting sample.background
        (sample_firewall.allow ["10.0.0.0/8"]) sample.start
      = Some (resp, w') /\
    map (fun x => ReqBody (sent x)) (trace w')
      = [Some (BConfigure (replaceIPs ["0.0.0.0/0"]))].
Proof. do 2 eexists. split; vm_compute; reflexivity. Qed.

(* ================================================================= *)
(** * Further properties *)

(** ** strconv and the composite identifiers *)

(** Evaluate [digit_of] on a literal character. *)
Ltac digit :=
  match goal with
  | |- context [digit_of ?ch] =>
      let v := eval vm_compute in (digit_of ch) in
      change (digit_of ch) with v; cbv iota beta
  end.

Lemma digits_value_acc (d : Decimal.uint) (p : positive) :
  digits_value (NilEmpty.string_of_uint d) (Z.pos p)
  = Some (Z.pos (Pos.of_uint_acc d p)).
Proof.
  revert p. induction d; intro p; cbn [NilEmpty.string_of_uint Pos.of_uint_acc];
    [reflexivity|..];
    cbn [digits_value]; digit;
    rewrite <- IHd; f_equal; lia.
Qed.

Lemma digits_value_uint (d : Decimal.uint) :
  digits_value (NilEmpty.string_of_uint d) 0 = Some (Z.of_N (Pos.of_uint d)).
Proof.
  induction d; cbn [NilEmpty.string_of_uint Pos.of_uint];
    [reflexivity|..];
    cbn [digits_value]; digit;
    solve [ exact IHd | apply digits_value_acc ].
Qed.

Lemma digits_value_pos (p : positive) :
  digits_value (NilEmpty.string_of_uint (Pos.to_uint p)) 0 = Some (Z.pos p).
Proof.
  rewrite digits_value_uint, DecimalPos.Unsigned.of_to. reflexivity.
Qed.

Lemma Atoi_digits (s : string) (v : Z) :
  (exists ch rest d, s = String ch rest /\ digit_of ch = Some d) ->
  digits_value s 0 = Some v ->
  MinInt <= v <= MaxInt ->
  Atoi s = Ok v.
Proof.
  intros (ch & rest & d & -> & Hd) Hv Hrange.
  unfold Atoi.
  destruct (Ascii.eqb_spec ch "-"%char) as [->|_]; [discriminate Hd|].
  destruct (Ascii.eqb_spec ch "+"%char) as [->|_]; [discriminate Hd|].
  rewrite Hv.
  destruct (Z.leb_spec MinInt v); [|lia].
  destruct (Z.leb_spec v MaxInt); [|lia].
  reflexivity.
Qed.

Lemma Atoi_minus (s : string) (v : Z) :
  s <> "" ->
  digits_value s 0 = Some v ->
  MinInt <= - v <= MaxInt ->
  Atoi (String "-" s) = Ok (- v).
Proof.
  intros Hs Hv Hrange.
  unfold Atoi. cbn [Ascii.eqb Bool.eqb].
  destruct s as [|ch rest]; [congruence|].
  rewrite Hv.
  destruct (Z.leb_spec MinInt (- v)); [|lia].
  destruct (Z.leb_spec (- v) MaxInt); [|lia].
  reflexivity.
Qed.

Lemma uint_string_digit (d : Decimal.uint) :
  d <> Decimal.Nil ->
  exists ch rest v,
    NilEmpty.string_of_uint d = String ch rest /\ digit_of ch = Some v.
Proof.
  destruct d; intro H; [congruence|..];
    cbn [NilEmpty.string_of_uint]; do 3 eexists; (split; [reflexivity|]);
    vm_compute; reflexivity.
Qed.

Lemma Itoa_pos (p : positive) :
  Itoa (Z.pos p) = NilEmpty.string_of_uint (Pos.to_uint p).
Proof.
  unfold Itoa. cbn [Z.to_int NilZero.string_of_int].
  unfold NilZero.string_of_uint.
  pose proof (Unsigned.to_uint_nonnil p) as H.
  destruct (Pos.to_uint p); [congruence|reflexivity..].
Qed.

Lemma Itoa_neg (p : positive) :
  Itoa (Z.neg p) = String "-" (NilEmpty.string_of_uint (Pos.to_uint p)).
Proof.
  unfold Itoa. cbn [Z.to_int NilZero.string_of_int].
  unfold NilZero.string_of_uint.
  pose proof (Unsigned.to_uint_nonnil p) as H.
  destruct (Pos.to_uint p); [congruence|reflexivity..].
Qed.

(** What strconv.Itoa writes, strconv.Atoi reads back. *)
Lemma Atoi_Itoa (n : Z) : MinInt <= n <= MaxInt -> Atoi (Itoa n) = Ok n.
Proof.
  intro Hrange. destruct n as [|p|p].
  - reflexivity.
  - rewrite Itoa_pos.
    apply Atoi_digits;
      [apply uint_string_digit, Unsigned.to_uint_nonnil
      |apply digits_value_pos|exact Hrange].
  - rewrite Itoa_neg.
    change (Z.neg p) with (- Z.pos p).
    apply Atoi_minus; [|apply digits_value_pos|exact Hrange].
    destruct (uint_string_digit (Pos.to_uint p) (Unsigned.to_uint_nonnil p))
      as (ch & rest & v & -> & _).
    discriminate.
Qed.

(** strconv.Atoi only ever yields a value of the 64-bit range. *)
Lemma Atoi_range (s : string) (n : Z) :
  Atoi s = Ok n -> MinInt <= n <= MaxInt.
Proof.
  assert (Hr : forall v,
             (if (MinInt <=? v) && (v <=? MaxInt) then Ok v
              else Err (NumError "Atoi" s "value out of range")) = Ok n ->
             MinInt <= n <= MaxInt).
  { intros v H.
    destruct (Z.leb_spec MinInt v); [|discriminate H].
    destruct (Z.leb_spec v MaxInt); [|discriminate H].
    injection H as <-. lia. }
  unfold Atoi. destruct s as [|ch rest]; [discriminate|].
  destruct (Ascii.eqb ch "-").
  { destruct rest; [discriminate|].
    destruct (digits_value _ 0); [apply Hr|].
    destruct (overflows _ 0); discriminate. }
  destruct (Ascii.eqb ch "+").
  { destruct rest; [discriminate|].
    destruct (digits_value _ 0); [apply Hr|].
    destruct (overflows _ 0); discriminate. }
  destruct (digits_value _ 0); [apply Hr|].
  destruct (overflows _ 0); discriminate.
Qed.

Lemma uint_string_separators (d : Decimal.uint) :
  separators (NilEmpty.string_of_uint d) = 0%nat.
Proof.
  induction d; cbn [NilEmpty.string_of_uint separators];
    [reflexivity|exact IHd..].
Qed.

Lemma Itoa_separators (n : Z) : separators (Itoa n) = 0%nat.
Proof.
  destruct n as [|p|p]; [reflexivity| |].
  - rewrite Itoa_pos. apply uint_string_separators.
  - rewrite Itoa_neg. cbn [separators]. apply uint_string_separators.
Qed.

Lemma cut_first (a b : string) :
  separators a = 0%nat -> cut "/" (a ++ String "/" b) = Some (a, b).
Proof.
  induction a as [|ch a IH]; intro H; [reflexivity|].
  cbn [separators] in H. cbn [append cut].
  destruct (Ascii.eqb ch "/"); [discriminate H|].
  rewrite (IH H). reflexivity.
Qed.

Lemma separators_app (a b : string) :
  separators (a ++ b) = (separators a + separators b)%nat.
Proof.
  induction a as [|ch a IH]; [reflexivity|].
  cbn [append separators]. rewrite IH. lia.
Qed.

Lemma twoPartID_splits (n : Z) (name : string) :
  SplitN (twoPartID n name) "/" 2 = [Itoa n; name].
Proof.
  rewrite SplitN_2. unfold twoPartID.
  change (Itoa n ++ "/" ++ name) with (Itoa n ++ String "/" name).
  rewrite (cut_first _ _ (Itoa_separators n)). reflexivity.
Qed.

Lemma threePartID_splits (n : Z) (a b : string) :
  separators a = 0%nat ->
  SplitN (threePartID n a b) "/" 3 = [Itoa n; a; b].
Proof.
  intro Ha. rewrite SplitN_3. unfold threePartID.
  change (Itoa n ++ "/" ++ a ++ "/" ++ b)
    with (Itoa n ++ String "/" (a ++ String "/" b)).
  rewrite (cut_first _ _ (Itoa_separators n)), (cut_first _ _ Ha).
  reflexivity.
Qed.

(** Take a finished run apart, bind by bind and branch by branch. *)
Ltac unbind H :=
  repeat
    match type of H with
    | bind _ _ _ = Some _ =>
        let a := fresh "a" in
        let w := fresh "w" in
        let Hm := fresh "Hm" in
        apply bind_Some in H; destruct H as (a & w & Hm & H); cbv beta in H
    | (if ?b then _ else _) _ = Some _ => destruct b eqn:?
    | (match ?x with _ => _ end) _ = Some _ => destruct x eqn:?
    | ret _ _ = Some _ => unfold ret in H
    end.

(** A run that ended with [resp], whose state is [SetState st]. *)
Ltac stored H Hst :=
  unbind H; injection H as <- <-; cbn [state respond] in Hst;
  try discriminate Hst; injection Hst as <-.

(** Split an identifier of two parts whose cluster came out of Atoi. *)
Ltac two_parts :=
  match goal with
  | Hn : Atoi _ = Ok ?n |- context [Itoa ?n ++ String "/" ?x] =>
      change (Itoa n ++ String "/" x) with (twoPartID n x);
      rewrite (twoPartID_splits n), (Atoi_Itoa n (Atoi_range _ _ Hn))
  end.

(** X1. The identifier a create of a user or of a database stores is
    read back by the resource's own parser as the cluster the create
    addressed and the name it was given, whatever that name is. *)
Theorem stored_identifier_parses_back
    (c : Client) (ctx : Context) (w w' : World) :
  (forall plan resp st,
     cluster_user.Create c ctx plan w = Some (resp, w') ->
     state resp = SetState st ->
     exists n,
       Atoi (ValueString (cluster_user.ClusterID (value plan))) = Ok n /\
       cluster_user.parseUserID (ValueString (cluster_user.ID st))
         = Ok (n, ValueString (cluster_user.Username (value plan)))) /\
  (forall plan resp st,
     cluster_database.Create c ctx plan w = Some (resp, w') ->
     state resp = SetState st ->
     exists n,
       Atoi (ValueString (cluster_database.ClusterID (value plan))) = Ok n /\
       cluster_database.parseDatabaseID
         (ValueString (cluster_database.ID st))
         = Ok (n, ValueString (cluster_database.Name (value plan)))).
Proof.
  split; intros plan resp st H Hst.
  - unfold cluster_user.Create in H. cbv zeta in H.
    stored H Hst. eexists; split; [reflexivity|].
    cbn [cluster_user.ID ValueString]. unfold cluster_user.parseUserID.
    two_parts. reflexivity.
  - unfold cluster_database.Create in H. cbv zeta in H.
    stored H Hst;
      (eexists; split; [reflexivity|]);
      cbn [cluster_database.ID ValueString];
      unfold cluster_database.parseDatabaseID;
      two_parts; reflexivity.
Qed.

Lemma stored_identifier_parses_back_witness :
  exists n,
    Atoi (ValueString
            (cluster_user.ClusterID (value sample_jobs_failed.newUser)))
      = Ok n /\
    cluster_user.parseUserID
      (ValueString
         (cluster_user.ID
            (createdUser (value sample_jobs_failed.newUser) 7 StringUnknown)))
      = Ok (n, "app").
Proof.
  eapply (proj1 (stored_identifier_parses_back
                   sample_fallback.silent sample.background sample.start _)
                sample_jobs_failed.newUser).
  - vm_compute. reflexivity.
  - reflexivity.
Defined.

(** Split an identifier of three parts whose cluster came out of Atoi
    and whose middle part holds no separator. *)
Ltac three_parts Hplain :=
  match goal with
  | Hn : Atoi _ = Ok ?n
    |- context [Itoa ?n ++ String "/" (?x ++ String "/" ?y)] =>
      change (Itoa n ++ String "/" (x ++ String "/" y))
        with (threePartID n x y);
      rewrite (threePartID_splits n x y Hplain),
              (Atoi_Itoa n (Atoi_range _ _ Hn))
  end.

(** X2. The identifier a create of an extension or of a grant stores
    has three parts.  When the middle one, the extension name or the user
    name, holds no "/", the resource's parser reads the identifier back as
    the cluster the create addressed, that name, and the database the
    create stored. *)
Theorem stored_triple_parses_back
    (c : Client) (ctx : Context) (w w' : World) :
  (forall plan resp st,
     cluster_extension.Create c ctx plan w = Some (resp, w') ->
     state resp = SetState st ->
     separators (ValueString (cluster_extension.Extension (value plan)))
       = 0%nat ->
     exists n,
       Atoi (ValueString (cluster_extension.ClusterID (value plan))) = Ok n /\
       cluster_extension.parseExtensionID
         (ValueString (cluster_extension.ID st))
         = Ok (n, ValueString (cluster_extension.Extension (value plan)),
               ValueString (cluster_extension.Database st))) /\
  (forall plan resp st,
     cluster_grant.Create c ctx plan w = Some (resp, w') ->
     state resp = SetState st ->
     separators (ValueString (cluster_grant.Username (value plan)))
       = 0%nat ->
     exists n,
       Atoi (ValueString (cluster_grant.ClusterID (value plan))) = Ok n /\
       cluster_grant.parseGrantID (ValueString (cluster_grant.ID st))
         = Ok (n, ValueString (cluster_grant.Username (value plan)),
               ValueString (cluster_grant.Database (value plan)))).
Proof.
  split; intros plan resp st H Hst Hplain.
  - unfold cluster_extension.Create in H. cbv zeta in H.
    stored H Hst;
      (eexists; split; [reflexivity|]);
      cbn [cluster_extension.ID cluster_extension.Database ValueString];
      unfold cluster_extension.parseExtensionID;
      three_parts Hplain; reflexivity.
  - unfold cluster_grant.Create in H. cbv zeta in H.
    stored H Hst;
      (eexists; split; [reflexivity|]);
      cbn [cluster_grant.ID ValueString];
      unfold cluster_grant.parseGrantID;
      three_parts Hplain; reflexivity.
Qed.

Lemma stored_triple_parses_back_witness :
  exists n,
    Atoi (ValueString
            (cluster_extension.ClusterID (value sample_fallback.newExtension)))
      = Ok n /\
    cluster_extension.parseExtensionID
      (ValueString
         (cluster_extension.ID
            (createdExtension (value sample_fallback.newExtension) 7 "appdb")))
      = Ok (n, "vector", "appdb").
Proof.
  eapply (proj1 (stored_triple_parses_back
                   sample_fallback.silent sample.background sample.start _)
                sample_fallback.newExtension).
  - vm_compute. reflexivity.
  - reflexivity.
  - reflexivity.
Defined.

Lemma cut_plain (s a b : string) :
  cut "/" s = Some (a, b) -> separators a = 0%nat.
Proof.
  revert a b. induction s as [|ch s IH]; intros a b H; [discriminate H|].
  cbn [cut] in H. destruct (Ascii.eqb ch "/") eqn:Hch.
  - injection H as <- _. reflexivity.
  - destruct (cut "/" s) as [[a1 b1]|]; [|discriminate H].
    injection H as <- <-. cbn [separators]. rewrite Hch.
    exact (IH a1 b1 eq_refl).
Qed.

Lemma append_assoc (a b c : string) : (a ++ b) ++ c = a ++ b ++ c.
Proof.
  induction a as [|ch a IH]; [reflexivity|].
  cbn [append]. rewrite IH. reflexivity.
Qed.

Lemma cut_None_plain (s : string) :
  cut "/" s = None -> separators s = 0%nat.
Proof.
  induction s as [|ch s IH]; [reflexivity|].
  cbn [cut separators]. destruct (Ascii.eqb ch "/"); [discriminate|].
  destruct (cut "/" s) as [[a b]|]; [discriminate|].
  intros _. exact (IH eq_refl).
Qed.

(** X3. The three-part identifiers are not injective in their middle
    part: the identifier built from a cluster, a first name and a second
    name is parsed back into these three exactly when the first name holds
    no "/".  With a "/" in it the parser still succeeds, but it cuts the
    first name short at its first "/" and hands the remainder, with the
    second name behind it, on as the second part; and every first name
    with a "/" in it splits that way. *)
Theorem triple_round_trip_needs_plain_middle (n : Z) (a b : string) :
  MinInt <= n <= MaxInt ->
  (cluster_grant.parseGrantID (threePartID n a b) = Ok (n, a, b)
   <-> separators a = 0%nat) /\
  (cluster_extension.parseExtensionID (threePartID n a b) = Ok (n, a, b)
   <-> separators a = 0%nat) /\
  (forall a1 a2,
     separators a1 = 0%nat -> a = a1 ++ "/" ++ a2 ->
     cluster_grant.parseGrantID (threePartID n a b)
       = Ok (n, a1, a2 ++ "/" ++ b) /\
     cluster_extension.parseExtensionID (threePartID n a b)
       = Ok (n, a1, a2 ++ "/" ++ b)) /\
  (separators a <> 0%nat ->
   exists a1 a2, separators a1 = 0%nat /\ a = a1 ++ "/" ++ a2).
Proof.
  intro Hrange.
  assert (Hsplit :
            SplitN (threePartID n a b) "/" 3 =
            match cut "/" (a ++ String "/" b) with
            | Some (a1, b1) => [Itoa n; a1; b1]
            | None => [Itoa n; a ++ String "/" b]
            end).
  { rewrite SplitN_3. unfold threePartID.
    change (Itoa n ++ "/" ++ a ++ "/" ++ b)
      with (Itoa n ++ String "/" (a ++ String "/" b)).
    rewrite (cut_first _ _ (Itoa_separators n)). reflexivity. }
  split; [|split; [|split]].
  - split; [|intro Hplain].
    + unfold cluster_grant.parseGrantID. rewrite Hsplit.
      destruct (cut "/" (a ++ String "/" b)) as [[a1 b1]|] eqn:Hcut;
        [|discriminate].
      rewrite (Atoi_Itoa n Hrange). intro H. injection H as -> _.
      exact (cut_plain _ _ _ Hcut).
    + unfold cluster_grant.parseGrantID.
      rewrite (threePartID_splits n a b Hplain), (Atoi_Itoa n Hrange).
      reflexivity.
  - split; [|intro Hplain].
    + unfold cluster_extension.parseExtensionID. rewrite Hsplit.
      destruct (cut "/" (a ++ String "/" b)) as [[a1 b1]|] eqn:Hcut;
        [|discriminate].
      rewrite (Atoi_Itoa n Hrange). intro H. injection H as -> _.
      exact (cut_plain _ _ _ Hcut).
    + unfold cluster_extension.parseExtensionID.
      rewrite (threePartID_splits n a b Hplain), (Atoi_Itoa n Hrange).
      reflexivity.
  - intros a1 a2 Hplain ->.
    assert (Hid : threePartID n (a1 ++ "/" ++ a2) b
                  = threePartID n a1 (a2 ++ "/" ++ b)).
    { unfold threePartID. f_equal. cbn [append]. f_equal.
      rewrite append_assoc. reflexivity. }
    rewrite Hid.
    unfold cluster_grant.parseGrantID, cluster_extension.parseExtensionID.
    rewrite (threePartID_splits n a1 _ Hplain), (Atoi_Itoa n Hrange).
    split; reflexivity.
  - intro Hsep.
    destruct (cut "/" a) as [[a1 a2]|] eqn:Hcut.
    + exists a1, a2. split; [exact (cut_plain _ _ _ Hcut)|].
      exact (proj1 (cut_Some _ _ _ Hcut)).
    + destruct (Hsep (cut_None_plain _ Hcut)).
Qed.

Lemma triple_round_trip_needs_plain_middle_witness :
  cluster_grant.parseGrantID (threePartID 7 "app" "orders")
    = Ok (7, "app", "orders") /\
  cluster_grant.parseGrantID (threePartID 7 "team/app" "orders")
    = Ok (7, "team", "app/orders").
Proof.
  split.
  - apply (proj1 (triple_round_trip_needs_plain_middle 7 "app" "orders"
                    ltac:(unfold MinInt, MaxInt; lia))).
    reflexivity.
  - apply (proj1 (proj2 (proj2 (triple_round_trip_needs_plain_middle
                                  7 "team/app" "orders"
                                  ltac:(unfold MinInt, MaxInt; lia))))
             "team" "app"); reflexivity.
Defined.

(** ** How often the loops ask *)

Section Paced.

Context {A : Type}.
Variable body : M (Step A).
Variable w : World.
Variables d timeout : Z.

(** A pass either sends nothing and returns, or starts before the
    deadline and sends one request; to go round again takes [d]. *)
Hypothesis Hstep : forall w0 s w',
  body w0 = Some (s, w') ->
  (trace w' = trace w0 /\ s <> Continue) \/
  (now w0 < now w + timeout /\
   (exists x, trace w' = (trace w0 ++ [x])%list) /\
   (s = Continue -> now w0 + d <= now w')).

Lemma paced (fuel : nat) (a : A) (w' : World) :
  for_ fuel body w = Some (a, w') ->
  exists polls,
    trace w' = (trace w ++ polls)%list /\
    (polls = [] \/ (Z.of_nat (List.length polls) - 1) * d < timeout).
Proof.
  pose (I := fun w0 : World =>
               exists l, trace w0 = (trace w ++ l)%list /\
                         now w + Z.of_nat (List.length l) * d <= now w0 /\
                         (l = [] \/
                          (Z.of_nat (List.length l) - 1) * d < timeout)).
  pose (Q := fun (_ : A) (w1 : World) =>
               exists polls,
                 trace w1 = (trace w ++ polls)%list /\
                 (polls = [] \/
                  (Z.of_nat (List.length polls) - 1) * d < timeout)).
  intro Hrun.
  refine (for_invariant body I Q _ _ fuel w a w' _ Hrun).
  - intros w0 w1 (l & Hl & Hnow & Hbound) Hpass.
    destruct (Hstep _ _ _ Hpass) as [[_ Hs]|(Hlt & (x & Hx) & Hgo)];
      [congruence|].
    exists (l ++ [x])%list. rewrite Hx, Hl, <- app_assoc.
    split; [reflexivity|]. rewrite List.length_app. cbn [List.length].
    specialize (Hgo eq_refl). split; [nia|right; nia].
  - intros w0 r w1 (l & Hl & Hnow & Hbound) Hpass.
    destruct (Hstep _ _ _ Hpass) as [[Ht _]|(Hlt & (x & Hx) & _)].
    + exists l. rewrite Ht. split; assumption.
    + exists (l ++ [x])%list. rewrite Hx, Hl, <- app_assoc.
      split; [reflexivity|]. rewrite List.length_app. cbn [List.length].
      right; nia.
  - exists []. rewrite app_nil_r. cbn [List.length].
    split; [reflexivity|]. split; [lia|left; reflexivity].
Qed.

End Paced.

Section Pacing.

Variable c : Client.
Variable ctx : Context.
Variable id : Z.

Lemma wait_pass_paced (deadline timeout : Z) (w s : _) (w' : World) :
  WaitForJobComplete_pass c ctx id deadline (10 * Second) timeout w
    = Some (s, w') ->
  (trace w' = trace w /\ s <> Continue) \/
  (now w < deadline /\
   (exists x, trace w' = (trace w ++ [x])%list) /\
   (s = Continue -> now w + 10 * Second <= now w')).
Proof.
  rewrite wait_pass_run.
  destruct (Z.ltb_spec (now w) deadline) as [Hlt|_].
  - cbv zeta. intro H. right. split; [exact Hlt|].
    pose proof (after_now c ctx w (jobsRequest c id)) as Hmono.
    destruct (poll_verdict _).
    + injection H as <- <-. split; [eexists; reflexivity|discriminate].
    + destruct (select_cases ctx (10 * Second)
                  (after c ctx w (jobsRequest c id)))
        as [[_ E]|(w2 & E & Ht & _)]; rewrite E in H; injection H as <- <-.
      * split; [eexists; reflexivity|]. intros _. cbn [now slept]. unfold Second. lia.
      * split; [rewrite Ht; eexists; reflexivity|discriminate].
  - intro H. injection H as <- <-. left. split; [reflexivity|discriminate].
Qed.

Lemma active_pass_paced (deadline timeout : Z) (w s : _) (w' : World) :
  WaitForClusterActive_pass c ctx id deadline (15 * Second) timeout w
    = Some (s, w') ->
  (trace w' = trace w /\ s <> Continue) \/
  (now w < deadline /\
   (exists x, trace w' = (trace w ++ [x])%list) /\
   (s = Continue -> now w + 15 * Second <= now w')).
Proof.
  rewrite active_pass_run.
  destruct (Z.ltb_spec (now w) deadline) as [Hlt|_].
  - cbv zeta. intro H. right. split; [exact Hlt|].
    pose proof (after_now c ctx w (clusterRequest c id)) as Hmono.
    destruct (active_verdict _).
    + injection H as <- <-. split; [eexists; reflexivity|discriminate].
    + destruct (select_cases ctx (15 * Second)
                  (after c ctx w (clusterRequest c id)))
        as [[_ E]|(w2 & E & Ht & _)]; rewrite E in H; injection H as <- <-.
      * split; [eexists; reflexivity|]. intros _. cbn [now slept]. unfold Second. lia.
      * split; [rewrite Ht; eexists; reflexivity|discriminate].
  - intro H. injection H as <- <-. left. split; [reflexivity|discriminate].
Qed.

Lemma deleted_pass_paced (deadline timeout : Z) (w s : _) (w' : World) :
  WaitForClusterDeleted_pass c ctx id deadline (10 * Second) timeout w
    = Some (s, w') ->
  (trace w' = trace w /\ s <> Continue) \/
  (now w < deadline /\
   (exists x, trace w' = (trace w ++ [x])%list) /\
   (s = Continue -> now w + 10 * Second <= now w')).
Proof.
  rewrite deleted_pass_run.
  destruct (Z.ltb_spec (now w) deadline) as [Hlt|_].
  - cbv zeta. intro H. right. split; [exact Hlt|].
    pose proof (after_now c ctx w (clusterRequest c id)) as Hmono.
    destruct (deleted_verdict _).
    + injection H as <- <-. split; [eexists; reflexivity|discriminate].
    + destruct (select_cases ctx (10 * Second)
                  (after c ctx w (clusterRequest c id)))
        as [[_ E]|(w2 & E & Ht & _)]; rewrite E in H; injection H as <- <-.
      * split; [eexists; reflexivity|]. intros _. cbn [now slept]. unfold Second. lia.
      * split; [rewrite Ht; eexists; reflexivity|discriminate].
  - intro H. injection H as <- <-. left. split; [reflexivity|discriminate].
Qed.

End Pacing.

Section RetryPacing.

Variable c : Client.
Variable ctx : Context.
Variable id : Z.
Variable req : ConfigureRequest.

Lemma retry_pass_paced (deadline : Z) (w : World)
    (s : Step (result ConfigureResponse)) (w' : World) :
  ConfigureWithRetry_pass c ctx id req deadline (10 * Second) w
    = Some (s, w') ->
  (exists x, trace w' = (trace w ++ [x])%list) /\
  (s = Continue ->
   now w + 10 * Second <= now w' /\ now w' <= deadline + 10 * Second).
Proof.
  destruct (ConfigureCluster_total c ctx id req w) as [r H].
  pose proof (after_now c ctx w (configureRequest c id req)) as Hmono.
  unfold configureRequest in Hmono.
  assert (Ht : trace (after c ctx w (request c "POST" (configurePath id)
                                       (Some (BConfigure req))))
               = (trace w ++ [ {| sent := configureRequest c id req;
                                  got := answer c ctx w
                                           (configureRequest c id req) |} ])%list)
    by reflexivity.
  remember (after c ctx w _) as w1 eqn:Hw1 in H, Hmono, Ht.
  unfold ConfigureWithRetry_pass. rewrite (bind_run _ _ _ _ _ H).
  destruct r as [resp|e].
  { intro Heq. injection Heq as <- <-.
    split; [eexists; exact Ht|discriminate]. }
  destruct (IsConflict e); cbn [negb].
  2:{ intro Heq. injection Heq as <- <-.
      split; [eexists; exact Ht|discriminate]. }
  unfold bind at 1, Now.
  destruct (Z.ltb_spec deadline (now w1)).
  { intro Heq. injection Heq as <- <-.
    split; [eexists; exact Ht|discriminate]. }
  destruct (select_cases ctx (10 * Second) w1)
    as [[_ E]|(w2 & E & Ht2 & _)];
    rewrite (bind_run _ _ _ _ _ E); intro Heq; injection Heq as <- <-.
  - split; [eexists; exact Ht|]. intros _.
    cbn [now slept]. unfold Second in *. lia.
  - split; [rewrite Ht2; eexists; exact Ht|discriminate].
Qed.

Lemma retry_attempts (maxWait : Z) (w : World)
    (r : result ConfigureResponse) (w' : World) :
  ConfigureWithRetry c ctx id req maxWait w = Some (r, w') ->
  exists attempts,
    trace w' = (trace w ++ attempts)%list /\ attempts <> [] /\
    (List.length attempts = 1%nat \/
     (Z.of_nat (List.length attempts) - 2) * (10 * Second) <= maxWait).
Proof.
  rewrite ConfigureWithRetry_loop.
  pose (I := fun w0 : World =>
               exists l, trace w0 = (trace w ++ l)%list /\
                         now w + Z.of_nat (List.length l) * (10 * Second)
                           <= now w0 /\
                         (l = [] \/
                          now w0 <= now w + maxWait + 10 * Second)).
  pose (Q := fun (_ : result ConfigureResponse) (w1 : World) =>
               exists attempts,
                 trace w1 = (trace w ++ attempts)%list /\ attempts <> [] /\
                 (List.length attempts = 1%nat \/
                  (Z.of_nat (List.length attempts) - 2) * (10 * Second)
                    <= maxWait)).
  intro Hrun.
  refine (for_invariant _ I Q _ _ _ w r w' _ Hrun).
  - intros w0 w1 (l & Hl & Hnow & Hbound) Hpass.
    destruct (retry_pass_paced _ _ _ _ Hpass) as [[x Hx] Hgo].
    destruct (Hgo eq_refl) as [Hlo Hhi].
    exists (l ++ [x])%list. rewrite Hx, Hl, <- app_assoc.
    split; [reflexivity|]. rewrite List.length_app. cbn [List.length].
    split; [unfold Second in *; lia|right; lia].
  - intros w0 a w1 (l & Hl & Hnow & Hbound) Hpass.
    destruct (retry_pass_paced _ _ _ _ Hpass) as [[x Hx] _].
    exists (l ++ [x])%list. rewrite Hx, Hl, <- app_assoc.
    split; [reflexivity|]. split; [destruct l; discriminate|].
    rewrite List.length_app. cbn [List.length].
    destruct Hbound as [->|Hhi]; [left; reflexivity|right].
    unfold Second in *. lia.
  - exists []. rewrite app_nil_r. cbn [List.length].
    split; [reflexivity|]. split; [lia|left; reflexivity].
Qed.

End RetryPacing.

(** X4. None of the four loops can flood the API.  Each of them comes
    back, and between two of its requests lies its full interval, so that
    from the budget it was given follows how many requests it can have
    made: ConfigureWithRetry, which asks before it looks at the deadline,
    makes a first attempt and a second, and any further one only while
    ten seconds per earlier attempt fit into the budget; the three
    pollers, which look at the deadline before they ask, make a poll only
    while their interval per earlier poll (10 s for jobs and for
    deletion, 15 s for activation) is still short of the timeout. *)
Theorem loops_are_paced
    (c : Client) (ctx : Context) (id : Z) (req : ConfigureRequest)
    (timeout : Z) (w : World) :
  (exists r w' attempts,
     ConfigureWithRetry c ctx id req timeout w = Some (r, w') /\
     trace w' = (trace w ++ attempts)%list /\ attempts <> [] /\
     (List.length attempts = 1%nat \/
      (Z.of_nat (List.length attempts) - 2) * (10 * Second) <= timeout)) /\
  (exists r w' polls,
     WaitForJobComplete c ctx id timeout w = Some (r, w') /\
     trace w' = (trace w ++ polls)%list /\
     (polls = [] \/
      (Z.of_nat (List.length polls) - 1) * (10 * Second) < timeout)) /\
  (exists r w' polls,
     WaitForClusterActive c ctx id timeout w = Some (r, w') /\
     trace w' = (trace w ++ polls)%list /\
     (polls = [] \/
      (Z.of_nat (List.length polls) - 1) * (15 * Second) < timeout)) /\
  (exists r w' polls,
     WaitForClusterDeleted c ctx id timeout w = Some (r, w') /\
     trace w' = (trace w ++ polls)%list /\
     (polls = [] \/
      (Z.of_nat (List.length polls) - 1) * (10 * Second) < timeout)).
Proof.
  split; [|split; [|split]].
  - destruct (ConfigureWithRetry_total c ctx id req timeout w)
      as [[r w'] Hrun].
    destruct (retry_attempts c ctx id req _ _ _ _ Hrun) as (l & H).
    exists r, w', l. split; [exact Hrun|exact H].
  - destruct (WaitForJobComplete_total c ctx id timeout w)
      as (r & w' & Hrun).
    pose proof Hrun as Hloop. rewrite WaitForJobComplete_loop in Hloop.
    destruct (paced _ w (10 * Second) timeout
                    (wait_pass_paced c ctx id (now w + timeout) timeout)
                    _ _ _ Hloop) as (l & H).
    exists r, w', l. split; [exact Hrun|exact H].
  - destruct (WaitForClusterActive_total c ctx id timeout w)
      as (r & w' & Hrun).
    pose proof Hrun as Hloop. rewrite WaitForClusterActive_loop in Hloop.
    destruct (paced _ w (15 * Second) timeout
                    (active_pass_paced c ctx id (now w + timeout) timeout)
                    _ _ _ Hloop) as (l & H).
    exists r, w', l. split; [exact Hrun|exact H].
  - destruct (WaitForClusterDeleted_total c ctx id timeout w)
      as (r & w' & Hrun).
    pose proof Hrun as Hloop. rewrite WaitForClusterDeleted_loop in Hloop.
    destruct (paced _ w (10 * Second) timeout
                    (deleted_pass_paced c ctx id (now w + timeout) timeout)
                    _ _ _ Hloop) as (l & H).
    exists r, w', l. split; [exact Hrun|exact H].
Qed.

(** ** What the loops return *)

(** X5. A conflict never leaves ConfigureWithRetry.  It always comes
    back, and when it comes back with an error, that error is not a
    conflict: a conflict from the API was either retried, or turned into
    the timeout error or given up for the context's error.  So no caller
    has to deal with status 409. *)
Theorem ConfigureWithRetry_never_returns_conflict
    (c : Client) (ctx : Context) (id : Z) (req : ConfigureRequest)
    (maxWait : Z) (w : World) :
  exists r w',
    ConfigureWithRetry c ctx id req maxWait w = Some (r, w') /\
    match r with
    | Ok _ => True
    | Err e => IsConflict e = false
    end.
Proof.
  destruct (ConfigureWithRetry_total c ctx id req maxWait w) as [[r w'] Hrun].
  exists r, w'. split; [exact Hrun|].
  destruct (ConfigureWithRetry_trace c ctx id req _ _ _ _ Hrun)
    as (attempts & last & _ & _ & _ & _ & Hend).
  unfold retry_ends in Hend.
  destruct (received true (got last)) as [p|e0].
  - subst r. exact I.
  - destruct (IsConflict e0) eqn:Hc.
    + destruct Hend as [->| ->]; reflexivity.
    + subst r. exact Hc.
Qed.

Section Evidence.

Variable c : Client.
Variable ctx : Context.
Variable id : Z.

Lemma active_ends (timeout : Z) (w : World) (cluster : Cluster)
    (w' : World) :
  WaitForClusterActive c ctx id timeout w = Some (Ok cluster, w') ->
  exists init last p,
    trace w' = (trace w ++ init ++ [last])%list /\
    sent last = clusterRequest c id /\
    received true (got last) = Ok p /\ asCluster p = cluster /\
    Status cluster = "active".
Proof.
  rewrite WaitForClusterActive_loop.
  pose (Inv := fun w0 : World => exists l, trace w0 = (trace w ++ l)%list).
  pose (Q := fun (r : result Cluster) (w1 : World) =>
               match r with
               | Ok cl =>
                   exists init last p,
                     trace w1 = (trace w ++ init ++ [last])%list /\
                     sent last = clusterRequest c id /\
                     received true (got last) = Ok p /\ asCluster p = cl /\
                     Status cl = "active"
               | Err _ => True
               end).
  intro Hrun.
  refine (for_invariant _ Inv Q _ _ _ w (Ok cluster) w' _ Hrun).
  - intros w0 w1 (l & Hl) Hpass.
    apply active_pass_continue in Hpass. destruct Hpass as [_ ->].
    exists (l ++ [ {| sent := clusterRequest c id;
                      got := answer c ctx w0 (clusterRequest c id) |} ])%list.
    cbn [trace slept after]. rewrite Hl, <- app_assoc. reflexivity.
  - intros w0 r w1 (l & Hl). rewrite active_pass_run.
    destruct (now w0 <? now w + timeout).
    + cbv zeta. unfold active_verdict.
      destruct (received true (answer c ctx w0 (clusterRequest c id)))
        as [p|e] eqn:Hp.
      * destruct (String.eqb_spec (Status (asCluster p)) "active") as [Ha|_].
        { intro H. injection H as <- <-. unfold Q.
          exists l, {| sent := clusterRequest c id;
                       got := answer c ctx w0 (clusterRequest c id) |}, p.
          cbn [trace after sent got]. rewrite Hl, <- app_assoc.
          split; [reflexivity|]. split; [reflexivity|].
          split; [exact Hp|]. split; [reflexivity|exact Ha]. }
        destruct (String.eqb (Status (asCluster p)) "failed");
          [intro H; injection H as <- <-; exact I|].
        destruct (String.eqb (Status (asCluster p)) "provisioning");
          [|intro H; injection H as <- <-; exact I].
        destruct (selectDoneOrAfter ctx (15 * Second) _) as [[[e|] w2]|];
          [intro H; injection H as <- <-; exact I|discriminate..].
      * intro H. injection H as <- <-. exact I.
    + intro H. injection H as <- <-. exact I.
  - exists []. symmetry. apply app_nil_r.
Qed.

Lemma deleted_ends (timeout : Z) (w w' : World) :
  WaitForClusterDeleted c ctx id timeout w = Some (None, w') ->
  exists init last,
    trace w' = (trace w ++ init ++ [last])%list /\
    sent last = clusterRequest c id /\
    ((exists e, received true (got last) = Err e /\
                IsNotFound e || IsGone e = true) \/
     (exists p, received true (got last) = Ok p /\
                Status (asCluster p) = "deleted")).
Proof.
  rewrite WaitForClusterDeleted_loop.
  pose (Inv := fun w0 : World => exists l, trace w0 = (trace w ++ l)%list).
  pose (Q := fun (r : option error) (w1 : World) =>
               match r with
               | None =>
                   exists init last,
                     trace w1 = (trace w ++ init ++ [last])%list /\
                     sent last = clusterRequest c id /\
                     ((exists e, received true (got last) = Err e /\
                                 IsNotFound e || IsGone e = true) \/
                      (exists p, received true (got last) = Ok p /\
                                 Status (asCluster p) = "deleted"))
               | Some _ => True
               end).
  intro Hrun.
  refine (for_invariant _ Inv Q _ _ _ w None w' _ Hrun).
  - intros w0 w1 (l & Hl) Hpass.
    apply deleted_pass_continue in Hpass. destruct Hpass as [_ ->].
    exists (l ++ [ {| sent := clusterRequest c id;
                      got := answer c ctx w0 (clusterRequest c id) |} ])%list.
    cbn [trace slept after]. rewrite Hl, <- app_assoc. reflexivity.
  - intros w0 r w1 (l & Hl). rewrite deleted_pass_run.
    destruct (now w0 <? now w + timeout).
    + cbv zeta. unfold deleted_verdict.
      destruct (received true (answer c ctx w0 (clusterRequest c id)))
        as [p|e] eqn:Hp.
      * destruct (String.eqb_spec (Status (asCluster p)) "deleted") as [Ha|_].
        { intro H. injection H as <- <-. unfold Q.
          exists l, {| sent := clusterRequest c id;
                       got := answer c ctx w0 (clusterRequest c id) |}.
          cbn [trace after sent got]. rewrite Hl, <- app_assoc.
          split; [reflexivity|]. split; [reflexivity|].
          right. exists p. split; [exact Hp|exact Ha]. }
        destruct (selectDoneOrAfter ctx (10 * Second) _) as [[[e|] w2]|];
          [intro H; injection H as <- <-; exact I|discriminate..].
      * destruct (IsNotFound e || IsGone e) eqn:Habsent.
        { intro H. injection H as <- <-. unfold Q.
          exists l, {| sent := clusterRequest c id;
                       got := answer c ctx w0 (clusterRequest c id) |}.
          cbn [trace after sent got]. rewrite Hl, <- app_assoc.
          split; [reflexivity|]. split; [reflexivity|].
          left. exists e. split; [exact Hp|exact Habsent]. }
        intro H. injection H as <- <-. exact I.
    + intro H. injection H as <- <-. exact I.
  - exists []. symmetry. apply app_nil_r.
Qed.

End Evidence.

Lemma Forall_last {A : Type} (P : A -> Prop) (l : list A) (x : A) :
  Forall P (l ++ [x])%list -> P x.
Proof.
  intro H. apply Forall_app in H. destruct H as [_ H].
  inversion H; assumption.
Qed.

(** X6. The loops report success only on the evidence of their last
    request.  When ConfigureWithRetry returns a response, its last attempt
    was answered with that response; when WaitForJobComplete returns nil,
    its last poll was answered with an empty job list; when
    WaitForClusterActive returns a cluster, its last fetch was answered
    with that cluster in status "active"; when WaitForClusterDeleted
    returns nil, its last fetch was refused as not-found or gone, or was
    answered with status "deleted".  In particular each of them has sent
    at least one request, and none reports success because its deadline
    passed or its context was cancelled. *)
Theorem success_rests_on_the_last_answer
    (c : Client) (ctx : Context) (id : Z) (req : ConfigureRequest)
    (timeout : Z) (w w' : World) :
  (forall resp,
     ConfigureWithRetry c ctx id req timeout w = Some (Ok resp, w') ->
     exists init last p,
       trace w' = (trace w ++ init ++ [last])%list /\
       sent last = configureRequest c id req /\
       received true (got last) = Ok p /\ asConfigure p = resp) /\
  (WaitForJobComplete c ctx id timeout w = Some (None, w') ->
   exists init last p,
     trace w' = (trace w ++ init ++ [last])%list /\
     sent last = jobsRequest c id /\
     received true (got last) = Ok p /\ Jobs (asJobs p) = []) /\
  (forall cluster,
     WaitForClusterActive c ctx id timeout w = Some (Ok cluster, w') ->
     exists init last p,
       trace w' = (trace w ++ init ++ [last])%list /\
       sent last = clusterRequest c id /\
       received true (got last) = Ok p /\ asCluster p = cluster /\
       Status cluster = "active") /\
  (WaitForClusterDeleted c ctx id timeout w = Some (None, w') ->
   exists init last,
     trace w' = (trace w ++ init ++ [last])%list /\
     sent last = clusterRequest c id /\
     ((exists e, received true (got last) = Err e /\
                 IsNotFound e || IsGone e = true) \/
      (exists p, received true (got last) = Ok p /\
                 Status (asCluster p) = "deleted"))).
Proof.
  split; [|split; [|split]].
  - intros resp Hrun.
    destruct (ConfigureWithRetry_trace c ctx id req _ _ _ _ Hrun)
      as (attempts & last & Ht & _ & Hsent & _ & Hend).
    unfold retry_ends in Hend.
    destruct (received true (got last)) as [p|e] eqn:Hp.
    + exists attempts, last, p. injection Hend as ->.
      split; [exact Ht|]. split; [exact (Forall_last _ _ _ Hsent)|].
      split; [exact Hp|reflexivity].
    + destruct (IsConflict e); [destruct Hend|]; discriminate.
  - intro Hrun.
    destruct (WaitForJobComplete_trace c ctx id _ _ _ _ Hrun)
      as (polls & Ht & _ & Hsent & [[_ [H|H]]|(init & last & -> & _ & Hv)]);
      [discriminate H..|].
    unfold poll_verdict in Hv.
    destruct (received true (got last)) as [p|e] eqn:Hp; [|discriminate Hv].
    exists init, last, p.
    split; [exact Ht|]. split; [exact (Forall_last _ _ _ Hsent)|].
    split; [exact Hp|].
    destruct (Jobs (asJobs p)) as [|job jobs]; [reflexivity|].
    destruct (find isFailed (job :: jobs)); discriminate Hv.
  - intros cluster. apply active_ends.
  - apply deleted_ends.
Qed.

Lemma success_rests_on_the_last_answer_witness :
  exists w' init last p,
    ConfigureWithRetry sample.busyTwice sample.background 7 sample.addUser
                       (2 * Minute) sample.start
      = Some (Ok sample.createdUser, w') /\
    trace w' = (trace sample.start ++ init ++ [last])%list /\
    sent last = configureRequest sample.busyTwice 7 sample.addUser /\
    received true (got last) = Ok p /\ asConfigure p = sample.createdUser.
Proof.
  eexists.
  assert (Hrun :
            ConfigureWithRetry sample.busyTwice sample.background 7
                               sample.addUser (2 * Minute) sample.start
            = Some (Ok sample.createdUser, _))
    by (vm_compute; reflexivity).
  destruct (proj1 (success_rests_on_the_last_answer
                     sample.busyTwice sample.background 7 sample.addUser
                     (2 * Minute) sample.start _) _ Hrun)
    as (init & last & p & H).
  exists init, last, p. split; [exact Hrun|exact H].
Defined.

(** ** Cancellation *)

Lemma select_interrupted (ctx : Context) (d t : Z) (w : World) :
  done_at ctx = Some t -> t <= now w + d ->
  selectDoneOrAfter ctx d w = Some (Some ContextDone, interrupted t w).
Proof.
  intros Ht Hle. unfold selectDoneOrAfter. rewrite Ht.
  destruct (Z.leb_spec t (now w + d)); [reflexivity|lia].
Qed.

Section Finish.

Variable c : Client.
Variable ctx : Context.
Variable id : Z.

Lemma active_finish (timeout : Z) (k : nat) (w wk w' : World)
    (r : result Cluster) :
  provisioning c ctx id (now w + timeout) k w wk ->
  WaitForClusterActive_pass c ctx id (now w + timeout) (15 * Second) timeout
                            wk = Some (Return r, w') ->
  WaitForClusterActive c ctx id timeout w = Some (r, w').
Proof.
  intros Hrun Hpass.
  destruct (WaitForClusterActive_total c ctx id timeout w)
    as (r0 & w0 & Hr0).
  rewrite Hr0. f_equal.
  rewrite WaitForClusterActive_loop in Hr0.
  eapply for_agree; [exact Hr0|].
  rewrite (provisioning_passes _ _ _ _ timeout _ _ _ Hrun 1), for_S, Hpass.
  reflexivity.
Qed.

Lemma deleted_finish (timeout : Z) (k : nat) (w wk w' : World)
    (r : option error) :
  lingering c ctx id (now w + timeout) k w wk ->
  WaitForClusterDeleted_pass c ctx id (now w + timeout) (10 * Second) timeout
                             wk = Some (Return r, w') ->
  WaitForClusterDeleted c ctx id timeout w = Some (r, w').
Proof.
  intros Hrun Hpass.
  destruct (WaitForClusterDeleted_total c ctx id timeout w)
    as (r0 & w0 & Hr0).
  rewrite Hr0. f_equal.
  rewrite WaitForClusterDeleted_loop in Hr0.
  eapply for_agree; [exact Hr0|].
  rewrite (lingering_passes _ _ _ _ timeout _ _ _ Hrun 1), for_S, Hpass.
  reflexivity.
Qed.

End Finish.

(** X7. Cancellation is prompt.  Let the context fire at [t], and let a
    loop, after any number of undisturbed rounds, be about to sleep: the
    attempt of ConfigureWithRetry was answered with a conflict inside the
    deadline, or the poll of one of the three pollers found nothing
    conclusive.  If [t] is no later than the end of that sleep, the loop
    returns the context's error, with the clock at [t] (or where it was,
    if the context had fired before) rather than at the end of the sleep,
    and with nothing sent after the request that preceded the sleep. *)
Theorem cancellation_is_prompt
    (c : Client) (ctx : Context) (id : Z) (req : ConfigureRequest)
    (timeout : Z) (k : nat) (w wk : World) (t : Z) :
  done_at ctx = Some t ->
  (forall e w1,
     conflicted c ctx id req (now w + timeout) k w wk ->
     ConfigureCluster c ctx id req wk = Some (Err e, w1) ->
     IsConflict e = true ->
     now w1 <= now w + timeout ->
     t <= now w1 + 10 * Second ->
     ConfigureWithRetry c ctx id req timeout w
       = Some (Err ContextDone, interrupted t w1)) /\
  (pending c ctx id (now w + timeout) k w wk ->
   now wk < now w + timeout ->
   poll_verdict (answer c ctx wk (jobsRequest c id)) = None ->
   t <= now (after c ctx wk (jobsRequest c id)) + 10 * Second ->
   WaitForJobComplete c ctx id timeout w
     = Some (Some ContextDone,
             interrupted t (after c ctx wk (jobsRequest c id)))) /\
  (provisioning c ctx id (now w + timeout) k w wk ->
   now wk < now w + timeout ->
   active_verdict (answer c ctx wk (clusterRequest c id)) = None ->
   t <= now (after c ctx wk (clusterRequest c id)) + 15 * Second ->
   WaitForClusterActive c ctx id timeout w
     = Some (Err ContextDone,
             interrupted t (after c ctx wk (clusterRequest c id)))) /\
  (lingering c ctx id (now w + timeout) k w wk ->
   now wk < now w + timeout ->
   deleted_verdict (answer c ctx wk (clusterRequest c id)) = None ->
   t <= now (after c ctx wk (clusterRequest c id)) + 10 * Second ->
   WaitForClusterDeleted c ctx id timeout w
     = Some (Some ContextDone,
             interrupted t (after c ctx wk (clusterRequest c id)))).
Proof.
  intro Ht. split; [|split; [|split]].
  - intros e w1 Hrun Hcall Hc Hin Hfire.
    apply (retry_finish c ctx id req timeout k w wk _ _ Hrun).
    unfold ConfigureWithRetry_pass.
    rewrite (bind_run _ _ _ _ _ Hcall), Hc. cbn [negb].
    unfold bind at 1, Now.
    destruct (Z.ltb_spec (now w + timeout) (now w1)); [lia|].
    rewrite (bind_run _ _ _ _ _ (select_interrupted ctx _ t w1 Ht Hfire)).
    reflexivity.
  - intros Hrun Hlt Hv Hfire.
    apply (wait_finish c ctx id timeout k w wk _ _ Hrun).
    rewrite wait_pass_run.
    destruct (Z.ltb_spec (now wk) (now w + timeout)); [|lia].
    cbv zeta. rewrite Hv, (select_interrupted ctx _ t _ Ht Hfire).
    reflexivity.
  - intros Hrun Hlt Hv Hfire.
    apply (active_finish c ctx id timeout k w wk _ _ Hrun).
    rewrite active_pass_run.
    destruct (Z.ltb_spec (now wk) (now w + timeout)); [|lia].
    cbv zeta. rewrite Hv, (select_interrupted ctx _ t _ Ht Hfire).
    reflexivity.
  - intros Hrun Hlt Hv Hfire.
    apply (deleted_finish c ctx id timeout k w wk _ _ Hrun).
    rewrite deleted_pass_run.
    destruct (Z.ltb_spec (now wk) (now w + timeout)); [|lia].
    cbv zeta. rewrite Hv, (select_interrupted ctx _ t _ Ht Hfire).
    reflexivity.
Qed.

Lemma cancellation_is_prompt_witness :
  ConfigureWithRetry sample.alwaysBusy {| done_at := Some (2 * Second) |} 7
                     sample.addUser (2 * Minute) sample.start
  = Some (Err ContextDone,
          interrupted (2 * Second)
            (after sample.alwaysBusy {| done_at := Some (2 * Second) |}
                   sample.start
                   (configureRequest sample.alwaysBusy 7 sample.addUser))).
Proof.
  refine (proj1 (cancellation_is_prompt
                   sample.alwaysBusy {| done_at := Some (2 * Second) |} 7
                   sample.addUser (2 * Minute) 0 sample.start sample.start
                   (2 * Second) eq_refl)
                (APIError 409 "cluster has an active job") _ _ _ _ _ _).
  - constructor.
  - reflexivity.
  - reflexivity.
  - vm_compute. discriminate.
  - vm_compute. discriminate.
Defined.

(** ** Budgets that are spent before the loop starts *)

Lemma ConfigureCluster_run (c : Client) (ctx : Context) (id : Z)
    (req : ConfigureRequest) (w : World) :
  ConfigureCluster c ctx id req w =
  Some (match received true (answer c ctx w (configureRequest c id req)) with
        | Err err => Err err
        | Ok p => Ok (asConfigure p)
        end, after c ctx w (configureRequest c id req)).
Proof.
  unfold ConfigureCluster.
  rewrite (bind_run _ _ _ _ _ (doRequest_run c ctx _ _ _ _ w)).
  reflexivity.
Qed.

(** X8. A budget that is already spent.  With a timeout of zero or less
    the three pollers send nothing: they return their timeout error in
    the world they were called in.  ConfigureWithRetry is different, it
    asks first: with a negative budget it makes exactly one attempt, whose
    response or error it returns, a conflict as the timeout error. *)
Theorem spent_budget
    (c : Client) (ctx : Context) (id : Z) (req : ConfigureRequest)
    (timeout : Z) (w : World) :
  timeout <= 0 ->
  WaitForJobComplete c ctx id timeout w
    = Some (Some (jobsTimeout timeout), w) /\
  WaitForClusterActive c ctx id timeout w
    = Some (Err (activeTimeout timeout), w) /\
  WaitForClusterDeleted c ctx id timeout w
    = Some (Some (deletedTimeout timeout), w) /\
  (timeout < 0 ->
   ConfigureWithRetry c ctx id req timeout w =
   Some (match received true (answer c ctx w (configureRequest c id req)) with
         | Ok p => Ok (asConfigure p)
         | Err e => if IsConflict e then Err (retryTimeout e) else Err e
         end,
         after c ctx w (configureRequest c id req))).
Proof.
  intro Hspent. split; [|split; [|split]].
  - apply (wait_finish c ctx id timeout 0 w w); [constructor|].
    rewrite wait_pass_run.
    destruct (Z.ltb_spec (now w) (now w + timeout)); [lia|reflexivity].
  - apply (active_finish c ctx id timeout 0 w w); [constructor|].
    rewrite active_pass_run.
    destruct (Z.ltb_spec (now w) (now w + timeout)); [lia|reflexivity].
  - apply (deleted_finish c ctx id timeout 0 w w); [constructor|].
    rewrite deleted_pass_run.
    destruct (Z.ltb_spec (now w) (now w + timeout)); [lia|reflexivity].
  - intro Hneg.
    apply (retry_finish c ctx id req timeout 0 w w); [constructor|].
    unfold ConfigureWithRetry_pass.
    rewrite (bind_run _ _ _ _ _ (ConfigureCluster_run c ctx id req w)).
    pose proof (after_now c ctx w (configureRequest c id req)) as Hmono.
    destruct (received true (answer c ctx w (configureRequest c id req)))
      as [p|e]; [reflexivity|].
    destruct (IsConflict e); cbn [negb]; [|reflexivity].
    unfold bind at 1, Now.
    destruct (Z.ltb_spec (now w + timeout)
                (now (after c ctx w (configureRequest c id req))));
      [reflexivity|lia].
Qed.

Lemma spent_budget_witness :
  WaitForJobComplete sample_jobs.jobVanishes sample.background 7 0
                     sample.start
  = Some (Some (jobsTimeout 0), sample.start).
Proof.
  apply (spent_budget sample_jobs.jobVanishes sample.background 7
                      sample.addUser 0 sample.start).
  lia.
Defined.

(** ** The wait inside a delete *)

Lemma first_poll_refused (c : Client) (ctx : Context) (id timeout : Z)
    (w : World) (e : error) :
  0 < timeout ->
  received true (answer c ctx w (jobsRequest c id)) = Err e ->
  WaitForJobComplete c ctx id timeout w
    = Some (Some (pollFailed e), after c ctx w (jobsRequest c id)).
Proof.
  intros Hpos Hrefused.
  apply (wait_finish c ctx id timeout 0 w w); [constructor|].
  rewrite wait_pass_run.
  destruct (Z.ltb_spec (now w) (now w + timeout)); [|lia].
  cbv zeta. unfold poll_verdict. rewrite Hrefused. reflexivity.
Qed.

(** X9. The absence rule of the deletes covers the delete call only.
    Once the configure call of a user or database delete was accepted
    with a job, the delete polls the job list, and a poll that is refused
    fails the delete, whatever the refusal: WaitForJobComplete wraps the
    error of the poll, and a wrapped error is neither not-found nor gone,
    even when the poll was answered 404 or 410 because the cluster went
    away in between. *)
Theorem refused_poll_fails_the_delete
    (c : Client) (ctx : Context) (w : World) (e : error) :
  IsNotFound (pollFailed e) || IsGone (pollFailed e) = false /\
  (forall st id username resp w2,
     HasError (decoding st) = false ->
     cluster_user.parseUserID (ValueString (cluster_user.ID (value st)))
       = Ok (id, username) ->
     ConfigureWithRetry c ctx id (deleteUsers username) (2 * Minute)
       (logged Info "Deleting cluster user"
               [("cluster_id", AInt id); ("username", AStr username)] w)
       = Some (Ok resp, w2) ->
     0 < JobID resp ->
     received true (answer c ctx w2 (jobsRequest c id)) = Err e ->
     cluster_user.Delete c ctx st w
       = Some (respond
                 (AddError (decoding st) "Error waiting for user deletion"
                    (Sprintf "Configure job failed for cluster %d: %s"
                       [AInt id; AErr (pollFailed e)])) Untouched,
               after c ctx w2 (jobsRequest c id))) /\
  (forall st id dbName resp w2,
     HasError (decoding st) = false ->
     cluster_database.parseDatabaseID
       (ValueString (cluster_database.ID (value st))) = Ok (id, dbName) ->
     ConfigureWithRetry c ctx id (deleteDatabases dbName) (2 * Minute)
       (logged Info "Deleting cluster database"
               [("cluster_id", AInt id); ("name", AStr dbName)] w)
       = Some (Ok resp, w2) ->
     0 < JobID resp ->
     received true (answer c ctx w2 (jobsRequest c id)) = Err e ->
     cluster_database.Delete c ctx st w
       = Some (respond
                 (AddError (decoding st) "Error waiting for database deletion"
                    (Sprintf "Configure job failed for cluster %d: %s"
                       [AInt id; AErr (pollFailed e)])) Untouched,
               after c ctx w2 (jobsRequest c id))).
Proof.
  split; [reflexivity|].
  split.
  - intros st id username resp w2 Hds Hid Hcfg Hjob Hrefused.
    unfold cluster_user.Delete. cbv zeta. rewrite Hds, Hid.
    rewrite (bind_run _ _ _ _ _ (tflog_run _ _ _ w)).
    unfold deleteUsers in Hcfg. rewrite (bind_run _ _ _ _ _ Hcfg).
    destruct (Z.ltb_spec 0 (JobID resp)); [|lia].
    rewrite (bind_run _ _ _ _ _
               (first_poll_refused c ctx id (5 * Minute) w2 e eq_refl
                                   Hrefused)).
    reflexivity.
  - intros st id dbName resp w2 Hds Hid Hcfg Hjob Hrefused.
    unfold cluster_database.Delete. cbv zeta. rewrite Hds, Hid.
    rewrite (bind_run _ _ _ _ _ (tflog_run _ _ _ w)).
    unfold deleteDatabases in Hcfg. rewrite (bind_run _ _ _ _ _ Hcfg).
    destruct (Z.ltb_spec 0 (JobID resp)); [|lia].
    rewrite (bind_run _ _ _ _ _
               (first_poll_refused c ctx id (5 * Minute) w2 e eq_refl
                                   Hrefused)).
    reflexivity.
Qed.

Lemma refused_poll_fails_the_delete_witness :
  exists ds w',
    cluster_user.Delete sample_vanished.goneWhilePolling sample.background
                        (sample_user.stored "7/app") sample.start
      = Some (respond ds Untouched, w') /\
    HasError ds = true /\
    map (fun x => Method (sent x)) (trace w') = ["POST"; "GET"].
Proof.
  eexists _, _. split; [|split].
  - refine (proj1 (proj2 (refused_poll_fails_the_delete
                            sample_vanished.goneWhilePolling
                            sample.background sample.start
                            (APIError 404 "cluster not found")))
                  (sample_user.stored "7/app") 7 "app"
                  sample_jobs_failed.started _ _ _ _ _ _).
    + reflexivity.
    + reflexivity.
    + vm_compute. reflexivity.
    + reflexivity.
    + reflexivity.
  - reflexivity.
  - reflexivity.
Defined.

(** ** Refreshing the state *)

Lemma GetBackupConfig_run (c : Client) (ctx : Context) (id : Z) (w : World) :
  GetBackupConfig c ctx id w =
  Some (match received true
                (answer c ctx w (request c "GET" (backupPath id) None)) with
        | Err err => Err err
        | Ok p => Ok (asBackup p)
        end,
        after c ctx w (request c "GET" (backupPath id) None)).
Proof.
  unfold GetBackupConfig.
  rewrite (bind_run _ _ _ _ _ (doRequest_run c ctx _ _ _ _ w)).
  reflexivity.
Qed.

(** Run a Read to each of its ends. *)
Ltac run_read :=
  cbv zeta;
  repeat first
    [ rewrite (bind_run _ _ _ _ _ (GetCluster_run _ _ _ _))
    | rewrite (bind_run _ _ _ _ _ (GetBackupConfig_run _ _ _ _))
    | match goal with
      | |- context [match ?x with _ => _ end] => destruct x eqn:?
      end
    | match goal with
      | |- context [if ?x then _ else _] => destruct x eqn:?
      end ];
  eexists _, _; (split; [reflexivity|]).

Ltac fetched_only :=
  first [ left; reflexivity
        | right; eexists; split; [reflexivity|split; reflexivity] ].

(** X10. Refreshing never writes.  Each of the eight Read operations
    (the seven resources and the cluster data source) comes back, having
    sent nothing at all or a single GET request without a body, whatever
    its input and whatever the remote side answers. *)
Theorem reads_only_fetch (c : Client) (ctx : Context) (w : World) :
  (forall st, exists resp w',
     cluster.Read c ctx st w = Some (resp, w') /\ fetch_only w w') /\
  (forall st, exists resp w',
     cluster.data_source.Read c ctx st w = Some (resp, w') /\
     fetch_only w w') /\
  (forall st, exists resp w',
     cluster_user.Read c ctx st w = Some (resp, w') /\ fetch_only w w') /\
  (forall st, exists resp w',
     cluster_database.Read c ctx st w = Some (resp, w') /\
     fetch_only w w') /\
  (forall st, exists resp w',
     cluster_extension.Read c ctx st w = Some (resp, w') /\
     fetch_only w w') /\
  (forall st, exists resp w',
     cluster_grant.Read c ctx st w = Some (resp, w') /\ fetch_only w w') /\
  (forall st, exists resp w',
     cluster_firewall.Read c ctx st w = Some (resp, w') /\
     fetch_only w w') /\
  (forall st, exists resp w',
     cluster_backup_config.Read c ctx st w = Some (resp, w') /\
     fetch_only w w').
Proof.
  repeat split; intro st.
  - unfold cluster.Read. run_read; fetched_only.
  - unfold cluster.data_source.Read. run_read; fetched_only.
  - unfold cluster_user.Read, cluster_user.parseUserID.
    run_read; fetched_only.
  - unfold cluster_database.Read, cluster_database.parseDatabaseID.
    run_read; fetched_only.
  - unfold cluster_extension.Read, cluster_extension.parseExtensionID.
    run_read; fetched_only.
  - unfold cluster_grant.Read, cluster_grant.parseGrantID.
    run_read; fetched_only.
  - unfold cluster_firewall.Read. run_read; fetched_only.
  - unfold cluster_backup_config.Read. run_read; fetched_only.
Qed.

(** From a finished Read that fetched once: what was fetched. *)
Ltac fetched Hm Htrace Hp :=
  first [ rewrite GetCluster_run in Hm | rewrite GetBackupConfig_run in Hm ];
  injection Hm as Hm <-;
  cbn [trace after] in Htrace; apply app_inv_head in Htrace;
  injection Htrace as <-; cbn [got] in Hp; rewrite Hp in Hm;
  try discriminate Hm; injection Hm as <-.

Ltac again Hconst :=
  cbv zeta;
  cbn [value decoding ValueString cluster_user.ID cluster_database.ID
       cluster_extension.ID cluster_grant.ID cluster_firewall.ClusterID
       cluster_backup_config.ClusterID cluster.ID];
  repeat first
    [ rewrite (bind_run _ _ _ _ _ (GetCluster_run _ _ _ _)), Hconst
    | rewrite (bind_run _ _ _ _ _ (GetBackupConfig_run _ _ _ _)), Hconst
    | match goal with
      | Heq : ?l = _ |- context [?l] => rewrite Heq
      end ];
  eexists; reflexivity.

Lemma user_read_stable : stable cluster_user.Read.
Proof.
  intros c1 ctx1 w1 w1' c2 ctx2 w2 st ds resp st1 x p
         H Hst Htrace Hp Hrange Hconst.
  unfold cluster_user.Read in H. cbv zeta in H. cbn [value decoding] in H.
  stored H Hst.
  match goal with Hm : GetCluster _ _ _ _ = _ |- _ =>
    fetched Hm Htrace Hp end.
  unfold cluster_user.Read. again Hconst.
Qed.

Lemma database_read_stable : stable cluster_database.Read.
Proof.
  intros c1 ctx1 w1 w1' c2 ctx2 w2 st ds resp st1 x p
         H Hst Htrace Hp Hrange Hconst.
  unfold cluster_database.Read in H. cbv zeta in H.
  cbn [value decoding] in H.
  stored H Hst.
  match goal with Hm : GetCluster _ _ _ _ = _ |- _ =>
    fetched Hm Htrace Hp end.
  unfold cluster_database.Read. again Hconst.
Qed.

Lemma extension_read_stable : stable cluster_extension.Read.
Proof.
  intros c1 ctx1 w1 w1' c2 ctx2 w2 st ds resp st1 x p
         H Hst Htrace Hp Hrange Hconst.
  unfold cluster_extension.Read in H. cbv zeta in H.
  cbn [value decoding] in H.
  stored H Hst.
  match goal with Hm : GetCluster _ _ _ _ = _ |- _ =>
    fetched Hm Htrace Hp end.
  unfold cluster_extension.Read. again Hconst.
Qed.

Lemma grant_read_stable : stable cluster_grant.Read.
Proof.
  intros c1 ctx1 w1 w1' c2 ctx2 w2 st ds resp st1 x p
         H Hst Htrace Hp Hrange Hconst.
  unfold cluster_grant.Read in H. cbv zeta in H.
  cbn [value decoding] in H.
  stored H Hst.
  match goal with Hm : GetCluster _ _ _ _ = _ |- _ =>
    fetched Hm Htrace Hp end.
  unfold cluster_grant.Read. again Hconst.
Qed.

Lemma SetValueFrom_converts (elems : list string) :
  HasError (snd (SetValueFrom elems)) = false ->
  snd (SetValueFrom elems) = [].
Proof.
  unfold SetValueFrom. destruct elems as [|x rest]; [reflexivity|].
  destruct (HasError (duplicates (x :: rest))) eqn:Hdup;
    cbn [snd]; [congruence|reflexivity].
Qed.

Lemma firewall_read_stable : stable cluster_firewall.Read.
Proof.
  intros c1 ctx1 w1 w1' c2 ctx2 w2 st ds resp st1 x p
         H Hst Htrace Hp Hrange Hconst.
  unfold cluster_firewall.Read in H. cbv zeta in H.
  cbn [value decoding] in H.
  stored H Hst.
  match goal with Hm : GetCluster _ _ _ _ = _ |- _ =>
    fetched Hm Htrace Hp end.
  match goal with
  | Hset : SetValueFrom ?l = (_, ?d) |- _ =>
      pose proof (SetValueFrom_converts l) as Hd;
      rewrite Hset in Hd; cbn [snd] in Hd
  end.
  match goal with
  | Hno : HasError (_ ++ ?d)%list = false |- _ =>
      pose proof Hno as Hnone; rewrite HasError_app in Hnone;
      apply orb_false_iff in Hnone; destruct Hnone as [_ Hnone];
      specialize (Hd Hnone); subst d
  end.
  unfold cluster_firewall.Read. cbv zeta.
  cbn [value decoding cluster_firewall.ClusterID].
  repeat first
    [ rewrite (bind_run _ _ _ _ _ (GetCluster_run _ _ _ _)), Hconst
    | match goal with
      | Heq : ?l = _ |- context [?l] => rewrite Heq
      end ].
  rewrite app_nil_r. eexists. reflexivity.
Qed.

Lemma backup_read_stable : stable cluster_backup_config.Read.
Proof.
  intros c1 ctx1 w1 w1' c2 ctx2 w2 st ds resp st1 x p
         H Hst Htrace Hp Hrange Hconst.
  unfold cluster_backup_config.Read in H. cbv zeta in H.
  cbn [value decoding] in H.
  stored H Hst.
  match goal with Hm : GetBackupConfig _ _ _ _ = _ |- _ =>
    fetched Hm Htrace Hp end.
  unfold cluster_backup_config.Read,
    cluster_backup_config.mapBackupConfigToState.
  again Hconst.
Qed.

Lemma cluster_read_stable : stable cluster.Read.
Proof.
  intros c1 ctx1 w1 w1' c2 ctx2 w2 st ds resp st1 x p
         H Hst Htrace Hp Hrange Hconst.
  unfold cluster.Read in H. cbv zeta in H.
  cbn [value decoding] in H.
  stored H Hst.
  match goal with Hm : GetCluster _ _ _ _ = _ |- _ =>
    fetched Hm Htrace Hp end.
  unfold cluster.Read, cluster.withExtensions, cluster.mapClusterToState.
  cbv zeta. cbn [value decoding cluster.ID ValueString].
  rewrite (Atoi_Itoa _ Hrange). again Hconst.
Qed.

(** X11. Refreshing is idempotent, for each of the seven resources: the
    state a Read stored, read again against a remote side that answers as
    before, is stored again unchanged.  For the grant, the database, the
    firewall and the backup configuration, whose Read takes values from
    the answer, and for the cluster, whose Read takes nearly all of them
    and its own identifier too, this rests on the second Read asking for
    the same thing: the identifier parts are kept, and the cluster
    identifier written by strconv.Itoa is read back by strconv.Atoi. *)
Theorem refresh_is_stable :
  stable cluster.Read /\ stable cluster_user.Read /\
  stable cluster_database.Read /\ stable cluster_extension.Read /\
  stable cluster_grant.Read /\ stable cluster_firewall.Read /\
  stable cluster_backup_config.Read.
Proof.
  repeat split;
    [ apply cluster_read_stable | apply user_read_stable
    | apply database_read_stable | apply extension_read_stable
    | apply grant_read_stable | apply firewall_read_stable
    | apply backup_read_stable ].
Qed.

Lemma refresh_is_stable_witness :
  exists w2',
    cluster.Read sample_steady.steady sample.background
                 (sample_scale.decoded (sample_steady.refreshedFrom 3))
                 sample.start
    = Some (respond [] (SetState (sample_steady.refreshedFrom 3)), w2').
Proof.
  eapply (proj1 refresh_is_stable
                sample_steady.steady sample.background sample.start _
                sample_steady.steady sample.background sample.start
                (sample_scale.sized 3) [] _ _ _ (PCluster sample_fallback.known)).
  - vm_compute. reflexivity.
  - reflexivity.
  - reflexivity.
  - reflexivity.
  - vm_compute. split; discriminate.
  - intro rq. reflexivity.
Defined.

(** ** Input is examined before anything happens *)

(** An operation whose input did not decode, or names no cluster. *)
Ltac turned_away H :=
  unfold reported; cbv zeta;
  destruct H as [H|[e H]];
  [ rewrite ?HasError_app in H
  | cbn [addressed target clusterOf] in H ];
  repeat match goal with
    | |- context [HasError ?ds] =>
        lazymatch ds with
        | AddError _ _ _ => fail
        | _ => destruct (HasError ds) eqn:?
        end
    | |- context [match ?x with _ => _ end] => destruct x eqn:?
    end;
  try congruence;
  try (rewrite ?HasError_app in *;
       repeat match goal with
         | E : ?t = _, H' : context [?t] |- _ =>
             tryif constr_eq E H' then fail else rewrite E in H'
         end;
       unfold HasError in *; cbn [existsb orb fst clusterOf] in *;
       congruence);
  (eexists; split; [reflexivity|]);
  cbn [diagnostics respond];
  first [ apply HasError_AddError | assumption
        | rewrite HasError_app; apply orb_true_iff; auto ].

(** X12. Input is examined before anything happens.  Whenever the plan
    or state of an operation decoded with an error (for the two firewall
    writes: or its set of addresses did not convert), or the cluster
    identifier in it does not parse, the operation ends with an error
    diagnostic in the very world it began in: no request was sent and no
    line was logged.  This holds for these twenty-four operations: Read,
    Update and Delete of the cluster and the Read of its data source;
    Create, Read and Delete of a user; Create, Read, Update and Delete of
    a database; Create and Read of an extension; Create, Read and Update
    of a grant; Create, Read, Update and Delete of the firewall and of the
    backup configuration.  (The Create of a cluster is not among them.) *)
Theorem bad_input_reaches_nobody
    (c : Client) (ctx : Context) (op : Operation) (w : World) :
  HasError (checked op) = true \/ (exists e, addressed op = Err e) ->
  exists ds, run c ctx op w = Some (ds, w) /\ HasError ds = true.
Proof.
  intro H. destruct op as [op| | | | | | | | | | | | |]; [destruct op|..];
    cbn [run perform checked decoding_of converting_of] in *.
  - unfold cluster_user.Create. turned_away H.
  - unfold cluster_user.Delete. turned_away H.
  - unfold cluster_database.Create. turned_away H.
  - unfold cluster_database.Update. turned_away H.
  - unfold cluster_database.Delete. turned_away H.
  - unfold cluster_extension.Create. turned_away H.
  - unfold cluster_grant.Create. turned_away H.
  - unfold cluster_grant.Update. turned_away H.
  - unfold cluster_firewall.Create. turned_away H.
  - unfold cluster_firewall.Update. turned_away H.
  - unfold cluster_firewall.Delete. turned_away H.
  - unfold cluster.Read. turned_away H.
  - unfold cluster.Update. turned_away H.
  - unfold cluster.Delete. turned_away H.
  - unfold cluster.data_source.Read. turned_away H.
  - unfold cluster_user.Read. turned_away H.
  - unfold cluster_database.Read. turned_away H.
  - unfold cluster_extension.Read. turned_away H.
  - unfold cluster_grant.Read. turned_away H.
  - unfold cluster_firewall.Read. turned_away H.
  - unfold cluster_backup_config.Create. turned_away H.
  - unfold cluster_backup_config.Read. turned_away H.
  - unfold cluster_backup_config.Update. turned_away H.
  - unfold cluster_backup_config.Delete. turned_away H.
Qed.

Lemma bad_input_reaches_nobody_witness :
  exists ds,
    run sample_user.withApp sample.background
        (UserRead (sample_user.stored "seven/app")) sample.start
      = Some (ds, sample.start) /\
    HasError ds = true.
Proof.
  apply bad_input_reaches_nobody.
  right. eexists. reflexivity.
Defined.

(** ** The base URL *)

Lemma TrimRight_run (s : string) (ch : ascii) :
  exists k, s = TrimRight s ch ++ run_of ch k.
Proof.
  induction s as [|a rest [k IH]].
  - exists 0%nat. reflexivity.
  - cbn [TrimRight]. destruct (TrimRight rest ch) as [|b t] eqn:Ht.
    + destruct (Ascii.eqb_spec a ch) as [->|_].
      * exists (S k). cbn [append run_of]. f_equal. exact IH.
      * exists k. cbn [append]. f_equal. exact IH.
    + exists k. cbn [append]. f_equal. exact IH.
Qed.

Lemma append_empty (a b : string) : a ++ b = "" -> a = "" /\ b = "".
Proof. destruct a; [intro H; split; [reflexivity|exact H]|discriminate]. Qed.

Lemma TrimRight_no_trailing (s : string) (ch : ascii) (x : string) :
  TrimRight s ch <> x ++ String ch "".
Proof.
  revert x. induction s as [|a rest IH]; intro x.
  - cbn [TrimRight]. destruct x; discriminate.
  - cbn [TrimRight]. destruct (TrimRight rest ch) as [|b t] eqn:Ht.
    + destruct (Ascii.eqb_spec a ch) as [->|Hne].
      * destruct x; discriminate.
      * destruct x as [|a' x']; cbn [append]; intro H.
        -- injection H as H. congruence.
        -- injection H as _ H. destruct x'; discriminate.
    + destruct x as [|a' x']; cbn [append]; intro H.
      * discriminate H.
      * injection H as _ H. exact (IH x' H).
Qed.

Lemma TrimRight_idempotent (s : string) (ch : ascii) :
  TrimRight (TrimRight s ch) ch = TrimRight s ch.
Proof.
  induction s as [|a rest IH]; [reflexivity|].
  cbn [TrimRight]. destruct (TrimRight rest ch) as [|b t] eqn:Ht.
  - destruct (Ascii.eqb_spec a ch) as [->|Hne]; [reflexivity|].
    cbn [TrimRight]. destruct (Ascii.eqb_spec a ch); [congruence|reflexivity].
  - change (TrimRight (String a (String b t)) ch)
      with (match TrimRight (String b t) ch with
            | EmptyString =>
                if Ascii.eqb a ch then EmptyString else String a EmptyString
            | kept => String a kept
            end).
    rewrite IH. reflexivity.
Qed.

(** X13. NewClient cuts every trailing "/" off the base URL and nothing
    else: the base URL it was given is the client's followed by slashes
    only, the client's does not end in "/", and cutting again changes
    nothing.  A base URL that consists of slashes leaves the client with
    an empty one. *)
Theorem NewClient_cuts_trailing_slashes
    (baseURL apiKey version : string)
    (transport : Context -> World -> Request -> Reply) :
  let c := NewClient baseURL apiKey version transport in
  (exists k, baseURL = BaseURL c ++ run_of "/" k) /\
  (forall x, BaseURL c <> x ++ "/") /\
  BaseURL (NewClient (BaseURL c) apiKey version transport) = BaseURL c /\
  (forall k, BaseURL (NewClient (run_of "/" k) apiKey version transport)
             = "").
Proof.
  cbv zeta. cbn [BaseURL NewClient].
  split; [apply TrimRight_run|].
  split; [intro x; apply TrimRight_no_trailing|].
  split; [apply TrimRight_idempotent|].
  intro k. induction k as [|k IH]; [reflexivity|].
  cbn [run_of TrimRight]. rewrite IH. reflexivity.
Qed.

(** ** Configuring the provider *)

(** X14. How the provider resolves its configuration.  With a
    configuration that decoded, the API key is the first non-empty of the
    configured [api_key] (a null or unknown one counts as empty) and the
    environment's RIVESTACK_API_KEY; the base URL is the first non-empty
    of the configured [base_url], the environment's RIVESTACK_BASE_URL and
    "https://api.rivestack.io".  Configure makes a client exactly when
    there is a key: without one it reports an error and hands nothing to
    the resources, whatever the base URL; with one it reports nothing and
    the client carries that key, that base URL without its trailing
    slashes, and the provider's version in its user agent. *)
Theorem Configure_resolves_key_and_url
    (version : string) (Getenv : string -> string)
    (transport : Context -> World -> Request -> Reply)
    (config : Decoded provider.Model) :
  HasError (decoding config) = false ->
  let key :=
    firstNonEmpty [ValueString (provider.APIKey (value config));
                   Getenv "RIVESTACK_API_KEY"] in
  let url :=
    firstNonEmpty [ValueString (provider.BaseURL (value config));
                   Getenv "RIVESTACK_BASE_URL";
                   "https://api.rivestack.io"] in
  match provider.Configure version Getenv transport config with
  | (ds, None) => key = "" /\ HasError ds = true
  | (ds, Some c) =>
      key <> "" /\ ds = decoding config /\
      c = NewClient url key version transport /\
      url <> "" /\ APIKey c = key /\
      UserAgent c = "terraform-provider-rivestack/" ++ version
  end.
Proof.
  intro Hds. cbv zeta. unfold provider.Configure. cbv zeta.
  rewrite Hds. cbn [firstNonEmpty].
  repeat match goal with
    | |- context [String.eqb ?x ""] =>
        destruct (String.eqb_spec x ""); try congruence
    end;
    cbn [HasError];
    repeat split; try assumption; try discriminate;
    apply HasError_AddError.
Qed.

Lemma Configure_resolves_key_and_url_witness :
  exists c,
    provider.Configure "1.0.0" sample_provider.keyOnly
                       sample_provider.network sample_provider.urlOnly
      = ([], Some c) /\
    APIKey c = "rsk_from_env" /\ BaseURL c = "https://staging.example" /\
    UserAgent c = "terraform-provider-rivestack/1.0.0".
Proof.
  pose proof (Configure_resolves_key_and_url
                "1.0.0" sample_provider.keyOnly sample_provider.network
                sample_provider.urlOnly eq_refl) as H.
  cbv zeta in H.
  destruct (provider.Configure "1.0.0" sample_provider.keyOnly
                               sample_provider.network
                               sample_provider.urlOnly) as [ds [c|]].
  - destruct H as (_ & -> & -> & _). eexists. repeat split.
  - destruct H as [H _]. discriminate H.
Defined.

(** ** The allowlist as the cluster reports it *)

Section Dropping.

Variable width : list ascii -> nat.
Hypothesis width_le : forall s, (width s <= List.length s)%nat.

Lemma dropSpaces_done (fuel : nat) (s : list ascii) :
  (List.length s <= fuel)%nat -> width (dropSpaces width fuel s) = 0%nat.
Proof.
  revert s. induction fuel as [|fuel IH]; intros s Hlen.
  - cbn [dropSpaces]. pose proof (width_le s). lia.
  - cbn [dropSpaces]. destruct (width s) as [|n] eqn:Hw; [exact Hw|].
    apply IH. pose proof (width_le s) as Hle.
    rewrite length_skipn. lia.
Qed.

Lemma dropSpaces_fixed (fuel : nat) (s : list ascii) :
  width s = 0%nat -> dropSpaces width fuel s = s.
Proof.
  intro Hw. destruct fuel; cbn [dropSpaces]; [reflexivity|].
  rewrite Hw. reflexivity.
Qed.

Lemma dropSpaces_suffix (fuel : nat) (s : list ascii) :
  exists dropped, s = (dropped ++ dropSpaces width fuel s)%list.
Proof.
  revert s. induction fuel as [|fuel IH]; intro s.
  - exists []. reflexivity.
  - cbn [dropSpaces]. destruct (width s) as [|n]; [exists []; reflexivity|].
    destruct (IH (skipn (S n) s)) as [d Hd].
    exists (firstn (S n) s ++ d)%list.
    rewrite <- app_assoc, <- Hd. symmetry. apply firstn_skipn.
Qed.

End Dropping.

Lemma leadingSpace_le (s : list ascii) :
  (leadingSpace s <= List.length s)%nat.
Proof.
  destruct s as [|a0 [|a1 [|a2 rest]]]; cbn [leadingSpace List.length];
    repeat match goal with
      | |- context [if ?b then _ else _] => destruct b
      end; lia.
Qed.

Lemma trailingSpace_le (s : list ascii) :
  (trailingSpace s <= List.length s)%nat.
Proof.
  destruct s as [|a0 [|a1 [|a2 rest]]]; cbn [trailingSpace List.length];
    repeat match goal with
      | |- context [if ?b then _ else _] => destruct b
      end; lia.
Qed.

(** A text that begins with no white space has no prefix that does. *)
Lemma leadingSpace_prefix (p q : list ascii) :
  leadingSpace (p ++ q) = 0%nat -> leadingSpace p = 0%nat.
Proof.
  destruct p as [|a0 [|a1 [|a2 rest]]]; [reflexivity|..];
    destruct q as [|b0 [|b1 q]]; cbn [app leadingSpace];
    repeat match goal with
      | |- context [if ?b then _ else _] => destruct b
      end; congruence.
Qed.

Lemma bytes_of_bytes (l : list ascii) :
  list_ascii_of_string (string_of_list_ascii l) = l.
Proof. apply list_ascii_of_string_of_list_ascii. Qed.

(** The bytes of [TrimSpace s]: an infix of the bytes of [s] with no
    white space at either end. *)
Lemma TrimSpace_bytes (s : string) :
  exists before kept behind,
    list_ascii_of_string s = (before ++ kept ++ behind)%list /\
    TrimSpace s = string_of_list_ascii kept /\
    leadingSpace kept = 0%nat /\ trailingSpace (rev kept) = 0%nat.
Proof.
  unfold TrimSpace. cbv zeta.
  set (bytes := list_ascii_of_string s).
  set (front := dropSpaces leadingSpace (List.length bytes) bytes).
  set (back := dropSpaces trailingSpace (List.length front) (rev front)).
  destruct (dropSpaces_suffix leadingSpace (List.length bytes) bytes)
    as [before Hbefore]. fold front in Hbefore.
  destruct (dropSpaces_suffix trailingSpace (List.length front) (rev front))
    as [behind Hbehind]. fold back in Hbehind.
  assert (Hfront : front = (rev back ++ rev behind)%list).
  { rewrite <- (rev_involutive front), Hbehind, rev_app_distr.
    reflexivity. }
  exists before, (rev back), (rev behind).
  split; [rewrite Hbefore, Hfront; reflexivity|].
  split; [reflexivity|]. split.
  - apply (leadingSpace_prefix _ (rev behind)). rewrite <- Hfront.
    apply (dropSpaces_done _ leadingSpace_le). apply Nat.le_refl.
  - rewrite rev_involutive.
    apply (dropSpaces_done _ trailingSpace_le).
    rewrite length_rev. apply Nat.le_refl.
Qed.

Lemma TrimSpace_kept (kept : list ascii) :
  leadingSpace kept = 0%nat -> trailingSpace (rev kept) = 0%nat ->
  TrimSpace (string_of_list_ascii kept) = string_of_list_ascii kept.
Proof.
  intros Hl Hr. unfold TrimSpace. cbv zeta. rewrite bytes_of_bytes.
  rewrite (dropSpaces_fixed _ _ _ Hl), (dropSpaces_fixed _ _ _ Hr).
  rewrite rev_involutive. reflexivity.
Qed.

Lemma TrimSpace_idempotent (s : string) :
  TrimSpace (TrimSpace s) = TrimSpace s.
Proof.
  destruct (TrimSpace_bytes s) as (before & kept & behind & _ & -> & Hl & Hr).
  apply TrimSpace_kept; assumption.
Qed.

Lemma TrimSpace_within (s : string) (ch : ascii) :
  In ch (list_ascii_of_string (TrimSpace s)) ->
  In ch (list_ascii_of_string s).
Proof.
  destruct (TrimSpace_bytes s) as (before & kept & behind & -> & -> & _).
  rewrite bytes_of_bytes. intro H.
  apply in_or_app. right. apply in_or_app. left. exact H.
Qed.

Lemma Split_plain (x : string) (sep : ascii) :
  ~ In sep (list_ascii_of_string x) -> Split x sep = [x].
Proof.
  induction x as [|ch x IH]; intro H; [reflexivity|].
  cbn [Split list_ascii_of_string] in *.
  destruct (Ascii.eqb_spec ch sep) as [->|_]; [exfalso; apply H; now left|].
  rewrite IH; [reflexivity|]. intro Hin. apply H. now right.
Qed.

Lemma Split_app (x rest : string) (sep : ascii) :
  ~ In sep (list_ascii_of_string x) ->
  Split (x ++ String sep rest) sep = x :: Split rest sep.
Proof.
  induction x as [|ch x IH]; intro H.
  - cbn [append Split]. rewrite Ascii.eqb_refl. reflexivity.
  - cbn [append Split list_ascii_of_string] in *.
    destruct (Ascii.eqb_spec ch sep) as [->|_]; [exfalso; apply H; now left|].
    rewrite IH; [reflexivity|]. intro Hin. apply H. now right.
Qed.

Lemma Split_pieces_plain (s : string) (sep : ascii) :
  Forall (fun piece => ~ In sep (list_ascii_of_string piece)) (Split s sep).
Proof.
  induction s as [|ch s IH].
  - constructor; [intros []|constructor].
  - cbn [Split]. destruct (Ascii.eqb_spec ch sep) as [->|Hne].
    + constructor; [intros []|exact IH].
    + destruct (Split s sep) as [|piece pieces].
      * constructor; [|constructor].
        cbn [list_ascii_of_string]. intros [H|[]]. congruence.
      * inversion IH as [|? ? Hp Hps]; subst.
        constructor; [|exact Hps].
        cbn [list_ascii_of_string]. intros [H|H]; [congruence|exact (Hp H)].
Qed.

Lemma allowlist_loop (pieces : list string) (ips : list string) :
  fold_left
    (fun ips ip =>
       let trimmed := TrimSpace ip in
       if negb (String.eqb trimmed "") then (ips ++ [trimmed])%list else ips)
    pieces ips
  = (ips ++ filter (fun t => negb (String.eqb t ""))
                   (map TrimSpace pieces))%list.
Proof.
  revert ips. induction pieces as [|piece pieces IH]; intro ips.
  - cbn [fold_left map filter]. symmetry. apply app_nil_r.
  - cbn [fold_left map filter]. cbv zeta. rewrite IH.
    destruct (negb (String.eqb (TrimSpace piece) ""));
      [rewrite <- app_assoc|]; reflexivity.
Qed.

Lemma allowlist_filter (s : string) :
  cluster_firewall.allowlist s
  = filter (fun t => negb (String.eqb t "")) (map TrimSpace (Split s ",")).
Proof.
  unfold cluster_firewall.allowlist.
  destruct (String.eqb_spec s "") as [->|_]; [reflexivity|].
  cbn [negb]. apply allowlist_loop.
Qed.

(** X15. What Read of the firewall makes of the cluster's allowlist
    text: it cuts the text at every comma, trims each piece, and keeps the
    pieces that are not empty, in their order.  So every address it stores
    is non-empty, has no white space around it and no comma in it,
    whatever the text was; and the test for the empty text that guards
    the loop makes no difference. *)
Theorem allowlist_entries_are_plain (s : string) :
  cluster_firewall.allowlist s
    = filter (fun t => negb (String.eqb t ""))
             (map TrimSpace (Split s ",")) /\
  Forall plainAddress (cluster_firewall.allowlist s).
Proof.
  split; [apply allowlist_filter|].
  rewrite allowlist_filter. apply Forall_forall. intros ip Hin.
  apply filter_In in Hin. destruct Hin as [Hin Hne].
  apply in_map_iff in Hin. destruct Hin as (piece & <- & Hpiece).
  split; [|split].
  - destruct (String.eqb_spec (TrimSpace piece) ""); [discriminate|assumption].
  - apply TrimSpace_idempotent.
  - intro Hcomma. apply TrimSpace_within in Hcomma.
    pose proof (Split_pieces_plain s ",") as Hplain.
    rewrite Forall_forall in Hplain. exact (Hplain piece Hpiece Hcomma).
Qed.

Lemma bytes_app (a b : string) :
  list_ascii_of_string (a ++ b)
  = (list_ascii_of_string a ++ list_ascii_of_string b)%list.
Proof.
  induction a as [|ch a IH]; [reflexivity|].
  cbn [append list_ascii_of_string app]. rewrite IH. reflexivity.
Qed.

Lemma TrimSpace_after_blank (s : string) :
  TrimSpace (String " " s) = TrimSpace s.
Proof.
  unfold TrimSpace. cbv zeta.
  cbn [list_ascii_of_string List.length dropSpaces].
  assert (Hw : forall b, leadingSpace (" "%char :: b) = 1%nat)
    by (intros [|a1 [|a2 b]]; reflexivity).
  rewrite Hw. reflexivity.
Qed.

(** A list of plain addresses, joined by a comma and a padding that
    TrimSpace removes, and cut and trimmed again. *)
Lemma joined_and_cut (pad : string) (ips : list string) :
  (forall x, TrimSpace (pad ++ x) = TrimSpace x) ->
  ~ In ","%char (list_ascii_of_string pad) ->
  ips <> [] -> Forall plainAddress ips ->
  forall pre, pre = "" \/ pre = pad ->
    map TrimSpace (Split (pre ++ String.concat (String "," pad) ips) ",")
    = ips.
Proof.
  intros Hpad Hplain Hne Hips.
  assert (Hpre : forall pre x,
             pre = "" \/ pre = pad -> plainAddress x ->
             TrimSpace (pre ++ x) = x /\
             ~ In ","%char (list_ascii_of_string (pre ++ x))).
  { intros pre x Hp (_ & Hx & Hc). split.
    - destruct Hp as [->| ->]; [exact Hx|]. rewrite Hpad. exact Hx.
    - rewrite bytes_app. intro Hin. apply in_app_or in Hin.
      destruct Hp as [->| ->]; destruct Hin as [Hin|Hin]; tauto. }
  induction ips as [|x ips IH]; [congruence|]. clear Hne.
  inversion Hips as [|? ? Hx Hrest]; subst. intros pre Hp.
  destruct (Hpre pre x Hp Hx) as [Htrim Hcomma].
  destruct ips as [|y ips].
  - cbn [String.concat]. rewrite (Split_plain _ _ Hcomma).
    cbn [map]. rewrite Htrim. reflexivity.
  - change (String.concat (String "," pad) (x :: y :: ips))
      with (x ++ String "," pad ++ String.concat (String "," pad) (y :: ips)).
    rewrite <- append_assoc.
    change (String "," pad ++ String.concat (String "," pad) (y :: ips))
      with (String "," (pad ++ String.concat (String "," pad) (y :: ips))).
    rewrite (Split_app _ _ _ Hcomma). cbn [map]. rewrite Htrim. f_equal.
    apply IH; [discriminate|exact Hrest|right; reflexivity].
Qed.

Lemma plain_survive (ips : list string) :
  Forall plainAddress ips ->
  filter (fun t => negb (String.eqb t "")) ips = ips.
Proof.
  induction 1 as [|x ips (Hx & _) _ IH]; [reflexivity|].
  cbn [filter]. destruct (String.eqb_spec x ""); [congruence|].
  cbn [negb]. rewrite IH. reflexivity.
Qed.

Lemma elementStrings_values (ips : list string) :
  elementStrings (map StringValue ips) = Some ips.
Proof.
  induction ips as [|x ips IH]; [reflexivity|].
  cbn [map elementStrings]. rewrite IH. reflexivity.
Qed.

Lemma equalPairs_none (ips : list string) :
  NoDup ips -> equalPairs ips = [].
Proof.
  induction 1 as [|x rest Hx _ IH]; [reflexivity|].
  cbn [equalPairs]. rewrite IH, app_nil_r.
  clear IH. induction rest as [|y rest IH]; [reflexivity|].
  cbn [filter]. destruct (String.eqb_spec x y) as [->|_].
  - destruct Hx. left. reflexivity.
  - apply IH. intro Hin. apply Hx. right. exact Hin.
Qed.

Lemma equalPairs_some (ips : list string) :
  ~ NoDup ips -> equalPairs ips <> [].
Proof.
  induction ips as [|x rest IH]; intro Hdup.
  - destruct Hdup. constructor.
  - cbn [equalPairs].
    destruct (in_dec string_dec x rest) as [Hin|Hnot].
    + assert (Hf : In x (filter (String.eqb x) rest)).
      { apply filter_In. split; [exact Hin|apply String.eqb_refl]. }
      destruct (filter (String.eqb x) rest) as [|y ys]; [destruct Hf|].
      discriminate.
    + assert (Hrest : ~ NoDup rest).
      { intro Hn. apply Hdup. constructor; assumption. }
      intro Hnil. apply app_eq_nil in Hnil. exact (IH Hrest (proj2 Hnil)).
Qed.

Lemma duplicates_none (ips : list string) :
  NoDup ips -> duplicates ips = [].
Proof.
  intro H. unfold duplicates. rewrite (equalPairs_none _ H). reflexivity.
Qed.

Lemma duplicates_some (ips : list string) :
  ~ NoDup ips ->
  HasError (duplicates ips) = true /\
  exists d, In d (duplicates ips) /\ summary d = "Duplicate Set Element".
Proof.
  intro H. unfold duplicates.
  destruct (equalPairs ips) as [|y ys] eqn:Hp;
    [destruct (equalPairs_some _ H Hp)|].
  cbn [firsts existsb map]. split; [reflexivity|].
  eexists. split; [left; reflexivity|reflexivity].
Qed.

(** X16. Reading the allowlist back.  Take addresses the way Create
    sends them, each non-empty, without white space around it and without
    a comma.  From their text joined by "," or by ", " the loop of Read
    recovers exactly these addresses, in order.  A Read whose fetch is
    answered with a cluster that carries such a text then ends as
    follows: when the addresses are pairwise distinct, it stores them as
    a set that converts back, by the conversion Create and Update apply
    to their plan, to the same list without a diagnostic (the null set
    when there is no address), and adds no diagnostic; when an address is
    repeated, the set does not validate: Read stores nothing and reports
    "Duplicate Set Element". *)
Theorem allowlist_reads_back
    (c : Client) (ctx : Context) (st : Decoded cluster_firewall.Model)
    (id : Z) (w : World) (p : Payload) (ips : list string) :
  Forall plainAddress ips ->
  cluster_firewall.allowlist (String.concat "," ips) = ips /\
  cluster_firewall.allowlist (String.concat ", " ips) = ips /\
  (HasError (decoding st) = false ->
   Atoi (ValueString (cluster_firewall.ClusterID (value st))) = Ok id ->
   received true (answer c ctx w (clusterRequest c id)) = Ok p ->
   SourceIPs (asCluster p) = String.concat "," ips \/
   SourceIPs (asCluster p) = String.concat ", " ips ->
   exists resp,
     cluster_firewall.Read c ctx st w
       = Some (resp, after c ctx w (clusterRequest c id)) /\
     allowlistStored st ips resp).
Proof.
  intro Hips.
  assert (Hcomma : cluster_firewall.allowlist (String.concat "," ips) = ips).
  { destruct ips as [|x ips]; [reflexivity|].
    rewrite allowlist_filter.
    pose proof (joined_and_cut "" (x :: ips) (fun _ => eq_refl)
                  (fun H => H) ltac:(discriminate) Hips ""
                  (or_introl eq_refl)) as Hcut.
    cbn [append] in Hcut. rewrite Hcut.
    apply plain_survive. exact Hips. }
  assert (Hblank : cluster_firewall.allowlist (String.concat ", " ips) = ips).
  { destruct ips as [|x ips]; [reflexivity|].
    rewrite allowlist_filter.
    pose proof (joined_and_cut " " (x :: ips) TrimSpace_after_blank
                  ltac:(cbn; intros [H|[]]; discriminate H)
                  ltac:(discriminate) Hips "" (or_introl eq_refl)) as Hcut.
    cbn [append] in Hcut. rewrite Hcut.
    apply plain_survive. exact Hips. }
  split; [exact Hcomma|]. split; [exact Hblank|].
  intros Hdec Hid Hp Htext.
  assert (Hlist : cluster_firewall.allowlist (SourceIPs (asCluster p)) = ips)
    by (destruct Htext as [-> | ->]; assumption).
  unfold cluster_firewall.Read. cbv zeta. rewrite Hdec, Hid.
  rewrite (bind_run _ _ _ _ _ (GetCluster_run c ctx id w)).
  unfold clusterRequest in Hp. rewrite Hp, Hlist.
  unfold SetValueFrom, allowlistStored.
  destruct ips as [|x rest].
  - rewrite app_nil_r, Hdec. eexists. split; [reflexivity|].
    cbn [diagnostics state respond]. split.
    + intros _. split; [reflexivity|].
      eexists. split; [reflexivity|]. split; reflexivity.
    + intro Hdup. destruct Hdup. constructor.
  - destruct (HasError (duplicates (x :: rest))) eqn:Herr.
    + rewrite HasError_app, Herr, orb_true_r.
      eexists. split; [reflexivity|].
      cbn [diagnostics state respond]. split.
      * intro Hn. rewrite (duplicates_none _ Hn) in Herr. discriminate Herr.
      * intro Hdup. split; [reflexivity|].
        split; [rewrite HasError_app, Herr; apply orb_true_r|].
        destruct (duplicates_some _ Hdup) as (_ & d & Hd & Hsum).
        exists d. split; [apply in_or_app; right; exact Hd|exact Hsum].
    + rewrite app_nil_r, Hdec. eexists. split; [reflexivity|].
      cbn [diagnostics state respond]. split.
      * intros _. split; [reflexivity|].
        eexists. split; [reflexivity|]. split; [|discriminate].
        cbn [ElementsAs]. rewrite (elementStrings_values (x :: rest)).
        reflexivity.
      * intro Hdup. destruct (duplicates_some _ Hdup) as (Herr' & _).
        congruence.
Qed.

(** Two addresses, joined by ", " on the remote side. *)
Lemma allowlist_reads_back_witness :
  cluster_firewall.Read
    (sample_allowlist.serving "10.0.0.0/8, 192.168.1.7") sample.background
    sample_allowlist.imported sample.start
  = Some (respond []
            (SetState
               {| cluster_firewall.ID := StringValue "7";
                  cluster_firewall.ClusterID := StringValue "7";
                  cluster_firewall.SourceIPs :=
                    StringsValue [StringValue "10.0.0.0/8";
                                  StringValue "192.168.1.7"] |}),
          after (sample_allowlist.serving "10.0.0.0/8, 192.168.1.7")
                sample.background sample.start
                (clusterRequest
                   (sample_allowlist.serving "10.0.0.0/8, 192.168.1.7") 7)).
Proof.
  assert (Hplain : Forall plainAddress ["10.0.0.0/8"; "192.168.1.7"])
    by (repeat constructor; try discriminate; cbn; intuition discriminate).
  assert (Hdistinct : NoDup ["10.0.0.0/8"; "192.168.1.7"]).
  { repeat constructor; cbn; intuition discriminate. }
  destruct (allowlist_reads_back
              (sample_allowlist.serving "10.0.0.0/8, 192.168.1.7")
              sample.background sample_allowlist.imported 7 sample.start
              (PCluster (sample_allowlist.guarded "10.0.0.0/8, 192.168.1.7"))
              ["10.0.0.0/8"; "192.168.1.7"] Hplain)
    as (_ & _ & Hread).
  destruct (Hread eq_refl eq_refl eq_refl (or_intror eq_refl))
    as (resp & Hrun & Hstored & _).
  destruct (Hstored Hdistinct) as (Hds & set & Hst & Hback & _).
  rewrite Hrun. f_equal. f_equal.
  destruct resp as [ds0 st0]. cbn [diagnostics state] in Hds, Hst.
  subst ds0 st0. unfold respond. f_equal. f_equal. f_equal.
  destruct set as [| |elems]; cbn [ElementsAs] in Hback;
    try discriminate Hback.
  destruct elems as [|[| |a] [|[| |b] [|e rest]]];
    cbn [elementStrings] in Hback; try discriminate Hback;
    try (destruct (elementStrings rest); destruct e; discriminate Hback).
  injection Hback as -> ->. reflexivity.
Defined.

(** A repeated address on the remote side: Read stores nothing. *)
Example firewall_read_repeated_address :
  exists w',
    cluster_firewall.Read
      (sample_allowlist.serving "10.0.0.0/8,10.0.0.0/8") sample.background
      sample_allowlist.imported sample.start
    = Some (respond
              [ {| severity := SevError; summary := "Duplicate Set Element";
                   detail := Sprintf
                     "This attribute contains duplicate values of: %s"
                     [AValue "10.0.0.0/8"] |} ]
              Untouched, w').
Proof. eexists. vm_compute. reflexivity. Qed.

(** An address three times over is reported once. *)
Example duplicates_reported_once :
  duplicates ["a"; "b"; "a"; "a"; "b"] =
    [ {| severity := SevError; summary := "Duplicate Set Element";
         detail := Sprintf "This attribute contains duplicate values of: %s"
                           [AValue "a"] |};
      {| severity := SevError; summary := "Duplicate Set Element";
         detail := Sprintf "This attribute contains duplicate values of: %s"
                           [AValue "b"] |} ].
Proof. reflexivity. Qed.

(** ** Scaling by any number of nodes *)

Lemma posted_fetch (c : Client) (id : Z) (g : Exchange) :
  sent g = clusterRequest c id -> posted [g] = [].
Proof.
  intro Hg. unfold posted. cbn [filter]. rewrite Hg. reflexivity.
Qed.

Lemma refreshed_posted (c : Client) (ctx : Context) (id : Z) (done : bool)
    (w1 w' : World) (resp : Response cluster.Model) :
  refreshed c ctx id done w1 resp w' ->
  exists rest,
    trace w' = (trace w1 ++ rest)%list /\ posted rest = [] /\
    (HasError (diagnostics resp) = false -> done = true).
Proof.
  unfold refreshed. destruct done.
  - intros (-> & _). eexists [_]. split; [reflexivity|].
    split; [apply (posted_fetch c id); reflexivity|reflexivity].
  - intros (-> & Herr & _). exists [].
    split; [symmetry; apply app_nil_r|]. split; [reflexivity|]. congruence.
Qed.

Lemma scaled_posted (c : Client) (ctx : Context) (id : Z)
    (rqs : list Request) (w w1 : World) (done : bool)
    (P : Request -> Prop) :
  scaled c ctx id rqs w w1 done -> Forall P rqs ->
  exists steps,
    trace w1 = (trace w ++ steps)%list /\
    (List.length (posted steps) <= List.length rqs)%nat /\
    (done = true -> List.length (posted steps) = List.length rqs) /\
    Forall P (posted steps).
Proof.
  intros (_ & steps & pending & Htr & Hrqs & Hdone & _) HP.
  exists steps. split; [exact Htr|]. split; [|split].
  - rewrite Hrqs, List.length_app. lia.
  - intro Hd. rewrite (Hdone Hd), app_nil_r in Hrqs. congruence.
  - rewrite Hrqs in HP. apply Forall_app in HP. tauto.
Qed.

(** X17. Scaling by any number of nodes.  An Update with input that
    decoded and an identifier that parses comes back, and the POST
    requests it has sent are node requests that the change of count calls
    for: add-node requests when the planned count is higher, removals of
    nodes numbered above the planned count when it is lower.  There are
    never more of them than the counts differ by, there are exactly that
    many when the Update reports no error, and there is none when the
    counts are equal. *)
Theorem scaling_follows_the_difference
    (c : Client) (ctx : Context) (plan st : Decoded cluster.Model) (id : Z)
    (w : World) :
  HasError (decoding plan ++ decoding st)%list = false ->
  Atoi (ValueString (cluster.ID (value st))) = Ok id ->
  let old := ValueInt64 (cluster.NodeCount (value st)) in
  let new := ValueInt64 (cluster.NodeCount (value plan)) in
  exists resp w' exchanges,
    cluster.Update c ctx plan st w = Some (resp, w') /\
    trace w' = (trace w ++ exchanges)%list /\
    Forall (calledFor c id old new) (posted exchanges) /\
    Z.of_nat (List.length (posted exchanges)) <= Z.abs (new - old) /\
    (HasError (diagnostics resp) = false ->
     Z.of_nat (List.length (posted exchanges)) = Z.abs (new - old)).
Proof.
  intros Hdec Hid old new.
  destruct (Z.lt_trichotomy old new) as [Hlt|[Heq|Hgt]].
  - destruct (Update_grows c ctx id plan st Hdec Hid w Hlt)
      as (resp & w' & w1 & done & Hrun & Hscaled & Hrest).
    destruct (refreshed_posted _ _ _ _ _ _ _ Hrest)
      as (rest & Htr2 & Hnone & Hdone).
    destruct (scaled_posted _ _ _ _ _ _ _ (calledFor c id old new) Hscaled)
      as (steps & Htr1 & Hle & Hall & Hfor).
    { apply Forall_forall. intros rq Hin. apply in_map_iff in Hin.
      destruct Hin as (i & <- & _). unfold calledFor.
      destruct (Z.ltb_spec old new); [reflexivity|lia]. }
    exists resp, w', (steps ++ rest)%list.
    rewrite posted_app, Hnone, app_nil_r.
    rewrite length_map in Hle, Hall. unfold cluster.counting_up in Hle, Hall.
    rewrite length_map, length_seq in Hle, Hall.
    fold old new in Hle, Hall.
    split; [exact Hrun|].
    split; [rewrite Htr2, Htr1; cbn [trace logged];
            rewrite <- app_assoc; reflexivity|].
    split; [exact Hfor|].
    split; [lia|]. intro Hok. specialize (Hall (Hdone Hok)). lia.
  - assert (Hscale :
              cluster.scale c ctx id old new (decoding plan ++ decoding st)%list
                            w = Some (None, w)).
    { unfold cluster.scale. rewrite Heq, Z.eqb_refl. reflexivity. }
    destruct (refresh_tail c ctx id None _ (value plan) w Hdec
                           ltac:(discriminate))
      as (resp & w' & Hend & Hrest).
    destruct (refreshed_posted _ _ _ _ _ _ _ Hrest)
      as (rest & Htr & Hnone & _).
    exists resp, w', rest. rewrite Hnone.
    split.
    { unfold cluster.Update. rewrite Hdec, Hid. fold old new.
      rewrite (bind_run _ _ _ _ _ Hscale). exact Hend. }
    split; [exact Htr|]. split; [constructor|].
    cbn [List.length]. split; [lia|]. intros _. lia.
  - destruct (Update_shrinks c ctx id plan st Hdec Hid w Hgt)
      as (resp & w' & Hrun & Hcases).
    fold old new in Hcases.
    set (w0 := logged Info "Scaling cluster nodes"
                 [("cluster_id", AInt id); ("from", AInt old);
                  ("to", AInt new)] w) in *.
    set (g0 := {| sent := clusterRequest c id;
                  got := answer c ctx w0 (clusterRequest c id) |}).
    assert (Hg0 : posted [g0] = [])
      by (apply (posted_fetch c id); reflexivity).
    destruct (received true (answer c ctx w0 (clusterRequest c id)))
      as [p|e].
    + destruct Hcases as (w1 & done & Hscaled & Hrest).
      destruct (refreshed_posted _ _ _ _ _ _ _ Hrest)
        as (rest & Htr2 & Hnone & Hdone).
      destruct (scaled_posted _ _ _ _ _ _ _ (calledFor c id old new) Hscaled)
        as (steps & Htr1 & Hle & Hall & Hfor).
      { apply Forall_forall. intros rq Hin. apply in_map_iff in Hin.
        destruct Hin as (i & <- & Hi). unfold calledFor.
        destruct (Z.ltb_spec old new); [lia|].
        exists (TenantID (asCluster p)), i. split; [|reflexivity].
        unfold cluster.counting_down in Hi. apply in_map_iff in Hi.
        destruct Hi as (k & <- & Hk). apply in_seq in Hk.
        fold old new in Hk. lia. }
      exists resp, w', ([g0] ++ steps ++ rest)%list.
      split; [exact Hrun|].
      split; [rewrite Htr2, Htr1; cbn [trace after logged w0];
              rewrite <- !app_assoc; reflexivity|].
      rewrite !posted_app, Hg0, Hnone, app_nil_r. cbn [app].
      rewrite length_map in Hle, Hall.
      unfold cluster.counting_down in Hle, Hall.
      rewrite length_map, length_seq in Hle, Hall.
      fold old new in Hle, Hall.
      split; [exact Hfor|]. split; [lia|].
      intro Hok. specialize (Hall (Hdone Hok)). lia.
    + destruct Hcases as (-> & Herr & _).
      exists resp, (after c ctx w0 (clusterRequest c id)), [g0].
      split; [exact Hrun|]. split; [reflexivity|].
      rewrite Hg0. cbn [List.length].
      split; [constructor|]. split; [lia|]. congruence.
Qed.

(** From three nodes to one, against a remote side that accepts every
    request and reports no active job. *)
Lemma scaling_follows_the_difference_witness :
  exists resp w' exchanges,
    cluster.Update sample_scale.compliant sample.background
        (sample_scale.decoded (sample_scale.sized 1))
        (sample_scale.decoded (sample_scale.sized 3)) sample.start
      = Some (resp, w') /\
    trace w' = (trace sample.start ++ exchanges)%list /\
    Forall (calledFor sample_scale.compliant 7 3 1) (posted exchanges) /\
    Z.of_nat (List.length (posted exchanges)) <= Z.abs (1 - 3) /\
    (HasError (diagnostics resp) = false ->
     Z.of_nat (List.length (posted exchanges)) = Z.abs (1 - 3)).
Proof.
  apply (scaling_follows_the_difference
           sample_scale.compliant sample.background
           (sample_scale.decoded (sample_scale.sized 1))
           (sample_scale.decoded (sample_scale.sized 3)) 7 sample.start);
    reflexivity.
Defined.

(** ** Writing the backup configuration *)

Lemma UpdateBackupConfig_run (c : Client) (ctx : Context) (id : Z)
    (req : UpdateBackupConfigRequest) (w : World) :
  UpdateBackupConfig c ctx id req w =
  Some (match received true
                (answer c ctx w (request c "PUT" (backupPath id)
                                         (Some (BUpdateBackup req)))) with
        | Err err => Err err
        | Ok p => Ok (asBackup p)
        end,
        after c ctx w (request c "PUT" (backupPath id)
                               (Some (BUpdateBackup req)))).
Proof.
  unfold UpdateBackupConfig.
  rewrite (bind_run _ _ _ _ _ (doRequest_run c ctx _ _ _ _ w)).
  reflexivity.
Qed.

(** X18. Writing the backup configuration.  Create and Update, on
    input that decoded and names a cluster, send one PUT to the cluster's
    backup configuration and nothing else.  Its body always says whether
    backups are enabled; it carries the schedule and the retention only
    when the plan fixes them, so that a schedule left out of the plan and
    an empty one give the same body.  What is stored afterwards are the
    values of the API's answer, not those of the plan, under the
    identifier of the plan for Update and under the cluster identifier for
    Create; a refused request is an error and stores nothing. *)
Theorem backup_config_stores_the_answer
    (c : Client) (ctx : Context)
    (plan : Decoded cluster_backup_config.Model) (id : Z) (w : World) :
  HasError (decoding plan) = false ->
  Atoi (ValueString (cluster_backup_config.ClusterID (value plan))) = Ok id ->
  let body :=
    {| ub_Enabled :=
         Some (ValueBool (cluster_backup_config.Enabled (value plan)));
       ub_Schedule :=
         orEmpty (planned (cluster_backup_config.Schedule (value plan)));
       ub_RetentionFull :=
         plannedInt64 (cluster_backup_config.RetentionFull (value plan)) |} in
  let rq := request c "PUT" (backupPath id) (Some (BUpdateBackup body)) in
  cluster_backup_config.buildUpdateRequest (value plan) = body /\
  (exists resp w' x,
     cluster_backup_config.Create c ctx plan w = Some (resp, w') /\
     trace w' = (trace w ++ [x])%list /\ sent x = rq /\
     backupWritten (decoding plan)
       (StringValue
          (ValueString (cluster_backup_config.ClusterID (value plan))))
       (cluster_backup_config.ClusterID (value plan)) x resp) /\
  (exists resp w' x,
     cluster_backup_config.Update c ctx plan w = Some (resp, w') /\
     trace w' = (trace w ++ [x])%list /\ sent x = rq /\
     backupWritten (decoding plan)
       (cluster_backup_config.ID (value plan))
       (cluster_backup_config.ClusterID (value plan)) x resp).
Proof.
  intros Hds Hid body rq.
  assert (Hbody : cluster_backup_config.buildUpdateRequest (value plan) = body).
  { unfold cluster_backup_config.buildUpdateRequest, body.
    destruct (cluster_backup_config.Schedule (value plan));
      destruct (cluster_backup_config.RetentionFull (value plan));
      reflexivity. }
  split; [exact Hbody|]. split.
  - unfold cluster_backup_config.Create. cbv zeta.
    rewrite Hds, Hid, Hbody.
    rewrite (bind_run _ _ _ _ _ (tflog_run _ _ _ w)).
    rewrite (bind_run _ _ _ _ _ (UpdateBackupConfig_run c ctx id body _)).
    fold rq. unfold backupWritten.
    destruct (received true (answer c ctx _ rq)) as [p|e] eqn:Hp;
      (eexists _, _, {| sent := rq; got := _ |};
       split; [reflexivity|]; split; [reflexivity|];
       split; [reflexivity|]; cbn [got]; rewrite Hp).
    + reflexivity.
    + split; [apply HasError_AddError|reflexivity].
  - unfold cluster_backup_config.Update. cbv zeta.
    rewrite Hds, Hid, Hbody.
    rewrite (bind_run _ _ _ _ _ (tflog_run _ _ _ w)).
    rewrite (bind_run _ _ _ _ _ (UpdateBackupConfig_run c ctx id body _)).
    fold rq. unfold backupWritten.
    destruct (received true (answer c ctx _ rq)) as [p|e] eqn:Hp;
      (eexists _, _, {| sent := rq; got := _ |};
       split; [reflexivity|]; split; [reflexivity|];
       split; [reflexivity|]; cbn [got]; rewrite Hp).
    + reflexivity.
    + split; [apply HasError_AddError|reflexivity].
Qed.

Lemma backup_config_stores_the_answer_witness :
  exists w',
    cluster_backup_config.Create sample_backup.configured sample.background
                                 sample_backup.enable sample.start
    = Some (respond []
              (SetState (backupState (StringValue "7") (StringValue "7")
                                     sample_backup.nightly)), w').
Proof.
  destruct (proj1 (proj2 (backup_config_stores_the_answer
                            sample_backup.configured sample.background
                            sample_backup.enable 7 sample.start
                            eq_refl eq_refl)))
    as (resp & w' & x & Hrun & Htr & _ & Hw).
  exists w'. rewrite Hrun. f_equal. f_equal.
  assert (Hx : x = {| sent := request sample_backup.configured "PUT"
                               (backupPath 7)
                               (Some (BUpdateBackup
                                        {| ub_Enabled := Some true;
                                           ub_Schedule := "";
                                           ub_RetentionFull := None |}));
                      got := Responded 200 "" (PBackup sample_backup.nightly) |}).
  { pose proof Hrun as Hrun'. vm_compute in Hrun'.
    injection Hrun' as _ Hw'. rewrite <- Hw' in Htr. cbn in Htr.
    injection Htr as <-. reflexivity. }
  rewrite Hx in Hw. exact Hw.
Defined.

(** ** Importing *)

Ltac imported_then_read :=
  unfold checkedByRead, readExamines; cbv zeta;
  cbn [value decoding HasError existsb ValueString cluster.ID
       cluster_firewall.ClusterID cluster_backup_config.ClusterID];
  match goal with
  | |- context [Atoi ?id] => destruct (Atoi id) as [n|e] eqn:Hid
  end;
  [ repeat first
      [ rewrite (bind_run _ _ _ _ _ (GetCluster_run _ _ _ _))
      | rewrite (bind_run _ _ _ _ _ (GetBackupConfig_run _ _ _ _))
      | match goal with
        | |- context [match ?x with _ => _ end] => destruct x eqn:?
        end
      | match goal with
        | |- context [if ?x then _ else _] => destruct x eqn:?
        end ];
    eexists _, _, _; (split; [reflexivity|split; reflexivity])
  | reflexivity ].

(** X19. Importing a firewall or a backup configuration accepts any
    identifier whatever, without a diagnostic, and stores it as it is, as
    [id] and as [cluster_id]; importing a cluster does the same with every
    identifier but the empty one, for which it stores nothing and reports
    nothing.  It is the first Read that examines what was stored.  An
    identifier that strconv.Atoi rejects makes that Read fail with
    "Invalid cluster ID" before anything is sent; one that it accepts
    makes it send its one request, for the cluster of that number. *)
Theorem passthrough_import_is_checked_by_read
    (c : Client) (ctx : Context) (id : string) (w : World) :
  ((id = "" /\ cluster.ImportState id = respond [] Untouched) \/
   (id <> "" /\
    exists st,
      cluster.ImportState id = respond [] (SetState st) /\
      cluster.ID st = StringValue id /\
      checkedByRead (cluster.Read c ctx {| value := st; decoding := [] |})
                    (clusterRequest c) id w)) /\
  (exists st,
     cluster_firewall.ImportState id = respond [] (SetState st) /\
     cluster_firewall.ID st = StringValue id /\
     cluster_firewall.ClusterID st = StringValue id /\
     checkedByRead
       (cluster_firewall.Read c ctx {| value := st; decoding := [] |})
       (clusterRequest c) id w) /\
  (exists st,
     cluster_backup_config.ImportState id = respond [] (SetState st) /\
     cluster_backup_config.ID st = StringValue id /\
     cluster_backup_config.ClusterID st = StringValue id /\
     checkedByRead
       (cluster_backup_config.Read c ctx {| value := st; decoding := [] |})
       (fun n => request c "GET" (backupPath n) None) id w).
Proof.
  split; [|split].
  - unfold cluster.ImportState.
    destruct (String.eqb_spec id "") as [->|Hsome];
      [left; split; reflexivity|right].
    split; [exact Hsome|].
    eexists. split; [reflexivity|]. split; [reflexivity|].
    unfold cluster.Read. cbn [cluster.ID ValueString].
    imported_then_read.
  - eexists. split; [reflexivity|]. split; [reflexivity|].
    split; [reflexivity|].
    unfold cluster_firewall.Read, SetValueFrom.
    cbn [cluster_firewall.ClusterID ValueString].
    imported_then_read.
  - eexists. split; [reflexivity|]. split; [reflexivity|].
    split; [reflexivity|].
    unfold cluster_backup_config.Read.
    cbn [cluster_backup_config.ClusterID ValueString].
    imported_then_read.
Qed.

Ltac composite_then_read :=
  cbv zeta; cbn [value decoding HasError existsb ValueString];
  match goal with
  | |- context [Atoi ?p] => destruct (Atoi p) as [n|e] eqn:Hid
  end;
  [ repeat first
      [ rewrite (bind_run _ _ _ _ _ (GetCluster_run _ _ _ _))
      | rewrite (bind_run _ _ _ _ _ (tflog_run _ _ _ _))
      | match goal with
        | |- context [match ?x with _ => _ end] => destruct x eqn:?
        end
      | match goal with
        | |- context [if ?x then _ else _] => destruct x eqn:?
        end ];
    eexists _, _, _; (split; [reflexivity|split; reflexivity])
  | reflexivity ].

Lemma SplitN_2_parts (id : string) :
  match SplitN id "/" 2 with
  | [_; _] => (1 <= separators id)%nat
  | _ => separators id = 0%nat
  end.
Proof.
  rewrite SplitN_2. destruct (cut "/" id) as [[a b]|] eqn:Hc.
  - destruct (cut_Some _ _ _ Hc) as [_ ->]. lia.
  - exact (cut_None_plain _ Hc).
Qed.

Lemma SplitN_3_parts (id : string) :
  match SplitN id "/" 3 with
  | [_; _; _] => (2 <= separators id)%nat
  | _ => (separators id < 2)%nat
  end.
Proof.
  rewrite SplitN_3. destruct (cut "/" id) as [[a b]|] eqn:Hc.
  - destruct (cut_Some _ _ _ Hc) as [_ ->].
    destruct (cut "/" b) as [[b1 b2]|] eqn:Hb.
    + destruct (cut_Some _ _ _ Hb) as [_ ->]. lia.
    + rewrite (cut_None_plain _ Hb). lia.
  - rewrite (cut_None_plain _ Hc). lia.
Qed.

(** X20. Importing a user, a database, an extension or a grant splits
    the identifier the way the Read that follows does.  An identifier
    with too few "/" (none for a user or a database, fewer than two for an
    extension or a grant) is turned away with an error and nothing is
    stored.  Any other is accepted without a diagnostic and stored
    unchanged, together with its first part as the cluster; the first Read
    then rejects it with "Invalid resource ID" before anything is sent
    exactly when that stored cluster part is not a number, and otherwise
    fetches the cluster of that number. *)
Theorem composite_import_is_checked_by_read
    (c : Client) (ctx : Context) (id : string) (w : World) :
  (turnedAway (cluster_user.ImportState id) /\ separators id = 0%nat \/
   exists st p0,
     (1 <= separators id)%nat /\
     cluster_user.ImportState id = respond [] (SetState st) /\
     cluster_user.ID st = StringValue id /\
     cluster_user.ClusterID st = StringValue p0 /\
     readExamines
       (cluster_user.Read c ctx {| value := st; decoding := [] |})
       (clusterRequest c) p0 (invalidClusterPart id) w) /\
  (turnedAway (cluster_database.ImportState id) /\ separators id = 0%nat \/
   exists st p0,
     (1 <= separators id)%nat /\
     cluster_database.ImportState id = respond [] (SetState st) /\
     cluster_database.ID st = StringValue id /\
     cluster_database.ClusterID st = StringValue p0 /\
     readExamines
       (cluster_database.Read c ctx {| value := st; decoding := [] |})
       (clusterRequest c) p0 (invalidClusterPart id) w) /\
  (turnedAway (cluster_extension.ImportState id) /\
   (separators id < 2)%nat \/
   exists st p0,
     (2 <= separators id)%nat /\
     cluster_extension.ImportState id = respond [] (SetState st) /\
     cluster_extension.ID st = StringValue id /\
     cluster_extension.ClusterID st = StringValue p0 /\
     readExamines
       (cluster_extension.Read c ctx {| value := st; decoding := [] |})
       (clusterRequest c) p0 (invalidClusterPart id) w) /\
  (turnedAway (cluster_grant.ImportState id) /\ (separators id < 2)%nat \/
   exists st p0,
     (2 <= separators id)%nat /\
     cluster_grant.ImportState id = respond [] (SetState st) /\
     cluster_grant.ID st = StringValue id /\
     cluster_grant.ClusterID st = StringValue p0 /\
     readExamines
       (cluster_grant.Read c ctx {| value := st; decoding := [] |})
       (clusterRequest c) p0 (invalidClusterPart id) w).
Proof.
  pose proof (SplitN_2_parts id) as H2.
  pose proof (SplitN_3_parts id) as H3.
  split; [|split; [|split]].
  - unfold cluster_user.ImportState.
    destruct (SplitN id "/" 2) as [|p0 [|p1 [|? ?]]] eqn:Hs;
      try (left; split; [split; reflexivity|exact H2]).
    right. eexists _, p0. split; [exact H2|].
    split; [reflexivity|]. split; [reflexivity|]. split; [reflexivity|].
    unfold readExamines, cluster_user.Read, cluster_user.parseUserID,
      invalidClusterPart, invalidResourceID.
    cbv zeta. cbn [value decoding HasError existsb ValueString
                   cluster_user.ID]. rewrite Hs.
    composite_then_read.
  - unfold cluster_database.ImportState.
    destruct (SplitN id "/" 2) as [|p0 [|p1 [|? ?]]] eqn:Hs;
      try (left; split; [split; reflexivity|exact H2]).
    right. eexists _, p0. split; [exact H2|].
    split; [reflexivity|]. split; [reflexivity|]. split; [reflexivity|].
    unfold readExamines, cluster_database.Read,
      cluster_database.parseDatabaseID, invalidClusterPart,
      invalidResourceID.
    cbv zeta. cbn [value decoding HasError existsb ValueString
                   cluster_database.ID]. rewrite Hs.
    composite_then_read.
  - unfold cluster_extension.ImportState.
    destruct (SplitN id "/" 3) as [|p0 [|p1 [|p2 [|? ?]]]] eqn:Hs;
      try (left; split; [split; reflexivity|exact H3]).
    right. eexists _, p0. split; [exact H3|].
    split; [reflexivity|]. split; [reflexivity|]. split; [reflexivity|].
    unfold readExamines, cluster_extension.Read,
      cluster_extension.parseExtensionID, invalidClusterPart,
      invalidResourceID.
    cbv zeta. cbn [value decoding HasError existsb ValueString
                   cluster_extension.ID]. rewrite Hs.
    composite_then_read.
  - unfold cluster_grant.ImportState.
    destruct (SplitN id "/" 3) as [|p0 [|p1 [|p2 [|? ?]]]] eqn:Hs;
      try (left; split; [split; reflexivity|exact H3]).
    right. eexists _, p0. split; [exact H3|].
    split; [reflexivity|]. split; [reflexivity|]. split; [reflexivity|].
    unfold readExamines, cluster_grant.Read, cluster_grant.parseGrantID,
      invalidClusterPart, invalidResourceID.
    cbv zeta. cbn [value decoding HasError existsb ValueString
                   cluster_grant.ID]. rewrite Hs.
    composite_then_read.
Qed.

(** ** The resource and the data source *)

(** X21. Asked about the same cluster in the same situation, the cluster
    resource's Read and the cluster data source's Read send the same
    request and agree on what they saw.  Where the resource stores a
    state the data source stores one with equal values in all the
    attributes the two share, and the resource keeps extensions and
    subscription_id as they were; where the resource fails the data
    source fails with the same diagnostics.  They part on a cluster that
    is gone (404 or 410): the resource removes itself without an error,
    the data source reports an error. *)
Theorem resource_and_data_source_agree
    (c : Client) (ctx : Context) (st : Decoded cluster.Model)
    (config : Decoded cluster.data_source.Model) (w : World)
    (Hds : decoding st = decoding config)
    (Hid : cluster.ID (value st) = cluster.data_source.ID (value config)) :
  exists r d w1 w2,
    cluster.Read c ctx st w = Some (r, w1) /\
    cluster.data_source.Read c ctx config w = Some (d, w2) /\
    trace w1 = trace w2 /\
    match state r with
    | SetState s =>
        exists s', state d = SetState s' /\ sameView s s' /\
                   diagnostics d = diagnostics r /\
                   cluster.Extensions s = cluster.Extensions (value st) /\
                   cluster.SubscriptionID s =
                     cluster.SubscriptionID (value st)
    | RemoveResource =>
        diagnostics r = decoding st /\
        HasError (diagnostics d) = true /\ state d = Untouched
    | Untouched => diagnostics d = diagnostics r /\ state d = Untouched
    end.
Proof.
  unfold cluster.Read, cluster.data_source.Read. cbv zeta.
  rewrite <- Hds, <- Hid.
  destruct (HasError (decoding st)) eqn:Hh.
  { eexists _, _, _, _. split; [reflexivity|]. split; [reflexivity|].
    split; [reflexivity|]. split; reflexivity. }
  destruct (Atoi (ValueString (cluster.ID (value st)))) as [n|e] eqn:Hn.
  2:{ eexists _, _, _, _. split; [reflexivity|]. split; [reflexivity|].
      split; [reflexivity|]. split; reflexivity. }
  rewrite !(bind_run _ _ _ _ _ (GetCluster_run _ _ _ _)).
  destruct (received true
              (answer c ctx w (request c "GET" (clusterPath n) None)))
    as [p|e] eqn:Hr.
  - eexists _, _, _, _. split; [reflexivity|]. split; [reflexivity|].
    split; [reflexivity|]. cbn [state respond].
    eexists. split; [reflexivity|]. split.
    + repeat split.
    + repeat split.
  - destruct (IsNotFound e || IsGone e) eqn:Hg.
    + rewrite (bind_run _ _ _ _ _ (tflog_run _ _ _ _)).
      eexists _, _, _, _. split; [reflexivity|]. split; [reflexivity|].
      split; [reflexivity|]. cbn [state respond diagnostics].
      split; [reflexivity|]. split; [apply HasError_AddError|reflexivity].
    + eexists _, _, _, _. split; [reflexivity|]. split; [reflexivity|].
      split; [reflexivity|]. split; reflexivity.
Qed.

Lemma resource_and_data_source_agree_witness :
  exists r d w1 w2,
    cluster.Read sample_steady.steady sample.background
      (sample_scale.decoded (sample_scale.sized 1)) sample.start
      = Some (r, w1) /\
    cluster.data_source.Read sample_steady.steady sample.background
      sample_lookup.seven sample.start = Some (d, w2) /\
    trace w1 = trace w2 /\
    match state r with
    | SetState s =>
        exists s', state d = SetState s' /\ sameView s s' /\
                   diagnostics d = diagnostics r /\
                   cluster.Extensions s = StringsNull /\
                   cluster.SubscriptionID s = Int64Null
    | RemoveResource =>
        diagnostics r = [] /\
        HasError (diagnostics d) = true /\ state d = Untouched
    | Untouched => diagnostics d = diagnostics r /\ state d = Untouched
    end.
Proof.
  exact (resource_and_data_source_agree sample_steady.steady
           sample.background (sample_scale.decoded (sample_scale.sized 1))
           sample_lookup.seven sample.start eq_refl eq_refl).
Defined.

(** ** Addresses *)

Lemma Itoa_injective (a b : Z) : Itoa a = Itoa b -> a = b.
Proof.
  unfold Itoa. intro H.
  assert (Hn : forall z, NilZero.int_of_string
                           (NilZero.string_of_int (Z.to_int z))
                         = Some (Z.to_int z)).
  { intro z. apply NilZero.isi; destruct z as [|p|p]; cbn [Z.to_int];
      try discriminate;
      intro E; injection E as E;
      exact (Unsigned.to_uint_nonnil p E). }
  pose proof (Hn a) as Ha. rewrite H, Hn in Ha. injection Ha as Ha.
  rewrite <- (DecimalZ.of_to a), <- (DecimalZ.of_to b), Ha. reflexivity.
Qed.

Lemma plain_prefix_unique (a b s t : string) :
  separators a = 0%nat -> separators b = 0%nat ->
  (s = "" \/ exists s', s = String "/" s') ->
  (t = "" \/ exists t', t = String "/" t') ->
  a ++ s = b ++ t -> a = b /\ s = t.
Proof.
  intros Ha Hb [->|[s' ->]] [->|[t' ->]] H.
  - split; [|reflexivity].
    assert (Hr : forall x, x ++ "" = x)
      by (induction x as [|ch x IH]; [reflexivity|];
          cbn [append]; rewrite IH; reflexivity).
    rewrite !Hr in H. exact H.
  - apply (f_equal separators) in H. rewrite !separators_app in H.
    cbn [separators Ascii.eqb Bool.eqb] in H. lia.
  - apply (f_equal separators) in H. rewrite !separators_app in H.
    cbn [separators Ascii.eqb Bool.eqb] in H. lia.
  - apply (f_equal (cut "/")) in H.
    rewrite (cut_first _ _ Ha), (cut_first _ _ Hb) in H.
    injection H as -> ->. split; reflexivity.
Qed.

(** X22. No two addresses of the client coincide: the URL of a request
    determines both the cluster and which of its six places (the cluster
    itself, configure, active jobs, add-node, remove-node, backup-config)
    is addressed.  A request about one cluster can so never be taken for
    a request about another, whatever the numbers, negative ones
    included. *)
Theorem addresses_are_distinct
    (c : Client) (e1 e2 : Endpoint) (a b : Z) (m1 m2 : string)
    (b1 b2 : option Body) :
  URL (request c m1 (pathOf e1 a) b1) = URL (request c m2 (pathOf e2 b) b2) ->
  e1 = e2 /\ a = b.
Proof.
  cbn [URL request]. intro H. apply append_cancel in H.
  assert (Hs : forall e n, exists s,
             pathOf e n = "/api/ha/" ++ Itoa n ++ s /\
             (s = "" \/ exists s', s = String "/" s') /\
             s = match e with
                 | ClusterItself => ""
                 | ItsConfiguration => "/configure"
                 | ItsActiveJobs => "/jobs?active=true"
                 | ItsNewNode => "/add-node"
                 | ItsRemovedNode => "/remove-node"
                 | ItsBackupConfig => "/backup-config"
                 end).
  { intros e n. destruct e; eexists; (split; [|split; [|reflexivity]]);
      try (right; eexists; reflexivity);
      try (left; reflexivity);
      unfold pathOf, clusterPath, configurePath, jobsPath, addNodePath,
        removeNodePath, backupPath; try reflexivity.
    induction (Itoa n) as [|ch x IH]; [reflexivity|].
    cbn [append] in *. injection IH as IH. rewrite <- IH. reflexivity. }
  destruct (Hs e1 a) as (s & E1 & Hs1 & Hv1).
  destruct (Hs e2 b) as (t & E2 & Hs2 & Hv2).
  rewrite E1, E2 in H. apply append_cancel in H.
  destruct (plain_prefix_unique _ _ _ _ (Itoa_separators a)
              (Itoa_separators b) Hs1 Hs2 H) as [Hi Hst].
  split; [|exact (Itoa_injective _ _ Hi)].
  rewrite Hv1, Hv2 in Hst.
  destruct e1, e2; first [reflexivity|discriminate Hst].
Qed.

Lemma addresses_are_distinct_witness :
  ItsActiveJobs = ItsActiveJobs /\ 7 = 7.
Proof.
  exact (addresses_are_distinct sample.alwaysBusy ItsActiveJobs
           ItsActiveJobs 7 7 "GET" "POST" None None eq_refl).
Defined.

(** ** Validated names *)

Lemma identifierPart_plain (ch : ascii) :
  cluster_user.identifierPart ch = true -> Ascii.eqb ch "/" = false.
Proof.
  destruct (Ascii.eqb_spec ch "/") as [->|]; [|reflexivity].
  vm_compute. discriminate.
Qed.

Lemma identifierStart_part (ch : ascii) :
  cluster_user.identifierStart ch = true ->
  cluster_user.identifierPart ch = true.
Proof.
  unfold cluster_user.identifierStart, cluster_user.identifierPart.
  cbv zeta. intro H.
  apply orb_true_iff in H as [H|H]; [|rewrite H; apply orb_true_r].
  rewrite H. reflexivity.
Qed.

Lemma identifier_plain (s : string) :
  cluster_user.pgIdentifierRegex s = true -> separators s = 0%nat.
Proof.
  destruct s as [|ch rest]; [discriminate|].
  cbn [cluster_user.pgIdentifierRegex]. intro H.
  apply andb_true_iff in H as [Hs Hr].
  cbn [separators].
  rewrite (identifierPart_plain _ (identifierStart_part _ Hs)).
  clear Hs. induction rest as [|c rest IH]; [reflexivity|].
  cbn [list_ascii_of_string forallb] in Hr.
  apply andb_true_iff in Hr as [Hc Hr].
  cbn [separators]. rewrite (identifierPart_plain _ Hc). exact (IH Hr).
Qed.

(** X23. A user name that passes the pattern the user resource validates
    its username with (a letter or underscore, then letters, digits and
    underscores) holds no "/".  The identifier that the create of a grant
    for such a user stores is therefore read back by the grant's parser
    as the cluster addressed, that user and the database of the plan. *)
Theorem validated_user_keeps_grant_identifier
    (c : Client) (ctx : Context) (plan : Decoded cluster_grant.Model)
    (w w' : World) (resp : Response cluster_grant.Model)
    (st : cluster_grant.Model) :
  cluster_user.pgIdentifierRegex
    (ValueString (cluster_grant.Username (value plan))) = true ->
  cluster_grant.Create c ctx plan w = Some (resp, w') ->
  state resp = SetState st ->
  separators (ValueString (cluster_grant.Username (value plan))) = 0%nat /\
  exists n,
    Atoi (ValueString (cluster_grant.ClusterID (value plan))) = Ok n /\
    cluster_grant.parseGrantID (ValueString (cluster_grant.ID st))
      = Ok (n, ValueString (cluster_grant.Username (value plan)),
            ValueString (cluster_grant.Database (value plan))).
Proof.
  intros Hvalid H Hst.
  pose proof (identifier_plain _ Hvalid) as Hplain.
  split; [exact Hplain|].
  unfold cluster_grant.Create in H. cbv zeta in H.
  stored H Hst;
    (eexists; split; [reflexivity|]);
    cbn [cluster_grant.ID ValueString];
    unfold cluster_grant.parseGrantID;
    three_parts Hplain; reflexivity.
Qed.

Lemma validated_user_keeps_grant_identifier_witness :
  separators "app" = 0%nat /\
  exists n,
    Atoi "7" = Ok n /\
    cluster_grant.parseGrantID "7/app/appdb" = Ok (n, "app", "appdb").
Proof.
  eapply (validated_user_keeps_grant_identifier sample_fallback.silent
            sample.background sample_grant.readOnly sample.start _ _
            {| cluster_grant.ID := StringValue "7/app/appdb";
               cluster_grant.ClusterID := StringValue "7";
               cluster_grant.Username := StringValue "app";
               cluster_grant.Database := StringValue "appdb";
               cluster_grant.Access := StringValue "read" |}).
  - reflexivity.
  - vm_compute. reflexivity.
  - reflexivity.
Defined.
